(** * RDM transaction engine of the RP2350 USB-LAN ArtNet node

    Shallow embedding of [firmware/src/rdm.c] (with the constants of
    [config.h] and [rdm.h]) and the properties of its request queue,
    receive ring, response validation, transaction state machine,
    discovery cycle and Table of Devices.

    Conventions.
    - A C unsigned integer of width w is a [Z] in [0, 2^w); every place where
      the C code truncates is written with [u8], [u16] or [u32].
    - A C array is a [list]; [rd] reads a byte cell, stdpp's [<[i:=x]>]
      writes one.  Reads outside the list give 0 and writes outside do
      nothing; the C code never does either on a reachable state.
    - The module-level statics of rdm.c are the fields of [rdm_state],
      under their C names.
    - Hardware effects are explicit: bytes put on the RS485 bus and calls of
      the response callback are returned as a list of [event]s, the clock
      readings of [to_ms_since_boot] are arguments, and the devices on the
      bus are a state machine ([bus_tx], [bus_rx]) that the blocking
      discovery cycle talks to.
    - The UART interrupt and the API calls run between two calls of
      rdm_task, not inside one.

    The development then embeds the users of the engine and the second
    network service of the firmware: the Art-Net node of
    [firmware/src/artnet.c] (packet parsing and dispatch, ArtPollReply,
    ArtTodData and ArtRdm packets) and the single-lease DHCP server of
    [firmware/src/dhcp_server.c] (option parsing, the reply, the lease).
    Datagrams handed to lwIP are [net_event]s; pbuf_alloc is a function
    that may fail. *)

From Stdlib Require Import ZArith List Bool Lia.
From stdpp Require Import base list strings.
Import ListNotations.
Local Open Scope Z_scope.

(** ** Constants (config.h, rdm.h, rdm.c) *)

Definition RDM_RESPONSE_TIMEOUT_MS   : Z := 100.
Definition RDM_RETRY_COUNT           : Z := 2.
Definition RDM_DISCOVERY_INTERVAL_MS : Z := 10000.
Definition RDM_REQUEST_BUFFER_SIZE   : Z := 5.

Definition RDM_SC_RDM                : Z := 0xCC.
Definition RDM_SC_SUB_MESSAGE        : Z := 0x01.
Definition RDM_MAX_PACKET_SIZE       : Z := 257.
Definition RDM_CC_DISC_COMMAND       : Z := 0x10.
Definition RDM_PID_DISC_UNIQUE_BRANCH : Z := 0x0001.
Definition RDM_PID_DISC_MUTE         : Z := 0x0002.
Definition RDM_TOD_MAX_DEVICES       : Z := 256.

Definition RDM_RX_BUF_SIZE           : Z := 512.

(** ** Machine integers and arrays *)

Definition u8  (x : Z) : Z := x mod 256.
Definition u16 (x : Z) : Z := x mod 65536.
Definition u32 (x : Z) : Z := x mod 4294967296.

(** [a[i]] on a byte array. *)
Definition rd (a : list Z) (i : Z) : Z := nth (Z.to_nat i) a 0.

(** [a[i] = v]. *)
Definition wr (a : list Z) (i : Z) (v : Z) : list Z := <[Z.to_nat i := v]> a.

(** [memcpy(&dst[off], src, n)]: the first [n] cells of [src] over
    [dst[off .. off+n)], cell by cell. *)
Fixpoint memcpy_at (dst : list Z) (off : Z) (src : list Z) (n : nat)
    {struct n} : list Z :=
  match n with
  | O => dst
  | S n' =>
      match src with
      | [] => dst
      | x :: src' => memcpy_at (wr dst off x) (off + 1) src' n'
      end
  end.

(** [memset(&dst[off], v, n)]. *)
Definition memset_at (dst : list Z) (off : Z) (v : Z) (n : nat) : list Z :=
  memcpy_at dst off (repeat v n) n.

(** [memcpy(dst, src, n)] at offset 0, on arrays of any element type: the
    first [n] cells come from [src], the rest of [dst] stays. *)
Definition memcpy {A} (dst src : list A) (n : Z) : list A :=
  firstn (Z.to_nat n) src ++ skipn (Z.to_nat n) dst.

(** ** RDM checksum: 16-bit arithmetic sum of message bytes *)

(** The body of [for (i = ...; i < len; i++) sum += data[i];] with [n]
    iterations left. *)
Fixpoint rdm_checksum_loop (data : list Z) (i : Z) (n : nat) (sum : Z) : Z :=
  match n with
  | O => sum
  | S n' => rdm_checksum_loop data (i + 1) n' (u16 (sum + rd data i))
  end.

Definition rdm_checksum (data : list Z) (len : Z) : Z :=
  rdm_checksum_loop data 0 (Z.to_nat len) 0.

(** ** RX ring buffer (interrupt fills, task drains) *)

Record rx_ring := mkRing {
  s_rx_buf  : list Z;
  s_rx_head : Z;
  s_rx_tail : Z
}.

Definition rx_push (b : Z) (r : rx_ring) : rx_ring :=
  let next := u16 ((s_rx_tail r + 1) mod RDM_RX_BUF_SIZE) in
  if negb (next =? s_rx_head r)
  then mkRing (wr (s_rx_buf r) (s_rx_tail r) b) (s_rx_head r) next
  else r.

(** Returns the byte, or -1 when the ring is empty. *)
Definition rx_pop (r : rx_ring) : Z * rx_ring :=
  if s_rx_head r =? s_rx_tail r then (-1, r)
  else
    let b := rd (s_rx_buf r) (s_rx_head r) in
    (* [(int)(uint8_t)b] on a [uint8_t] cell: no truncation *)
    (b, mkRing (s_rx_buf r) (u16 ((s_rx_head r + 1) mod RDM_RX_BUF_SIZE))
                  (s_rx_tail r)).

Definition rx_available (r : rx_ring) : Z :=
  u16 (u32 (s_rx_tail r - s_rx_head r + RDM_RX_BUF_SIZE) mod RDM_RX_BUF_SIZE).

Definition rx_flush (r : rx_ring) : rx_ring := mkRing (s_rx_buf r) 0 0.

(** ** Response validation *)

Definition rdm_validate_response (buf : list Z) (len : Z) : bool :=
  if len <? 4 then false
  else if negb (rd buf 0 =? RDM_SC_RDM) || negb (rd buf 1 =? RDM_SC_SUB_MESSAGE)
  then false
  else
    let msg_len := rd buf 2 in
    if len <? u16 (msg_len + 2) then false
    else
      let calc := rdm_checksum buf msg_len in
      let recv := u16 (Z.lor (Z.shiftl (rd buf msg_len) 8) (rd buf (msg_len + 1))) in
      calc =? recv.

(** ** Requests, Table of Devices, engine state *)

Inductive rdm_state_t :=
  SM_IDLE | SM_SENDING | SM_WAITING_RESPONSE | SM_RETRY | SM_DISCOVERY | SM_DONE.

Definition rdm_state_eqb (a b : rdm_state_t) : bool :=
  match a, b with
  | SM_IDLE, SM_IDLE | SM_SENDING, SM_SENDING
  | SM_WAITING_RESPONSE, SM_WAITING_RESPONSE | SM_RETRY, SM_RETRY
  | SM_DISCOVERY, SM_DISCOVERY | SM_DONE, SM_DONE => true
  | _, _ => false
  end.

(** [rdm_request_t]; the C fields are data, length, src_ip, src_port, in_use. *)
Record rdm_request_t := mkReq {
  req_data     : list Z;
  req_length   : Z;
  req_src_ip   : Z;
  req_src_port : Z;
  req_in_use   : bool
}.

Definition req_zero : rdm_request_t :=
  mkReq (repeat 0 (Z.to_nat RDM_MAX_PACKET_SIZE)) 0 0 0 false.

(** [rdm_uid_t] / [rdm_tod_entry_t]: the six bytes of a UID. *)
Abbreviation rdm_uid_t := (list Z) (only parsing).
Definition uid_zero : rdm_uid_t := repeat 0 6%nat.

Record rdm_state := mkState {
  s_req_buf   : list rdm_request_t;
  s_req_head  : Z;
  s_req_tail  : Z;
  s_req_count : Z;
  s_state     : rdm_state_t;
  s_retry     : Z;
  s_timeout_start_ms : Z;
  s_active_idx : Z;
  s_resp_buf  : list Z;
  s_resp_len  : Z;
  s_rx        : rx_ring;
  s_tod       : list rdm_uid_t;
  s_tod_count : Z;
  s_tod_changed : bool;
  s_tod_prev  : list rdm_uid_t;
  s_tod_prev_count : Z;
  s_discovery_last_ms : Z;
  s_discovery_active  : bool;
  s_disc_tod_count    : Z;
  s_resp_cb   : bool;          (* is a callback registered (non-NULL)? *)
  g_rdm_bus_busy : bool
}.

(** The statics as the C start-up code leaves them (all zero). *)
Definition rdm_boot : rdm_state :=
  mkState (repeat req_zero (Z.to_nat RDM_REQUEST_BUFFER_SIZE)) 0 0 0
          SM_IDLE 0 0 0
          (repeat 0 (Z.to_nat RDM_MAX_PACKET_SIZE)) 0
          (mkRing (repeat 0 (Z.to_nat RDM_RX_BUF_SIZE)) 0 0)
          (repeat uid_zero (Z.to_nat RDM_TOD_MAX_DEVICES)) 0 false
          (repeat uid_zero (Z.to_nat RDM_TOD_MAX_DEVICES)) 0
          0 false 0 false false.

(** Field updates. *)
Definition set_queue (buf : list rdm_request_t) (h t c : Z) (s : rdm_state) :=
  mkState buf h t c (s_state s) (s_retry s) (s_timeout_start_ms s)
    (s_active_idx s) (s_resp_buf s) (s_resp_len s) (s_rx s) (s_tod s)
    (s_tod_count s) (s_tod_changed s) (s_tod_prev s) (s_tod_prev_count s)
    (s_discovery_last_ms s) (s_discovery_active s) (s_disc_tod_count s)
    (s_resp_cb s) (g_rdm_bus_busy s).

Definition set_sm (st : rdm_state_t) (retry start active : Z) (s : rdm_state) :=
  mkState (s_req_buf s) (s_req_head s) (s_req_tail s) (s_req_count s)
    st retry start active (s_resp_buf s) (s_resp_len s) (s_rx s) (s_tod s)
    (s_tod_count s) (s_tod_changed s) (s_tod_prev s) (s_tod_prev_count s)
    (s_discovery_last_ms s) (s_discovery_active s) (s_disc_tod_count s)
    (s_resp_cb s) (g_rdm_bus_busy s).

Definition set_state (st : rdm_state_t) (s : rdm_state) :=
  set_sm st (s_retry s) (s_timeout_start_ms s) (s_active_idx s) s.

Definition set_resp (buf : list Z) (len : Z) (s : rdm_state) :=
  mkState (s_req_buf s) (s_req_head s) (s_req_tail s) (s_req_count s)
    (s_state s) (s_retry s) (s_timeout_start_ms s) (s_active_idx s)
    buf len (s_rx s) (s_tod s)
    (s_tod_count s) (s_tod_changed s) (s_tod_prev s) (s_tod_prev_count s)
    (s_discovery_last_ms s) (s_discovery_active s) (s_disc_tod_count s)
    (s_resp_cb s) (g_rdm_bus_busy s).

Definition set_rx (r : rx_ring) (s : rdm_state) :=
  mkState (s_req_buf s) (s_req_head s) (s_req_tail s) (s_req_count s)
    (s_state s) (s_retry s) (s_timeout_start_ms s) (s_active_idx s)
    (s_resp_buf s) (s_resp_len s) r (s_tod s)
    (s_tod_count s) (s_tod_changed s) (s_tod_prev s) (s_tod_prev_count s)
    (s_discovery_last_ms s) (s_discovery_active s) (s_disc_tod_count s)
    (s_resp_cb s) (g_rdm_bus_busy s).

Definition set_tod (tod : list rdm_uid_t) (count : Z) (s : rdm_state) :=
  mkState (s_req_buf s) (s_req_head s) (s_req_tail s) (s_req_count s)
    (s_state s) (s_retry s) (s_timeout_start_ms s) (s_active_idx s)
    (s_resp_buf s) (s_resp_len s) (s_rx s) tod
    count (s_tod_changed s) (s_tod_prev s) (s_tod_prev_count s)
    (s_discovery_last_ms s) (s_discovery_active s) (s_disc_tod_count s)
    (s_resp_cb s) (g_rdm_bus_busy s).

Definition set_tod_changed (b : bool) (s : rdm_state) :=
  mkState (s_req_buf s) (s_req_head s) (s_req_tail s) (s_req_count s)
    (s_state s) (s_retry s) (s_timeout_start_ms s) (s_active_idx s)
    (s_resp_buf s) (s_resp_len s) (s_rx s) (s_tod s)
    (s_tod_count s) b (s_tod_prev s) (s_tod_prev_count s)
    (s_discovery_last_ms s) (s_discovery_active s) (s_disc_tod_count s)
    (s_resp_cb s) (g_rdm_bus_busy s).

Definition set_tod_prev (prev : list rdm_uid_t) (count : Z) (s : rdm_state) :=
  mkState (s_req_buf s) (s_req_head s) (s_req_tail s) (s_req_count s)
    (s_state s) (s_retry s) (s_timeout_start_ms s) (s_active_idx s)
    (s_resp_buf s) (s_resp_len s) (s_rx s) (s_tod s)
    (s_tod_count s) (s_tod_changed s) prev count
    (s_discovery_last_ms s) (s_discovery_active s) (s_disc_tod_count s)
    (s_resp_cb s) (g_rdm_bus_busy s).

Definition set_discovery (last : Z) (active : bool) (s : rdm_state) :=
  mkState (s_req_buf s) (s_req_head s) (s_req_tail s) (s_req_count s)
    (s_state s) (s_retry s) (s_timeout_start_ms s) (s_active_idx s)
    (s_resp_buf s) (s_resp_len s) (s_rx s) (s_tod s)
    (s_tod_count s) (s_tod_changed s) (s_tod_prev s) (s_tod_prev_count s)
    last active (s_disc_tod_count s)
    (s_resp_cb s) (g_rdm_bus_busy s).

Definition set_disc_tod (tod : list rdm_uid_t) (count : Z) (s : rdm_state) :=
  mkState (s_req_buf s) (s_req_head s) (s_req_tail s) (s_req_count s)
    (s_state s) (s_retry s) (s_timeout_start_ms s) (s_active_idx s)
    (s_resp_buf s) (s_resp_len s) (s_rx s) tod
    (s_tod_count s) (s_tod_changed s) (s_tod_prev s) (s_tod_prev_count s)
    (s_discovery_last_ms s) (s_discovery_active s) count
    (s_resp_cb s) (g_rdm_bus_busy s).

Definition set_resp_cb (cb : bool) (s : rdm_state) :=
  mkState (s_req_buf s) (s_req_head s) (s_req_tail s) (s_req_count s)
    (s_state s) (s_retry s) (s_timeout_start_ms s) (s_active_idx s)
    (s_resp_buf s) (s_resp_len s) (s_rx s) (s_tod s)
    (s_tod_count s) (s_tod_changed s) (s_tod_prev s) (s_tod_prev_count s)
    (s_discovery_last_ms s) (s_discovery_active s) (s_disc_tod_count s)
    cb (g_rdm_bus_busy s).

Definition set_bus_busy (b : bool) (s : rdm_state) :=
  mkState (s_req_buf s) (s_req_head s) (s_req_tail s) (s_req_count s)
    (s_state s) (s_retry s) (s_timeout_start_ms s) (s_active_idx s)
    (s_resp_buf s) (s_resp_len s) (s_rx s) (s_tod s)
    (s_tod_count s) (s_tod_changed s) (s_tod_prev s) (s_tod_prev_count s)
    (s_discovery_last_ms s) (s_discovery_active s) (s_disc_tod_count s)
    (s_resp_cb s) b.

(** What the engine does to the outside world. *)
Inductive event :=
| EvBusSend (bytes : list Z)
    (* break, mark-after-break, then these bytes on the RS485 bus *)
| EvResponse (data : option (list Z)) (length : Z) (dst_ip dst_port : Z).
    (* s_resp_cb(data, length, dst_ip, dst_port); [None] is data == NULL *)

(** ** Request queue and TOD accessors (public API) *)

Definition rdm_enqueue_request (data : list Z) (length : Z)
    (src_ip src_port : Z) (s : rdm_state) : bool * rdm_state :=
  if RDM_REQUEST_BUFFER_SIZE <=? s_req_count s then (false, s)
  else if RDM_MAX_PACKET_SIZE <? length then (false, s)
  else
    let slot := nth (Z.to_nat (s_req_tail s)) (s_req_buf s) req_zero in
    let slot' := mkReq (memcpy (req_data slot) data length)
                       length src_ip src_port true in
    (true,
     set_queue (<[Z.to_nat (s_req_tail s) := slot']> (s_req_buf s))
               (s_req_head s)
               (u8 ((s_req_tail s + 1) mod RDM_REQUEST_BUFFER_SIZE))
               (u8 (s_req_count s + 1)) s).

Definition rdm_set_response_callback (cb : bool) (s : rdm_state) : rdm_state :=
  set_resp_cb cb s.

(** Returns [( *out_entries, *out_count )] and the new state. *)
Definition rdm_get_tod (s : rdm_state) : list rdm_uid_t * Z * rdm_state :=
  (s_tod s, s_tod_count s, set_tod_changed false s).

Definition rdm_flush_tod (s : rdm_state) : rdm_state :=
  set_discovery 0 (s_discovery_active s)
    (set_tod_changed true (set_tod (s_tod s) 0 s)).

Definition rdm_tod_changed (s : rdm_state) : bool := s_tod_changed s.

(** [uart1_irq_handler]: every byte the UART holds goes through [rx_push]. *)
Definition uart1_irq_handler (bytes : list Z) (s : rdm_state) : rdm_state :=
  set_rx (fold_left (fun r b => rx_push b r) bytes (s_rx s)) s.

Definition rdm_init (s : rdm_state) : rdm_state :=
  set_queue (repeat req_zero (Z.to_nat RDM_REQUEST_BUFFER_SIZE))
            (s_req_head s) (s_req_tail s) (s_req_count s)
            (set_rx (rx_flush (s_rx s)) s).

(** ** Discovery packets *)

Definition s_disc_lower : list Z := [0x00; 0x00; 0x00; 0x00; 0x00; 0x00].
Definition s_disc_upper : list Z := [0xFF; 0xFF; 0xFF; 0xFF; 0xFF; 0xFF].

Definition build_disc_unique_branch (buf lower upper : list Z) : list Z * Z :=
  let buf := memset_at buf 0 0 (Z.to_nat RDM_MAX_PACKET_SIZE) in
  let buf := wr buf 0 RDM_SC_RDM in
  let buf := wr buf 1 RDM_SC_SUB_MESSAGE in
  let buf := wr buf 2 36 in
  let buf := memset_at buf 3 0xFF 6 in
  let buf := memset_at buf 9 0x00 6 in
  let buf := wr buf 15 0 in
  let buf := wr buf 16 0 in
  let buf := wr buf 17 0 in
  let buf := wr (wr buf 18 0) 19 0 in
  let buf := wr buf 20 RDM_CC_DISC_COMMAND in
  let buf := wr buf 21 (u8 (Z.shiftr RDM_PID_DISC_UNIQUE_BRANCH 8)) in
  let buf := wr buf 22 (u8 (Z.land RDM_PID_DISC_UNIQUE_BRANCH 0xFF)) in
  let buf := wr buf 23 12 in
  let buf := memcpy_at buf 24 lower 6 in
  let buf := memcpy_at buf 30 upper 6 in
  let chk := rdm_checksum buf 36 in
  let buf := wr buf 36 (u8 (Z.shiftr chk 8)) in
  let buf := wr buf 37 (u8 (Z.land chk 0xFF)) in
  (buf, 38).

Definition build_disc_mute (buf uid : list Z) : list Z * Z :=
  let buf := memset_at buf 0 0 (Z.to_nat RDM_MAX_PACKET_SIZE) in
  let buf := wr buf 0 RDM_SC_RDM in
  let buf := wr buf 1 RDM_SC_SUB_MESSAGE in
  let buf := wr buf 2 24 in
  let buf := memcpy_at buf 3 uid 6 in
  let buf := memset_at buf 9 0x00 6 in
  let buf := wr (wr (wr buf 15 0) 16 0) 17 0 in
  let buf := wr (wr buf 18 0) 19 0 in
  let buf := wr buf 20 RDM_CC_DISC_COMMAND in
  let buf := wr buf 21 (u8 (Z.shiftr RDM_PID_DISC_MUTE 8)) in
  let buf := wr buf 22 (u8 (Z.land RDM_PID_DISC_MUTE 0xFF)) in
  let buf := wr buf 23 0 in
  let chk := rdm_checksum buf 24 in
  let buf := wr buf 24 (u8 (Z.shiftr chk 8)) in
  let buf := wr buf 25 (u8 (Z.land chk 0xFF)) in
  (buf, 26).

(** Add a UID to the in-progress TOD.  An entry holds exactly six bytes. *)
Definition disc_tod_add (uid : list Z) (s : rdm_state) : rdm_state :=
  if RDM_TOD_MAX_DEVICES <=? s_disc_tod_count s then s
  else set_disc_tod (<[Z.to_nat (s_disc_tod_count s) := firstn 6 uid]> (s_tod s))
                    (u16 (s_disc_tod_count s + 1)) s.

Definition DISC_RESP_MIN_LEN  : Z := 17.
Definition DISC_RESP_PREAMBLE : Z := 1.

(** The decoding loop [for (i = 0; i < 6; i++)] of run_discovery_cycle with
    [n] iterations left; a short reply zeroes the UID and leaves the loop. *)
Fixpoint disc_decode_loop (resp : list Z) (resp_len : Z) (i : Z) (n : nat)
    (uid : list Z) : list Z :=
  match n with
  | O => uid
  | S n' =>
      if DISC_RESP_MIN_LEN <=? resp_len then
        disc_decode_loop resp resp_len (i + 1) n'
          (wr uid i
             (u8 (Z.lor (Z.land (rd resp (DISC_RESP_PREAMBLE + i * 2)) 0x0F)
                        (Z.shiftl
                           (Z.land (rd resp (DISC_RESP_PREAMBLE + 1 + i * 2)) 0x0F)
                           4))))
      else memset_at uid 0 0 6
  end.

(** The local [uid[6]] is not initialised in C; every cell is written before
    it is read, the model starts it at zero. *)
Definition disc_decode_uid (resp : list Z) (resp_len : Z) : list Z :=
  disc_decode_loop resp resp_len 0 6 (repeat 0 6%nat).

(** Response collection of the waiting state,
    [while (rx_available() > 0u && s_resp_len < RDM_MAX_PACKET_SIZE)];
    every pass takes a byte out of the ring, so [RDM_RX_BUF_SIZE] passes
    are enough (lemma [collect_loop_exit]). *)
Fixpoint collect_loop (fuel : nat) (s : rdm_state) : rdm_state :=
  match fuel with
  | O => s
  | S f =>
      if (0 <? rx_available (s_rx s)) && (s_resp_len s <? RDM_MAX_PACKET_SIZE)
      then
        let '(b, r') := rx_pop (s_rx s) in
        let s1 := set_rx r' s in
        let s2 := if 0 <=? b
                  then set_resp (wr (s_resp_buf s1) (s_resp_len s1) (u8 b))
                                (u16 (s_resp_len s1 + 1)) s1
                  else s1 in
        collect_loop f s2
      else s
  end.

Definition collect_response (s : rdm_state) : rdm_state :=
  collect_loop (Z.to_nat RDM_RX_BUF_SIZE) s.

(** ** The engine on a bus *)

Section Engine.

(** The devices on the wire.  [bus_tx] is what they see of a transmitted
    frame; [bus_rx bus timeout_ms] is the bytes that one call of
    rdm_bus_receive returns from them: what its loop has collected when
    it leaves, at the end of the window, at a full buffer or at its
    end-of-packet test.  The loop itself, with its polling of the clock
    and of the ring, is [rdm_bus_receive_poll] below.  The statements
    about the engine hold for every [bus_rx]; the simulated bus of the
    discovery statement computes its answers with that loop
    ([sim_collect]).  The loop leaves the ring popped; the engine reads
    the ring again only after an [rx_flush]. *)
Context {B : Type}.
Variable bus_tx : B -> list Z -> B.
Variable bus_rx : B -> Z -> list Z * B.

Definition world : Type := rdm_state * B.

(** Send raw bytes to the RS485 bus. *)
Definition rdm_bus_send (data : list Z) (len : Z) (w : world)
    : world * list event :=
  let s := set_bus_busy true (fst w) in
  let frame := firstn (Z.to_nat len) data in
  let bus := bus_tx (snd w) frame in
  ((set_rx (rx_flush (s_rx s)) s, bus), [EvBusSend frame]).

(** Read a response from the bus: at most [max_len] bytes into [buf]. *)
Definition rdm_bus_receive (buf : list Z) (max_len timeout_ms : Z)
    (w : world) : list Z * Z * world :=
  let '(bytes, bus) := bus_rx (snd w) timeout_ms in
  let n := Z.min (Z.of_nat (length bytes)) max_len in
  (memcpy buf bytes n, n, (fst w, bus)).

(** The loop [for (attempt = 0; attempt < 64; attempt++)] with
    [remaining = 64 - attempt] iterations left. *)
Fixpoint disc_attempts (remaining : nat) (pkt resp : list Z) (w : world)
    : world * list event :=
  match remaining with
  | O => (w, [])
  | S k =>
      let '(pkt1, pkt_len) :=
        build_disc_unique_branch pkt s_disc_lower s_disc_upper in
      let '(w1, e1) := rdm_bus_send pkt1 pkt_len w in
      let '(resp1, resp_len, w2) :=
        rdm_bus_receive resp RDM_MAX_PACKET_SIZE 30 w1 in
      if resp_len <? 7 then (w2, e1)          (* no (more) devices *)
      else
        let uid := disc_decode_uid resp1 resp_len in
        let '(pkt2, mute_len) := build_disc_mute pkt1 uid in
        let '(w3, e2) := rdm_bus_send pkt2 mute_len w2 in
        let '(resp2, _, w4) :=
          rdm_bus_receive resp1 RDM_MAX_PACKET_SIZE 30 w3 in
        let w5 := (disc_tod_add uid (fst w4), snd w4) in
        let '(w6, es) := disc_attempts k pkt2 resp2 w5 in
        (w6, e1 ++ e2 ++ es)
  end.

Definition run_discovery_cycle (w : world) : world * list event :=
  let s := set_bus_busy true (set_disc_tod (s_tod (fst w)) 0 (fst w)) in
  disc_attempts 64
    (repeat 0 (Z.to_nat RDM_MAX_PACKET_SIZE))
    (repeat 0 (Z.to_nat RDM_MAX_PACKET_SIZE))
    (s, snd w).

(** One call of [rdm_task].  [now_ms] is the clock at entry, [later_ms]
    the reading the taken path makes afterwards (after the send, for the
    elapsed time, or after the discovery cycle). *)
Definition rdm_task (now_ms later_ms : Z) (w : world) : world * list event :=
  let s := fst w in
  let s :=
    if rdm_state_eqb (s_state s) SM_IDLE && (0 <? s_req_count s)
    then set_sm SM_SENDING 0 (s_timeout_start_ms s) (s_req_head s) s
    else s in
  if rdm_state_eqb (s_state s) SM_SENDING then
    let req := nth (Z.to_nat (s_active_idx s)) (s_req_buf s) req_zero in
    let s := set_rx (rx_flush (s_rx s)) s in
    let '((s, bus), ev) := rdm_bus_send (req_data req) (req_length req)
                                        (s, snd w) in
    let s := set_resp (s_resp_buf s) 0
               (set_sm SM_WAITING_RESPONSE (s_retry s) later_ms
                       (s_active_idx s) s) in
    ((s, bus), ev)
  else if rdm_state_eqb (s_state s) SM_WAITING_RESPONSE then
    let elapsed := u32 (later_ms - s_timeout_start_ms s) in
    let s := collect_response s in
    let valid := rdm_validate_response (s_resp_buf s) (s_resp_len s) in
    if valid || (RDM_RESPONSE_TIMEOUT_MS <=? elapsed) then
      if negb valid && (s_retry s <? RDM_RETRY_COUNT) then
        ((set_sm SM_SENDING (u8 (s_retry s + 1)) (s_timeout_start_ms s)
                 (s_active_idx s) s, snd w), [])
      else
        let req := nth (Z.to_nat (s_active_idx s)) (s_req_buf s) req_zero in
        let ev :=
          if s_resp_cb s then
            if valid
            then [EvResponse (Some (firstn (Z.to_nat (s_resp_len s))
                                           (s_resp_buf s)))
                             (s_resp_len s)
                             (req_src_ip req) (req_src_port req)]
            else [EvResponse None 0 (req_src_ip req) (req_src_port req)]
          else [] in
        let req' := mkReq (req_data req) (req_length req) (req_src_ip req)
                          (req_src_port req) false in
        let s := set_queue
                   (<[Z.to_nat (s_active_idx s) := req']> (s_req_buf s))
                   (u8 ((s_req_head s + 1) mod RDM_REQUEST_BUFFER_SIZE))
                   (s_req_tail s)
                   (u8 (s_req_count s - 1)) s in
        ((set_bus_busy false (set_state SM_IDLE s), snd w), ev)
    else ((s, snd w), [])
  else
    let s :=
      if rdm_state_eqb (s_state s) SM_IDLE && negb (s_discovery_active s)
      then
        if RDM_DISCOVERY_INTERVAL_MS <=? u32 (now_ms - s_discovery_last_ms s)
        then set_discovery (s_discovery_last_ms s) true s
        else s
      else s in
    if rdm_state_eqb (s_state s) SM_IDLE && s_discovery_active s then
      let s := set_tod_prev (memcpy (s_tod_prev s) (s_tod s) (s_tod_count s))
                            (s_tod_count s) s in
      let '((s, bus), ev) := run_discovery_cycle (s, snd w) in
      let s := set_tod (s_tod s) (s_disc_tod_count s) s in
      let n := Z.to_nat (s_tod_count s) in
      let s :=
        if negb (s_tod_count s =? s_tod_prev_count s)
           || negb (bool_decide (firstn n (s_tod s) = firstn n (s_tod_prev s)))
        then set_tod_changed true s
        else s in
      let s := set_discovery later_ms false s in
      ((set_bus_busy false s, bus), ev)
    else ((s, snd w), []).

End Engine.

(** ** Calls into the engine, and runs *)

(** What the rest of the firmware and the hardware do to the engine: the
    UART interrupt (with the bytes it finds in the UART), the public API
    of rdm.h, and the main loop's call of rdm_task (with its two readings
    of the clock). *)
Inductive op :=
| OpIrq (bytes : list Z)
| OpEnqueue (data : list Z) (length src_ip src_port : Z)
| OpGetTod
| OpFlushTod
| OpTodChanged
| OpTask (now_ms later_ms : Z).

Definition is_task (o : op) : bool :=
  match o with OpTask _ _ => true | _ => false end.

Definition is_send (e : event) : bool :=
  match e with
  | EvBusSend _ => true
  | EvResponse _ _ _ _ => false
  end.

Section Runs.

Context {B : Type}.
Variable bus_tx : B -> list Z -> B.
Variable bus_rx : B -> Z -> list Z * B.

Definition apply_op (o : op) (w : @world B) : @world B * list event :=
  match o with
  | OpIrq bytes => ((uart1_irq_handler bytes (fst w), snd w), [])
  | OpEnqueue data len ip port =>
      ((snd (rdm_enqueue_request data len ip port (fst w)), snd w), [])
  | OpGetTod => ((snd (rdm_get_tod (fst w)), snd w), [])
  | OpFlushTod => ((rdm_flush_tod (fst w), snd w), [])
  | OpTodChanged => (w, [])
  | OpTask now_ms later_ms => rdm_task bus_tx bus_rx now_ms later_ms w
  end.

Fixpoint run (ops : list op) (w : @world B) : @world B * list event :=
  match ops with
  | [] => (w, [])
  | o :: rest =>
      let '(w1, ev) := apply_op o w in
      let '(w2, evs) := run rest w1 in
      (w2, ev ++ evs)
  end.

(** A run cut at the end of the transaction in progress: it stops after
    the first call of rdm_task that leaves the engine in SM_IDLE.  The
    flag tells whether that point was reached. *)
Fixpoint run_txn (ops : list op) (w : @world B)
    : @world B * list event * bool :=
  match ops with
  | [] => (w, [], false)
  | o :: rest =>
      let '(w1, ev) := apply_op o w in
      if is_task o && rdm_state_eqb (s_state (fst w1)) SM_IDLE
      then (w1, ev, true)
      else
        let '(w2, evs, fin) := run_txn rest w1 in
        (w2, ev ++ evs, fin)
  end.

(** [P] at every call of the transaction in progress. *)
Fixpoint txn_all (P : op -> rdm_state -> bool) (ops : list op)
    (w : @world B) : bool :=
  match ops with
  | [] => true
  | o :: rest =>
      P o (fst w) &&
      (let w1 := fst (apply_op o w) in
       if is_task o && rdm_state_eqb (s_state (fst w1)) SM_IDLE then true
       else txn_all P rest w1)
  end.

(** The number of calls of the transaction in progress with [P]. *)
Fixpoint txn_count (P : op -> rdm_state -> bool) (ops : list op)
    (w : @world B) : nat :=
  match ops with
  | [] => O
  | o :: rest =>
      ((if P o (fst w) then 1 else 0) +
       (let w1 := fst (apply_op o w) in
        if is_task o && rdm_state_eqb (s_state (fst w1)) SM_IDLE then 0
        else txn_count P rest w1))%nat
  end.

(** The bytes that the UART has delivered since the last transmission on
    the bus, as the call that ends the transaction in progress finds them
    (at the end of the run, when the transaction does not end).  [acc]
    holds those delivered before the first call of [ops]. *)
Fixpoint txn_heard (ops : list op) (w : @world B) (acc : list Z) : list Z :=
  match ops with
  | [] => acc
  | o :: rest =>
      let '(w1, ev) := apply_op o w in
      if is_task o && rdm_state_eqb (s_state (fst w1)) SM_IDLE then acc
      else
        txn_heard rest w1
          (match o with
           | OpIrq bytes => acc ++ bytes
           | _ => if existsb is_send ev then [] else acc
           end)
  end.

(** [P] at every call of a run, on the state that the call finds. *)
Fixpoint run_all (P : op -> rdm_state -> bool) (ops : list op)
    (w : @world B) : bool :=
  match ops with
  | [] => true
  | o :: rest => P o (fst w) && run_all P rest (fst (apply_op o w))
  end.

End Runs.

(** A call of rdm_task in the waiting state finds, after collecting, a
    response that does not validate (or the call is something else). *)
Definition wait_invalid (o : op) (s : rdm_state) : bool :=
  match o with
  | OpTask _ _ =>
      if rdm_state_eqb (s_state s) SM_WAITING_RESPONSE
      then
        let s' := collect_response s in
        negb (rdm_validate_response (s_resp_buf s') (s_resp_len s'))
      else true
  | _ => true
  end.

(** A call of rdm_task in the waiting state at which the response timeout
    has elapsed. *)
Definition wait_expired (o : op) (s : rdm_state) : bool :=
  match o with
  | OpTask _ later_ms =>
      rdm_state_eqb (s_state s) SM_WAITING_RESPONSE &&
      (RDM_RESPONSE_TIMEOUT_MS <=? u32 (later_ms - s_timeout_start_ms s))
  | _ => false
  end.

(** ** Abstractions used in the statements *)

Definition sum_bytes (l : list Z) : Z := fold_right Z.add 0 l.

Definition is_byteb (x : Z) : bool := (0 <=? x) && (x <? 256).
Definition bytes_ok (l : list Z) : bool := forallb is_byteb l.

(** The validity of a collected response in the words of the
    specification: the two start codes, a declared message length that the
    collected bytes cover together with the two checksum bytes, and a
    big-endian checksum equal to the sum of the message bytes modulo 65536. *)
Definition response_well_formed (resp : list Z) : Prop :=
  resp !! 0%nat = Some RDM_SC_RDM /\
  resp !! 1%nat = Some RDM_SC_SUB_MESSAGE /\
  exists msg_len hi lo,
    resp !! 2%nat = Some msg_len /\
    msg_len + 2 <= Z.of_nat (length resp) /\
    resp !! Z.to_nat msg_len = Some hi /\
    resp !! Z.to_nat (msg_len + 1) = Some lo /\
    hi * 256 + lo = sum_bytes (firstn (Z.to_nat msg_len) resp) mod 65536.

(** *** The receive ring as a queue of bytes *)

Definition rx_wf (r : rx_ring) : Prop :=
  length (s_rx_buf r) = Z.to_nat RDM_RX_BUF_SIZE /\
  0 <= s_rx_head r < RDM_RX_BUF_SIZE /\
  0 <= s_rx_tail r < RDM_RX_BUF_SIZE.

(** The unread bytes, oldest first. *)
Definition rx_contents (r : rx_ring) : list Z :=
  map (fun k => rd (s_rx_buf r) ((s_rx_head r + Z.of_nat k) mod RDM_RX_BUF_SIZE))
      (seq 0 (Z.to_nat (rx_available r))).

Inductive rx_op := RxPush (b : Z) | RxPop.

Definition rx_pushed (ops : list rx_op) : list Z :=
  flat_map (fun o => match o with RxPush b => [b] | RxPop => [] end) ops.

(** Runs pushes and pops; returns the bytes that the pops delivered (a pop
    of an empty ring, head == tail, delivers none and returns -1). *)
Fixpoint rx_run (ops : list rx_op) (r : rx_ring) : rx_ring * list Z :=
  match ops with
  | [] => (r, [])
  | RxPush b :: rest => rx_run rest (rx_push b r)
  | RxPop :: rest =>
      let '(b, r1) := rx_pop r in
      let '(r2, out) := rx_run rest r1 in
      (r2, if s_rx_head r =? s_rx_tail r then out else b :: out)
  end.

(** *** The request queue as a list *)

Definition queue_wf (s : rdm_state) : Prop :=
  length (s_req_buf s) = Z.to_nat RDM_REQUEST_BUFFER_SIZE /\
  0 <= s_req_head s < RDM_REQUEST_BUFFER_SIZE /\
  0 <= s_req_count s <= RDM_REQUEST_BUFFER_SIZE /\
  s_req_tail s = (s_req_head s + s_req_count s) mod RDM_REQUEST_BUFFER_SIZE.

(** The occupied slots, oldest first. *)
Definition queue_contents (s : rdm_state) : list rdm_request_t :=
  map (fun k => nth (Z.to_nat ((s_req_head s + Z.of_nat k)
                                 mod RDM_REQUEST_BUFFER_SIZE))
                    (s_req_buf s) req_zero)
      (seq 0 (Z.to_nat (s_req_count s))).

(** What a stored request amounts to: its bytes and where it came from. *)
Definition req_frame (r : rdm_request_t) : list Z :=
  firstn (Z.to_nat (req_length r)) (req_data r).

Definition req_view (r : rdm_request_t) : list Z * Z * Z :=
  (req_frame r, req_src_ip r, req_src_port r).

Definition head_req (s : rdm_state) : rdm_request_t :=
  nth (Z.to_nat (s_req_head s)) (s_req_buf s) req_zero.

Definition failure_sentinel (r : rdm_request_t) : event :=
  EvResponse None 0 (req_src_ip r) (req_src_port r).

Definition response_dsts (evs : list event) : list (Z * Z) :=
  flat_map (fun e => match e with
                     | EvResponse _ _ ip port => [(ip, port)]
                     | EvBusSend _ => []
                     end) evs.

(** *** Engine invariant *)

Definition resp_wf (s : rdm_state) : Prop :=
  length (s_resp_buf s) = Z.to_nat RDM_MAX_PACKET_SIZE /\
  bytes_ok (s_resp_buf s) = true /\
  0 <= s_resp_len s <= RDM_MAX_PACKET_SIZE.

Definition tod_wf (s : rdm_state) : Prop :=
  length (s_tod s) = Z.to_nat RDM_TOD_MAX_DEVICES /\
  length (s_tod_prev s) = Z.to_nat RDM_TOD_MAX_DEVICES /\
  0 <= s_tod_count s <= RDM_TOD_MAX_DEVICES.

Definition in_flight (s : rdm_state) : bool :=
  rdm_state_eqb (s_state s) SM_SENDING ||
  rdm_state_eqb (s_state s) SM_WAITING_RESPONSE.

(** While a transaction is in flight it is the one at the head of the
    queue, and its retry counter is within the budget. *)
Definition txn_wf (s : rdm_state) : Prop :=
  in_flight s = true ->
  s_active_idx s = s_req_head s /\ 0 < s_req_count s /\
  0 <= s_retry s <= RDM_RETRY_COUNT.

Definition engine_wf (s : rdm_state) : Prop :=
  queue_wf s /\ rx_wf (s_rx s) /\ resp_wf s /\ tod_wf s /\ txn_wf s.

(** The current table: the first [s_tod_count] entries. *)
Definition tod_table (s : rdm_state) : list rdm_uid_t :=
  firstn (Z.to_nat (s_tod_count s)) (s_tod s).

(** The condition under which a call of rdm_task at [now_ms] runs a
    discovery cycle. *)
Definition discovery_due (now_ms : Z) (s : rdm_state) : bool :=
  rdm_state_eqb (s_state s) SM_IDLE && negb (0 <? s_req_count s) &&
  (s_discovery_active s ||
   (RDM_DISCOVERY_INTERVAL_MS <=? u32 (now_ms - s_discovery_last_ms s))).

(** A call that can change the Table of Devices or raise its flag:
    rdm_flush_tod, and a call of rdm_task that runs a discovery cycle. *)
Definition changes_tod (o : op) (s : rdm_state) : bool :=
  match o with
  | OpFlushTod => true
  | OpTask now_ms _ => discovery_due now_ms s
  | _ => false
  end.

(** *** Frames on the wire *)

Definition is_branch_frame (f : list Z) : bool :=
  (rd f 20 =? RDM_CC_DISC_COMMAND) && (rd f 21 =? 0) &&
  (rd f 22 =? RDM_PID_DISC_UNIQUE_BRANCH).

Definition is_mute_frame (f : list Z) : bool :=
  (rd f 20 =? RDM_CC_DISC_COMMAND) && (rd f 21 =? 0) &&
  (rd f 22 =? RDM_PID_DISC_MUTE).

(** The destination UID of a frame: bytes 3..8. *)
Definition frame_dst (f : list Z) : list Z := firstn 6 (skipn 3 f).

Definition is_branch_send (e : event) : bool :=
  match e with
  | EvBusSend f => is_branch_frame f
  | EvResponse _ _ _ _ => false
  end.

Definition branch_attempts (evs : list event) : nat :=
  length (List.filter is_branch_send evs).

(** A bus with nothing on it. *)
Definition null_tx (b : unit) (frame : list Z) : unit := tt.
Definition null_rx (b : unit) (timeout_ms : Z) : list Z * unit := ([], tt).

(** The unique-branch request as it goes on the wire: 38 bytes, broadcast,
    the full UID range, checksum 0x0D02. *)
Definition branch_frame : list Z :=
  [0xCC; 0x01; 36; 0xFF; 0xFF; 0xFF; 0xFF; 0xFF; 0xFF; 0; 0; 0; 0; 0; 0;
   0; 0; 0; 0; 0; 0x10; 0x00; 0x01; 12;
   0; 0; 0; 0; 0; 0; 0xFF; 0xFF; 0xFF; 0xFF; 0xFF; 0xFF; 0x0D; 0x02].

(** The 26 bytes of a mute request for [uid] as they go on the wire. *)
Definition mute_frame (uid : list Z) : list Z :=
  firstn 26 (fst (build_disc_mute (repeat 0 257%nat) uid)).

(** The engine state right after [rdm_bus_send]. *)
Definition after_send (s : rdm_state) : rdm_state :=
  set_rx (rx_flush (s_rx (set_bus_busy true s))) (set_bus_busy true s).

(** The nibble decoding of a branch reply, byte [i] of the UID. *)
Definition disc_decode_byte (resp : list Z) (i : Z) : Z :=
  u8 (Z.lor (Z.land (rd resp (DISC_RESP_PREAMBLE + i * 2)) 0x0F)
            (Z.shiftl (Z.land (rd resp (DISC_RESP_PREAMBLE + 1 + i * 2)) 0x0F) 4)).

(** A scripted bus: the replies that successive receive windows collect,
    whatever is transmitted. *)
Definition script_tx (b : list (list Z)) (frame : list Z) : list (list Z) := b.
Definition script_rx (b : list (list Z)) (timeout_ms : Z)
    : list Z * list (list Z) :=
  match b with
  | [] => ([], [])
  | reply :: rest => (reply, rest)
  end.

(** *** The steps of a transaction, as rdm_task performs them *)

(** The request being served. *)
Definition active_req (s : rdm_state) : rdm_request_t :=
  nth (Z.to_nat (s_active_idx s)) (s_req_buf s) req_zero.

(** The state after the sending step: frame sent, ring flushed, response
    buffer emptied, waiting since [later_ms]. *)
Definition start_wait (retry later_ms active : Z) (s : rdm_state) : rdm_state :=
  set_resp (s_resp_buf s) 0
    (set_sm SM_WAITING_RESPONSE retry later_ms active (after_send s)).

(** The state after the outcome has been forwarded: slot freed, head
    advanced, back to idle. *)
Definition finish_txn (s : rdm_state) : rdm_state :=
  let req := active_req s in
  let req' := mkReq (req_data req) (req_length req) (req_src_ip req)
                    (req_src_port req) false in
  set_bus_busy false
    (set_state SM_IDLE
       (set_queue (<[Z.to_nat (s_active_idx s) := req']> (s_req_buf s))
                  (u8 ((s_req_head s + 1) mod RDM_REQUEST_BUFFER_SIZE))
                  (s_req_tail s)
                  (u8 (s_req_count s - 1)) s)).

(** The call of the response callback that ends a transaction. *)
Definition txn_response (valid : bool) (s : rdm_state) : list event :=
  if s_resp_cb s then
    if valid
    then [EvResponse (Some (firstn (Z.to_nat (s_resp_len s)) (s_resp_buf s)))
                     (s_resp_len s)
                     (req_src_ip (active_req s)) (req_src_port (active_req s))]
    else [failure_sentinel (active_req s)]
  else [].



(** *** A transaction in progress *)

(** After [k] transmissions of the request [r0] that sits at the head
    [h0] of the queue: either nothing has been sent yet and the engine is
    still idle, or the engine is about to send for the (k+1)-th time, or it
    is waiting for the answer to the k-th transmission. *)
Definition txn_inv (r0 : rdm_request_t) (h0 : Z) (k : nat) (s : rdm_state)
    : Prop :=
  engine_wf s /\ s_resp_cb s = true /\
  s_req_head s = h0 /\ head_req s = r0 /\ 0 < s_req_count s /\
  match s_state s with
  | SM_IDLE => k = 0%nat
  | SM_SENDING => s_retry s = Z.of_nat k
  | SM_WAITING_RESPONSE => s_retry s + 1 = Z.of_nat k
  | _ => False
  end.

(** How many more response timeouts the transaction survives. *)
Definition txn_budget (s : rdm_state) : Z :=
  match s_state s with
  | SM_IDLE => RDM_RETRY_COUNT
  | _ => RDM_RETRY_COUNT - s_retry s
  end.

(** The callback invocation that delivers a validated response. *)
Definition is_valid_report (r0 : rdm_request_t) (e : event) : Prop :=
  exists bytes,
    e = EvResponse (Some bytes) (Z.of_nat (length bytes))
                   (req_src_ip r0) (req_src_port r0) /\
    rdm_validate_response bytes (Z.of_nat (length bytes)) = true.

(** *** What a transaction hears, and what it reports *)

(** Arguments as the C callers pass them: the interrupt handler pushes
    bytes (uint8_t), and rdm_enqueue_request gets a length (uint16_t) and
    a buffer that holds that many bytes. *)
Definition op_ok (o : op) : bool :=
  match o with
  | OpIrq bytes => bytes_ok bytes
  | OpEnqueue data len _ _ => (0 <=? len) && (len <=? Z.of_nat (length data))
  | _ => true
  end.

(** The response buffer holds the first [RDM_MAX_PACKET_SIZE] bytes heard. *)
Definition collected (heard : list Z) : list Z :=
  firstn (Z.to_nat RDM_MAX_PACKET_SIZE) heard.

(** The callback invocation for a request [r0] when the bytes [heard] have
    arrived since its last transmission: the collected bytes with their
    length when they validate, the failure sentinel when they do not. *)
Definition txn_report (r0 : rdm_request_t) (heard : list Z) : event :=
  let resp := collected heard in
  let len := Z.of_nat (length resp) in
  if rdm_validate_response resp len
  then EvResponse (Some resp) len (req_src_ip r0) (req_src_port r0)
  else failure_sentinel r0.

(** The requests that a list of calls offers to the queue: bytes, address
    and port. *)
Definition offered (ops : list op) : list (list Z * Z * Z) :=
  flat_map (fun o => match o with
                     | OpEnqueue data len ip port =>
                         [(firstn (Z.to_nat len) data, ip, port)]
                     | _ => []
                     end) ops.

(** While the engine waits, the bytes collected so far followed by the
    unread bytes of the ring are the bytes heard since the transmission,
    up to the 511 bytes that the ring can hold. *)
Definition heard_inv (heard : list Z) (s : rdm_state) : Prop :=
  s_state s = SM_WAITING_RESPONSE ->
  bytes_ok (rx_contents (s_rx s)) = true /\
  firstn 511%nat (firstn (Z.to_nat (s_resp_len s)) (s_resp_buf s)
              ++ rx_contents (s_rx s))
  = firstn 511%nat heard.

(** *** A concrete scene for the examples *)

(** A host request: the 26 bytes of a mute request for 01:02:03:04:05:06
    (they carry a good checksum, so the same bytes echoed back are a
    response that validates). *)
Definition demo_request : list Z := mute_frame [1; 2; 3; 4; 5; 6].

(** The engine after start-up with the callback registered and one
    request from 10.0.0.2 (0x0200000A), port 6454, in the queue. *)
Definition demo_world : @world unit :=
  (snd (rdm_enqueue_request demo_request 26 0x0200000A 6454
          (rdm_set_response_callback true rdm_boot)), tt).

(** *** rdm_bus_receive as a polling loop

    The C function polls the clock and the ring until the window has
    elapsed, the buffer is full, or a complete RDM message has arrived.
    What the loop sees of the outside world is a script: for every pass,
    the bytes that the UART interrupt pushed since the previous pass and
    the reading of the clock in that pass.  [start] is the reading taken
    before the loop; a script that ends before the window has elapsed is
    cut there.  Lemma [rdm_bus_receive_poll_collects] relates it to
    [rdm_bus_receive]: each run of the loop is one answer of [bus_rx]. *)
Fixpoint rdm_bus_receive_poll (script : list (list Z * Z))
    (start timeout_ms max_len : Z) (buf : list Z) (n : Z) (r : rx_ring)
    : list Z * Z * rx_ring :=
  match script with
  | [] => (buf, n, r)
  | (irq, now) :: rest =>
      if negb (n <? max_len) then (buf, n, r)
      else
        let r := fold_left (fun r b => rx_push b r) irq r in
        if timeout_ms <? u32 (now - start) then (buf, n, r)
        else
          let '(b, r) := rx_pop r in
          if b <? 0
          then rdm_bus_receive_poll rest start timeout_ms max_len buf n r
          else
            let buf := wr buf n (u8 b) in
            let n := u16 (n + 1) in
            if (3 <=? n) && (rd buf 0 =? RDM_SC_RDM)
               && (rd buf 1 =? RDM_SC_SUB_MESSAGE)
               && (n =? u16 (rd buf 2 + 2))
            then (buf, n, r)
            else rdm_bus_receive_poll rest start timeout_ms max_len buf n r
  end.

(** The number of transmissions a transaction may take. *)
Definition max_attempts : nat := (1 + Z.to_nat RDM_RETRY_COUNT)%nat.

(** ** Start-up, and what a discovery cycle records *)

(** The engine as main() leaves it before the main loop: the zeroed
    statics, rdm_init, and the response callback registered by artnet_init
    ([cb] is false when artnet_init could not get a UDP control block and
    returned before registering it). *)
Definition rdm_start (cb : bool) : rdm_state :=
  rdm_set_response_callback cb (rdm_init rdm_boot).

(** The destination UIDs of the mute requests among the events, in order. *)
Definition mute_dsts (evs : list event) : list (list Z) :=
  flat_map (fun e => match e with
                     | EvBusSend f => if is_mute_frame f then [frame_dst f] else []
                     | EvResponse _ _ _ _ => []
                     end) evs.

(** What holds of the state machine between two calls. *)
Definition sm_inv (s : rdm_state) : Prop :=
  s_discovery_active s = false /\ 0 <= s_tod_count s <= 64 /\
  match s_state s with
  | SM_IDLE => g_rdm_bus_busy s = false
  | SM_SENDING | SM_WAITING_RESPONSE => g_rdm_bus_busy s = true
  | _ => False
  end.

(** A bus on which every receive window collects the same bytes, whatever
    was transmitted: a device that ignores mute requests, or a collision
    that garbles every reply in the same way. *)
Definition stuck_tx (b : list Z) (frame : list Z) : list Z := b.
Definition stuck_rx (b : list Z) (timeout_ms : Z) : list Z * list Z := (b, b).

(** The end-of-packet test of rdm_bus_receive on the bytes collected so
    far: at least three bytes, the two start codes, and as many bytes as
    the declared message length plus the two checksum bytes. *)
Definition rdm_message_complete (l : list Z) : bool :=
  (3 <=? Z.of_nat (length l)) && (rd l 0 =? RDM_SC_RDM)
  && (rd l 1 =? RDM_SC_SUB_MESSAGE)
  && (Z.of_nat (length l) =? u16 (rd l 2 + 2)).

(** *** A simulated bus of well-behaved devices

    Each device answers a unique-branch broadcast with its reply as long as
    it has not been muted, one device at a time (the first in the list of
    those still unmuted); a mute command addressed to its UID silences it
    for the rest of the cycle.  What a call of rdm_bus_receive collects of
    the bytes on the wire is computed by the loop of that function. *)
Record device := mkDev {
  dev_uid          : list Z;
  dev_branch_reply : list Z;
  dev_mute_reply   : list Z
}.

Record sim_bus := mkSim {
  sim_unmuted : list device;
  sim_wire    : list Z      (* bytes on their way to the node *)
}.

Definition sim_tx (b : sim_bus) (frame : list Z) : sim_bus :=
  if is_branch_frame frame then
    mkSim (sim_unmuted b)
          (match sim_unmuted b with
           | d :: _ => dev_branch_reply d
           | [] => []
           end)
  else if is_mute_frame frame then
    let hit := List.filter (fun d => bool_decide (dev_uid d = frame_dst frame))
                           (sim_unmuted b) in
    mkSim (List.filter (fun d => negb (bool_decide (dev_uid d = frame_dst frame)))
                       (sim_unmuted b))
          (match hit with d :: _ => dev_mute_reply d | [] => [] end)
  else mkSim (sim_unmuted b) [].

(** One receive window on the simulated bus, as the script that
    [rdm_bus_receive_poll] runs on: the bytes on the wire reach the UART
    while the window is open, one between two passes of the loop, where
    the interrupt handler pushes it into the ring; after the last byte the
    wire is silent and the clock runs past the end of the window. *)
Definition sim_window (wire : list Z) (timeout_ms : Z) : list (list Z * Z) :=
  map (fun b => ([b], 0)) wire ++ [([], timeout_ms + 1)].

(** What rdm_bus_receive(resp, sizeof(resp), timeout_ms) returns in that
    window: the loop of rdm.c on the ring that rdm_bus_send has just
    flushed.  It stops at RDM_MAX_PACKET_SIZE bytes, at the end of the
    window, and as soon as the bytes collected are a complete RDM message
    (0xCC 0x01 L and L + 2 bytes in all). *)
Definition sim_collect (wire : list Z) (timeout_ms : Z) : list Z :=
  let res := rdm_bus_receive_poll (sim_window wire timeout_ms) 0 timeout_ms
               RDM_MAX_PACKET_SIZE
               (repeat 0 (Z.to_nat RDM_MAX_PACKET_SIZE)) 0
               (mkRing (repeat 0 (Z.to_nat RDM_RX_BUF_SIZE)) 0 0) in
  firstn (Z.to_nat (snd (fst res))) (fst (fst res)).

Definition sim_rx (b : sim_bus) (timeout_ms : Z) : list Z * sim_bus :=
  (sim_collect (sim_wire b) timeout_ms, mkSim (sim_unmuted b) []).

(** The end-of-packet test of rdm_bus_receive stops the collection of
    [reply] before [k] bytes: the reply starts with the RDM start codes
    and a length byte L with 3 <= L + 2 < k. *)
Definition cut_before (reply : list Z) (k : Z) : bool :=
  (rd reply 0 =? RDM_SC_RDM) && (rd reply 1 =? RDM_SC_SUB_MESSAGE)
  && (3 <=? u16 (rd reply 2 + 2)) && (u16 (rd reply 2 + 2) <? k).

(** A reply is well formed for a device when it consists of bytes, has the
    minimum length, is collected by rdm_bus_receive at that length at
    least, and decodes to the device's UID. *)
Definition dev_ok (d : device) : Prop :=
  DISC_RESP_MIN_LEN <= Z.of_nat (length (dev_branch_reply d)) /\
  bytes_ok (dev_branch_reply d) = true /\
  cut_before (dev_branch_reply d) DISC_RESP_MIN_LEN = false /\
  disc_decode_uid (dev_branch_reply d) (Z.of_nat (length (dev_branch_reply d)))
    = dev_uid d.

(** A branch reply that encodes [uid] in the nibble pairs the node decodes:
    a separator byte, two bytes per UID byte (low nibble, then high
    nibble), four trailing bytes; 17 bytes in all. *)
Definition sim_reply (uid : list Z) : list Z :=
  0xAA :: flat_map (fun b => [Z.land b 0x0F; Z.shiftr b 4]) uid ++ [0; 0; 0; 0].

(** Device number [k] of a test bus: UID k:00:00:00:00:00. *)
Definition sim_device (k : nat) : device :=
  mkDev [Z.of_nat k; 0; 0; 0; 0; 0] (sim_reply [Z.of_nat k; 0; 0; 0; 0; 0]) [].

#[global] Instance dev_ok_dec (d : device) : Decision (dev_ok d).
Proof. unfold dev_ok. apply _. Defined.

(** * Art-Net (artnet.c, artnet.h, and the constants of config.h)

    Conventions for this part.
    - The payload of a received pbuf is the list of its bytes; [tot_len] is
      the length of the list (a UDP datagram holds fewer than 65536 bytes).
    - [pbuf_alloc] is an oracle: asked for a size, it returns no buffer
      (NULL) or the payload memory of the new pbuf, whose content is
      whatever the heap held.
    - Sixteen-bit fields of the packed structs are stored and loaded the
      way the RP2350, a little-endian machine, does it.
    - What artnet.c does to lwIP, to the DMX driver and to the boot ROM is
      returned as a list of [net_event]s. *)

(** The characters of a C string literal, without the terminating NUL. *)
Definition bytes_of_string (s : string) : list Z :=
  map (fun c => Z.of_N (Ascii.N_of_ascii c)) (String.list_ascii_of_string s).

Definition ARTNET_ID     : list Z := bytes_of_string "Art-Net" ++ [0].
Definition ARTNET_ID_LEN : Z := 8.

Definition OP_POLL        : Z := 0x2000.
Definition OP_POLL_REPLY  : Z := 0x2100.
Definition OP_DMX         : Z := 0x5000.
Definition OP_COMMAND     : Z := 0x2400.
Definition OP_RDM         : Z := 0x8300.
Definition OP_TOD_REQUEST : Z := 0x8000.
Definition OP_TOD_DATA    : Z := 0x8100.
Definition OP_TOD_CONTROL : Z := 0x8200.

Definition ARTNET_PORT     : Z := 6454.
Definition ARTNET_UNIVERSE : Z := 0.
Definition ARTNET_ESTA_MAN : Z := 0x0000.
Definition ARTNET_OEM_HI   : Z := 0x00.
Definition ARTNET_OEM_LO   : Z := 0x00.
Definition ARTNET_SHORT_NAME : list Z := bytes_of_string "ArtNet Node".
Definition ARTNET_LONG_NAME  : list Z :=
  bytes_of_string "RP2350 USB-LAN ArtNet Node".
Definition NODE_IP_ADDR : list Z := [10; 0; 0; 1].

Definition DMX_CHANNELS       : Z := 512.
Definition DMX_MIN_REFRESH_HZ : Z := 1.
Definition DMX_TARGET_HZ      : Z := 40.

Inductive artnet_mode_t := MODE_DMX | MODE_RDM.

(** The statics of artnet.c: [s_pcb] (is it non-NULL?) and [s_mode]. *)
Record artnet_state := mkArtnet {
  s_pcb  : bool;
  s_mode : artnet_mode_t
}.

Definition artnet_boot : artnet_state := mkArtnet false MODE_DMX.

(** MAC address (must match usb_descriptors.c). *)
Definition s_mac : list Z := [0x02; 0x00; 0x00; 0x00; 0x00; 0x01].

Inductive net_event :=
| EvUdpSendTo (pcb : bool) (payload : list Z) (dst_ip dst_port : Z)
    (* udp_sendto(s_pcb, p, &dst, dst_port) with p holding [payload];
       [pcb] tells whether s_pcb is non-NULL at the call *)
| EvDmxUpdate (data : list Z) (count : Z)
    (* dmx_update(data, count); [data] is the first [count] bytes *)
| EvDmxSetRate (hz : Z)
| EvResetUsbBoot.
    (* reset_usb_boot(0, 0): the device reboots into BOOTSEL mode *)

(** [lwip_htons] on a little-endian machine: the two bytes swapped. *)
Definition lwip_htons (v : Z) : Z :=
  u16 (Z.lor (Z.shiftl (Z.land v 0xFF) 8) (Z.land (Z.shiftr v 8) 0xFF)).

(** A 16-bit store and load at a byte offset, low byte first. *)
Definition store16 (buf : list Z) (off v : Z) : list Z :=
  wr (wr buf off (Z.land v 0xFF)) (off + 1) (Z.land (Z.shiftr v 8) 0xFF).

Definition load16 (buf : list Z) (off : Z) : Z :=
  Z.lor (rd buf off) (Z.shiftl (rd buf (off + 1)) 8).

(** [pbuf_copy_partial(p, dst, len, offset)]: the bytes it copies, at most
    [len] and no more than the pbuf holds from [offset] on. *)
Definition pbuf_copy_partial (p : list Z) (len offset : Z) : list Z :=
  firstn (Z.to_nat len) (skipn (Z.to_nat offset) p).

(** [strncpy(&buf[off], src, n)] from a string literal: its characters, at
    most [n], then zeros up to [n]. *)
Definition strncpy_at (buf : list Z) (off : Z) (src : list Z) (n : Z)
    : list Z :=
  let k := Z.min (Z.of_nat (length src)) n in
  memset_at (memcpy_at buf off src (Z.to_nat k)) (off + k) 0 (Z.to_nat (n - k)).

(** [snprintf(&buf[off], size, ...)] producing [text]: at most [size - 1]
    characters, then a NUL. *)
Definition snprintf_at (buf : list Z) (off size : Z) (text : list Z)
    : list Z :=
  let k := Z.min (Z.of_nat (length text)) (size - 1) in
  wr (memcpy_at buf off text (Z.to_nat k)) (off + k) 0.

(** The bytes of a C string in memory: up to the first NUL. *)
Fixpoint c_string (mem : list Z) : list Z :=
  match mem with
  | [] => []
  | c :: rest => if c =? 0 then [] else c :: c_string rest
  end.

(** [strcmp(mem, literal) == 0]. *)
Definition strcmp_eq (mem : list Z) (literal : string) : bool :=
  bool_decide (c_string mem = bytes_of_string literal).

Definition artnet_id_ok (id : list Z) : bool :=
  bool_decide (firstn (Z.to_nat ARTNET_ID_LEN) id = ARTNET_ID).

Section ArtNet.

Variable pbuf_alloc : Z -> option (list Z).

(** sizeof(artnet_poll_reply_t) and the offsets of its fields. *)
Definition POLL_REPLY_SIZE : Z := 239.

Definition send_poll_reply_to (dest : Z) (a : artnet_state) : list net_event :=
  match pbuf_alloc POLL_REPLY_SIZE with
  | None => []
  | Some rep =>
      let rep := memset_at rep 0 0 (Z.to_nat POLL_REPLY_SIZE) in
      let rep := memcpy_at rep 0 ARTNET_ID (Z.to_nat ARTNET_ID_LEN) in
      let rep := store16 rep 8 OP_POLL_REPLY in
      let rep := wr rep 10 (rd NODE_IP_ADDR 0) in
      let rep := wr rep 11 (rd NODE_IP_ADDR 1) in
      let rep := wr rep 12 (rd NODE_IP_ADDR 2) in
      let rep := wr rep 13 (rd NODE_IP_ADDR 3) in
      let rep := store16 rep 14 (lwip_htons ARTNET_PORT) in
      let rep := store16 rep 16 (lwip_htons 0x0001) in
      let rep := wr rep 18 0 in                         (* net_switch *)
      let rep := wr rep 19 0 in                         (* sub_switch *)
      let rep := store16 rep 20
                   (lwip_htons (u16 (Z.lor (Z.shiftl ARTNET_OEM_HI 8)
                                           ARTNET_OEM_LO))) in
      let rep := store16 rep 24 (lwip_htons ARTNET_ESTA_MAN) in
      let rep := strncpy_at rep 26 ARTNET_SHORT_NAME (18 - 1) in
      let rep := strncpy_at rep 44 ARTNET_LONG_NAME (64 - 1) in
      let rep := snprintf_at rep 108 64
                   (bytes_of_string "#0001 ["
                    ++ bytes_of_string (match s_mode a with
                                        | MODE_RDM => "RDM"
                                        | MODE_DMX => "DMX"
                                        end)
                    ++ bytes_of_string "] OK") in
      let rep := store16 rep 172 (lwip_htons 1) in      (* num_ports *)
      let rep := wr rep 174 0x80 in                     (* port_types[0] *)
      let rep := wr rep 182 0x80 in                     (* good_output[0] *)
      let rep := wr rep 190 (u8 (Z.land ARTNET_UNIVERSE 0x0F)) in (* sw_out[0] *)
      let rep := memcpy_at rep 201 s_mac 6 in
      let rep := wr rep 207 (rd NODE_IP_ADDR 0) in
      let rep := wr rep 208 (rd NODE_IP_ADDR 1) in
      let rep := wr rep 209 (rd NODE_IP_ADDR 2) in
      let rep := wr rep 210 (rd NODE_IP_ADDR 3) in
      let rep := wr rep 211 1 in                        (* bind_index *)
      let rep := wr rep 212 0x08 in                     (* status2 *)
      [EvUdpSendTo (s_pcb a) rep dest ARTNET_PORT]
  end.

(** sizeof(artnet_tod_data_t). *)
Definition TOD_DATA_SIZE : Z := 27.

(** [for (i = 0; i < uid_count; i++) memcpy(uid_ptr + i * 6, entries[i], 6)]
    with [n] iterations left. *)
Fixpoint tod_copy_uids (buf : list Z) (entries : list (list Z)) (i : Z)
    (n : nat) : list Z :=
  match n with
  | O => buf
  | S n' =>
      tod_copy_uids
        (memcpy_at buf (TOD_DATA_SIZE + i * 6)
                   (nth (Z.to_nat i) entries uid_zero) 6)
        entries (i + 1) n'
  end.

Definition send_tod_data (dest : Z) (a : artnet_state) (r : rdm_state)
    : rdm_state * list net_event :=
  let '(entries, count, r) := rdm_get_tod r in
  let pkt_size := u16 (TOD_DATA_SIZE + u16 (count * 6)) in
  match pbuf_alloc pkt_size with
  | None => (r, [])
  | Some tod =>
      let tod := memset_at tod 0 0 (Z.to_nat TOD_DATA_SIZE) in
      let tod := memcpy_at tod 0 ARTNET_ID (Z.to_nat ARTNET_ID_LEN) in
      let tod := store16 tod 8 OP_TOD_DATA in
      let tod := wr tod 10 0 in                         (* proto_ver_hi *)
      let tod := wr tod 11 14 in                        (* proto_ver_lo *)
      let tod := wr tod 20 0 in                         (* net *)
      let tod := wr tod 21 0 in                         (* command_response *)
      let tod := wr tod 22 (u8 (Z.land ARTNET_UNIVERSE 0x0F)) in (* address *)
      let tod := store16 tod 23 (lwip_htons count) in   (* uid_total_be *)
      let tod := wr tod 25 0 in                         (* block_count *)
      let uid_count := u8 (if 255 <? count then 255 else count) in
      let tod := wr tod 26 uid_count in
      let tod := tod_copy_uids tod entries 0 (Z.to_nat uid_count) in
      (r, [EvUdpSendTo (s_pcb a) tod dest ARTNET_PORT])
  end.

(** [data] is [None] for a NULL pointer. *)
Definition artnet_send_rdm_response (data : option (list Z)) (length : Z)
    (dst_ip_u32 dst_port : Z) (a : artnet_state) : list net_event :=
  if negb (s_pcb a) then []
  else
    let pkt_size := u16 (12 + length) in
    match pbuf_alloc pkt_size with
    | None => []
    | Some buf =>
        let buf := memset_at buf 0 0 (Z.to_nat pkt_size) in
        let buf := memcpy_at buf 0 ARTNET_ID (Z.to_nat ARTNET_ID_LEN) in
        let buf := wr buf 8 (u8 (Z.land OP_RDM 0xFF)) in
        let buf := wr buf 9 (u8 (Z.shiftr OP_RDM 8)) in
        let buf := wr buf 10 0 in
        let buf := wr buf 11 14 in
        let buf :=
          match data with
          | Some d => if 0 <? length
                      then memcpy_at buf 12 d (Z.to_nat length)
                      else buf
          | None => buf
          end in
        [EvUdpSendTo (s_pcb a) buf dst_ip_u32 dst_port]
    end.

(** The callback that artnet_init registers with the RDM engine, applied
    to a callback invocation of the engine. *)
Definition rdm_resp_callback (e : event) (a : artnet_state) : list net_event :=
  match e with
  | EvResponse data length dst_ip dst_port =>
      artnet_send_rdm_response data length dst_ip dst_port a
  | EvBusSend _ => []
  end.

Definition artnet_get_mode (a : artnet_state) : artnet_mode_t := s_mode a.

Definition artnet_set_mode (mode : artnet_mode_t) (a : artnet_state)
    : artnet_state * list net_event :=
  (mkArtnet (s_pcb a) mode,
   [EvDmxSetRate (match mode with
                  | MODE_DMX => DMX_TARGET_HZ
                  | MODE_RDM => DMX_MIN_REFRESH_HZ
                  end)]).

Definition artnet_send_poll_reply (dest : Z) (a : artnet_state)
    : list net_event :=
  send_poll_reply_to dest a.

(** The node: the statics of artnet.c and those of rdm.c. *)
Definition node : Type := artnet_state * rdm_state.

(** [artnet_init]; [udp_new_ok] tells whether udp_new_ip_type returned a
    control block.  Without one the function returns before it registers
    the response callback. *)
Definition artnet_init (udp_new_ok : bool) (n : node) : node :=
  let a := mkArtnet udp_new_ok (s_mode (fst n)) in
  if negb udp_new_ok then (a, snd n)
  else (a, rdm_set_response_callback true (snd n)).

(** The UDP receive callback.  [p] is [None] for a NULL pbuf; [cmd0] is
    what the stack holds where the local array [cmd[513]] is placed (the
    array is not initialised); [src] is the sender's address as a 32-bit
    word. *)
Definition artnet_recv (cmd0 : list Z) (p : option (list Z))
    (src src_port : Z) (n : node) : node * list net_event :=
  match p with
  | None => (n, [])
  | Some p =>
      let tot_len := Z.of_nat (length p) in
      if tot_len <? 12 then (n, [])
      else
        let hdr := pbuf_copy_partial p 12 0 in
        if negb (artnet_id_ok hdr) then (n, [])
        else
          let opcode := load16 hdr 8 in
          if opcode =? OP_POLL then
            (n, send_poll_reply_to src (fst n))
          else if opcode =? OP_DMX then
            if tot_len <? 18 then (n, [])
            else
              let uni_hi := rd p 14 in
              let uni_lo := rd p 15 in
              let len_hi := rd p 16 in
              let len_lo := rd p 17 in
              let universe := u16 (Z.lor (Z.shiftl uni_hi 8) uni_lo) in
              let data_len := u16 (Z.lor (Z.shiftl len_hi 8) len_lo) in
              if negb (universe =? ARTNET_UNIVERSE) then (n, [])
              else
                let data_len :=
                  if DMX_CHANNELS <? data_len then DMX_CHANNELS else data_len in
                if tot_len <? u16 (18 + data_len) then (n, [])
                else
                  let dmx_data := pbuf_copy_partial p data_len 18 in
                  (n, [EvDmxUpdate dmx_data data_len])
          else if opcode =? OP_COMMAND then
            if tot_len <? 14 then (n, [])
            else
              let data_len := lwip_htons (load16 p 12) in
              let data_len := if 512 <? data_len then 512 else data_len in
              let copied := pbuf_copy_partial p data_len 14 in
              let cmd := memcpy cmd0 copied (Z.of_nat (length copied)) in
              let cmd := wr cmd data_len 0 in
              if strcmp_eq cmd "MODE=DMX" then
                let '(a, ev) := artnet_set_mode MODE_DMX (fst n) in
                ((a, snd n), ev)
              else if strcmp_eq cmd "MODE=RDM" then
                let '(a, ev) := artnet_set_mode MODE_RDM (fst n) in
                ((a, snd n), ev)
              else if strcmp_eq cmd "FirmwareUpdate" then
                (n, [EvResetUsbBoot])
              else (n, [])
          else if opcode =? OP_RDM then
            match s_mode (fst n) with
            | MODE_DMX => (n, [])       (* ignore RDM in DMX mode *)
            | MODE_RDM =>
                if tot_len <? 12 then (n, [])
                else
                  let payload_len :=
                    if 12 <? tot_len then u16 (tot_len - 12) else 0 in
                  if payload_len =? 0 then (n, [])
                  else
                    let payload_len :=
                      if 257 <? payload_len then 257 else payload_len in
                    let rdm_pkt := pbuf_copy_partial p payload_len 12 in
                    let '(_, r) :=
                      rdm_enqueue_request rdm_pkt payload_len src src_port
                                          (snd n) in
                    ((fst n, r), [])
            end
          else if opcode =? OP_TOD_REQUEST then
            let '(r, ev) := send_tod_data src (fst n) (snd n) in
            ((fst n, r), ev)
          else if opcode =? OP_TOD_CONTROL then
            if tot_len <? 14 then (n, [])
            else
              let command := rd p 13 in
              let r := if command =? 0x01 then rdm_flush_tod (snd n)
                       else snd n in
              let '(r, ev) := send_tod_data src (fst n) r in
              ((fst n, r), ev)
          else (n, [])
  end.

(** What main() does with the two modules before the main loop:
    rdm_init(), artnet_init(), artnet_set_mode(MODE_DMX) and the
    broadcast ArtPollReply. *)
Definition main_init (udp_new_ok : bool) : node * list net_event :=
  let n := artnet_init udp_new_ok (artnet_boot, rdm_init rdm_boot) in
  let '(a, e1) := artnet_set_mode MODE_DMX (fst n) in
  let e2 := artnet_send_poll_reply 0xFFFFFFFF a in
  ((a, snd n), e1 ++ e2).

End ArtNet.

(** A [pbuf_alloc] that returns, when it returns a buffer, one of the size
    it was asked for. *)
Definition alloc_sized (pbuf_alloc : Z -> option (list Z)) : Prop :=
  forall size mem, pbuf_alloc size = Some mem -> length mem = Z.to_nat size.

(** The opcodes that artnet_recv handles. *)
Definition artnet_handled : list Z :=
  [OP_POLL; OP_DMX; OP_COMMAND; OP_RDM; OP_TOD_REQUEST; OP_TOD_CONTROL].

(** An allocator for the examples: it always succeeds, and the memory it
    hands out holds 0xEE in every byte. *)
Definition demo_alloc (size : Z) : option (list Z) :=
  Some (repeat 0xEE (Z.to_nat size)).

(** The twelve bytes that artnet_send_rdm_response puts in front of the
    RDM data: the Art-Net ID, the opcode OP_RDM low byte first, and the
    protocol version 14. *)
Definition artrdm_header : list Z := ARTNET_ID ++ [0x00; 0x83; 0; 14].

(** The ArtPollReply that send_poll_reply_to builds, field by field: 239
    bytes. *)
Definition zero_padded (text : list Z) (size : nat) : list Z :=
  text ++ repeat 0 (size - length text).

Definition poll_reply_bytes (mode : artnet_mode_t) : list Z :=
  ARTNET_ID ++ [0x00; 0x21]                 (* id, opcode 0x2100 *)
  ++ NODE_IP_ADDR ++ [0x19; 0x36]           (* ip, port 6454 big-endian *)
  ++ [0x00; 0x01]                           (* vers_info *)
  ++ [0; 0] ++ [0; 0] ++ [0; 0] ++ [0; 0]   (* switches, oem, ubea, status1,
                                               esta_man *)
  ++ zero_padded ARTNET_SHORT_NAME 18
  ++ zero_padded ARTNET_LONG_NAME 64
  ++ zero_padded (bytes_of_string
                    (match mode with
                     | MODE_DMX => "#0001 [DMX] OK"
                     | MODE_RDM => "#0001 [RDM] OK"
                     end)) 64
  ++ [0x00; 0x01]                           (* num_ports *)
  ++ [0x80; 0; 0; 0] ++ [0; 0; 0; 0]        (* port_types, good_input *)
  ++ [0x80; 0; 0; 0] ++ [0; 0; 0; 0]        (* good_output, sw_in *)
  ++ [0; 0; 0; 0]                           (* sw_out *)
  ++ [0; 0; 0] ++ [0; 0; 0] ++ [0]          (* sw_video, sw_macro, sw_remote,
                                               spare, style *)
  ++ s_mac ++ NODE_IP_ADDR ++ [1] ++ [0x08] (* mac, bind_ip, bind_index,
                                               status2 *)
  ++ repeat 0 26.                           (* filler *)

(** The 27-byte header of an ArtTodData for [count] devices, count at most
    255. *)
Definition tod_data_header (count : Z) : list Z :=
  ARTNET_ID ++ [0x00; 0x81; 0; 14]          (* id, opcode 0x8100, version *)
  ++ repeat 0 8                             (* rd_count, spare *)
  ++ [0; 0; 0]                              (* net, command_response, address *)
  ++ [0; count] ++ [0] ++ [count].          (* uid_total_be, block_count,
                                               uid_count *)

(** A datagram for the examples: the Art-Net ID, the opcode low byte
    first, protocol version 14, and what follows the 12-byte header. *)
Definition artnet_packet (opcode : Z) (body : list Z) : list Z :=
  ARTNET_ID ++ [Z.land opcode 0xFF; Z.shiftr opcode 8] ++ [0; 14] ++ body.

(** A node in RDM mode with a control block and the callback registered. *)
Definition demo_node : node :=
  (mkArtnet true MODE_RDM, rdm_start true).

(** * DHCP server (dhcp_server.c)

    A single lease for 10.0.0.2.  An [ip4_addr_t] is the list of its four
    bytes as they lie in memory, which is the order on the wire; the
    message [dhcp_msg_t] is the list of its 552 bytes, with the fields at
    the offsets of the packed struct. *)

Definition DHCP_SERVER_PORT  : Z := 67.
Definition DHCP_CLIENT_PORT  : Z := 68.
Definition DHCP_MAGIC_COOKIE : Z := 0x63825363.

Definition DHCP_DISCOVER : Z := 1.
Definition DHCP_OFFER    : Z := 2.
Definition DHCP_REQUEST  : Z := 3.
Definition DHCP_ACK      : Z := 5.
Definition DHCP_NAK      : Z := 6.
Definition DHCP_RELEASE  : Z := 7.

Definition DHCP_OPT_SUBNET_MASK  : Z := 1.
Definition DHCP_OPT_ROUTER       : Z := 3.
Definition DHCP_OPT_LEASE_TIME   : Z := 51.
Definition DHCP_OPT_MSG_TYPE     : Z := 53.
Definition DHCP_OPT_SERVER_ID    : Z := 54.
Definition DHCP_OPT_RENEWAL_TIME : Z := 58.
Definition DHCP_OPT_REBIND_TIME  : Z := 59.
Definition DHCP_OPT_END          : Z := 255.

Definition DHCP_LEASE_TIME_S : Z := 86400.

Definition DHCP_OPTIONS_LEN : Z := 312.

(** sizeof(dhcp_msg_t) and the offsets of the fields that the server reads
    or writes. *)
Definition DHCP_MSG_SIZE : Z := 552.
Definition OFF_OP      : Z := 0.
Definition OFF_HTYPE   : Z := 1.
Definition OFF_HLEN    : Z := 2.
Definition OFF_XID     : Z := 4.
Definition OFF_FLAGS   : Z := 10.
Definition OFF_YIADDR  : Z := 16.
Definition OFF_SIADDR  : Z := 20.
Definition OFF_CHADDR  : Z := 28.
Definition OFF_MAGIC   : Z := 236.
Definition OFF_OPTIONS : Z := 240.

Definition CLIENT_IP_ADDR : list Z := [10; 0; 0; 2].

(** [dhcp_server_t]; [pcb] tells whether the control block is non-NULL. *)
Record dhcp_server_t := mkDhcp {
  pcb          : bool;
  gw           : list Z;
  mask         : list Z;
  client_ip    : list Z;
  client_mac   : list Z;
  lease_active : bool
}.

(** [lwip_htonl] (and [lwip_ntohl]) on a little-endian machine: the four
    bytes reversed. *)
Definition lwip_htonl (v : Z) : Z :=
  Z.lor (Z.lor (Z.shiftl (Z.land v 0xFF) 24)
               (Z.shiftl (Z.land (Z.shiftr v 8) 0xFF) 16))
        (Z.lor (Z.shiftl (Z.land (Z.shiftr v 16) 0xFF) 8)
               (Z.land (Z.shiftr v 24) 0xFF)).

Definition lwip_ntohl (v : Z) : Z := lwip_htonl v.

(** The four bytes of a 32-bit word in memory, low byte first, and the
    word that four bytes in memory make. *)
Definition bytes32 (v : Z) : list Z :=
  [Z.land v 0xFF; Z.land (Z.shiftr v 8) 0xFF;
   Z.land (Z.shiftr v 16) 0xFF; Z.land (Z.shiftr v 24) 0xFF].

Definition load32 (buf : list Z) (off : Z) : Z :=
  Z.lor (Z.lor (rd buf off) (Z.shiftl (rd buf (off + 1)) 8))
        (Z.lor (Z.shiftl (rd buf (off + 2)) 16)
               (Z.shiftl (rd buf (off + 3)) 24)).

(** Helper: write DHCP option.  [p] is the offset of the write pointer in
    [buf]; the new offset is returned with the buffer. *)
Definition write_opt (buf : list Z) (p : Z) (code len : Z) (data : list Z)
    : list Z * Z :=
  let buf := wr buf p code in
  let buf := wr buf (p + 1) len in
  let buf := memcpy_at buf (p + 2) data (Z.to_nat len) in
  (buf, p + 2 + len).

(** Helper: find option value in options buffer.  The result is the offset
    of the value in [opts], [None] for NULL.  The loop of the C function
    advances [i] by at least one in every pass, so [opts_len] passes are
    enough; [fuel] counts them. *)
Fixpoint find_opt_loop (fuel : nat) (opts : list Z) (opts_len code i : Z)
    : option Z :=
  match fuel with
  | O => None
  | S f =>
      if negb (i <? opts_len) then None
      else if rd opts i =? DHCP_OPT_END then None
      else if rd opts i =? 0 then find_opt_loop f opts opts_len code (i + 1)
      else if rd opts i =? code then Some (i + 2)
      else find_opt_loop f opts opts_len code (i + 2 + rd opts (i + 1))
  end.

Definition find_opt (opts : list Z) (opts_len code : Z) : option Z :=
  find_opt_loop (Z.to_nat opts_len) opts opts_len code 0.

Section Dhcp.

Variable pbuf_alloc : Z -> option (list Z).

(** Send DHCP reply. *)
Definition send_reply (req : list Z) (msg_type : Z) (yiaddr : list Z)
    (s : dhcp_server_t) : list net_event :=
  match pbuf_alloc DHCP_MSG_SIZE with
  | None => []
  | Some rep =>
      let rep := memset_at rep 0 0 (Z.to_nat DHCP_MSG_SIZE) in
      let rep := wr rep OFF_OP 2 in                     (* BOOTREPLY *)
      let rep := wr rep OFF_HTYPE 1 in                  (* Ethernet *)
      let rep := wr rep OFF_HLEN 6 in
      let rep := memcpy_at rep OFF_XID (skipn (Z.to_nat OFF_XID) req) 4 in
      let rep := memcpy_at rep OFF_FLAGS (skipn (Z.to_nat OFF_FLAGS) req) 2 in
      let rep := memcpy_at rep OFF_YIADDR yiaddr 4 in
      let rep := memcpy_at rep OFF_SIADDR (gw s) 4 in
      let rep := memcpy_at rep OFF_CHADDR
                           (skipn (Z.to_nat OFF_CHADDR) req) 6 in
      let rep := memcpy_at rep OFF_MAGIC
                           (bytes32 (lwip_htonl DHCP_MAGIC_COOKIE)) 4 in
      let o := OFF_OPTIONS in
      let '(rep, o) := write_opt rep o DHCP_OPT_MSG_TYPE 1 [msg_type] in
      let '(rep, o) := write_opt rep o DHCP_OPT_SERVER_ID 4 (gw s) in
      let '(rep, o) := write_opt rep o DHCP_OPT_LEASE_TIME 4
                         (bytes32 (lwip_htonl DHCP_LEASE_TIME_S)) in
      let '(rep, o) := write_opt rep o DHCP_OPT_RENEWAL_TIME 4
                         (bytes32 (lwip_htonl (DHCP_LEASE_TIME_S / 2))) in
      let '(rep, o) := write_opt rep o DHCP_OPT_REBIND_TIME 4
                         (bytes32 (lwip_htonl (DHCP_LEASE_TIME_S * 7 / 8))) in
      let '(rep, o) := write_opt rep o DHCP_OPT_SUBNET_MASK 4 (mask s) in
      let '(rep, o) := write_opt rep o DHCP_OPT_ROUTER 4 (gw s) in
      let rep := wr rep o DHCP_OPT_END in
      let o := o + 1 in
      (* pbuf_realloc(p, o - payload); broadcast to the client port *)
      [EvUdpSendTo (pcb s) (firstn (Z.to_nat o) rep) 0xFFFFFFFF
                   DHCP_CLIENT_PORT]
  end.

(** The UDP receive callback.  [after] is the memory behind the local
    copy [req] of the message.  find_opt reads the length byte of an
    option whose code is the last byte of the options field from there,
    and the value pointer it returns for a code in one of the last two
    bytes of the field points there. *)
Definition dhcp_recv (after : list Z) (p : list Z) (s : dhcp_server_t)
    : dhcp_server_t * list net_event :=
  if Z.of_nat (length p) <? DHCP_MSG_SIZE then (s, [])
  else
    let req := pbuf_copy_partial p DHCP_MSG_SIZE 0 in
    if negb (rd req OFF_OP =? 1) then (s, [])       (* only BOOTREQUEST *)
    else if negb (lwip_ntohl (load32 req OFF_MAGIC) =? DHCP_MAGIC_COOKIE)
    then (s, [])
    else
      let options := skipn (Z.to_nat OFF_OPTIONS) req ++ after in
      match find_opt options DHCP_OPTIONS_LEN DHCP_OPT_MSG_TYPE with
      | None => (s, [])
      | Some mt =>
          let chaddr := firstn 6 (skipn (Z.to_nat OFF_CHADDR) req) in
          let msg_type := rd options mt in
          if msg_type =? DHCP_DISCOVER then
            let s := mkDhcp (pcb s) (gw s) (mask s) (client_ip s) chaddr
                            (lease_active s) in
            (s, send_reply req DHCP_OFFER (client_ip s) s)
          else if msg_type =? DHCP_REQUEST then
            (* accept if MAC matches or no active lease yet *)
            let mac_match := bool_decide (firstn 6 (client_mac s) = chaddr) in
            if negb (lease_active s) || mac_match then
              let s := mkDhcp (pcb s) (gw s) (mask s) (client_ip s) chaddr
                              true in
              (s, send_reply req DHCP_ACK (client_ip s) s)
            else
              (s, send_reply req DHCP_NAK (client_ip s) s)
          else if msg_type =? DHCP_RELEASE then
            if bool_decide (firstn 6 (client_mac s) = chaddr) then
              (mkDhcp (pcb s) (gw s) (mask s) (client_ip s) (repeat 0 6%nat)
                      false, [])
            else (s, [])
          else (s, [])
      end.

(** The server over a sequence of datagrams, each with the memory that
    lies behind [req] when it is handled: the final state and everything
    sent, in order. *)
Fixpoint dhcp_run (ps : list (list Z * list Z)) (s : dhcp_server_t)
    : dhcp_server_t * list net_event :=
  match ps with
  | [] => (s, [])
  | (after, p) :: rest =>
      let '(s1, e1) := dhcp_recv after p s in
      let '(s2, e2) := dhcp_run rest s1 in
      (s2, e1 ++ e2)
  end.

End Dhcp.

(** [dhcp_server_init]; [udp_new_ok] tells whether udp_new_ip_type
    returned a control block (the receive callback is installed only
    then). *)
Definition dhcp_server_init (gw mask : list Z) (udp_new_ok : bool)
    : dhcp_server_t :=
  mkDhcp udp_new_ok gw mask CLIENT_IP_ADDR (repeat 0 6%nat) false.

Definition dhcp_server_deinit (s : dhcp_server_t) : dhcp_server_t :=
  mkDhcp false (gw s) (mask s) (client_ip s) (client_mac s) (lease_active s).

(** ** The options field as a list of items *)

Inductive dhcp_item :=
| Pad                                   (* a zero byte *)
| Opt (code : Z) (data : list Z).       (* code, length, data *)

Definition encode_item (it : dhcp_item) : list Z :=
  match it with
  | Pad => [0]
  | Opt code data => code :: Z.of_nat (length data) :: data
  end.

Definition encode_opts (items : list dhcp_item) : list Z :=
  flat_map encode_item items.

(** An option has a code other than pad and end, and at most 255 bytes of
    data. *)
Definition item_ok (it : dhcp_item) : Prop :=
  match it with
  | Pad => True
  | Opt code data =>
      0 < code < 255 /\ (length data < 256)%nat /\ bytes_ok data = true
  end.

(** The offset of the data of the first option with the given code, the
    items starting at offset [off]. *)
Fixpoint lookup_opt (items : list dhcp_item) (code off : Z) : option Z :=
  match items with
  | [] => None
  | Pad :: rest => lookup_opt rest code (off + 1)
  | Opt c data :: rest =>
      if c =? code then Some (off + 2)
      else lookup_opt rest code (off + 2 + Z.of_nat (length data))
  end.

(** The options that send_reply writes. *)
Definition reply_options (msg_type : Z) (s : dhcp_server_t) : list dhcp_item :=
  [Opt DHCP_OPT_MSG_TYPE [msg_type];
   Opt DHCP_OPT_SERVER_ID (gw s);
   Opt DHCP_OPT_LEASE_TIME [0x00; 0x01; 0x51; 0x80];     (* 86400 s *)
   Opt DHCP_OPT_RENEWAL_TIME [0x00; 0x00; 0xA8; 0xC0];   (* 43200 s *)
   Opt DHCP_OPT_REBIND_TIME [0x00; 0x01; 0x27; 0x50];    (* 75600 s *)
   Opt DHCP_OPT_SUBNET_MASK (mask s);
   Opt DHCP_OPT_ROUTER (gw s)].

(** The 280 bytes of a reply: the fixed part of the BOOTP message, with
    transaction id, flags and hardware address taken from the request,
    then the magic cookie, the options and the end mark. *)
Definition reply_bytes (req : list Z) (msg_type : Z) (yiaddr : list Z)
    (s : dhcp_server_t) : list Z :=
  [2; 1; 6; 0]                                   (* op, htype, hlen, hops *)
  ++ firstn 4 (skipn 4 req)                      (* xid *)
  ++ [0; 0]                                      (* secs *)
  ++ firstn 2 (skipn 10 req)                     (* flags *)
  ++ [0; 0; 0; 0]                                (* ciaddr *)
  ++ yiaddr ++ gw s                              (* yiaddr, siaddr *)
  ++ [0; 0; 0; 0]                                (* giaddr *)
  ++ firstn 6 (skipn 28 req) ++ repeat 0 10      (* chaddr *)
  ++ repeat 0 64 ++ repeat 0 128                 (* sname, file *)
  ++ [0x63; 0x82; 0x53; 0x63]                    (* magic cookie *)
  ++ encode_opts (reply_options msg_type s) ++ [DHCP_OPT_END].

(** An item that is the option with the given code. *)
Definition has_code (code : Z) (it : dhcp_item) : bool :=
  match it with
  | Pad => false
  | Opt c _ => c =? code
  end.

(** A DHCP message of the given type from the given hardware address, as
    the server reads it: at least 552 bytes, a BOOTREQUEST, the magic
    cookie, and in the options field, after pads and options other than
    the message type, the code 53, a length byte and the type. *)
Definition dhcp_message (p : list Z) (msg_type : Z) (mac : list Z) : Prop :=
  DHCP_MSG_SIZE <= Z.of_nat (length p) /\ bytes_ok p = true /\
  rd p OFF_OP = 1 /\
  firstn 4 (skipn 236 p) = [0x63; 0x82; 0x53; 0x63] /\
  firstn 6 (skipn 28 p) = mac /\
  exists (before : list dhcp_item) (l : Z) (rest : list Z),
    Forall item_ok before /\
    Forall (fun it => has_code DHCP_OPT_MSG_TYPE it = false) before /\
    firstn 312 (skipn 240 p)
    = encode_opts before ++ [DHCP_OPT_MSG_TYPE; l; msg_type] ++ rest.

(** What the server sends in answer to the message [p]: one broadcast
    datagram to the client port with the reply of the given type that
    offers [client_ip], or nothing when no buffer can be had. *)
Definition dhcp_reply (pbuf_alloc : Z -> option (list Z)) (p : list Z)
    (msg_type : Z) (s : dhcp_server_t) : list net_event :=
  match pbuf_alloc DHCP_MSG_SIZE with
  | None => []
  | Some _ =>
      [EvUdpSendTo (pcb s) (reply_bytes p msg_type (client_ip s) s)
                   0xFFFFFFFF DHCP_CLIENT_PORT]
  end.

(** A server state as dhcp_server_init and dhcp_recv leave it: addresses
    of four bytes, a hardware address of six. *)
Definition dhcp_wf (s : dhcp_server_t) : Prop :=
  length (gw s) = 4%nat /\ length (mask s) = 4%nat /\
  length (client_ip s) = 4%nat /\ length (client_mac s) = 6%nat.

(** A client message for the examples: BOOTREQUEST, the magic cookie, the
    message type as the first option, then the end mark. *)
Definition demo_dhcp_message (msg_type : Z) (mac : list Z) : list Z :=
  [1; 1; 6; 0] ++ [0xDE; 0xAD; 0xBE; 0xEF] ++ [0; 0] ++ [0x80; 0x00]
  ++ repeat 0 16 ++ mac ++ repeat 0 10 ++ repeat 0 64 ++ repeat 0 128
  ++ [0x63; 0x82; 0x53; 0x63]
  ++ [DHCP_OPT_MSG_TYPE; 1; msg_type; DHCP_OPT_END] ++ repeat 0 308.

(** Two hardware addresses and a server for the examples: gateway
    10.0.0.1, mask 255.255.255.0. *)
Definition demo_mac_a : list Z := [0x02; 0x12; 0x34; 0x56; 0x78; 0x9A].
Definition demo_mac_b : list Z := [0x02; 0xAB; 0xCD; 0xEF; 0x01; 0x23].

Definition demo_dhcp : dhcp_server_t :=
  dhcp_server_init [10; 0; 0; 1] [255; 255; 255; 0] true.

(** * Properties *)

(** ** Arrays and machine integers *)

Lemma rd_lookup (a : list Z) (i : Z) (x : Z) :
  a !! Z.to_nat i = Some x -> rd a i = x.
Proof. intros H. unfold rd. now apply nth_lookup_Some with (d := 0) in H. Qed.

Lemma lookup_rd (a : list Z) (i : Z) :
  0 <= i < Z.of_nat (length a) -> a !! Z.to_nat i = Some (rd a i).
Proof.
  intros H. unfold rd.
  destruct (lookup_lt_is_Some_2 a (Z.to_nat i)) as [x Hx]; [lia|].
  rewrite Hx. f_equal. symmetry. now apply nth_lookup_Some.
Qed.

Lemma rd_overflow (a : list Z) (i : Z) :
  Z.of_nat (length a) <= i -> rd a i = 0.
Proof. intros H. unfold rd. apply nth_overflow. lia. Qed.

Lemma length_wr (a : list Z) i v : length (wr a i v) = length a.
Proof. unfold wr. apply length_insert. Qed.

Lemma rd_wr_eq (a : list Z) i v :
  0 <= i < Z.of_nat (length a) -> rd (wr a i v) i = v.
Proof.
  intros H. apply rd_lookup. unfold wr.
  apply list_lookup_insert_eq. lia.
Qed.

Lemma rd_wr_ne (a : list Z) i j v :
  0 <= i -> 0 <= j -> i <> j -> rd (wr a i v) j = rd a j.
Proof.
  intros Hi Hj Hne. unfold rd, wr.
  rewrite !nth_lookup, list_lookup_insert_ne by lia. reflexivity.
Qed.

Lemma lor_shiftl_bytes (hi lo : Z) :
  0 <= hi < 256 -> 0 <= lo < 256 ->
  u16 (Z.lor (Z.shiftl hi 8) lo) = hi * 256 + lo.
Proof.
  intros Hhi Hlo.
  assert (Hland : Z.land (Z.shiftl hi 8) lo = 0).
  { apply Z.bits_inj'. intros n Hn. rewrite Z.land_spec, Z.bits_0.
    destruct (Z.lt_ge_cases n 8) as [Hlt | Hge].
    - rewrite Z.shiftl_spec_low by lia. reflexivity.
    - replace (Z.testbit lo n) with false; [apply andb_false_r|].
      symmetry. destruct (Z.eq_dec lo 0) as [-> | Hnz]; [apply Z.bits_0|].
      apply Z.bits_above_log2; [lia|].
      apply Z.log2_lt_pow2; [lia|].
      apply Z.lt_le_trans with (2 ^ 8); [simpl; lia|].
      apply Z.pow_le_mono_r; lia. }
  rewrite <- Z.lxor_lor, <- Z.add_nocarry_lxor by assumption.
  rewrite Z.shiftl_mul_pow2 by lia. unfold u16.
  change (2 ^ 8) with 256. apply Z.mod_small. lia.
Qed.

(** ** The checksum is the sum of the message bytes modulo 65536 *)

Lemma rdm_checksum_loop_sum (data : list Z) (n : nat) :
  forall (j : nat) (sum : Z),
    u16 (rdm_checksum_loop data (Z.of_nat j) n sum)
    = u16 (sum + sum_bytes (firstn n (skipn j data))).
Proof.
  induction n as [|n IH]; intros j sum; simpl.
  - now rewrite Z.add_0_r.
  - replace (Z.of_nat j + 1) with (Z.of_nat (S j)) by lia.
    rewrite IH. unfold rd. rewrite Nat2Z.id.
    destruct (data !! j) as [x|] eqn:Hx.
    + rewrite (drop_S data x j Hx). simpl.
      rewrite (nth_lookup_Some _ _ _ _ Hx). unfold u16.
      rewrite Zplus_mod_idemp_l. f_equal. lia.
    + apply lookup_ge_None in Hx.
      rewrite nth_overflow by lia.
      rewrite !drop_ge by lia. simpl. unfold u16.
      rewrite Zplus_mod_idemp_l. f_equal.
      rewrite take_nil. simpl. lia.
Qed.

Lemma rdm_checksum_loop_range (data : list Z) (n : nat) :
  forall i sum, 0 <= sum < 65536 ->
    0 <= rdm_checksum_loop data i n sum < 65536.
Proof.
  induction n as [|n IH]; intros i sum Hs; simpl; [assumption|].
  apply IH. unfold u16. apply Z.mod_pos_bound. lia.
Qed.

Lemma rdm_checksum_sum (data : list Z) (len : Z) :
  rdm_checksum data len
  = sum_bytes (firstn (Z.to_nat len) data) mod 65536.
Proof.
  unfold rdm_checksum.
  pose proof (rdm_checksum_loop_sum data (Z.to_nat len) 0 0) as H.
  pose proof (rdm_checksum_loop_range data (Z.to_nat len) 0 0 ltac:(lia)) as R.
  simpl in H. unfold u16 in H. rewrite Z.mod_small in H by assumption.
  exact H.
Qed.

(** ** Response validation (C2, C9) *)

Lemma bytes_ok_rd (a : list Z) (i : Z) :
  bytes_ok a = true -> 0 <= rd a i < 256.
Proof.
  intros H. unfold rd.
  destruct (nth_in_or_default (Z.to_nat i) a 0) as [Hin | ->]; [|lia].
  unfold bytes_ok in H. rewrite forallb_forall in H.
  specialize (H _ Hin). unfold is_byteb in H. lia.
Qed.

Lemma take_lookup_rd (buf : list Z) (len i : Z) :
  0 <= i < len -> len <= Z.of_nat (length buf) ->
  firstn (Z.to_nat len) buf !! Z.to_nat i = Some (rd buf i).
Proof.
  intros Hi Hlen. rewrite lookup_take_lt by lia. apply lookup_rd. lia.
Qed.

Lemma take_lookup3 (buf : list Z) (len : Z) (i : nat) :
  Z.of_nat i < len -> len <= Z.of_nat (length buf) ->
  firstn (Z.to_nat len) buf !! i = Some (rd buf (Z.of_nat i)).
Proof.
  intros Hi Hlen. rewrite <- (Nat2Z.id i) at 1. apply take_lookup_rd; lia.
Qed.

Lemma take_take_le {A} (l : list A) (m n : nat) :
  (m <= n)%nat -> firstn m (firstn n l) = firstn m l.
Proof. intros H. rewrite take_take. f_equal. lia. Qed.

(** What validation accepts is well formed. *)
Lemma validate_well_formed (buf : list Z) (len : Z) :
  bytes_ok buf = true ->
  0 <= len <= Z.of_nat (length buf) ->
  rdm_validate_response buf len = true ->
  response_well_formed (firstn (Z.to_nat len) buf).
Proof.
  intros Hb Hlen.
  pose proof (bytes_ok_rd buf 2 Hb) as B2.
  pose proof (bytes_ok_rd buf (rd buf 2) Hb) as Bhi.
  pose proof (bytes_ok_rd buf (rd buf 2 + 1) Hb) as Blo.
  unfold rdm_validate_response, response_well_formed.
  rewrite length_take.
  destruct (len <? 4) eqn:H4; [discriminate|].
  destruct (rd buf 0 =? RDM_SC_RDM) eqn:H0; [|discriminate].
  destruct (rd buf 1 =? RDM_SC_SUB_MESSAGE) eqn:H1; [|discriminate].
  simpl. unfold u16 at 1. rewrite Z.mod_small by lia.
  destruct (len <? rd buf 2 + 2) eqn:Hm; [discriminate|].
  intros Hc. apply Z.eqb_eq in Hc, H0, H1.
  rewrite lor_shiftl_bytes in Hc by lia.
  rewrite rdm_checksum_sum in Hc.
  rewrite (take_lookup3 buf len 0%nat), (take_lookup3 buf len 1%nat),
    (take_lookup3 buf len 2%nat) by lia.
  change (Z.of_nat 0) with 0. change (Z.of_nat 1) with 1.
  change (Z.of_nat 2) with 2.
  split; [congruence|]. split; [congruence|].
  exists (rd buf 2), (rd buf (rd buf 2)), (rd buf (rd buf 2 + 1)).
  rewrite !take_lookup_rd by lia.
  rewrite take_take_le by lia.
  repeat split; lia.
Qed.

(** A declared length of 0 or 1 cannot carry a matching checksum: the
    checksum bytes would be the start codes themselves. *)
Lemma well_formed_msg_len (buf : list Z) (len : Z) :
  0 <= len <= Z.of_nat (length buf) ->
  response_well_formed (firstn (Z.to_nat len) buf) ->
  3 <= len /\ rd buf 0 = RDM_SC_RDM /\ rd buf 1 = RDM_SC_SUB_MESSAGE /\
  2 <= rd buf 2 /\ rd buf 2 + 2 <= len /\
  rd buf (rd buf 2) * 256 + rd buf (rd buf 2 + 1)
  = sum_bytes (firstn (Z.to_nat (rd buf 2)) buf) mod 65536.
Proof.
  intros Hlen (H0 & H1 & m & hi & lo & H2 & Hm & Hhi & Hlo & Hsum).
  rewrite length_take in Hm.
  assert (Hlen3 : 3 <= len).
  { apply lookup_lt_Some in H2. rewrite length_take in H2. lia. }
  rewrite (take_lookup3 buf len) in H0, H1, H2 by lia.
  change (Z.of_nat 0) with 0 in H0. change (Z.of_nat 1) with 1 in H1.
  change (Z.of_nat 2) with 2 in H2.
  injection H0 as H0. injection H1 as H1. injection H2 as H2. subst m.
  assert (Hm0 : 0 <= rd buf 2).
  { destruct (Z.lt_ge_cases (rd buf 2) 0) as [Hneg | Hok]; [|exact Hok].
    exfalso. replace (Z.to_nat (rd buf 2)) with 0%nat in Hhi, Hsum by lia.
    rewrite (take_lookup3 buf len 0%nat) in Hhi by lia.
    change (Z.of_nat 0) with 0 in Hhi. injection Hhi as Hhi.
    destruct (Z.eq_dec (rd buf 2) (-1)) as [E | NE].
    - rewrite E in Hlo. change (Z.to_nat (-1 + 1)) with 0%nat in Hlo.
      rewrite (take_lookup3 buf len 0%nat) in Hlo by lia.
      change (Z.of_nat 0) with 0 in Hlo. injection Hlo as Hlo.
      subst hi lo. rewrite H0 in Hsum. discriminate.
    - replace (Z.to_nat (rd buf 2 + 1)) with 0%nat in Hlo by lia.
      rewrite (take_lookup3 buf len 0%nat) in Hlo by lia.
      change (Z.of_nat 0) with 0 in Hlo. injection Hlo as Hlo.
      subst hi lo. rewrite H0 in Hsum. discriminate. }
  rewrite take_lookup_rd in Hhi, Hlo by lia.
  injection Hhi as Hhi. injection Hlo as Hlo. subst hi lo.
  rewrite take_take_le in Hsum by lia.
  assert (Hm3 : 2 <= rd buf 2).
  { destruct (Z.eq_dec (rd buf 2) 0) as [E|NE0].
    { rewrite E in Hsum. change (0 + 1) with 1 in Hsum.
      rewrite H0, H1 in Hsum. discriminate. }
    destruct (Z.eq_dec (rd buf 2) 1) as [E|NE1]; [|lia].
    rewrite E in Hsum. change (1 + 1) with 2 in Hsum.
    rewrite H1, E in Hsum.
    assert (Ht : firstn (Z.to_nat 1) buf = [rd buf 0]).
    { destruct buf as [|x buf']; [simpl in Hlen; lia|]. reflexivity. }
    rewrite Ht, H0 in Hsum. discriminate. }
  repeat split; assumption || lia.
Qed.

(** What is well formed, validation accepts. *)
Lemma well_formed_validate (buf : list Z) (len : Z) :
  bytes_ok buf = true ->
  0 <= len <= Z.of_nat (length buf) ->
  response_well_formed (firstn (Z.to_nat len) buf) ->
  rdm_validate_response buf len = true.
Proof.
  intros Hb Hlen Hwf.
  pose proof (bytes_ok_rd buf 2 Hb) as B2.
  pose proof (bytes_ok_rd buf (rd buf 2) Hb) as Bhi.
  pose proof (bytes_ok_rd buf (rd buf 2 + 1) Hb) as Blo.
  destruct (well_formed_msg_len buf len Hlen Hwf)
    as (Hl3 & H0 & H1 & Hm2 & Hm & Hsum).
  unfold rdm_validate_response.
  replace (len <? 4) with false by (symmetry; apply Z.ltb_ge; lia).
  rewrite H0, H1, !Z.eqb_refl. simpl.
  unfold u16 at 1. rewrite Z.mod_small by lia.
  replace (len <? rd buf 2 + 2) with false by (symmetry; apply Z.ltb_ge; lia).
  rewrite lor_shiftl_bytes by lia. rewrite rdm_checksum_sum.
  apply Z.eqb_eq. lia.
Qed.

(** C2.  A collected response (the first [len] bytes of the response
    buffer) is judged valid by [rdm_validate_response] if and only if it is
    well formed in the words of the specification: it begins with 0xCC,
    0x01; the message length declared at index 2, plus the two checksum
    bytes, is covered by the collected bytes; and the bytes at indices
    msg_len and msg_len+1, read big-endian, equal the sum of the first
    msg_len bytes modulo 65536.  (The separate test [len < 4] of the code
    rejects nothing that these three conditions accept.) *)
Theorem rdm_validate_response_iff (buf : list Z) (len : Z) :
  bytes_ok buf = true ->
  0 <= len <= Z.of_nat (length buf) ->
  rdm_validate_response buf len = true
  <-> response_well_formed (firstn (Z.to_nat len) buf).
Proof.
  intros Hb Hlen. split.
  - intros Hvalid. now apply validate_well_formed.
  - intros Hwf. now apply well_formed_validate.
Qed.


(** ** The receive ring (C8) *)

Ltac ring_arith :=
  unfold u8, u16, u32, RDM_RX_BUF_SIZE, RDM_REQUEST_BUFFER_SIZE in *;
  Z.to_euclidean_division_equations; lia.

Lemma rx_available_wf (r : rx_ring) :
  rx_wf r ->
  rx_available r = (s_rx_tail r - s_rx_head r + 512) mod 512 /\
  0 <= rx_available r <= 511.
Proof.
  intros (_ & Hh & Ht). unfold rx_available. ring_arith.
Qed.

Lemma rx_available_0 (r : rx_ring) :
  rx_wf r -> (rx_available r = 0 <-> s_rx_head r = s_rx_tail r).
Proof.
  intros (Hl & Hh & Ht). unfold rx_available. ring_arith.
Qed.

Lemma rx_push_full (b : Z) (r : rx_ring) :
  rx_wf r -> rx_available r = 511 -> rx_push b r = r.
Proof.
  intros (Hl & Hh & Ht) Hav. unfold rx_push.
  replace (u16 ((s_rx_tail r + 1) mod RDM_RX_BUF_SIZE) =? s_rx_head r) with true;
    [reflexivity|].
  symmetry. apply Z.eqb_eq. unfold rx_available in Hav. ring_arith.
Qed.

Lemma rx_push_room (b : Z) (r : rx_ring) :
  rx_wf r -> rx_available r < 511 ->
  rx_wf (rx_push b r) /\
  rx_available (rx_push b r) = rx_available r + 1 /\
  rx_contents (rx_push b r) = rx_contents r ++ [b].
Proof.
  intros Hwf Hav. pose proof (rx_available_wf r Hwf) as [Hn Hr].
  destruct Hwf as (Hl & Hh & Ht). unfold rx_push.
  replace (u16 ((s_rx_tail r + 1) mod RDM_RX_BUF_SIZE) =? s_rx_head r) with false;
    [|symmetry; apply Z.eqb_neq; rewrite Hn in Hav; ring_arith].
  simpl.
  assert (Hav' : rx_available
            (mkRing (wr (s_rx_buf r) (s_rx_tail r) b) (s_rx_head r)
                    (u16 ((s_rx_tail r + 1) mod RDM_RX_BUF_SIZE)))
          = rx_available r + 1).
  { rewrite Hn in *. unfold rx_available. simpl. ring_arith. }
  split; [|split; [exact Hav'|]].
  - unfold rx_wf. simpl. rewrite length_wr. repeat split; try assumption;
      try lia; ring_arith.
  - unfold rx_contents. rewrite Hav'. simpl.
    replace (Z.to_nat (rx_available r + 1)) with (Z.to_nat (rx_available r) + 1)%nat
      by lia.
    rewrite seq_app, map_app. simpl. f_equal.
    + apply map_ext_in. intros k Hk. apply in_seq in Hk.
      apply rd_wr_ne; [lia| |].
      * apply Z.mod_pos_bound. unfold RDM_RX_BUF_SIZE. lia.
      * rewrite Hn in *. ring_arith.
    + f_equal.
      replace ((s_rx_head r + Z.of_nat (Z.to_nat (rx_available r)))
                 mod RDM_RX_BUF_SIZE) with (s_rx_tail r)
        by (rewrite Hn in *; ring_arith).
      apply rd_wr_eq. rewrite Hl. unfold RDM_RX_BUF_SIZE in *. lia.
Qed.

Lemma rx_pop_empty (r : rx_ring) :
  rx_wf r -> s_rx_head r = s_rx_tail r ->
  rx_pop r = (-1, r) /\ rx_contents r = [].
Proof.
  intros Hwf He. unfold rx_pop. rewrite He, Z.eqb_refl. split; [reflexivity|].
  unfold rx_contents. apply (rx_available_0 r Hwf) in He. now rewrite He.
Qed.

Lemma rx_pop_some (r : rx_ring) :
  rx_wf r -> s_rx_head r <> s_rx_tail r ->
  rx_wf (snd (rx_pop r)) /\
  rx_available (snd (rx_pop r)) = rx_available r - 1 /\
  rx_contents r = fst (rx_pop r) :: rx_contents (snd (rx_pop r)).
Proof.
  intros Hwf Hne. pose proof (rx_available_wf r Hwf) as [Hn Hr].
  destruct Hwf as (Hl & Hh & Ht). unfold rx_pop.
  replace (s_rx_head r =? s_rx_tail r) with false
    by (symmetry; now apply Z.eqb_neq).
  simpl.
  assert (Hav' : rx_available
            (mkRing (s_rx_buf r) (u16 ((s_rx_head r + 1) mod RDM_RX_BUF_SIZE))
                    (s_rx_tail r))
          = rx_available r - 1).
  { rewrite Hn in *. unfold rx_available. simpl. ring_arith. }
  split; [|split; [exact Hav'|]].
  - unfold rx_wf. simpl. repeat split; try assumption; try lia; ring_arith.
  - unfold rx_contents at 1.
    replace (Z.to_nat (rx_available r)) with (S (Z.to_nat (rx_available r - 1)))
      by (rewrite Hn in *; ring_arith).
    simpl. f_equal.
    + f_equal. rewrite Z.add_0_r. apply Z.mod_small.
      unfold RDM_RX_BUF_SIZE in *. lia.
    + unfold rx_contents. rewrite Hav'. simpl.
      rewrite <- seq_shift, map_map. apply map_ext. intros k. f_equal.
      ring_arith.
Qed.

Lemma rx_contents_length (r : rx_ring) :
  length (rx_contents r) = Z.to_nat (rx_available r).
Proof. unfold rx_contents. now rewrite length_map, length_seq. Qed.

Lemma rx_push_wf (b : Z) (r : rx_ring) : rx_wf r -> rx_wf (rx_push b r).
Proof.
  intros Hwf. pose proof (rx_available_wf r Hwf) as [_ Hr].
  destruct (Z.eq_dec (rx_available r) 511) as [Hfull | Hroom].
  - now rewrite rx_push_full.
  - apply rx_push_room; [assumption | lia].
Qed.

Lemma rx_run_fifo (ops : list rx_op) :
  forall r, rx_wf r ->
    rx_wf (fst (rx_run ops r)) /\
    exists accepted,
      sublist accepted (rx_pushed ops) /\
      rx_contents r ++ accepted
      = snd (rx_run ops r) ++ rx_contents (fst (rx_run ops r)).
Proof.
  induction ops as [|o ops IH]; intros r Hwf.
  - simpl. split; [assumption|]. exists []. split; [constructor|].
    now rewrite app_nil_r.
  - destruct o as [b|]; simpl.
    + pose proof (rx_available_wf r Hwf) as [_ Hr].
      destruct (IH (rx_push b r) (rx_push_wf b r Hwf)) as (Hwf' & acc & Hsub & Heq).
      split; [assumption|].
      destruct (Z.eq_dec (rx_available r) 511) as [Hfull | Hroom].
      * rewrite rx_push_full in Heq by assumption.
        rewrite rx_push_full by assumption.
        exists acc. split; [now apply sublist_cons | exact Heq].
      * destruct (rx_push_room b r Hwf ltac:(lia)) as (_ & _ & Hc).
        rewrite Hc, <- app_assoc in Heq.
        exists (b :: acc). split; [now apply sublist_skip | exact Heq].
    + destruct (Z.eq_dec (s_rx_head r) (s_rx_tail r)) as [He | Hne].
      * destruct (rx_pop_empty r Hwf He) as [Hp Hc].
        rewrite Hp. destruct (rx_run ops r) as [r2 out] eqn:Hrun.
        replace (s_rx_head r =? s_rx_tail r) with true
          by (symmetry; now apply Z.eqb_eq).
        specialize (IH r Hwf). rewrite Hrun in IH. exact IH.
      * destruct (rx_pop_some r Hwf Hne) as (Hwf1 & _ & Hc).
        destruct (rx_pop r) as [b r1] eqn:Hp. simpl in Hwf1, Hc.
        destruct (rx_run ops r1) as [r2 out] eqn:Hrun.
        replace (s_rx_head r =? s_rx_tail r) with false
          by (symmetry; now apply Z.eqb_neq).
        specialize (IH r1 Hwf1). rewrite Hrun in IH.
        destruct IH as (Hwf2 & acc & Hsub & Heq). simpl in *.
        split; [assumption|]. exists acc. split; [assumption|].
        rewrite Hc. simpl. now rewrite Heq.
Qed.

(** C8.  For every sequence of pushes and pops on a well-formed receive
    ring (512 cells, of which at most 511 hold unread bytes): a push on a
    full ring changes nothing, so the new byte is dropped and no unread
    byte is overwritten; a push on a ring that is not full appends its
    byte behind the unread ones and leaves them as they are; and the bytes
    delivered by the pops, followed by the bytes still unread, are the
    bytes unread at the start followed by the accepted pushes, where the
    accepted pushes are a subsequence of the pushed bytes in push order.
    So every delivered byte was pushed, order is kept, and bytes are lost
    only at the producing end. *)
Theorem rx_ring_fifo (ops : list rx_op) (r : rx_ring) :
  rx_wf r ->
  (forall b, length (rx_contents r) = 511%nat -> rx_push b r = r) /\
  (forall b, (length (rx_contents r) < 511)%nat ->
             rx_contents (rx_push b r) = rx_contents r ++ [b]) /\
  rx_wf (fst (rx_run ops r)) /\
  (length (rx_contents (fst (rx_run ops r))) <= 511)%nat /\
  exists accepted,
    sublist accepted (rx_pushed ops) /\
    rx_contents r ++ accepted
    = snd (rx_run ops r) ++ rx_contents (fst (rx_run ops r)).
Proof.
  intros Hwf. pose proof (rx_available_wf r Hwf) as [_ Hr].
  destruct (rx_run_fifo ops r Hwf) as (Hwf' & Hex).
  pose proof (rx_available_wf _ Hwf') as [_ Hr'].
  split; [|split; [|split; [|split]]].
  - intros b Hfull. rewrite rx_contents_length in Hfull.
    apply rx_push_full; [assumption | lia].
  - intros b Hroom. rewrite rx_contents_length in Hroom.
    apply rx_push_room; [assumption | lia].
  - exact Hwf'.
  - rewrite rx_contents_length. lia.
  - exact Hex.
Qed.

(** At the empty ring left by [rx_flush]: 600 pushes of the bytes 0..599
    modulo 256 keep the first 511, and three pops deliver 0, 1, 2. *)
Lemma rx_ring_fifo_witness :
  let r0 := rx_flush (s_rx rdm_boot) in
  let ops := map (fun k => RxPush (Z.of_nat k mod 256)) (seq 0 600)
             ++ [RxPop; RxPop; RxPop] in
  rx_wf r0 /\
  snd (rx_run ops r0) = [0; 1; 2] /\
  length (rx_contents (fst (rx_run ops r0))) = 508%nat /\
  exists accepted,
    sublist accepted (rx_pushed ops) /\
    rx_contents r0 ++ accepted
    = snd (rx_run ops r0) ++ rx_contents (fst (rx_run ops r0)).
Proof.
  intros r0 ops.
  assert (Hwf : rx_wf r0) by (vm_compute; repeat split; congruence).
  split; [exact Hwf|]. split; [vm_compute; reflexivity|].
  split; [vm_compute; reflexivity|].
  apply (rx_ring_fifo ops r0 Hwf).
Defined.

(** The mute frame that [build_disc_mute] produces carries a checksum that
    [rdm_validate_response] accepts. *)
Lemma rdm_validate_response_iff_witness :
  let buf := fst (build_disc_mute (repeat 0 257%nat) [1; 2; 3; 4; 5; 6]) in
  rdm_validate_response buf 26 = true /\
  response_well_formed (firstn (Z.to_nat 26) buf).
Proof.
  intros buf.
  assert (Hv : rdm_validate_response buf 26 = true) by (vm_compute; reflexivity).
  split; [exact Hv|].
  apply (rdm_validate_response_iff buf 26);
    [vm_compute; reflexivity | vm_compute; split; congruence | exact Hv].
Defined.

(** ** The request queue (C3) *)

Lemma queue_contents_length (s : rdm_state) :
  length (queue_contents s) = Z.to_nat (s_req_count s).
Proof. unfold queue_contents. now rewrite length_map, length_seq. Qed.

Lemma queue_contents_ext (s s' : rdm_state) :
  s_req_buf s' = s_req_buf s -> s_req_head s' = s_req_head s ->
  s_req_count s' = s_req_count s ->
  queue_contents s' = queue_contents s.
Proof. intros Hb Hh Hc. unfold queue_contents. now rewrite Hb, Hh, Hc. Qed.

Lemma req_frame_memcpy (old data : list Z) (len : Z) :
  0 <= len <= Z.of_nat (length data) ->
  firstn (Z.to_nat len) (memcpy old data len) = firstn (Z.to_nat len) data.
Proof.
  intros H. unfold memcpy.
  rewrite take_app_le by (rewrite length_take; lia).
  apply take_take_le. lia.
Qed.

Lemma enqueue_accepted (data : list Z) (len ip port : Z) (s : rdm_state) :
  queue_wf s -> s_req_count s < RDM_REQUEST_BUFFER_SIZE ->
  len <= RDM_MAX_PACKET_SIZE ->
  let slot := mkReq (memcpy (req_data (nth (Z.to_nat (s_req_tail s))
                                           (s_req_buf s) req_zero)) data len)
                    len ip port true in
  let s' := snd (rdm_enqueue_request data len ip port s) in
  fst (rdm_enqueue_request data len ip port s) = true /\
  queue_wf s' /\
  s_req_head s' = s_req_head s /\
  s_req_count s' = s_req_count s + 1 /\
  s_req_buf s' = <[Z.to_nat (s_req_tail s) := slot]> (s_req_buf s) /\
  queue_contents s' = queue_contents s ++ [slot].
Proof.
  intros (Hl & Hh & Hc & Ht) Hroom Hlen slot s'. subst s'.
  unfold rdm_enqueue_request.
  replace (RDM_REQUEST_BUFFER_SIZE <=? s_req_count s) with false
    by (symmetry; apply Z.leb_gt; lia).
  replace (RDM_MAX_PACKET_SIZE <? len) with false
    by (symmetry; apply Z.ltb_ge; lia).
  fold slot. simpl.
  assert (Hc' : u8 (s_req_count s + 1) = s_req_count s + 1) by ring_arith.
  split; [reflexivity|]. split; [|split; [reflexivity|split; [exact Hc'|split; [reflexivity|]]]].
  - unfold queue_wf. simpl. rewrite length_insert, Hc'.
    repeat split; try assumption; try lia. rewrite Ht. ring_arith.
  - unfold queue_contents. simpl. rewrite Hc'.
    replace (Z.to_nat (s_req_count s + 1)) with (Z.to_nat (s_req_count s) + 1)%nat
      by lia.
    rewrite seq_app, map_app. simpl. f_equal.
    + apply map_ext_in. intros k Hk. apply in_seq in Hk.
      rewrite !nth_lookup, list_lookup_insert_ne; [reflexivity|].
      rewrite Ht. ring_arith.
    + f_equal. rewrite Z2Nat.id by lia. rewrite <- Ht.
      apply nth_lookup_Some. apply list_lookup_insert_eq.
      rewrite Hl, Ht. ring_arith.
Qed.

Lemma enqueue_rejected (data : list Z) (len ip port : Z) (s : rdm_state) :
  RDM_REQUEST_BUFFER_SIZE <= s_req_count s \/ RDM_MAX_PACKET_SIZE < len ->
  rdm_enqueue_request data len ip port s = (false, s).
Proof.
  intros H. unfold rdm_enqueue_request.
  destruct (RDM_REQUEST_BUFFER_SIZE <=? s_req_count s) eqn:Hc; [reflexivity|].
  destruct (RDM_MAX_PACKET_SIZE <? len) eqn:Hl; [reflexivity|].
  apply Z.leb_gt in Hc. apply Z.ltb_ge in Hl. lia.
Qed.

(** ** Invariants of the engine *)

Arguments u8 : simpl never.
Arguments u16 : simpl never.
Arguments u32 : simpl never.
Arguments rd : simpl never.
Arguments wr : simpl never.
Arguments memcpy : simpl never.
Arguments build_disc_unique_branch : simpl never.
Arguments build_disc_mute : simpl never.
Arguments disc_decode_uid : simpl never.
Arguments rdm_validate_response : simpl never.
Arguments rx_available : simpl never.
Arguments rx_pop : simpl never.
Arguments rx_push : simpl never.

Lemma bytes_ok_wr (a : list Z) (i v : Z) :
  bytes_ok a = true -> 0 <= v < 256 -> bytes_ok (wr a i v) = true.
Proof.
  intros Ha Hv. unfold bytes_ok in *. rewrite forallb_forall in *.
  intros x Hx. unfold wr in Hx.
  apply list_elem_of_In in Hx. apply list_elem_of_lookup in Hx as [j Hj].
  apply list_lookup_insert_Some in Hj as [(_ & <- & _) | (_ & Hj)].
  - unfold is_byteb. lia.
  - apply Ha. apply list_elem_of_In. apply list_elem_of_lookup. eauto.
Qed.

(** The collection loop touches the ring and the response buffer only,
    keeps both well formed, and never shortens the response. *)
Lemma collect_loop_shape (fuel : nat) :
  forall s, exists r buf len,
    collect_loop fuel s = set_resp buf len (set_rx r s) /\
    (rx_wf (s_rx s) -> rx_wf r) /\
    (resp_wf s -> resp_wf (set_resp buf len (set_rx r s))).
Proof.
  induction fuel as [|fuel IH]; intros s.
  - exists (s_rx s), (s_resp_buf s), (s_resp_len s). simpl.
    split; [destruct s; reflexivity|]. split; [tauto|].
    intros H. exact H.
  - simpl.
    destruct ((0 <? rx_available (s_rx s)) &&
              (s_resp_len s <? RDM_MAX_PACKET_SIZE)) eqn:Hc.
    + apply andb_prop in Hc as [Hav Hlen].
      apply Z.ltb_lt in Hav, Hlen.
      destruct (rx_pop (s_rx s)) as [b r1] eqn:Hp.
      match goal with |- context [collect_loop fuel ?x] =>
        destruct (IH x) as (r & buf & len & Heq & Hrx & Hresp); rewrite Heq
      end.
      exists r, buf, len. split; [destruct (0 <=? b); reflexivity|].
      split.
      * intros Hwf. apply Hrx.
        assert (Hne : s_rx_head (s_rx s) <> s_rx_tail (s_rx s)).
        { intros He. apply (rx_available_0 _ Hwf) in He. lia. }
        pose proof (rx_pop_some _ Hwf Hne) as (Hwf1 & _).
        rewrite Hp in Hwf1. destruct (0 <=? b); exact Hwf1.
      * intros Hwf.
        assert (Hs2 : resp_wf
                  (if 0 <=? b
                   then set_resp (wr (s_resp_buf (set_rx r1 s))
                                     (s_resp_len (set_rx r1 s)) (u8 b))
                                 (u16 (s_resp_len (set_rx r1 s) + 1))
                                 (set_rx r1 s)
                   else set_rx r1 s)).
        { destruct Hwf as (Hl & Hb & Hn).
          destruct (0 <=? b); unfold resp_wf; simpl;
            unfold RDM_MAX_PACKET_SIZE in *.
          - rewrite length_wr. split; [assumption|]. split.
            + apply bytes_ok_wr; [assumption|]. unfold u8.
              apply Z.mod_pos_bound. lia.
            + ring_arith.
          - split; [assumption|]. split; [assumption|]. lia. }
        specialize (Hresp Hs2).
        destruct (0 <=? b); exact Hresp.
    + exists (s_rx s), (s_resp_buf s), (s_resp_len s).
      split; [destruct s; reflexivity|]. split; [tauto|]. intros H; exact H.
Qed.

Lemma collect_loop_exit (fuel : nat) :
  forall s, rx_wf (s_rx s) -> rx_available (s_rx s) <= Z.of_nat fuel ->
    (0 <? rx_available (s_rx (collect_loop fuel s))) &&
    (s_resp_len (collect_loop fuel s) <? RDM_MAX_PACKET_SIZE) = false.
Proof.
  induction fuel as [|fuel IH]; intros s Hwf Hav;
    pose proof (rx_available_wf _ Hwf) as [_ Hr].
  - simpl. replace (0 <? rx_available (s_rx s)) with false; [reflexivity|].
    symmetry. apply Z.ltb_ge. lia.
  - simpl.
    destruct ((0 <? rx_available (s_rx s)) &&
              (s_resp_len s <? RDM_MAX_PACKET_SIZE)) eqn:Hc; [|exact Hc].
    apply andb_prop in Hc as [Hpos _]. apply Z.ltb_lt in Hpos.
    assert (Hne : s_rx_head (s_rx s) <> s_rx_tail (s_rx s)).
    { intros He. apply (rx_available_0 _ Hwf) in He. lia. }
    pose proof (rx_pop_some _ Hwf Hne) as (Hwf1 & Hav1 & _).
    destruct (rx_pop (s_rx s)) as [b r1]. simpl in Hwf1, Hav1.
    apply IH; destruct (0 <=? b); simpl; try assumption; lia.
Qed.

(** After [collect_response] the condition of the C loop is false: the
    fuel of the model never cuts the loop short. *)
Lemma collect_response_exit (s : rdm_state) :
  rx_wf (s_rx s) ->
  rx_available (s_rx (collect_response s)) = 0 \/
  RDM_MAX_PACKET_SIZE <= s_resp_len (collect_response s).
Proof.
  intros Hwf. pose proof (rx_available_wf _ Hwf) as [_ Hr].
  unfold collect_response.
  assert (Hf : rx_available (s_rx s) <= Z.of_nat (Z.to_nat RDM_RX_BUF_SIZE))
    by (unfold RDM_RX_BUF_SIZE; lia).
  revert Hf. generalize (Z.to_nat RDM_RX_BUF_SIZE). intros fuel Hf.
  pose proof (collect_loop_exit fuel s Hwf Hf) as H.
  destruct (collect_loop_shape fuel s) as (r & buf & len & Heq & Hrx & _).
  specialize (Hrx Hwf).
  pose proof (rx_available_wf _ Hrx) as [_ Hr'].
  rewrite Heq in *. simpl in *.
  apply andb_false_iff in H.
  destruct H as [H | H]; [left; apply Z.ltb_ge in H; lia
                         | right; now apply Z.ltb_ge in H].
Qed.

Lemma collect_response_shape (s : rdm_state) :
  exists r buf len,
    collect_response s = set_resp buf len (set_rx r s) /\
    (rx_wf (s_rx s) -> rx_wf r) /\
    (resp_wf s -> resp_wf (set_resp buf len (set_rx r s))).
Proof. unfold collect_response. apply collect_loop_shape. Qed.

Arguments collect_response : simpl never.

(** ** Packet builders *)

Lemma memcpy_at_spec (n : nat) :
  forall (dst : list Z) (k : nat) (src : list Z),
    (k + n <= length dst)%nat -> (n <= length src)%nat ->
    memcpy_at dst (Z.of_nat k) src n
    = firstn k dst ++ firstn n src ++ skipn (k + n) dst.
Proof.
  induction n as [|n IH]; intros dst k src Hd Hs.
  - simpl. rewrite Nat.add_0_r. symmetry. apply take_drop.
  - destruct src as [|x src]; [simpl in Hs; lia|]. simpl in Hs. simpl memcpy_at.
    replace (Z.of_nat k + 1) with (Z.of_nat (S k)) by lia.
    unfold wr. rewrite Nat2Z.id.
    rewrite IH by (rewrite ?length_insert; lia).
    assert (Hk : <[k:=x]> dst !! k = Some x)
      by (apply list_lookup_insert_eq; lia).
    rewrite (take_S_r _ _ _ Hk), take_insert_ge by lia.
    rewrite drop_insert_lt by lia.
    rewrite <- app_assoc. simpl. do 2 f_equal.
    now rewrite Nat.add_succ_r.
Qed.

Lemma memset_at_all (pkt : list Z) (v : Z) (n : nat) :
  length pkt = n -> memset_at pkt 0 v n = repeat v n.
Proof.
  intros H. unfold memset_at. change 0 with (Z.of_nat 0).
  rewrite (memcpy_at_spec n pkt 0 (repeat v n))
    by (rewrite ?repeat_length; lia).
  simpl. rewrite drop_ge by lia. rewrite app_nil_r.
  apply take_ge. rewrite repeat_length. lia.
Qed.

Lemma build_disc_unique_branch_fresh (pkt lower upper : list Z) :
  length pkt = 257%nat ->
  build_disc_unique_branch pkt lower upper
  = build_disc_unique_branch (repeat 0 257%nat) lower upper.
Proof.
  intros H. unfold build_disc_unique_branch.
  change (Z.to_nat RDM_MAX_PACKET_SIZE) with 257%nat.
  rewrite !memset_at_all by (rewrite ?repeat_length; assumption || reflexivity).
  reflexivity.
Qed.

Lemma build_disc_mute_fresh (pkt uid : list Z) :
  length pkt = 257%nat ->
  build_disc_mute pkt uid = build_disc_mute (repeat 0 257%nat) uid.
Proof.
  intros H. unfold build_disc_mute.
  change (Z.to_nat RDM_MAX_PACKET_SIZE) with 257%nat.
  rewrite !memset_at_all by (rewrite ?repeat_length; assumption || reflexivity).
  reflexivity.
Qed.

Lemma build_disc_unique_branch_frame (pkt : list Z) :
  length pkt = 257%nat ->
  snd (build_disc_unique_branch pkt s_disc_lower s_disc_upper) = 38 /\
  length (fst (build_disc_unique_branch pkt s_disc_lower s_disc_upper)) = 257%nat /\
  firstn (Z.to_nat 38)
         (fst (build_disc_unique_branch pkt s_disc_lower s_disc_upper))
  = branch_frame.
Proof.
  intros H. rewrite build_disc_unique_branch_fresh by assumption.
  vm_compute. repeat split; reflexivity.
Qed.

Lemma build_disc_mute_frame (pkt uid : list Z) :
  length pkt = 257%nat ->
  snd (build_disc_mute pkt uid) = 26 /\
  length (fst (build_disc_mute pkt uid)) = 257%nat /\
  firstn (Z.to_nat 26) (fst (build_disc_mute pkt uid)) = mute_frame uid.
Proof.
  intros H. rewrite build_disc_mute_fresh by assumption.
  split; [reflexivity|]. split; [|reflexivity].
  assert (Hm : forall dst off src n, length (memcpy_at dst off src n) = length dst).
  { intros dst off src n. revert dst off src.
    induction n as [|n IH]; intros dst off [|x src]; simpl; try reflexivity.
    now rewrite IH, length_wr. }
  unfold build_disc_mute, memset_at. cbv zeta. cbn [fst].
  repeat (rewrite length_wr || rewrite Hm). now rewrite repeat_length.
Qed.

Lemma mute_frame_dst (uid : list Z) :
  length uid = 6%nat ->
  frame_dst (mute_frame uid) = uid /\
  is_mute_frame (mute_frame uid) = true /\
  is_branch_frame (mute_frame uid) = false.
Proof.
  intros H.
  destruct uid as [|a [|b [|c [|d [|e [|f [|g uid]]]]]]]; try discriminate.
  unfold mute_frame, build_disc_mute.
  cbv -[rdm_checksum u8 Z.shiftr Z.land].
  repeat split; reflexivity.
Qed.

(** ** The discovery cycle *)

Section DiscoveryFacts.

Context {B : Type}.
Variable bus_tx : B -> list Z -> B.
Variable bus_rx : B -> Z -> list Z * B.

(** One pass of the attempt loop, with the two frames spelled out. *)
Lemma disc_attempts_step (k : nat) (pkt resp : list Z) (s : rdm_state)
    (bus : B) :
  length pkt = 257%nat ->
  disc_attempts bus_tx bus_rx (S k) pkt resp (s, bus) =
    let bus1 := bus_tx bus branch_frame in
    let n := Z.min (Z.of_nat (length (fst (bus_rx bus1 30))))
                   RDM_MAX_PACKET_SIZE in
    let resp1 := memcpy resp (fst (bus_rx bus1 30)) n in
    let bus2 := snd (bus_rx bus1 30) in
    if n <? 7 then ((after_send s, bus2), [EvBusSend branch_frame])
    else
      let uid := disc_decode_uid resp1 n in
      let bus3 := bus_tx bus2 (mute_frame uid) in
      let n2 := Z.min (Z.of_nat (length (fst (bus_rx bus3 30))))
                      RDM_MAX_PACKET_SIZE in
      let resp2 := memcpy resp1 (fst (bus_rx bus3 30)) n2 in
      let bus4 := snd (bus_rx bus3 30) in
      let r := disc_attempts bus_tx bus_rx k
                 (fst (build_disc_mute (repeat 0 257%nat) uid)) resp2
                 (disc_tod_add uid (after_send (after_send s)), bus4) in
      (fst r, EvBusSend branch_frame :: EvBusSend (mute_frame uid) :: snd r).
Proof.
  intros H. cbn [disc_attempts].
  pose proof (build_disc_unique_branch_frame pkt H) as (Hs & Hl & Hf).
  destruct (build_disc_unique_branch pkt s_disc_lower s_disc_upper)
    as [pkt1 len1].
  cbn [fst snd] in Hs, Hl, Hf. subst len1.
  unfold rdm_bus_send, rdm_bus_receive. cbn [fst snd]. rewrite Hf.
  cbv zeta.
  destruct (bus_rx (bus_tx bus branch_frame) 30) as [bytes bus2].
  cbn [fst snd].
  destruct (Z.min (Z.of_nat (length bytes)) RDM_MAX_PACKET_SIZE <? 7);
    [reflexivity|].
  rewrite (build_disc_mute_fresh pkt1) by assumption.
  set (uid := disc_decode_uid _ _).
  pose proof (build_disc_mute_frame (repeat 0 257%nat) uid
                ltac:(apply repeat_length)) as (Hs2 & Hl2 & Hf2).
  destruct (build_disc_mute (repeat 0 257%nat) uid) as [pkt2 len2].
  cbn [fst snd] in Hs2, Hl2, Hf2. subst len2. rewrite Hf2.
  destruct (bus_rx (bus_tx bus2 (mute_frame uid)) 30) as [bytes2 bus4].
  cbn [fst snd]. unfold after_send.
  match goal with |- context [disc_attempts _ _ k ?p ?r ?w] =>
    destruct (disc_attempts bus_tx bus_rx k p r w) as [w6 es]
  end.
  reflexivity.
Qed.

End DiscoveryFacts.

Lemma disc_decode_uid_long (resp : list Z) (len : Z) :
  DISC_RESP_MIN_LEN <= len ->
  disc_decode_uid resp len = map (disc_decode_byte resp) [0; 1; 2; 3; 4; 5].
Proof.
  intros H. unfold disc_decode_uid, disc_decode_loop.
  replace (DISC_RESP_MIN_LEN <=? len) with true
    by (symmetry; now apply Z.leb_le).
  reflexivity.
Qed.

Lemma disc_decode_uid_short (resp : list Z) (len : Z) :
  len < DISC_RESP_MIN_LEN -> disc_decode_uid resp len = uid_zero.
Proof.
  intros H. unfold disc_decode_uid, disc_decode_loop.
  replace (DISC_RESP_MIN_LEN <=? len) with false
    by (symmetry; now apply Z.leb_gt).
  reflexivity.
Qed.

Lemma disc_decode_uid_length (resp : list Z) (len : Z) :
  length (disc_decode_uid resp len) = 6%nat.
Proof.
  destruct (Z.le_gt_cases DISC_RESP_MIN_LEN len) as [H | H].
  - now rewrite disc_decode_uid_long.
  - now rewrite disc_decode_uid_short by lia.
Qed.

Lemma rd_memcpy (dst src : list Z) (n i : Z) :
  0 <= i < n -> n <= Z.of_nat (length src) ->
  rd (memcpy dst src n) i = rd src i.
Proof.
  intros Hi Hn. unfold rd, memcpy. rewrite !nth_lookup.
  rewrite lookup_app_l by (rewrite length_take; lia).
  now rewrite lookup_take_lt by lia.
Qed.

(** Decoding looks at the first 13 bytes only, so the copy into the
    receive buffer, cut at its capacity, decodes like the reply itself. *)
Lemma disc_decode_uid_memcpy (resp reply : list Z) :
  DISC_RESP_MIN_LEN <= Z.of_nat (length reply) ->
  let n := Z.min (Z.of_nat (length reply)) RDM_MAX_PACKET_SIZE in
  disc_decode_uid (memcpy resp reply n) n
  = disc_decode_uid reply (Z.of_nat (length reply)).
Proof.
  intros H n. unfold DISC_RESP_MIN_LEN, RDM_MAX_PACKET_SIZE in *.
  rewrite !disc_decode_uid_long by (unfold DISC_RESP_MIN_LEN; lia).
  unfold disc_decode_byte, DISC_RESP_PREAMBLE. simpl map.
  rewrite !rd_memcpy by lia. reflexivity.
Qed.

Lemma rx_flush_wf (r : rx_ring) : rx_wf r -> rx_wf (rx_flush r).
Proof.
  intros (Hl & _). unfold rx_wf, RDM_RX_BUF_SIZE. simpl.
  repeat split; try assumption; lia.
Qed.

Lemma after_send_shape (s : rdm_state) :
  after_send s
  = set_bus_busy true
      (set_disc_tod (s_tod s) (s_disc_tod_count s)
         (set_rx (rx_flush (s_rx s)) s)).
Proof. destruct s; reflexivity. Qed.

Lemma disc_tod_add_shape (uid : list Z) (s : rdm_state) :
  exists tod cnt,
    disc_tod_add uid s = set_disc_tod tod cnt s /\
    length tod = length (s_tod s) /\
    (0 <= s_disc_tod_count s <= RDM_TOD_MAX_DEVICES ->
     0 <= cnt <= RDM_TOD_MAX_DEVICES).
Proof.
  unfold disc_tod_add.
  destruct (RDM_TOD_MAX_DEVICES <=? s_disc_tod_count s) eqn:Hfull.
  - exists (s_tod s), (s_disc_tod_count s).
    split; [destruct s; reflexivity|]. split; [reflexivity | tauto].
  - eexists _, _. split; [reflexivity|]. split; [apply length_insert|].
    apply Z.leb_gt in Hfull. unfold RDM_TOD_MAX_DEVICES in *. intros H.
    ring_arith.
Qed.

(** Later writes of the same fields hide earlier ones. *)
Lemma disc_setters_absorb (s : rdm_state) b1 b2 b3 t1 c1 t2 c2 t3 c3 t4 c4
    r1 r2 r3 :
  set_bus_busy b1 (set_disc_tod t1 c1 (set_rx r1
    (set_disc_tod t2 c2
       (set_bus_busy b2 (set_disc_tod t3 c3 (set_rx r2
          (set_bus_busy b3 (set_disc_tod t4 c4 (set_rx r3 s)))))))))
  = set_bus_busy b1 (set_disc_tod t1 c1 (set_rx r1 s)).
Proof. reflexivity. Qed.

Lemma branch_attempts_branch (evs : list event) :
  branch_attempts (EvBusSend branch_frame :: evs) = S (branch_attempts evs).
Proof. reflexivity. Qed.

Lemma branch_attempts_mute (uid : list Z) (evs : list event) :
  length uid = 6%nat ->
  branch_attempts (EvBusSend (mute_frame uid) :: evs) = branch_attempts evs.
Proof.
  intros H. destruct (mute_frame_dst uid H) as (_ & _ & Hnb).
  unfold branch_attempts. cbn [List.filter is_branch_send]. now rewrite Hnb.
Qed.

Section DiscoveryShape.

Context {B : Type}.
Variable bus_tx : B -> list Z -> B.
Variable bus_rx : B -> Z -> list Z * B.

(** The attempt loop writes the ring indices, the busy flag and the
    in-progress TOD only; it never calls the response callback; and it
    puts at most [n] unique-branch requests on the wire. *)
Lemma disc_attempts_shape (n : nat) :
  forall (pkt resp : list Z) (s : rdm_state) (bus : B),
    length pkt = 257%nat ->
    exists r tod cnt busy,
      fst (fst (disc_attempts bus_tx bus_rx n pkt resp (s, bus)))
      = set_bus_busy busy (set_disc_tod tod cnt (set_rx r s)) /\
      length tod = length (s_tod s) /\
      (0 <= s_disc_tod_count s <= RDM_TOD_MAX_DEVICES ->
       0 <= cnt <= RDM_TOD_MAX_DEVICES) /\
      (rx_wf (s_rx s) -> rx_wf r) /\
      response_dsts (snd (disc_attempts bus_tx bus_rx n pkt resp (s, bus))) = [] /\
      (branch_attempts (snd (disc_attempts bus_tx bus_rx n pkt resp (s, bus)))
       <= n)%nat.
Proof.
  induction n as [|n IH]; intros pkt resp s bus Hpkt.
  - exists (s_rx s), (s_tod s), (s_disc_tod_count s), (g_rdm_bus_busy s).
    cbn [disc_attempts fst snd]. split; [destruct s; reflexivity|].
    split; [reflexivity|]. split; [tauto|]. split; [tauto|].
    split; [reflexivity|]. apply Nat.le_refl.
  - rewrite disc_attempts_step by assumption. cbv zeta.
    destruct (_ <? 7).
    + exists (rx_flush (s_rx s)), (s_tod s), (s_disc_tod_count s), true.
      cbn [fst snd]. split; [apply after_send_shape|].
      split; [reflexivity|]. split; [tauto|].
      split; [apply rx_flush_wf|]. split; [reflexivity|].
      rewrite branch_attempts_branch. apply le_n_S, Nat.le_0_l.
    + set (uid := disc_decode_uid _ _).
      assert (Huid : length uid = 6%nat) by apply disc_decode_uid_length.
      set (pkt2 := fst (build_disc_mute (repeat 0 257%nat) uid)).
      assert (Hpkt2 : length pkt2 = 257%nat)
        by (apply build_disc_mute_frame, repeat_length).
      set (resp2 := memcpy _ _ _).
      set (bus4 := snd (bus_rx _ 30)).
      destruct (disc_tod_add_shape uid (after_send (after_send s)))
        as (tod5 & cnt5 & Hadd & Hlen5 & Hcnt5).
      rewrite Hadd, !after_send_shape in *.
      match goal with |- context [disc_attempts _ _ n pkt2 resp2 (?s5, bus4)] =>
        destruct (IH pkt2 resp2 s5 bus4 Hpkt2)
          as (r' & tod & cnt & busy & Heq & Hlen & Hcnt & Hrx & Hev & Hba)
      end.
      cbn [fst snd]. rewrite Heq.
      exists r', tod, cnt, busy.
      split; [apply disc_setters_absorb|].
      split; [rewrite Hlen; exact Hlen5|].
      split; [intros Hc; apply Hcnt, Hcnt5, Hc|].
      split; [intros Hwf; apply Hrx; do 2 apply rx_flush_wf; exact Hwf|].
      split; [exact Hev|].
      rewrite branch_attempts_branch, branch_attempts_mute by assumption.
      apply le_n_S, Hba.
Qed.

End DiscoveryShape.

Section ShortReply.

Context {B : Type}.
Variable bus_tx : B -> list Z -> B.
Variable bus_rx : B -> Z -> list Z * B.

(** C10.  One pass of the attempt loop, [k] further attempts being left
    under the cap of 64.  With [reply] the bytes collected after the
    unique-branch request:
    - a reply shorter than 7 bytes ends the cycle: nothing more is sent
      and the TOD is not touched;
    - every reply of 7 bytes or more is followed by a mute request for
      the decoded UID, by the appending of that UID to the TOD in
      progress, and by the rest of the loop;
    - for a reply of 7 to 16 bytes the decoded UID is all zeros: the mute
      request is addressed to 00:00:00:00:00:00 and the all-zero UID is
      the entry appended. *)
Theorem disc_short_reply_continues (k : nat) (pkt resp : list Z)
    (s : rdm_state) (bus : B) :
  length pkt = 257%nat ->
  length (s_tod s) = Z.to_nat RDM_TOD_MAX_DEVICES ->
  0 <= s_disc_tod_count s < RDM_TOD_MAX_DEVICES ->
  let bus1 := bus_tx bus branch_frame in
  let reply := fst (bus_rx bus1 30) in
  let bus2 := snd (bus_rx bus1 30) in
  let n := Z.min (Z.of_nat (length reply)) RDM_MAX_PACKET_SIZE in
  let resp1 := memcpy resp reply n in
  let uid := disc_decode_uid resp1 n in
  let bus3 := bus_tx bus2 (mute_frame uid) in
  let s' := disc_tod_add uid (after_send (after_send s)) in
  let rest := disc_attempts bus_tx bus_rx k
                (fst (build_disc_mute (repeat 0 257%nat) uid))
                (memcpy resp1 (fst (bus_rx bus3 30))
                   (Z.min (Z.of_nat (length (fst (bus_rx bus3 30))))
                          RDM_MAX_PACKET_SIZE))
                (s', snd (bus_rx bus3 30)) in
  (Z.of_nat (length reply) < 7 ->
     disc_attempts bus_tx bus_rx (S k) pkt resp (s, bus)
     = ((after_send s, bus2), [EvBusSend branch_frame])) /\
  (7 <= Z.of_nat (length reply) ->
     disc_attempts bus_tx bus_rx (S k) pkt resp (s, bus)
     = (fst rest,
        EvBusSend branch_frame :: EvBusSend (mute_frame uid) :: snd rest) /\
     is_mute_frame (mute_frame uid) = true /\
     frame_dst (mute_frame uid) = uid /\
     s_tod s' !! Z.to_nat (s_disc_tod_count s) = Some uid /\
     s_disc_tod_count s' = s_disc_tod_count s + 1) /\
  (7 <= Z.of_nat (length reply) < 17 -> uid = uid_zero).
Proof.
  intros Hpkt Htod Hcnt bus1 reply bus2 n resp1 uid bus3 s' rest.
  pose proof (disc_attempts_step bus_tx bus_rx k pkt resp s bus Hpkt) as Hstep.
  cbv zeta in Hstep. fold bus1 in Hstep. fold reply in Hstep.
  fold bus2 in Hstep. fold n in Hstep. fold resp1 in Hstep.
  fold uid in Hstep. fold bus3 in Hstep. fold s' in Hstep. fold rest in Hstep.
  assert (Huid : length uid = 6%nat) by apply disc_decode_uid_length.
  split; [|split].
  - intros Hshort. rewrite Hstep.
    replace (n <? 7) with true; [reflexivity|].
    symmetry. apply Z.ltb_lt. unfold n, RDM_MAX_PACKET_SIZE. lia.
  - intros Hlong. rewrite Hstep.
    replace (n <? 7) with false
      by (symmetry; apply Z.ltb_ge; unfold n, RDM_MAX_PACKET_SIZE; lia).
    split; [reflexivity|].
    destruct (mute_frame_dst uid Huid) as (Hdst & Hmute & _).
    split; [exact Hmute|]. split; [exact Hdst|].
    unfold s', disc_tod_add. rewrite !after_send_shape.
    cbn [s_disc_tod_count s_tod set_bus_busy set_disc_tod set_rx].
    replace (RDM_TOD_MAX_DEVICES <=? s_disc_tod_count s) with false
      by (symmetry; apply Z.leb_gt; lia).
    cbn [s_disc_tod_count s_tod set_disc_tod].
    unfold RDM_TOD_MAX_DEVICES in *.
    split.
    + assert (Hlt : (Z.to_nat (s_disc_tod_count s) < length (s_tod s))%nat)
        by (rewrite Htod; lia).
      rewrite (list_lookup_insert_eq _ _ _ Hlt).
      f_equal. apply take_ge. rewrite Huid. auto.
    + ring_arith.
  - intros Hmid. unfold uid. apply disc_decode_uid_short.
    unfold n, DISC_RESP_MIN_LEN, RDM_MAX_PACKET_SIZE. lia.
Qed.

End ShortReply.

(** A reply of eight bytes on the first attempt, then silence: the node
    mutes 00:00:00:00:00:00, records it, and tries again. *)
Lemma disc_short_reply_continues_witness :
  let bus := [[1; 2; 3; 4; 5; 6; 7; 8]; []; []] in
  let pkt := repeat 0 257%nat in
  let r := disc_attempts script_tx script_rx 64 pkt pkt (rdm_boot, bus) in
  (length pkt = 257%nat /\
   length (s_tod rdm_boot) = Z.to_nat RDM_TOD_MAX_DEVICES /\
   0 <= s_disc_tod_count rdm_boot < RDM_TOD_MAX_DEVICES) /\
  disc_decode_uid (memcpy pkt [1; 2; 3; 4; 5; 6; 7; 8] 8) 8 = uid_zero /\
  snd r = [EvBusSend branch_frame; EvBusSend (mute_frame uid_zero);
           EvBusSend branch_frame] /\
  firstn (Z.to_nat (s_disc_tod_count (fst (fst r)))) (s_tod (fst (fst r)))
  = [uid_zero].
Proof.
  intros bus pkt r.
  assert (H1 : length pkt = 257%nat) by reflexivity.
  assert (H2 : length (s_tod rdm_boot) = Z.to_nat RDM_TOD_MAX_DEVICES)
    by reflexivity.
  assert (H3 : 0 <= s_disc_tod_count rdm_boot < RDM_TOD_MAX_DEVICES)
    by (vm_compute; split; congruence).
  split; [auto|].
  split.
  - destruct (disc_short_reply_continues script_tx script_rx 63
                pkt pkt rdm_boot bus H1 H2 H3) as (_ & _ & Hz).
    apply Hz. vm_compute. split; [congruence | reflexivity].
  - split; vm_compute; reflexivity.
Defined.

(** ** The steps of rdm_task *)

Arguments run_discovery_cycle : simpl never.

Section TaskFacts.

Context {B : Type}.
Variable bus_tx : B -> list Z -> B.
Variable bus_rx : B -> Z -> list Z * B.

Lemma task_sending (now later : Z) (s : rdm_state) (bus : B) :
  s_state s = SM_SENDING ->
  rdm_task bus_tx bus_rx now later (s, bus)
  = ((start_wait (s_retry s) later (s_active_idx s) s,
      bus_tx bus (req_frame (active_req s))),
     [EvBusSend (req_frame (active_req s))]).
Proof.
  intros H. unfold rdm_task. cbn [fst snd]. rewrite H.
  cbn [rdm_state_eqb andb]. rewrite H. cbn [rdm_state_eqb].
  destruct s; reflexivity.
Qed.

Lemma task_idle_start (now later : Z) (s : rdm_state) (bus : B) :
  s_state s = SM_IDLE -> 0 < s_req_count s ->
  rdm_task bus_tx bus_rx now later (s, bus)
  = ((start_wait 0 later (s_req_head s) s,
      bus_tx bus (req_frame (head_req s))),
     [EvBusSend (req_frame (head_req s))]).
Proof.
  intros H Hc. unfold rdm_task. cbn [fst snd]. rewrite H.
  replace (0 <? s_req_count s) with true by (symmetry; now apply Z.ltb_lt).
  cbn [rdm_state_eqb andb s_state set_sm].
  destruct s; reflexivity.
Qed.

Lemma task_waiting (now later : Z) (s : rdm_state) (bus : B) :
  s_state s = SM_WAITING_RESPONSE ->
  let s' := collect_response s in
  let valid := rdm_validate_response (s_resp_buf s') (s_resp_len s') in
  rdm_task bus_tx bus_rx now later (s, bus)
  = if valid || (RDM_RESPONSE_TIMEOUT_MS <=? u32 (later - s_timeout_start_ms s))
    then
      if negb valid && (s_retry s' <? RDM_RETRY_COUNT)
      then ((set_sm SM_SENDING (u8 (s_retry s' + 1)) (s_timeout_start_ms s')
                    (s_active_idx s') s', bus), [])
      else ((finish_txn s', bus), txn_response valid s')
    else ((s', bus), []).
Proof.
  intros H s' valid. unfold rdm_task. cbn [fst snd]. rewrite H.
  cbn [rdm_state_eqb andb]. rewrite H. cbn [rdm_state_eqb].
  fold s'. fold valid.
  destruct (valid || _); [|reflexivity].
  destruct (negb valid && _); [reflexivity|].
  unfold finish_txn, txn_response, failure_sentinel, active_req.
  destruct (s_resp_cb s'), valid; reflexivity.
Qed.

Lemma task_other (now later : Z) (s : rdm_state) (bus : B) :
  s_state s = SM_RETRY \/ s_state s = SM_DISCOVERY \/ s_state s = SM_DONE ->
  rdm_task bus_tx bus_rx now later (s, bus) = ((s, bus), []).
Proof.
  intros [H | [H | H]]; unfold rdm_task; cbn [fst snd]; rewrite H;
    cbn [rdm_state_eqb andb]; rewrite ?H; cbn [rdm_state_eqb andb];
    rewrite ?H; reflexivity.
Qed.

Lemma task_idle_quiet (now later : Z) (s : rdm_state) (bus : B) :
  s_state s = SM_IDLE -> s_req_count s <= 0 ->
  discovery_due now s = false ->
  rdm_task bus_tx bus_rx now later (s, bus) = ((s, bus), []).
Proof.
  intros H Hc Hd. unfold rdm_task, discovery_due in *. cbn [fst snd].
  rewrite H in *.
  replace (0 <? s_req_count s) with false in *
    by (symmetry; apply Z.ltb_ge; lia).
  cbn [rdm_state_eqb andb negb] in *. rewrite H. cbn [rdm_state_eqb andb].
  destruct (s_discovery_active s) eqn:Ha; [discriminate|].
  cbn [orb negb] in *. rewrite Hd. rewrite H, Ha. reflexivity.
Qed.

(** The call that runs a discovery cycle: the table is saved, the cycle
    fills the new one, and the changed flag is raised when they differ. *)
Lemma task_discovery (now later : Z) (s : rdm_state) (bus : B) :
  s_state s = SM_IDLE -> s_req_count s <= 0 ->
  discovery_due now s = true ->
  let s1 := set_tod_prev (memcpy (s_tod_prev s) (s_tod s) (s_tod_count s))
                         (s_tod_count s)
                         (set_discovery (s_discovery_last_ms s) true s) in
  let r := run_discovery_cycle bus_tx bus_rx (s1, bus) in
  let s2 := fst (fst r) in
  let s3 := set_tod (s_tod s2) (s_disc_tod_count s2) s2 in
  let n := Z.to_nat (s_tod_count s3) in
  let differs :=
    negb (s_tod_count s3 =? s_tod_prev_count s3)
    || negb (bool_decide (firstn n (s_tod s3) = firstn n (s_tod_prev s3))) in
  rdm_task bus_tx bus_rx now later (s, bus)
  = ((set_bus_busy false
        (set_discovery later false
           (if differs then set_tod_changed true s3 else s3)),
      snd (fst r)),
     snd r).
Proof.
  intros H Hc Hd s1 r s2 s3 n differs.
  unfold rdm_task, discovery_due in *. cbn [fst snd].
  rewrite H in *.
  replace (0 <? s_req_count s) with false in *
    by (symmetry; apply Z.ltb_ge; lia).
  cbn [rdm_state_eqb andb negb] in *. rewrite H. cbn [rdm_state_eqb andb].
  assert (Hs1 : (if negb (s_discovery_active s)
                 then if RDM_DISCOVERY_INTERVAL_MS
                         <=? u32 (now - s_discovery_last_ms s)
                      then set_discovery (s_discovery_last_ms s) true s
                      else s
                 else s)
                = set_discovery (s_discovery_last_ms s) true s).
  { destruct (s_discovery_active s) eqn:Ha; cbn [negb orb] in *.
    - destruct s; cbn in Ha; subst; reflexivity.
    - now rewrite Hd. }
  rewrite Hs1. cbn [s_state set_discovery s_discovery_active].
  rewrite H. cbn [rdm_state_eqb andb].
  change (set_tod_prev _ _ (set_discovery (s_discovery_last_ms s) true s))
    with s1.
  fold r. destruct r as [[s2' bus'] ev] eqn:Hr. subst s2. cbn [fst snd] in *.
  subst s3 n differs. destruct (_ || _); reflexivity.
Qed.

End TaskFacts.

Section Discovery.

Context {B : Type}.
Variable bus_tx : B -> list Z -> B.
Variable bus_rx : B -> Z -> list Z * B.

Lemma run_discovery_cycle_shape (s : rdm_state) (bus : B) :
  exists r tod cnt busy,
    fst (fst (run_discovery_cycle bus_tx bus_rx (s, bus)))
    = set_bus_busy busy (set_disc_tod tod cnt (set_rx r s)) /\
    length tod = length (s_tod s) /\
    0 <= cnt <= RDM_TOD_MAX_DEVICES /\
    (rx_wf (s_rx s) -> rx_wf r) /\
    response_dsts (snd (run_discovery_cycle bus_tx bus_rx (s, bus))) = [] /\
    (branch_attempts (snd (run_discovery_cycle bus_tx bus_rx (s, bus))) <= 64)%nat.
Proof.
  unfold run_discovery_cycle. cbn [fst snd].
  destruct (disc_attempts_shape bus_tx bus_rx 64
              (repeat 0 (Z.to_nat RDM_MAX_PACKET_SIZE))
              (repeat 0 (Z.to_nat RDM_MAX_PACKET_SIZE))
              (set_bus_busy true (set_disc_tod (s_tod s) 0 s)) bus
              (repeat_length _ _))
    as (r & tod & cnt & busy & Heq & Hlen & Hcnt & Hrx & Hev & Hba).
  exists r, tod, cnt, busy. rewrite Heq.
  split; [reflexivity|]. split; [exact Hlen|].
  split; [apply Hcnt; cbn; unfold RDM_TOD_MAX_DEVICES; lia|].
  split; [exact Hrx|]. split; [exact Hev | exact Hba].
Qed.

(** The first thing a discovery cycle does is to put a unique-branch
    request on the wire. *)
Lemma run_discovery_cycle_starts (s : rdm_state) (bus : B) :
  exists evs,
    snd (run_discovery_cycle bus_tx bus_rx (s, bus))
    = EvBusSend branch_frame :: evs.
Proof.
  unfold run_discovery_cycle. change 64%nat with (S 63).
  rewrite disc_attempts_step by apply repeat_length. cbv zeta.
  destruct (_ <? 7); cbn [snd]; eauto.
Qed.

(** The table after a discovery call differs from the table before it
    exactly when the code's comparison (counts, then memcmp against the
    saved copy) says so. *)
Lemma tod_compare (tod prev old : list (list Z)) (cnt count : Z) :
  0 <= count <= Z.of_nat (length old) ->
  0 <= cnt <= Z.of_nat (length tod) ->
  negb (cnt =? count)
  || negb (bool_decide (firstn (Z.to_nat cnt) tod
                        = firstn (Z.to_nat cnt) (memcpy prev old count)))
  = negb (bool_decide (firstn (Z.to_nat cnt) tod = firstn (Z.to_nat count) old)).
Proof.
  intros Hc Hn. destruct (Z.eqb_spec cnt count) as [-> | Hne]; cbn [negb orb].
  - f_equal. apply bool_decide_ext. unfold memcpy.
    rewrite take_app_le by (rewrite length_take; lia).
    rewrite take_take_le by lia. reflexivity.
  - symmetry. apply negb_true_iff, bool_decide_eq_false_2. intros Heq.
    apply (f_equal length) in Heq. rewrite !length_take in Heq. lia.
Qed.

Lemma task_discovery_effect (now later : Z) (s : rdm_state) (bus : B) :
  s_state s = SM_IDLE -> s_req_count s <= 0 ->
  discovery_due now s = true -> tod_wf s ->
  exists r tod cnt,
    fst (fst (rdm_task bus_tx bus_rx now later (s, bus)))
    = set_bus_busy false
        (set_discovery later false
           (set_tod_changed
              (s_tod_changed s
               || negb (bool_decide (firstn (Z.to_nat cnt) tod = tod_table s)))
              (set_tod tod cnt
                 (set_disc_tod tod cnt
                    (set_rx r
                       (set_tod_prev
                          (memcpy (s_tod_prev s) (s_tod s) (s_tod_count s))
                          (s_tod_count s) s)))))) /\
    length tod = length (s_tod s) /\
    0 <= cnt <= RDM_TOD_MAX_DEVICES /\
    (rx_wf (s_rx s) -> rx_wf r) /\
    response_dsts (snd (rdm_task bus_tx bus_rx now later (s, bus))) = [] /\
    exists evs, snd (rdm_task bus_tx bus_rx now later (s, bus))
                = EvBusSend branch_frame :: evs.
Proof.
  intros H Hc Hd (Hl & Hlp & Hcount).
  rewrite task_discovery by assumption. cbv zeta. cbn [fst snd].
  set (s1 := set_tod_prev _ _ _).
  destruct (run_discovery_cycle_shape s1 bus)
    as (r & tod & cnt & busy & Heq & Hlen & Hcnt & Hrx & Hev & _).
  destruct (run_discovery_cycle_starts s1 bus) as (evs & Hevs).
  exists r, tod, cnt. rewrite Heq.
  split.
  - cbn [s_tod s_disc_tod_count s_tod_count s_tod_prev s_tod_prev_count
         set_bus_busy set_disc_tod set_rx set_tod set_tod_prev set_discovery
         s1].
    rewrite tod_compare
      by (unfold RDM_TOD_MAX_DEVICES in *; rewrite ?Hlen; cbn [s_tod s1 set_tod_prev set_discovery];
          lia).
    fold (tod_table s).
    destruct (negb (bool_decide (firstn (Z.to_nat cnt) tod = tod_table s)));
      destruct s; cbn; rewrite ?orb_true_r, ?orb_false_r; reflexivity.
  - split; [exact Hlen|]. split; [exact Hcnt|]. split; [exact Hrx|].
    split; [exact Hev|]. exists evs. exact Hevs.
Qed.

End Discovery.

(** ** The engine invariant is kept by every call *)

Ltac proj_simpl :=
  cbn [s_req_buf s_req_head s_req_tail s_req_count s_state s_retry
       s_timeout_start_ms s_active_idx s_resp_buf s_resp_len s_rx s_tod
       s_tod_count s_tod_changed s_tod_prev s_tod_prev_count
       s_discovery_last_ms s_discovery_active s_disc_tod_count s_resp_cb
       g_rdm_bus_busy
       set_queue set_sm set_state set_resp set_rx set_tod set_tod_changed
       set_tod_prev set_discovery set_disc_tod set_resp_cb set_bus_busy
       fst snd] in *.

Ltac wf_unfold :=
  unfold engine_wf, queue_wf, resp_wf, tod_wf, txn_wf, in_flight,
    start_wait, finish_txn, after_send, active_req, head_req in *;
  proj_simpl.

Lemma irq_pushes_wf (bytes : list Z) :
  forall r, rx_wf r -> rx_wf (fold_left (fun r b => rx_push b r) bytes r).
Proof.
  induction bytes as [|b bytes IH]; intros r H; simpl; [assumption|].
  apply IH, rx_push_wf, H.
Qed.

Lemma engine_wf_boot : engine_wf rdm_boot.
Proof.
  unfold engine_wf, queue_wf, rx_wf, resp_wf, tod_wf, txn_wf.
  vm_compute. repeat split; congruence.
Qed.

Lemma state_cases (st : rdm_state_t) :
  st = SM_IDLE \/ st = SM_SENDING \/ st = SM_WAITING_RESPONSE \/
  (st = SM_RETRY \/ st = SM_DISCOVERY \/ st = SM_DONE).
Proof. destruct st; tauto. Qed.

Section Invariant.

Context {B : Type}.
Variable bus_tx : B -> list Z -> B.
Variable bus_rx : B -> Z -> list Z * B.

Lemma task_wf (now later : Z) (s : rdm_state) (bus : B) :
  engine_wf s ->
  engine_wf (fst (fst (rdm_task bus_tx bus_rx now later (s, bus)))).
Proof.
  intros Hwf.
  destruct (state_cases (s_state s)) as [Hst | [Hst | [Hst | Hst]]].
  - (* idle *)
    destruct (Z.lt_ge_cases 0 (s_req_count s)) as [Hc | Hc].
    + rewrite task_idle_start by assumption.
      destruct Hwf as (Hq & Hrx & Hr & Ht & Hx).
      split; [|split; [|split; [|split]]]; wf_unfold.
      * exact Hq.
      * apply rx_flush_wf, Hrx.
      * unfold RDM_MAX_PACKET_SIZE in *. repeat split; try tauto; lia.
      * exact Ht.
      * intros _. unfold RDM_RETRY_COUNT. repeat split; try tauto; lia.
    + destruct (discovery_due now s) eqn:Hd.
      * destruct Hwf as (Hq & Hrx & Hr & Ht & Hx).
        destruct (task_discovery_effect bus_tx bus_rx now later s bus
                    Hst Hc Hd Ht)
          as (r & tod & cnt & Heq & Hlen & Hcnt & Hrx' & _).
        rewrite Heq.
        split; [|split; [|split; [|split]]]; wf_unfold.
        -- exact Hq.
        -- apply Hrx', Hrx.
        -- exact Hr.
        -- destruct Ht as (Hl1 & Hl2 & Hc2).
           split; [congruence|]. split; [|exact Hcnt].
           unfold memcpy. rewrite length_app, length_take, length_drop.
           unfold RDM_TOD_MAX_DEVICES in *. lia.
        -- rewrite Hst. discriminate.
      * now rewrite task_idle_quiet by assumption.
  - (* sending *)
    rewrite task_sending by assumption.
    destruct Hwf as (Hq & Hrx & Hr & Ht & Hx).
    split; [|split; [|split; [|split]]]; wf_unfold.
    + exact Hq.
    + apply rx_flush_wf, Hrx.
    + unfold RDM_MAX_PACKET_SIZE in *. repeat split; try tauto; lia.
    + exact Ht.
    + intros _. rewrite Hst in Hx. apply Hx. reflexivity.
  - (* waiting *)
    rewrite task_waiting by assumption. cbv zeta.
    destruct (collect_response_shape s) as (r & buf & len & Heq & Hrx' & Hr').
    rewrite Heq.
    destruct Hwf as (Hq & Hrx & Hr & Ht & Hx).
    specialize (Hrx' Hrx). specialize (Hr' Hr).
    assert (Hx' : s_active_idx s = s_req_head s /\ 0 < s_req_count s /\
                  0 <= s_retry s <= RDM_RETRY_COUNT).
    { apply Hx. unfold in_flight. rewrite Hst. reflexivity. }
    destruct Hx' as (Ha & Hc & Hret).
    destruct (_ || _).
    + destruct (negb _ && _) eqn:Hre.
      * apply andb_prop in Hre as [_ Hre]. apply Z.ltb_lt in Hre.
        split; [|split; [|split; [|split]]]; wf_unfold.
        -- exact Hq.
        -- exact Hrx'.
        -- exact Hr'.
        -- exact Ht.
        -- intros _. unfold RDM_RETRY_COUNT in *.
           repeat split; try tauto; try lia; ring_arith.
      * split; [|split; [|split; [|split]]]; wf_unfold.
        -- destruct Hq as (Hl & Hh & Hcn & Htl). rewrite length_insert.
           split; [exact Hl|]. rewrite Htl. repeat split; ring_arith.
        -- exact Hrx'.
        -- exact Hr'.
        -- exact Ht.
        -- discriminate.
    + split; [|split; [|split; [|split]]]; wf_unfold.
      * exact Hq.
      * exact Hrx'.
      * exact Hr'.
      * exact Ht.
      * intros _. tauto.
  - (* the states the machine never enters *)
    now rewrite task_other by assumption.
Qed.

Lemma apply_op_wf (o : op) (w : @world B) :
  engine_wf (fst w) -> engine_wf (fst (fst (apply_op bus_tx bus_rx o w))).
Proof.
  intros Hwf. destruct w as [s bus]. cbn [fst] in Hwf.
  destruct o as [bytes | data len ip port | | | | now later]; cbn [apply_op fst snd].
  - destruct Hwf as (Hq & Hrx & Hr & Ht & Hx).
    unfold uart1_irq_handler.
    split; [|split; [|split; [|split]]]; wf_unfold; try assumption.
    now apply irq_pushes_wf.
  - destruct (Z.lt_ge_cases (s_req_count s) RDM_REQUEST_BUFFER_SIZE) as [Hc | Hc];
      [destruct (Z.le_gt_cases len RDM_MAX_PACKET_SIZE) as [Hl | Hl]|].
    + destruct Hwf as (Hq & Hrx & Hr & Ht & Hx).
      destruct (enqueue_accepted data len ip port s Hq Hc Hl)
        as (_ & Hq' & Hh' & Hc' & _).
      split; [exact Hq'|].
      unfold rdm_enqueue_request in *.
      replace (RDM_REQUEST_BUFFER_SIZE <=? s_req_count s) with false in *
        by (symmetry; apply Z.leb_gt; lia).
      replace (RDM_MAX_PACKET_SIZE <? len) with false in *
        by (symmetry; apply Z.ltb_ge; lia).
      split; [|split; [|split]]; wf_unfold; try assumption.
      intros Hfl. specialize (Hx Hfl). destruct Hq as (_ & _ & Hcn & _).
      repeat split; try tauto; ring_arith.
    + now rewrite enqueue_rejected by lia.
    + now rewrite enqueue_rejected by lia.
  - destruct Hwf as (Hq & Hrx & Hr & Ht & Hx). unfold rdm_get_tod.
    split; [|split; [|split; [|split]]]; wf_unfold; assumption.
  - destruct Hwf as (Hq & Hrx & Hr & Ht & Hx). unfold rdm_flush_tod.
    split; [|split; [|split; [|split]]]; wf_unfold; try assumption.
    unfold RDM_TOD_MAX_DEVICES in *. repeat split; try tauto; lia.
  - exact Hwf.
  - apply task_wf, Hwf.
Qed.

Lemma run_wf (ops : list op) :
  forall w : @world B,
    engine_wf (fst w) -> engine_wf (fst (fst (run bus_tx bus_rx ops w))).
Proof.
  induction ops as [|o ops IH]; intros w Hwf; [exact Hwf|].
  cbn [run]. pose proof (apply_op_wf o w Hwf) as H1.
  destruct (apply_op bus_tx bus_rx o w) as [w1 ev].
  specialize (IH w1 H1). destruct (run bus_tx bus_rx ops w1) as [w2 evs].
  exact IH.
Qed.

End Invariant.

(** ** The Table of Devices and its changed flag (C5, C6, C7) *)

Lemma discovery_due_idle (now : Z) (s : rdm_state) :
  discovery_due now s = true -> s_state s = SM_IDLE /\ s_req_count s <= 0.
Proof.
  unfold discovery_due. intros H.
  apply andb_prop in H as [H _]. apply andb_prop in H as [H1 H2].
  split; [destruct (s_state s); try discriminate; reflexivity|].
  apply negb_true_iff, Z.ltb_ge in H2. exact H2.
Qed.

Section TodFlag.

Context {B : Type}.
Variable bus_tx : B -> list Z -> B.
Variable bus_rx : B -> Z -> list Z * B.

(** A call of rdm_task that runs no discovery cycle leaves the table and
    its flag alone. *)
Lemma task_tod_frame (now later : Z) (s : rdm_state) (bus : B) :
  discovery_due now s = false ->
  let s' := fst (fst (rdm_task bus_tx bus_rx now later (s, bus))) in
  s_tod s' = s_tod s /\ s_tod_count s' = s_tod_count s /\
  s_tod_changed s' = s_tod_changed s.
Proof.
  intros Hd.
  destruct (state_cases (s_state s)) as [Hst | [Hst | [Hst | Hst]]].
  - destruct (Z.lt_ge_cases 0 (s_req_count s)) as [Hc | Hc].
    + rewrite task_idle_start by assumption. wf_unfold. tauto.
    + rewrite task_idle_quiet by assumption. cbn. tauto.
  - rewrite task_sending by assumption. wf_unfold. tauto.
  - rewrite task_waiting by assumption. cbv zeta.
    destruct (collect_response_shape s) as (r & buf & len & Heq & _).
    rewrite Heq. destruct (_ || _); [destruct (_ && _)|]; wf_unfold; tauto.
  - rewrite task_other by assumption. cbn. tauto.
Qed.

(** C5, with the second writer the code has.  For every call into the
    engine, on a state whose table is well formed:
    - the changed flag goes from false to true only in rdm_flush_tod, or
      in a call of rdm_task that runs a discovery cycle after which the
      current table differs from the table before the cycle;
    - the flag goes from true to false only in rdm_get_tod;
    - rdm_flush_tod always leaves the flag true and rdm_get_tod always
      leaves it false; rdm_enqueue_request, the UART interrupt and
      rdm_tod_changed never modify it; a call of rdm_task that runs a
      discovery cycle leaves it true exactly when it was true before or
      the table changed. *)
Theorem tod_changed_flag_writers (o : op) (w : @world B) :
  tod_wf (fst w) ->
  let s := fst w in
  let s' := fst (fst (apply_op bus_tx bus_rx o w)) in
  (s_tod_changed s = false -> s_tod_changed s' = true ->
   o = OpFlushTod \/
   exists now later, o = OpTask now later /\ discovery_due now s = true /\
                     tod_table s' <> tod_table s) /\
  (s_tod_changed s = true -> s_tod_changed s' = false -> o = OpGetTod) /\
  match o with
  | OpFlushTod => s_tod_changed s' = true
  | OpGetTod => s_tod_changed s' = false
  | OpEnqueue _ _ _ _ | OpIrq _ | OpTodChanged =>
      s_tod_changed s' = s_tod_changed s
  | OpTask now _ =>
      if discovery_due now s
      then s_tod_changed s'
           = s_tod_changed s
             || negb (bool_decide (tod_table s' = tod_table s))
      else s_tod_changed s' = s_tod_changed s
  end.
Proof.
  intros Hwf s s'. destruct w as [s0 bus]. cbn [fst] in *. subst s.
  assert (Hop :
    match o with
    | OpFlushTod => s_tod_changed s' = true
    | OpGetTod => s_tod_changed s' = false
    | OpEnqueue _ _ _ _ | OpIrq _ | OpTodChanged =>
        s_tod_changed s' = s_tod_changed s0
    | OpTask now _ =>
        if discovery_due now s0
        then s_tod_changed s'
             = s_tod_changed s0
               || negb (bool_decide (tod_table s' = tod_table s0))
        else s_tod_changed s' = s_tod_changed s0
    end).
  { subst s'.
    destruct o as [bytes | data len ip port | | | | now later];
      cbn [apply_op fst snd]; try reflexivity.
    - unfold rdm_enqueue_request.
      destruct (_ <=? _); [reflexivity|]. destruct (_ <? _); reflexivity.
    - destruct (discovery_due now s0) eqn:Hd.
      + destruct (discovery_due_idle now s0 Hd) as [Hst Hc].
        destruct (task_discovery_effect bus_tx bus_rx now later s0 bus
                    Hst Hc Hd Hwf) as (r & tod & cnt & Heq & _).
        rewrite Heq. unfold tod_table at 2. proj_simpl. reflexivity.
      + apply (task_tod_frame now later s0 bus Hd). }
  split; [|split; [|exact Hop]].
  - intros Hf Ht.
    destruct o as [bytes | data len ip port | | | | now later];
      cbv beta iota in Hop;
      try (rewrite Hop in Ht; congruence); [left; reflexivity|].
    right. exists now, later. split; [reflexivity|].
    destruct (discovery_due now s0) eqn:Hd; [|congruence].
    split; [reflexivity|].
    rewrite Hf in Hop. cbn [orb] in Hop. rewrite Ht in Hop.
    symmetry in Hop. apply negb_true_iff, bool_decide_eq_false_1 in Hop.
    exact Hop.
  - intros Ht Hf.
    destruct o as [bytes | data len ip port | | | | now later];
      cbv beta iota in Hop;
      try (rewrite Hop in Hf; congruence).
    destruct (discovery_due now s0); rewrite Hop, Ht in Hf; discriminate.
Qed.

End TodFlag.

(** ** Reading the table twice (C7) *)

Section TodReads.

Context {B : Type}.
Variable bus_tx : B -> list Z -> B.
Variable bus_rx : B -> Z -> list Z * B.

(** A call that is neither rdm_flush_tod nor a call of rdm_task that runs
    a discovery cycle leaves the table as it is and does not raise the
    flag. *)
Lemma apply_op_tod_frame (o : op) (w : @world B) :
  changes_tod o (fst w) = false ->
  let s' := fst (fst (apply_op bus_tx bus_rx o w)) in
  s_tod s' = s_tod (fst w) /\ s_tod_count s' = s_tod_count (fst w) /\
  (s_tod_changed (fst w) = false -> s_tod_changed s' = false).
Proof.
  destruct w as [s bus]. cbn [fst].
  destruct o as [bytes | data len ip port | | | | now later];
    cbn [changes_tod apply_op fst snd]; intros Hc; try discriminate.
  - repeat split; auto.
  - unfold rdm_enqueue_request.
    destruct (_ <=? _); [cbn; tauto|]. destruct (_ <? _); cbn; tauto.
  - repeat split; auto.
  - repeat split; auto.
  - destruct (task_tod_frame bus_tx bus_rx now later s bus Hc)
      as (H1 & H2 & H3).
    split; [exact H1|]. split; [exact H2|]. intros Hf. now rewrite H3.
Qed.

Lemma run_tod_frame (ops : list op) :
  forall w : @world B,
    run_all bus_tx bus_rx (fun o s => negb (changes_tod o s)) ops w = true ->
    let s' := fst (fst (run bus_tx bus_rx ops w)) in
    s_tod s' = s_tod (fst w) /\ s_tod_count s' = s_tod_count (fst w) /\
    (s_tod_changed (fst w) = false -> s_tod_changed s' = false).
Proof.
  induction ops as [|o ops IH]; intros w Hall.
  - cbn [run fst snd]. tauto.
  - cbn [run_all] in Hall. apply andb_prop in Hall as [Ho Hall].
    apply negb_true_iff in Ho.
    destruct (apply_op_tod_frame o w Ho) as (H1 & H2 & H3).
    cbn [run]. destruct (apply_op bus_tx bus_rx o w) as [w1 ev].
    cbn [fst snd] in *.
    destruct (IH w1 Hall) as (I1 & I2 & I3).
    destruct (run bus_tx bus_rx ops w1) as [w2 evs]. cbn [fst snd] in *.
    split; [congruence|]. split; [congruence|]. auto.
Qed.

(** C7, with rdm_flush_tod excluded as well.  Take two calls of
    rdm_get_tod with any calls between them: rdm_task at any clock
    readings, UART interrupts, rdm_enqueue_request, rdm_tod_changed,
    further reads.  When none of the calls between is a call of rdm_task
    that runs a discovery cycle and none is rdm_flush_tod, the two reads
    return the same entries and the same count, hence the same table; the
    changed flag is false after the first read, is still false when the
    second read is made, and is false after it. *)
Theorem rdm_get_tod_idempotent (ops : list op) (w : @world B) :
  run_all bus_tx bus_rx (fun o s => negb (changes_tod o s)) ops
          (snd (rdm_get_tod (fst w)), snd w) = true ->
  let read1 := rdm_get_tod (fst w) in
  let s1 := snd read1 in
  let w2 := fst (run bus_tx bus_rx ops (s1, snd w)) in
  let read2 := rdm_get_tod (fst w2) in
  fst read1 = fst read2 /\
  firstn (Z.to_nat (snd (fst read1))) (fst (fst read1))
  = firstn (Z.to_nat (snd (fst read2))) (fst (fst read2)) /\
  rdm_tod_changed s1 = false /\ rdm_tod_changed (fst w2) = false /\
  rdm_tod_changed (snd read2) = false.
Proof.
  intros Hall read1 s1 w2 read2.
  destruct (run_tod_frame ops _ Hall) as (H1 & H2 & H3).
  fold read1 in H1, H2, H3. fold s1 in H1, H2, H3. fold w2 in H1, H2, H3.
  cbn [fst] in H1, H2, H3.
  assert (Ht : s_tod s1 = s_tod (fst w)) by (destruct (fst w); reflexivity).
  assert (Hc : s_tod_count s1 = s_tod_count (fst w))
    by (destruct (fst w); reflexivity).
  assert (Hf : s_tod_changed s1 = false) by (destruct (fst w); reflexivity).
  rewrite Ht in H1. rewrite Hc in H2. specialize (H3 Hf).
  subst read1 read2. unfold rdm_get_tod, rdm_tod_changed. cbn [fst snd].
  split; [now rewrite H1, H2|]. split; [now rewrite H1, H2|].
  split; [exact Hf|]. split; [exact H3|].
  destruct (fst w2); reflexivity.
Qed.

End TodReads.

(** A scene for the examples: the engine started, a first discovery cycle
    at 10 s on a bus with one device, 01:02:03:04:05:06. *)
Lemma one_device_table :
  let w := fst (run script_tx script_rx [OpTask 10000 10040]
                  (rdm_start true, [sim_reply [1; 2; 3; 4; 5; 6]; []; []])) in
  tod_table (fst w) = [[1; 2; 3; 4; 5; 6]] /\ s_tod_changed (fst w) = true.
Proof. vm_compute. split; reflexivity. Qed.

(** The table read, a request served without an answer, the table read
    again: the same table, and the flag stays false. *)
Lemma rdm_get_tod_idempotent_witness :
  let w := fst (run script_tx script_rx [OpTask 10000 10040]
                  (rdm_start true, [sim_reply [1; 2; 3; 4; 5; 6]; []; []])) in
  let ops := [OpTodChanged; OpEnqueue demo_request 26 0x0200000A 6454;
              OpTask 10050 10050; OpIrq [1; 2; 3]; OpTask 10151 10151;
              OpGetTod] in
  let s1 := snd (rdm_get_tod (fst w)) in
  let w2 := fst (run script_tx script_rx ops (s1, snd w)) in
  run_all script_tx script_rx (fun o s => negb (changes_tod o s)) ops
          (s1, snd w) = true /\
  fst (rdm_get_tod (fst w)) = (s_tod (fst w), 1) /\
  fst (rdm_get_tod (fst w2)) = fst (rdm_get_tod (fst w)) /\
  tod_table (fst w2) = [[1; 2; 3; 4; 5; 6]] /\
  rdm_tod_changed s1 = false /\ rdm_tod_changed (fst w2) = false.
Proof.
  intros w ops s1 w2.
  assert (Hall : run_all script_tx script_rx
                   (fun o s => negb (changes_tod o s)) ops
                   (snd (rdm_get_tod (fst w)), snd w) = true)
    by (vm_compute; reflexivity).
  destruct (rdm_get_tod_idempotent script_tx script_rx ops w Hall)
    as (H1 & _ & H4 & H5 & _).
  split; [exact Hall|]. split; [vm_compute; reflexivity|].
  split; [symmetry; exact H1|].
  split; [vm_compute; reflexivity|]. split; [exact H4 | exact H5].
Defined.

(** C7 as stated fails: with a call of rdm_flush_tod between the two
    reads, and no discovery cycle, the first read returns one entry and
    the second none, and the second read finds the flag true.  This is
    what artnet_recv does for an ArtTodControl with the flush command
    after an ArtTodRequest. *)
Lemma rdm_get_tod_counterexample :
  let w := fst (run script_tx script_rx [OpTask 10000 10040]
                  (rdm_start true, [sim_reply [1; 2; 3; 4; 5; 6]; []; []])) in
  let s1 := snd (rdm_get_tod (fst w)) in
  let r := run script_tx script_rx [OpFlushTod] (s1, snd w) in
  snd r = [] /\
  snd (fst (rdm_get_tod (fst w))) = 1 /\
  snd (fst (rdm_get_tod (fst (fst r)))) = 0 /\
  tod_table (fst w) = [[1; 2; 3; 4; 5; 6]] /\
  tod_table (fst (fst r)) = [] /\
  rdm_tod_changed s1 = false /\ rdm_tod_changed (fst (fst r)) = true.
Proof. vm_compute. repeat split; reflexivity. Qed.

(** At boot the flag is false; a flush raises it with no discovery cycle
    run; reading the table clears it again. *)
Lemma tod_changed_flag_writers_witness :
  let w := (rdm_boot, tt) in
  tod_wf (fst w) /\
  s_tod_changed (fst (fst (apply_op null_tx null_rx OpFlushTod w))) = true /\
  s_tod_changed
    (fst (fst (apply_op null_tx null_rx OpGetTod
                 (fst (apply_op null_tx null_rx OpFlushTod w))))) = false.
Proof.
  intros w.
  assert (Hwf : tod_wf (fst w)) by (vm_compute; repeat split; congruence).
  split; [exact Hwf|]. split.
  - destruct (tod_changed_flag_writers null_tx null_rx OpFlushTod w Hwf)
      as (_ & _ & H). exact H.
  - reflexivity.
Defined.

(** C5 as stated fails: rdm_flush_tod does modify the flag.  From the boot
    state, where the flag is false, a flush leaves it true although no
    discovery cycle has run. *)
Lemma tod_changed_flag_counterexample :
  s_tod_changed rdm_boot = false /\
  s_tod_changed (rdm_flush_tod rdm_boot) = true /\
  s_tod_changed (rdm_flush_tod rdm_boot) <> s_tod_changed rdm_boot.
Proof.
  split; [reflexivity|]. split; [reflexivity | discriminate].
Qed.

(** C6 at a call made before the first interval has elapsed.  Four
    seconds after boot rdm_flush_tod empties the table, but the next call
    of rdm_task, idle and with an empty queue, starts no discovery cycle:
    nothing is sent and the state stays as it is.  The flush stores 0 in
    s_discovery_last_ms, so the interval test compares the clock itself
    with 10000 ms; the same call at 10000 ms does start a cycle. *)
Theorem flush_tod_early_no_discovery :
  let s1 := rdm_flush_tod rdm_boot in
  s_tod_count s1 = 0 /\ tod_table s1 = [] /\
  s_state s1 = SM_IDLE /\ s_req_count s1 = 0 /\
  discovery_due 4001 s1 = false /\
  rdm_task null_tx null_rx 4001 4001 (s1, tt) = ((s1, tt), []) /\
  snd (rdm_task null_tx null_rx 10000 10000 (s1, tt)) = [EvBusSend branch_frame].
Proof.
  intros s1. repeat split; vm_compute; reflexivity.
Qed.

(** The same for every state and every clock below the interval: after a
    flush an idle call with an empty queue runs no discovery cycle. *)
Lemma flush_tod_then_task_early {B : Type} (bus_tx : B -> list Z -> B)
    (bus_rx : B -> Z -> list Z * B) (now later : Z) (s : rdm_state) (bus : B) :
  s_state s = SM_IDLE -> s_req_count s <= 0 -> s_discovery_active s = false ->
  0 <= now < RDM_DISCOVERY_INTERVAL_MS ->
  rdm_task bus_tx bus_rx now later (rdm_flush_tod s, bus)
  = ((rdm_flush_tod s, bus), []).
Proof.
  intros Hst Hc Ha Hnow. apply task_idle_quiet; try assumption.
  unfold discovery_due, rdm_flush_tod. proj_simpl. rewrite Hst, Ha.
  replace (0 <? s_req_count s) with false by (symmetry; apply Z.ltb_ge; lia).
  cbn [rdm_state_eqb andb negb orb]. apply Z.leb_gt.
  unfold RDM_DISCOVERY_INTERVAL_MS in *. ring_arith.
Qed.

(** Once the clock has passed the interval, a flush does force a cycle. *)
Lemma flush_tod_then_task_late {B : Type} (bus_tx : B -> list Z -> B)
    (bus_rx : B -> Z -> list Z * B) (now later : Z) (s : rdm_state) (bus : B) :
  s_state s = SM_IDLE -> s_req_count s <= 0 -> tod_wf s ->
  RDM_DISCOVERY_INTERVAL_MS <= now < 4294967296 ->
  exists evs,
    snd (rdm_task bus_tx bus_rx now later (rdm_flush_tod s, bus))
    = EvBusSend branch_frame :: evs.
Proof.
  intros Hst Hc Hwf Hnow.
  assert (Hd : discovery_due now (rdm_flush_tod s) = true).
  { unfold discovery_due, rdm_flush_tod. proj_simpl. rewrite Hst.
    replace (0 <? s_req_count s) with false by (symmetry; apply Z.ltb_ge; lia).
    cbn [rdm_state_eqb andb negb]. apply orb_true_iff. right. apply Z.leb_le.
    unfold RDM_DISCOVERY_INTERVAL_MS in *. ring_arith. }
  assert (Hwf' : tod_wf (rdm_flush_tod s)).
  { destruct Hwf as (H1 & H2 & H3). unfold tod_wf, rdm_flush_tod. proj_simpl.
    unfold RDM_TOD_MAX_DEVICES in *. repeat split; try assumption; lia. }
  destruct (task_discovery_effect bus_tx bus_rx now later (rdm_flush_tod s) bus
              Hst Hc Hd Hwf') as (_ & _ & _ & _ & _ & _ & _ & _ & Hev).
  exact Hev.
Qed.

(** ** Trailing bytes behind a valid response (C9) *)

Lemma response_well_formed_app (msg extra : list Z) :
  response_well_formed msg -> response_well_formed (msg ++ extra).
Proof.
  intros (H0 & H1 & m & hi & lo & H2 & Hm & Hhi & Hlo & Hsum).
  pose proof (lookup_lt_Some _ _ _ Hhi) as Lhi.
  pose proof (lookup_lt_Some _ _ _ Hlo) as Llo.
  unfold response_well_formed.
  rewrite !lookup_app_l by (eapply lookup_lt_Some; eassumption).
  split; [exact H0|]. split; [exact H1|].
  exists m, hi, lo.
  rewrite !lookup_app_l by assumption.
  rewrite length_app, take_app_le by lia.
  repeat split; try assumption. lia.
Qed.

Section TrailingBytes.

Context {B : Type}.
Variable bus_tx : B -> list Z -> B.
Variable bus_rx : B -> Z -> list Z * B.

(** C9.  In the waiting state, with a callback registered: when the bytes
    collected so far are a well-formed response [msg] (start codes,
    declared length, checksum) followed by further bytes [extra], the
    response is judged valid although it is longer than the declared
    length plus two, and the callback receives all collected bytes, the
    trailing ones included, with the full collected length. *)
Theorem trailing_bytes_forwarded (now later : Z) (s : rdm_state) (bus : B)
    (msg extra : list Z) :
  s_state s = SM_WAITING_RESPONSE ->
  s_resp_cb s = true ->
  resp_wf s ->
  let s' := collect_response s in
  firstn (Z.to_nat (s_resp_len s')) (s_resp_buf s') = msg ++ extra ->
  response_well_formed msg ->
  Z.of_nat (length msg) = rd msg 2 + 2 ->
  extra <> [] ->
  rd (s_resp_buf s') 2 + 2 < s_resp_len s' /\
  rdm_validate_response (s_resp_buf s') (s_resp_len s') = true /\
  s_resp_len s' = Z.of_nat (length (msg ++ extra)) /\
  snd (rdm_task bus_tx bus_rx now later (s, bus))
  = [EvResponse (Some (msg ++ extra)) (Z.of_nat (length (msg ++ extra)))
                (req_src_ip (active_req s)) (req_src_port (active_req s))].
Proof.
  intros Hst Hcb Hwf s' Hcol Hmsg Hlen Hextra.
  destruct (collect_response_shape s) as (r & buf & len & Heq & _ & Hr').
  specialize (Hr' Hwf). fold s' in Heq.
  assert (Hwf' : resp_wf s') by (rewrite Heq; exact Hr').
  destruct Hwf' as (Hl & Hb & Hn). unfold RDM_MAX_PACKET_SIZE in *.
  assert (Hlen' : s_resp_len s' = Z.of_nat (length (msg ++ extra))).
  { rewrite <- Hcol, length_take. lia. }
  assert (Hvalid : rdm_validate_response (s_resp_buf s') (s_resp_len s') = true).
  { apply well_formed_validate; [exact Hb | lia |].
    rewrite Hcol. now apply response_well_formed_app. }
  assert (Hrd2 : rd (s_resp_buf s') 2 = rd msg 2).
  { destruct Hmsg as (_ & _ & m & hi & lo & H2 & _).
    rewrite (rd_lookup msg 2 m H2).
    apply rd_lookup.
    assert (H2' : (msg ++ extra) !! 2%nat = Some m)
      by (rewrite lookup_app_l; [exact H2 | eapply lookup_lt_Some; eassumption]).
    rewrite <- Hcol in H2'. apply lookup_take_Some in H2'. apply H2'. }
  split.
  { rewrite Hrd2, Hlen', length_app.
    destruct extra; [congruence|]. cbn [length]. lia. }
  split; [exact Hvalid|]. split; [exact Hlen'|].
  rewrite task_waiting by assumption. cbv zeta. fold s'.
  rewrite Hvalid. cbn [orb negb andb snd].
  unfold txn_response.
  replace (s_resp_cb s') with true by (rewrite Heq; proj_simpl; congruence).
  rewrite Hcol, Hlen'.
  replace (active_req s') with (active_req s)
    by (rewrite Heq; unfold active_req; proj_simpl; reflexivity).
  reflexivity.
Qed.

End TrailingBytes.

(** ** First in, first served (C3) *)

Lemma queue_pop (s : rdm_state) :
  queue_wf s -> 0 < s_req_count s -> s_active_idx s = s_req_head s ->
  queue_contents s = head_req s :: queue_contents (finish_txn s).
Proof.
  intros (Hl & Hh & Hc & Ht) Hpos Ha.
  unfold queue_contents, finish_txn, head_req, active_req. proj_simpl.
  rewrite Ha.
  assert (Hc' : u8 (s_req_count s - 1) = s_req_count s - 1) by ring_arith.
  rewrite Hc'.
  replace (Z.to_nat (s_req_count s)) with (S (Z.to_nat (s_req_count s - 1)))
    by lia.
  cbn [seq map]. f_equal.
  - do 2 f_equal. ring_arith.
  - rewrite <- seq_shift, map_map. apply map_ext_in. intros k Hk.
    apply in_seq in Hk.
    rewrite !nth_lookup, list_lookup_insert_ne by ring_arith.
    do 3 f_equal. ring_arith.
Qed.

Section Fifo.

Context {B : Type}.
Variable bus_tx : B -> list Z -> B.
Variable bus_rx : B -> Z -> list Z * B.




Lemma response_dsts_app (e1 e2 : list event) :
  response_dsts (e1 ++ e2) = response_dsts e1 ++ response_dsts e2.
Proof. unfold response_dsts. apply flat_map_app. Qed.


End Fifo.

(** ** One transaction from start to report (C1) *)

Lemma bytes_ok_take (a : list Z) (n : nat) :
  bytes_ok a = true -> bytes_ok (firstn n a) = true.
Proof.
  unfold bytes_ok. rewrite !forallb_forall. intros H x Hx.
  apply H. apply list_elem_of_In. apply list_elem_of_In in Hx.
  apply elem_of_take in Hx as (i & Hi & _).
  apply list_elem_of_lookup. eauto.
Qed.

(** Validation reads the collected bytes only. *)
Lemma validate_take (buf : list Z) (len : Z) :
  bytes_ok buf = true -> 0 <= len <= Z.of_nat (length buf) ->
  rdm_validate_response (firstn (Z.to_nat len) buf) len
  = rdm_validate_response buf len.
Proof.
  intros Hb Hl.
  assert (Hl' : 0 <= len <= Z.of_nat (length (firstn (Z.to_nat len) buf)))
    by (rewrite length_take; lia).
  pose proof (validate_well_formed buf len Hb Hl) as H1.
  pose proof (well_formed_validate buf len Hb Hl) as H1'.
  pose proof (validate_well_formed _ len (bytes_ok_take _ _ Hb) Hl') as H2.
  pose proof (well_formed_validate _ len (bytes_ok_take _ _ Hb) Hl') as H2'.
  rewrite take_take_le in H2, H2' by lia.
  destruct (rdm_validate_response buf len);
    destruct (rdm_validate_response (firstn (Z.to_nat len) buf) len);
    try reflexivity; intuition congruence.
Qed.

Lemma enqueue_keeps_head (data : list Z) (len ip port : Z) (s : rdm_state) :
  queue_wf s -> 0 < s_req_count s ->
  let s' := snd (rdm_enqueue_request data len ip port s) in
  s_req_head s' = s_req_head s /\ head_req s' = head_req s /\
  0 < s_req_count s' /\
  s_state s' = s_state s /\ s_retry s' = s_retry s /\
  s_resp_cb s' = s_resp_cb s.
Proof.
  intros Hq Hpos s'. subst s'.
  destruct (Z.lt_ge_cases (s_req_count s) RDM_REQUEST_BUFFER_SIZE) as [Hc | Hc];
    [destruct (Z.le_gt_cases len RDM_MAX_PACKET_SIZE) as [Hl | Hl]|].
  - destruct (enqueue_accepted data len ip port s Hq Hc Hl)
      as (_ & _ & Hh & Hcnt & Hbuf & _).
    destruct Hq as (Hlen & Hhd & Hcn & Htl).
    split; [exact Hh|]. split.
    + unfold head_req. rewrite Hh, Hbuf.
      rewrite !nth_lookup, list_lookup_insert_ne; [reflexivity|].
      rewrite Htl. ring_arith.
    + split; [lia|]. unfold rdm_enqueue_request.
      destruct (_ <=? _); [tauto|]. destruct (_ <? _); tauto.
  - rewrite enqueue_rejected by lia. cbn [snd]. tauto.
  - rewrite enqueue_rejected by lia. cbn [snd]. tauto.
Qed.

Lemma txn_inv_budget (r0 : rdm_request_t) (h0 : Z) (k : nat) (s : rdm_state) :
  txn_inv r0 h0 k s -> 0 <= txn_budget s /\ (k <= 3)%nat.
Proof.
  intros ((_ & _ & _ & _ & Hx) & _ & _ & _ & _ & Hst).
  unfold txn_budget, txn_wf, in_flight, RDM_RETRY_COUNT in *.
  destruct (s_state s); try contradiction; cbn in Hx; lia.
Qed.

Section Transaction.

Context {B : Type}.
Variable bus_tx : B -> list Z -> B.
Variable bus_rx : B -> Z -> list Z * B.
Variable r0 : rdm_request_t.
Variable h0 : Z.

(** What one call does to a transaction in progress: it goes on, with
    nothing or one more transmission of the same frame on the wire, or it
    ends with exactly one call of the callback. *)
Lemma txn_step (o : op) (w : @world B) (k : nat) :
  txn_inv r0 h0 k (fst w) ->
  let r := apply_op bus_tx bus_rx o w in
  let s := fst w in
  let s1 := fst (fst r) in
  let stop := is_task o && rdm_state_eqb (s_state s1) SM_IDLE in
  (stop = false /\
   ((snd r = [] /\ txn_inv r0 h0 k s1) \/
    (snd r = [EvBusSend (req_frame r0)] /\ txn_inv r0 h0 (S k) s1)) /\
   txn_budget s1 <= txn_budget s /\
   (wait_expired o s = true -> txn_budget s1 + 1 <= txn_budget s)) \/
  (stop = true /\ (1 <= k <= 3)%nat /\
   s_req_head s1 = (h0 + 1) mod RDM_REQUEST_BUFFER_SIZE /\
   ((snd r = [failure_sentinel r0] /\ k = 3%nat /\ wait_invalid o s = true) \/
    (exists R, snd r = [R] /\ is_valid_report r0 R /\
               wait_invalid o s = false))).
Proof.
  destruct w as [s bus]. cbn [fst]. intros Hinv. cbv zeta.
  pose proof (apply_op_wf bus_tx bus_rx o (s, bus) (proj1 Hinv)) as Hwf1.
  cbn [fst] in Hwf1.
  destruct Hinv as (Hwf & Hcb & Hh & Hr0 & Hpos & Hst).
  destruct o as [bytes | data len ip port | | | | now later].
  - (* interrupt *)
    left. cbn [apply_op fst snd is_task andb] in *.
    split; [reflexivity|]. split; [|split; [|discriminate]].
    + left. split; [reflexivity|].
      unfold txn_inv. split; [exact Hwf1|].
      unfold uart1_irq_handler, head_req in *. proj_simpl. tauto.
    + unfold txn_budget, uart1_irq_handler. proj_simpl. lia.
  - (* enqueue *)
    left. cbn [apply_op fst snd is_task andb] in *.
    destruct (enqueue_keeps_head data len ip port s (proj1 Hwf) Hpos)
      as (E1 & E2 & E3 & E4 & E5 & E6).
    split; [reflexivity|]. split; [|split; [|discriminate]].
    + left. split; [reflexivity|].
      unfold txn_inv. rewrite E1, E2, E4, E5, E6. tauto.
    + unfold txn_budget. rewrite E4, E5. lia.
  - (* get_tod *)
    left. cbn [apply_op fst snd is_task andb] in *.
    split; [reflexivity|]. split; [|split; [|discriminate]].
    + left. split; [reflexivity|].
      unfold txn_inv. split; [exact Hwf1|].
      unfold rdm_get_tod, head_req in *. proj_simpl. tauto.
    + unfold txn_budget, rdm_get_tod. proj_simpl. lia.
  - (* flush_tod *)
    left. cbn [apply_op fst snd is_task andb] in *.
    split; [reflexivity|]. split; [|split; [|discriminate]].
    + left. split; [reflexivity|].
      unfold txn_inv. split; [exact Hwf1|].
      unfold rdm_flush_tod, head_req in *. proj_simpl. tauto.
    + unfold txn_budget, rdm_flush_tod. proj_simpl. lia.
  - (* tod_changed *)
    left. cbn [apply_op fst snd is_task andb] in *.
    split; [reflexivity|]. split; [|split; [|discriminate]].
    + left. split; [reflexivity|]. unfold txn_inv. tauto.
    + lia.
  - (* rdm_task *)
    cbn [apply_op is_task andb] in *.
    destruct Hwf as (Hq & Hrx & Hr & Ht & Hx).
    destruct (state_cases (s_state s)) as [Hs | [Hs | [Hs | Hs]]].
    + (* idle: the transaction starts *)
      rewrite Hs in Hst. subst k.
      rewrite task_idle_start in * by assumption. cbn [fst snd] in *.
      left. split; [reflexivity|]. split; [|split].
      * right. rewrite Hr0. split; [reflexivity|].
        unfold txn_inv. split; [exact Hwf1|].
        unfold start_wait, after_send, head_req in *. proj_simpl.
        repeat split; try assumption; reflexivity.
      * unfold txn_budget, start_wait. proj_simpl. rewrite Hs.
        unfold RDM_RETRY_COUNT. lia.
      * unfold wait_expired. rewrite Hs. discriminate.
    + (* sending *)
      rewrite Hs in Hst.
      assert (Hx' : s_active_idx s = s_req_head s /\ 0 < s_req_count s /\
                    0 <= s_retry s <= RDM_RETRY_COUNT)
        by (apply Hx; unfold in_flight; rewrite Hs; reflexivity).
      destruct Hx' as (Ha & _ & Hret).
      rewrite task_sending in * by assumption. cbn [fst snd] in *.
      left. split; [reflexivity|]. split; [|split].
      * right. unfold active_req. rewrite Ha in *. fold (head_req s).
        rewrite Hr0. split; [reflexivity|].
        unfold txn_inv. split; [exact Hwf1|].
        unfold start_wait, after_send, head_req in *. proj_simpl.
        repeat split; try assumption. lia.
      * unfold txn_budget, start_wait. proj_simpl. rewrite Hs. lia.
      * unfold wait_expired. rewrite Hs. discriminate.
    + (* waiting *)
      rewrite Hs in Hst.
      assert (Hx' : s_active_idx s = s_req_head s /\ 0 < s_req_count s /\
                    0 <= s_retry s <= RDM_RETRY_COUNT)
        by (apply Hx; unfold in_flight; rewrite Hs; reflexivity).
      destruct Hx' as (Ha & _ & Hret).
      unfold wait_invalid, wait_expired. rewrite Hs.
      cbn [rdm_state_eqb andb].
      rewrite task_waiting in * by assumption. cbv zeta in *.
      destruct (collect_response_shape s) as (rr & buf & len & Heq & _ & Hr').
      specialize (Hr' Hr). rewrite Heq in *. clear Heq.
      unfold resp_wf in Hr'. proj_simpl.
      destruct Hr' as (Hbl & Hbo & Hbn).
      destruct (rdm_validate_response buf len) eqn:Hv; cbn [orb negb andb] in *.
      * (* a valid response *)
        right. cbn [fst snd] in *. split; [reflexivity|].
        split; [unfold RDM_RETRY_COUNT in *; lia|]. split.
        { unfold finish_txn. proj_simpl. rewrite Hh.
          destruct Hq as (_ & Hhd & _). rewrite <- Hh in *. ring_arith. }
        right. eexists. split; [|split; [|reflexivity]].
        { unfold txn_response. proj_simpl. rewrite Hcb. reflexivity. }
        exists (firstn (Z.to_nat len) buf).
        assert (Hlen : Z.of_nat (length (firstn (Z.to_nat len) buf)) = len)
          by (rewrite length_take; unfold RDM_MAX_PACKET_SIZE in *; lia).
        rewrite Hlen. split.
        { unfold active_req. proj_simpl. rewrite Ha. fold (head_req s).
          now rewrite Hr0. }
        rewrite validate_take; [exact Hv | exact Hbo |].
        unfold RDM_MAX_PACKET_SIZE in *. lia.
      * destruct (RDM_RESPONSE_TIMEOUT_MS <=? u32 (later - s_timeout_start_ms s))
          eqn:Hexp.
        -- destruct (s_retry s <? RDM_RETRY_COUNT) eqn:Hre.
           ++ (* timeout, retry *)
              apply Z.ltb_lt in Hre. left. cbn [fst snd rdm_state_eqb] in *.
              split; [reflexivity|]. split; [|split].
              ** left. split; [reflexivity|].
                 unfold txn_inv. split; [exact Hwf1|].
                 unfold head_req in *. proj_simpl.
                 repeat split; try assumption.
                 unfold RDM_RETRY_COUNT in *. ring_arith.
              ** unfold txn_budget. proj_simpl. rewrite Hs.
                 unfold RDM_RETRY_COUNT in *. ring_arith.
              ** intros _. unfold txn_budget. proj_simpl. rewrite Hs.
                 unfold RDM_RETRY_COUNT in *. ring_arith.
           ++ (* timeout, retries exhausted *)
              apply Z.ltb_ge in Hre. right. cbn [fst snd] in *.
              split; [reflexivity|].
              unfold RDM_RETRY_COUNT in *.
              split; [lia|]. split.
              { unfold finish_txn. proj_simpl. rewrite Hh.
                destruct Hq as (_ & Hhd & _). rewrite <- Hh in *. ring_arith. }
              left. split; [|split; [lia | reflexivity]].
              unfold txn_response. proj_simpl. rewrite Hcb.
              unfold active_req. proj_simpl. rewrite Ha. fold (head_req s).
              now rewrite Hr0.
        -- (* still waiting *)
           left. cbn [fst snd] in *. proj_simpl. rewrite Hs.
           split; [reflexivity|]. split; [|split; [|discriminate]].
           ++ left. split; [reflexivity|].
              unfold txn_inv. split; [exact Hwf1|].
              unfold head_req in *. proj_simpl. rewrite Hs.
              repeat split; assumption.
           ++ unfold txn_budget. proj_simpl. lia.
    + (* states the machine never enters *)
      exfalso. destruct Hs as [Hs | [Hs | Hs]]; rewrite Hs in Hst; exact Hst.
Qed.

End Transaction.

Lemma state_eqb_idle (st : rdm_state_t) :
  rdm_state_eqb st SM_IDLE = true -> st = SM_IDLE.
Proof. destruct st; try discriminate; reflexivity. Qed.

Section TransactionRuns.

Context {B : Type}.
Variable bus_tx : B -> list Z -> B.
Variable bus_rx : B -> Z -> list Z * B.
Variable r0 : rdm_request_t.
Variable h0 : Z.

Lemma run_txn_spec (ops : list op) :
  forall (w : @world B) (k : nat),
    txn_inv r0 h0 k (fst w) ->
    let res := run_txn bus_tx bus_rx ops w in
    (snd res = false ->
     exists j,
       snd (fst res) = repeat (EvBusSend (req_frame r0)) j /\
       txn_inv r0 h0 (k + j) (fst (fst (fst res))) /\
       Z.of_nat (txn_count bus_tx bus_rx wait_expired ops w)
       <= txn_budget (fst w)) /\
    (snd res = true ->
     exists j R,
       snd (fst res) = repeat (EvBusSend (req_frame r0)) j ++ [R] /\
       (1 <= k + j <= 3)%nat /\
       s_state (fst (fst (fst res))) = SM_IDLE /\
       s_req_head (fst (fst (fst res)))
       = (h0 + 1) mod RDM_REQUEST_BUFFER_SIZE /\
       ((R = failure_sentinel r0 /\ (k + j = 3)%nat) \/ is_valid_report r0 R) /\
       (txn_all bus_tx bus_rx wait_invalid ops w = true ->
        R = failure_sentinel r0)).
Proof.
  induction ops as [|o ops IH]; intros w k Hinv.
  - cbn [run_txn txn_count fst snd]. split; [|discriminate].
    intros _. exists 0%nat. rewrite Nat.add_0_r.
    split; [reflexivity|]. split; [exact Hinv|].
    apply (txn_inv_budget _ _ _ _ Hinv).
  - pose proof (txn_step bus_tx bus_rx r0 h0 o w k Hinv) as Hstep.
    cbv zeta in Hstep. cbn [run_txn txn_count txn_all].
    destruct (apply_op bus_tx bus_rx o w) as [w1 ev] eqn:Hop.
    cbn [fst snd] in *.
    destruct Hstep as [(Hstop & Hev & Hb1 & Hb2)
                      | (Hstop & Hk & Hhd & Hout)]; rewrite Hstop.
    + (* the transaction goes on *)
      assert (Hnext : exists j0, ev = repeat (EvBusSend (req_frame r0)) j0 /\
                                 txn_inv r0 h0 (k + j0) (fst w1)).
      { destruct Hev as [[-> Hi] | [-> Hi]].
        - exists 0%nat. now rewrite Nat.add_0_r.
        - exists 1%nat. now rewrite Nat.add_1_r. }
      destruct Hnext as (j0 & -> & Hi).
      specialize (IH w1 (k + j0)%nat Hi). cbv zeta in IH.
      destruct (run_txn bus_tx bus_rx ops w1) as [[w2 evs] fin].
      cbn [fst snd] in *. destruct IH as [IHf IHt]. split.
      * intros Hfin. destruct (IHf Hfin) as (j & -> & Hi2 & Hcnt).
        exists (j0 + j)%nat. rewrite repeat_app, Nat.add_assoc.
        split; [reflexivity|]. split; [exact Hi2|].
        destruct (wait_expired o (fst w)); [specialize (Hb2 eq_refl)|]; lia.
      * intros Hfin.
        destruct (IHt Hfin) as (j & R & -> & Hkj & Hidle & Hhd & HR & Hall).
        exists (j0 + j)%nat, R. rewrite repeat_app, <- app_assoc, Nat.add_assoc.
        split; [reflexivity|]. split; [exact Hkj|]. split; [exact Hidle|].
        split; [exact Hhd|]. split; [exact HR|].
        intros Ha. apply andb_prop in Ha as [_ Ha]. apply Hall, Ha.
    + (* the transaction ends with this call *)
      cbn [fst snd]. split; [discriminate|]. intros _.
      apply andb_prop in Hstop as [_ Hidle]. apply state_eqb_idle in Hidle.
      destruct Hout as [(-> & Hk3 & Hinv') | (R & -> & HR & Hinv')].
      * exists 0%nat, (failure_sentinel r0). rewrite Nat.add_0_r.
        split; [reflexivity|]. split; [exact Hk|]. split; [exact Hidle|].
        split; [exact Hhd|]. split; [left; split; [reflexivity | exact Hk3]|].
        reflexivity.
      * exists 0%nat, R. rewrite Nat.add_0_r.
        split; [reflexivity|]. split; [exact Hk|]. split; [exact Hidle|].
        split; [exact Hhd|]. split; [right; exact HR|].
        intros Ha. apply andb_prop in Ha as [Ha _]. congruence.
Qed.

End TransactionRuns.

Section QueueTheorem.

Context {B : Type}.
Variable bus_tx : B -> list Z -> B.
Variable bus_rx : B -> Z -> list Z * B.


End QueueTheorem.


(** A response that validates, followed by two more bytes, all in the ring
    when rdm_task looks: the callback gets all 28 bytes. *)
Lemma trailing_bytes_forwarded_witness :
  let s := fst (fst (run null_tx null_rx
                       [OpTask 1000 1000; OpIrq (demo_request ++ [0xAA; 0xBB])]
                       demo_world)) in
  (s_state s = SM_WAITING_RESPONSE /\ s_resp_cb s = true /\ resp_wf s /\
   response_well_formed demo_request /\
   Z.of_nat (length demo_request) = rd demo_request 2 + 2) /\
  snd (rdm_task null_tx null_rx 1010 1010 (s, tt))
  = [EvResponse (Some (demo_request ++ [0xAA; 0xBB])) 28 0x0200000A 6454].
Proof.
  intros s.
  assert (H1 : s_state s = SM_WAITING_RESPONSE) by (vm_compute; reflexivity).
  assert (H2 : s_resp_cb s = true) by (vm_compute; reflexivity).
  assert (H3 : resp_wf s)
    by (unfold resp_wf; vm_compute; repeat split; congruence).
  assert (H4 : firstn (Z.to_nat (s_resp_len (collect_response s)))
                      (s_resp_buf (collect_response s))
               = demo_request ++ [0xAA; 0xBB]) by (vm_compute; reflexivity).
  assert (H5 : response_well_formed demo_request).
  { unfold response_well_formed. split; [reflexivity|]. split; [reflexivity|].
    exists 24, 1, 12. vm_compute. repeat split; congruence. }
  assert (H6 : Z.of_nat (length demo_request) = rd demo_request 2 + 2)
    by (vm_compute; reflexivity).
  assert (H7 : [0xAA; 0xBB] <> @nil Z) by discriminate.
  destruct (trailing_bytes_forwarded null_tx null_rx 1010 1010 s tt
              demo_request [0xAA; 0xBB] H1 H2 H3 H4 H5 H6 H7)
    as (_ & _ & _ & Hev).
  split; [auto|]. rewrite Hev. vm_compute. reflexivity.
Defined.

(** ** The polling loop of rdm_bus_receive *)

Lemma rx_pop_wf (r : rx_ring) : rx_wf r -> rx_wf (snd (rx_pop r)).
Proof.
  intros Hwf. destruct (Z.eq_dec (s_rx_head r) (s_rx_tail r)) as [He | Hne].
  - destruct (rx_pop_empty r Hwf He) as [-> _]. exact Hwf.
  - apply (rx_pop_some r Hwf Hne).
Qed.

Lemma rdm_bus_receive_poll_bounds (start timeout_ms max_len : Z)
    (script : list (list Z * Z)) :
  forall (buf : list Z) (n : Z) (r : rx_ring),
    0 <= n <= max_len -> max_len <= Z.of_nat (length buf) ->
    max_len <= 65535 ->
    let res := rdm_bus_receive_poll script start timeout_ms max_len buf n r in
    n <= snd (fst res) <= max_len /\
    length (fst (fst res)) = length buf /\
    firstn (Z.to_nat n) (fst (fst res)) = firstn (Z.to_nat n) buf /\
    skipn (Z.to_nat (snd (fst res))) (fst (fst res))
    = skipn (Z.to_nat (snd (fst res))) buf /\
    (rx_wf r -> rx_wf (snd res)).
Proof.
  induction script as [|[irq now] rest IH]; intros buf n r Hn Hmax H16.
  - cbn [rdm_bus_receive_poll fst snd].
    split; [lia|]. repeat (split; [reflexivity|]). auto.
  - cbn [rdm_bus_receive_poll].
    destruct (negb (n <? max_len)) eqn:Hfull;
      [cbn [fst snd]; split; [lia|]; repeat (split; [reflexivity|]); auto|].
    apply negb_false_iff, Z.ltb_lt in Hfull.
    set (r1 := fold_left _ irq r).
    assert (Hr1 : rx_wf r -> rx_wf r1) by apply irq_pushes_wf.
    destruct (timeout_ms <? u32 (now - start));
      [cbn [fst snd]; split; [lia|]; repeat (split; [reflexivity|]); auto|].
    pose proof (rx_pop_wf r1) as Hpop.
    destruct (rx_pop r1) as [b r2]. cbn [snd] in Hpop.
    destruct (b <? 0).
    + specialize (IH buf n r2 Hn Hmax H16). cbv zeta in IH.
      destruct IH as (I1 & I2 & I3 & I4 & I5).
      split; [lia|]. split; [exact I2|]. split; [exact I3|].
      split; [exact I4 | auto].
    + assert (Hn1 : u16 (n + 1) = n + 1) by ring_arith.
      rewrite Hn1.
      assert (Hstep :
        let res := rdm_bus_receive_poll rest start timeout_ms max_len
                     (wr buf n (u8 b)) (n + 1) r2 in
        n <= snd (fst res) <= max_len /\
        length (fst (fst res)) = length buf /\
        firstn (Z.to_nat n) (fst (fst res)) = firstn (Z.to_nat n) buf /\
        skipn (Z.to_nat (snd (fst res))) (fst (fst res))
        = skipn (Z.to_nat (snd (fst res))) buf /\
        (rx_wf r -> rx_wf (snd res))).
      { specialize (IH (wr buf n (u8 b)) (n + 1) r2 ltac:(lia)
                       ltac:(rewrite length_wr; lia) H16).
        cbv zeta in IH. destruct IH as (I1 & I2 & I3 & I4 & I5).
        cbv zeta. rewrite length_wr in I2.
        split; [lia|]. split; [exact I2|]. split; [|split].
        - rewrite <- (take_take_le _ (Z.to_nat n) (Z.to_nat (n + 1))) by lia.
          rewrite I3, take_take_le by lia.
          unfold wr. apply take_insert_ge. lia.
        - rewrite I4. apply drop_insert_lt. lia.
        - auto. }
      destruct ((3 <=? n + 1) && (rd (wr buf n (u8 b)) 0 =? RDM_SC_RDM)
                && (rd (wr buf n (u8 b)) 1 =? RDM_SC_SUB_MESSAGE)
                && (n + 1 =? u16 (rd (wr buf n (u8 b)) 2 + 2))).
      * cbn [fst snd]. rewrite length_wr.
        split; [lia|]. split; [reflexivity|]. split; [|split].
        -- unfold wr. apply take_insert_ge. lia.
        -- unfold wr. apply drop_insert_lt. lia.
        -- auto.
      * exact Hstep.
Qed.

(** Every run of the polling loop is an answer of the kind [rdm_bus_receive]
    takes from [bus_rx]: the bytes [collected], at most [max_len] of them,
    copied over the start of the buffer. *)
Lemma rdm_bus_receive_poll_collects (start timeout_ms max_len : Z)
    (script : list (list Z * Z)) (buf : list Z) (r : rx_ring) :
  0 <= max_len <= Z.of_nat (length buf) -> max_len <= 65535 ->
  let res := rdm_bus_receive_poll script start timeout_ms max_len buf 0 r in
  let collected := firstn (Z.to_nat (snd (fst res))) (fst (fst res)) in
  fst (fst res) = memcpy buf collected (snd (fst res)) /\
  snd (fst res) = Z.min (Z.of_nat (length collected)) max_len.
Proof.
  intros Hmax H16 res collected.
  destruct (rdm_bus_receive_poll_bounds start timeout_ms max_len script buf 0 r
              ltac:(lia) ltac:(lia) H16) as (Hn & Hlen & _ & Hdrop & _).
  fold res in Hn, Hlen, Hdrop.
  split.
  - unfold memcpy, collected. rewrite take_take_le, <- Hdrop by lia.
    symmetry. apply take_drop.
  - unfold collected. rewrite length_take. lia.
Qed.

Lemma bytes_ok_cons (x : Z) (l : list Z) :
  bytes_ok (x :: l) = true -> 0 <= x < 256 /\ bytes_ok l = true.
Proof.
  unfold bytes_ok. cbn [forallb]. intros H. apply andb_prop in H as [H1 H2].
  unfold is_byteb in H1. split; [lia | exact H2].
Qed.

Lemma message_complete_take (buf : list Z) (m : Z) :
  0 <= m <= Z.of_nat (length buf) ->
  rdm_message_complete (firstn (Z.to_nat m) buf)
  = (3 <=? m) && (rd buf 0 =? RDM_SC_RDM)
    && (rd buf 1 =? RDM_SC_SUB_MESSAGE) && (m =? u16 (rd buf 2 + 2)).
Proof.
  intros Hm. unfold rdm_message_complete. rewrite length_take.
  replace (Z.of_nat (Z.to_nat m `min` length buf)) with m by lia.
  destruct (3 <=? m) eqn:H3; [|reflexivity]. apply Z.leb_le in H3.
  assert (Hrd : forall i, 0 <= i < 3 ->
                  rd (firstn (Z.to_nat m) buf) i = rd buf i).
  { intros i Hi. unfold rd. rewrite !nth_lookup.
    now rewrite lookup_take_lt by lia. }
  now rewrite !Hrd by lia.
Qed.

(** ** Discovery on the simulated bus (C4) *)

Lemma filter_keep_all {A} (f : A -> bool) (l : list A) :
  (forall x, In x l -> f x = true) -> List.filter f l = l.
Proof.
  induction l as [|a l IH]; intros H; simpl; [reflexivity|].
  rewrite (H a (or_introl eq_refl)). f_equal. apply IH.
  intros x Hx. apply H. now right.
Qed.

Lemma sim_mute_first (d : device) (ds : list device) (wire : list Z) :
  NoDup (map dev_uid (d :: ds)) -> length (dev_uid d) = 6%nat ->
  sim_unmuted (sim_tx (mkSim (d :: ds) wire) (mute_frame (dev_uid d))) = ds.
Proof.
  intros Hnd Hlen.
  destruct (mute_frame_dst (dev_uid d) Hlen) as (Hdst & Hmute & Hnb).
  unfold sim_tx. rewrite Hnb, Hmute, Hdst. cbn [sim_unmuted List.filter].
  rewrite bool_decide_eq_true_2 by reflexivity. cbn [negb].
  apply filter_keep_all. intros x Hx.
  apply negb_true_iff, bool_decide_eq_false_2. intros Heq.
  simpl in Hnd. apply NoDup_cons in Hnd as [Hnotin _].
  apply Hnotin. rewrite <- Heq. apply list_elem_of_In, in_map, Hx.
Qed.

Lemma sim_tx_branch (devs : list device) (wire : list Z) :
  sim_tx (mkSim devs wire) branch_frame
  = mkSim devs (match devs with d :: _ => dev_branch_reply d | [] => [] end).
Proof. reflexivity. Qed.

Lemma sim_rx_eq (b : sim_bus) (t : Z) :
  sim_rx b t = (sim_collect (sim_wire b) t, mkSim (sim_unmuted b) []).
Proof. reflexivity. Qed.

(** A byte pushed into an empty ring is the byte popped next, and the ring
    is empty again. *)
Lemma rx_push_pop_empty (b : Z) (r : rx_ring) :
  rx_wf r -> s_rx_head r = s_rx_tail r ->
  fst (rx_pop (rx_push b r)) = b /\
  rx_wf (snd (rx_pop (rx_push b r))) /\
  s_rx_head (snd (rx_pop (rx_push b r))) = s_rx_tail (snd (rx_pop (rx_push b r))).
Proof.
  intros Hwf He.
  destruct (rx_pop_empty r Hwf He) as [_ Hc0].
  pose proof (proj2 (rx_available_0 r Hwf) He) as Hav0.
  destruct (rx_push_room b r Hwf ltac:(lia)) as (Hwf1 & Hav1 & Hc1).
  rewrite Hc0 in Hc1. cbn [app] in Hc1.
  assert (Hne : s_rx_head (rx_push b r) <> s_rx_tail (rx_push b r)).
  { intros E. apply (rx_available_0 _ Hwf1) in E. lia. }
  destruct (rx_pop_some _ Hwf1 Hne) as (Hwf2 & Hav2 & Hc2).
  rewrite Hc1 in Hc2. injection Hc2 as Hb Hrest.
  split; [now symmetry|]. split; [exact Hwf2|].
  apply (rx_available_0 _ Hwf2). lia.
Qed.

(** The loop of rdm_bus_receive on a window of the simulated bus: it
    collects the bytes of the wire in order and stops at the end of the
    wire, at the capacity of the buffer, or at the first prefix that is a
    complete RDM message. *)
Lemma sim_window_poll (t : Z) (wire : list Z) :
  0 <= t < 4294967295 ->
  forall (buf : list Z) (n : Z) (r : rx_ring),
    bytes_ok wire = true -> rx_wf r -> s_rx_head r = s_rx_tail r ->
    0 <= n <= RDM_MAX_PACKET_SIZE ->
    length buf = Z.to_nat RDM_MAX_PACKET_SIZE ->
    let res := rdm_bus_receive_poll (sim_window wire t) 0 t
                 RDM_MAX_PACKET_SIZE buf n r in
    exists j : nat,
      (j <= length wire)%nat /\
      snd (fst res) = n + Z.of_nat j /\
      firstn (Z.to_nat (n + Z.of_nat j)) (fst (fst res))
      = firstn (Z.to_nat n) buf ++ firstn j wire /\
      (j = length wire \/ n + Z.of_nat j = RDM_MAX_PACKET_SIZE \/
       rdm_message_complete
         (firstn (Z.to_nat (n + Z.of_nat j)) (fst (fst res))) = true).
Proof.
  intros Ht. unfold RDM_MAX_PACKET_SIZE.
  induction wire as [|b wire IH]; intros buf n r Hb Hwf He Hn Hbuf.
  - unfold sim_window. cbn [map app rdm_bus_receive_poll fold_left].
    exists 0%nat. rewrite Z.add_0_r.
    assert (Hclk : (t <? u32 (t + 1 - 0)) = true).
    { apply Z.ltb_lt. unfold u32. rewrite Z.mod_small by lia. lia. }
    rewrite Hclk.
    destruct (negb (n <? 257)); cbn [fst snd firstn length];
      rewrite app_nil_r; repeat split; auto.
  - unfold sim_window. cbn [map app rdm_bus_receive_poll fold_left].
    fold (sim_window wire t).
    destruct (n <? 257) eqn:Hfull; cbn [negb].
    2:{ apply Z.ltb_ge in Hfull. exists 0%nat. cbn [fst snd firstn].
        rewrite Z.add_0_r, app_nil_r.
        split; [cbn; lia|]. split; [reflexivity|]. split; [reflexivity|].
        right. left. lia. }
    apply Z.ltb_lt in Hfull.
    change (t <? u32 (0 - 0)) with (t <? 0).
    replace (t <? 0) with false by (symmetry; apply Z.ltb_ge; lia).
    destruct (rx_push_pop_empty b r Hwf He) as (Hpop & Hwf2 & He2).
    destruct (rx_pop (rx_push b r)) as [b' r2]. cbn [fst snd] in Hpop, Hwf2, He2.
    subst b'.
    apply bytes_ok_cons in Hb as [Hbyte Hb].
    replace (b <? 0) with false by (symmetry; apply Z.ltb_ge; lia).
    assert (Hu8 : u8 b = b) by (unfold u8; apply Z.mod_small; lia).
    assert (Hn1 : u16 (n + 1) = n + 1) by (unfold u16; apply Z.mod_small; lia).
    rewrite Hu8, Hn1.
    assert (Htake : firstn (Z.to_nat (n + 1)) (wr buf n b)
                    = firstn (Z.to_nat n) buf ++ [b]).
    { replace (Z.to_nat (n + 1)) with (S (Z.to_nat n)) by lia.
      assert (Hl : wr buf n b !! Z.to_nat n = Some b)
        by (apply list_lookup_insert_eq; lia).
      rewrite (take_S_r _ _ _ Hl). unfold wr.
      now rewrite take_insert_ge by lia. }
    pose proof (message_complete_take (wr buf n b) (n + 1)
                  ltac:(rewrite length_wr; lia)) as Hcomp.
    destruct ((3 <=? n + 1) && (rd (wr buf n b) 0 =? RDM_SC_RDM)
              && (rd (wr buf n b) 1 =? RDM_SC_SUB_MESSAGE)
              && (n + 1 =? u16 (rd (wr buf n b) 2 + 2))) eqn:Hdone.
    + exists 1%nat. cbn [fst snd length firstn].
      change (Z.of_nat 1) with 1.
      split; [lia|]. split; [reflexivity|]. split; [exact Htake|].
      right. right. exact Hcomp.
    + destruct (IH (wr buf n b) (n + 1) r2 Hb Hwf2 He2 ltac:(lia)
                   ltac:(now rewrite length_wr))
        as (j & Hj & Hlen & Hpre & Hstop).
      exists (S j). cbn [length firstn].
      replace (n + Z.of_nat (S j)) with (n + 1 + Z.of_nat j) by lia.
      split; [lia|]. split; [exact Hlen|]. split.
      * rewrite Hpre, Htake, <- app_assoc. reflexivity.
      * destruct Hstop as [-> | [Hs | Hs]]; [left; reflexivity | right; left; exact Hs
                                           | right; right; exact Hs].
Qed.

Lemma initial_ring_wf :
  rx_wf (mkRing (repeat 0 (Z.to_nat RDM_RX_BUF_SIZE)) 0 0).
Proof.
  unfold rx_wf, RDM_RX_BUF_SIZE. cbn [s_rx_buf s_rx_head s_rx_tail].
  rewrite repeat_length. lia.
Qed.

(** What one window of the simulated bus hands to the discovery loop: a
    prefix of the bytes on the wire, cut at 257 bytes or at the first
    complete RDM message. *)
Lemma sim_collect_prefix (wire : list Z) (t : Z) :
  0 <= t < 4294967295 -> bytes_ok wire = true ->
  exists j : nat,
    (j <= length wire)%nat /\ sim_collect wire t = firstn j wire /\
    (j = length wire \/ Z.of_nat j = RDM_MAX_PACKET_SIZE \/
     rdm_message_complete (firstn j wire) = true).
Proof.
  intros Ht Hb. unfold sim_collect.
  destruct (sim_window_poll t wire Ht
              (repeat 0 (Z.to_nat RDM_MAX_PACKET_SIZE)) 0
              (mkRing (repeat 0 (Z.to_nat RDM_RX_BUF_SIZE)) 0 0)
              Hb initial_ring_wf eq_refl
              ltac:(unfold RDM_MAX_PACKET_SIZE; lia)
              ltac:(apply repeat_length))
    as (j & Hj & Hlen & Hpre & Hstop).
  cbv zeta. rewrite Hlen in *. rewrite Z.add_0_l in *.
  rewrite Nat2Z.id in *. cbn [firstn app] in Hpre.
  exists j. split; [exact Hj|]. split; [exact Hpre|].
  rewrite Hpre in Hstop. exact Hstop.
Qed.

Lemma sim_collect_nil (t : Z) : 0 <= t < 4294967295 -> sim_collect [] t = [].
Proof.
  intros Ht. destruct (sim_collect_prefix [] t Ht eq_refl) as (j & Hj & -> & _).
  now destruct j.
Qed.

(** The bytes collected in a window do not depend on what the buffer and
    the memory of the flushed ring held before. *)
Lemma sim_window_poll_same (t : Z) (wire : list Z) :
  0 <= t < 4294967295 ->
  forall (buf1 buf2 : list Z) (n : Z) (r1 r2 : rx_ring),
    bytes_ok wire = true ->
    rx_wf r1 -> s_rx_head r1 = s_rx_tail r1 ->
    rx_wf r2 -> s_rx_head r2 = s_rx_tail r2 ->
    0 <= n <= RDM_MAX_PACKET_SIZE ->
    length buf1 = Z.to_nat RDM_MAX_PACKET_SIZE ->
    length buf2 = Z.to_nat RDM_MAX_PACKET_SIZE ->
    firstn (Z.to_nat n) buf1 = firstn (Z.to_nat n) buf2 ->
    let res1 := rdm_bus_receive_poll (sim_window wire t) 0 t
                  RDM_MAX_PACKET_SIZE buf1 n r1 in
    let res2 := rdm_bus_receive_poll (sim_window wire t) 0 t
                  RDM_MAX_PACKET_SIZE buf2 n r2 in
    snd (fst res1) = snd (fst res2) /\
    firstn (Z.to_nat (snd (fst res1))) (fst (fst res1))
    = firstn (Z.to_nat (snd (fst res2))) (fst (fst res2)).
Proof.
  intros Ht. unfold RDM_MAX_PACKET_SIZE.
  induction wire as [|b wire IH];
    intros buf1 buf2 n r1 r2 Hb Hwf1 He1 Hwf2 He2 Hn Hl1 Hl2 Hpre.
  - unfold sim_window. cbn [map app rdm_bus_receive_poll fold_left].
    assert (Hclk : (t <? u32 (t + 1 - 0)) = true).
    { apply Z.ltb_lt. unfold u32. rewrite Z.mod_small by lia. lia. }
    rewrite Hclk.
    destruct (negb (n <? 257)); cbn [fst snd]; split; auto.
  - unfold sim_window. cbn [map app rdm_bus_receive_poll fold_left].
    fold (sim_window wire t).
    destruct (n <? 257) eqn:Hfull; cbn [negb];
      [|cbn [fst snd]; split; auto].
    apply Z.ltb_lt in Hfull.
    change (t <? u32 (0 - 0)) with (t <? 0).
    replace (t <? 0) with false by (symmetry; apply Z.ltb_ge; lia).
    destruct (rx_push_pop_empty b r1 Hwf1 He1) as (Hpop1 & Hwf1' & He1').
    destruct (rx_push_pop_empty b r2 Hwf2 He2) as (Hpop2 & Hwf2' & He2').
    destruct (rx_pop (rx_push b r1)) as [b1 r1'].
    destruct (rx_pop (rx_push b r2)) as [b2 r2'].
    cbn [fst snd] in *. subst b1 b2.
    apply bytes_ok_cons in Hb as [Hbyte Hb].
    replace (b <? 0) with false by (symmetry; apply Z.ltb_ge; lia).
    assert (Hu8 : u8 b = b) by (unfold u8; apply Z.mod_small; lia).
    assert (Hn1 : u16 (n + 1) = n + 1) by (unfold u16; apply Z.mod_small; lia).
    rewrite Hu8, Hn1.
    assert (Htake : forall buf : list Z, length buf = Z.to_nat 257 ->
              firstn (Z.to_nat (n + 1)) (wr buf n b)
              = firstn (Z.to_nat n) buf ++ [b]).
    { intros buf Hl.
      replace (Z.to_nat (n + 1)) with (S (Z.to_nat n)) by lia.
      assert (Hlk : wr buf n b !! Z.to_nat n = Some b)
        by (apply list_lookup_insert_eq; lia).
      rewrite (take_S_r _ _ _ Hlk). unfold wr.
      now rewrite take_insert_ge by lia. }
    assert (Hpre' : firstn (Z.to_nat (n + 1)) (wr buf1 n b)
                    = firstn (Z.to_nat (n + 1)) (wr buf2 n b))
      by (rewrite !Htake by assumption; now rewrite Hpre).
    pose proof (message_complete_take (wr buf1 n b) (n + 1)
                  ltac:(rewrite length_wr; lia)) as Hc1.
    pose proof (message_complete_take (wr buf2 n b) (n + 1)
                  ltac:(rewrite length_wr; lia)) as Hc2.
    rewrite Hpre' in Hc1. rewrite Hc1 in Hc2. rewrite <- Hc2.
    destruct ((3 <=? n + 1) && (rd (wr buf1 n b) 0 =? RDM_SC_RDM)
              && (rd (wr buf1 n b) 1 =? RDM_SC_SUB_MESSAGE)
              && (n + 1 =? u16 (rd (wr buf1 n b) 2 + 2))).
    + cbn [fst snd]. split; [reflexivity | exact Hpre'].
    + apply IH; try assumption; try lia; now rewrite length_wr.
Qed.

(** On the simulated bus the receive function of the engine returns what
    the loop of rdm_bus_receive leaves: for every buffer of the caller and
    every flushed ring, the loop run on the window collects
    [sim_collect], and the buffer and the length it returns are those
    that [rdm_bus_receive] returns. *)
Lemma sim_rx_is_poll (t : Z) (buf : list Z) (s : rdm_state) (b : sim_bus) :
  0 <= t < 4294967295 -> bytes_ok (sim_wire b) = true ->
  rx_wf (s_rx s) -> s_rx_head (s_rx s) = s_rx_tail (s_rx s) ->
  length buf = Z.to_nat RDM_MAX_PACKET_SIZE ->
  let res := rdm_bus_receive_poll (sim_window (sim_wire b) t) 0 t
               RDM_MAX_PACKET_SIZE buf 0 (s_rx s) in
  let out := rdm_bus_receive sim_rx buf RDM_MAX_PACKET_SIZE t (s, b) in
  fst (fst out) = fst (fst res) /\ snd (fst out) = snd (fst res).
Proof.
  intros Ht Hb Hwf He Hl res out.
  destruct (sim_window_poll_same t (sim_wire b) Ht buf
              (repeat 0 (Z.to_nat RDM_MAX_PACKET_SIZE)) 0 (s_rx s)
              (mkRing (repeat 0 (Z.to_nat RDM_RX_BUF_SIZE)) 0 0)
              Hb Hwf He initial_ring_wf eq_refl
              ltac:(unfold RDM_MAX_PACKET_SIZE; lia) Hl
              ltac:(apply repeat_length) eq_refl) as [Hn Hc].
  fold res in Hn, Hc.
  destruct (rdm_bus_receive_poll_collects 0 t RDM_MAX_PACKET_SIZE
              (sim_window (sim_wire b) t) buf (s_rx s)
              ltac:(rewrite Hl; unfold RDM_MAX_PACKET_SIZE; lia)
              ltac:(unfold RDM_MAX_PACKET_SIZE; lia)) as [Hbuf Hlen].
  fold res in Hbuf, Hlen.
  assert (Hcol : sim_collect (sim_wire b) t
                 = firstn (Z.to_nat (snd (fst res))) (fst (fst res)))
    by (symmetry; exact Hc).
  subst out. unfold rdm_bus_receive. rewrite sim_rx_eq. cbn [fst snd].
  rewrite Hcol, <- Hlen. split; [now symmetry | reflexivity].
Qed.

(** A reply that the end-of-packet test does not cut before 17 bytes is
    collected at 17 bytes at least. *)
Lemma cut_before_complete (reply : list Z) (k : Z) (j : nat) :
  cut_before reply k = false -> (j <= length reply)%nat ->
  rdm_message_complete (firstn j reply) = true -> k <= Z.of_nat j.
Proof.
  intros Hcut Hj Hc.
  rewrite <- (Nat2Z.id j) in Hc.
  rewrite message_complete_take in Hc by lia.
  apply andb_prop in Hc as [Hc H4]. apply andb_prop in Hc as [Hc H3].
  apply andb_prop in Hc as [H1 H2].
  apply Z.leb_le in H1. apply Z.eqb_eq in H4.
  unfold cut_before in Hcut. rewrite H2, H3 in Hcut. cbn [andb] in Hcut.
  rewrite <- H4 in Hcut.
  replace (3 <=? Z.of_nat j) with true in Hcut
    by (symmetry; apply Z.leb_le; lia).
  cbn [andb] in Hcut. apply Z.ltb_ge in Hcut. exact Hcut.
Qed.

Lemma disc_decode_uid_take (reply : list Z) (j : nat) :
  DISC_RESP_MIN_LEN <= Z.of_nat j -> (j <= length reply)%nat ->
  disc_decode_uid (firstn j reply) (Z.of_nat j)
  = disc_decode_uid reply (Z.of_nat (length reply)).
Proof.
  intros Hj Hl. unfold DISC_RESP_MIN_LEN in Hj.
  rewrite !disc_decode_uid_long by (unfold DISC_RESP_MIN_LEN; lia).
  unfold disc_decode_byte, DISC_RESP_PREAMBLE. cbn [map].
  assert (Hrd : forall i, 0 <= i < 13 -> rd (firstn j reply) i = rd reply i).
  { intros i Hi. unfold rd. rewrite !nth_lookup.
    now rewrite lookup_take_lt by lia. }
  rewrite !Hrd by lia. reflexivity.
Qed.

(** What the discovery loop gets of the branch reply of a well-formed
    device: at least 17 bytes, which decode to the UID of the device. *)
Lemma sim_collect_dev (d : device) (resp : list Z) :
  dev_ok d ->
  let c := sim_collect (dev_branch_reply d) 30 in
  let n := Z.min (Z.of_nat (length c)) RDM_MAX_PACKET_SIZE in
  DISC_RESP_MIN_LEN <= n /\
  disc_decode_uid (memcpy resp c n) n = dev_uid d.
Proof.
  intros (Hlen & Hb & Hcut & Hdec) c n.
  destruct (sim_collect_prefix (dev_branch_reply d) 30 ltac:(lia) Hb)
    as (j & Hj & Hc & Hstop).
  assert (Hj17 : DISC_RESP_MIN_LEN <= Z.of_nat j).
  { destruct Hstop as [-> | [Hs | Hs]]; [exact Hlen | |].
    - unfold DISC_RESP_MIN_LEN, RDM_MAX_PACKET_SIZE in *. lia.
    - now apply (cut_before_complete (dev_branch_reply d)). }
  subst c n. rewrite Hc.
  assert (Hlc : length (firstn j (dev_branch_reply d)) = j)
    by (rewrite length_take; lia).
  split; [rewrite Hlc; unfold DISC_RESP_MIN_LEN, RDM_MAX_PACKET_SIZE in *; lia|].
  pose proof (disc_decode_uid_memcpy resp (firstn j (dev_branch_reply d))
                ltac:(now rewrite Hlc)) as Hm.
  cbv zeta in Hm. rewrite Hm, Hlc.
  now rewrite disc_decode_uid_take.
Qed.

Lemma disc_attempts_sim (n : nat) :
  forall (devs : list device) (pkt resp : list Z) (s : rdm_state)
         (wire : list Z),
    length pkt = 257%nat ->
    NoDup (map dev_uid devs) -> Forall dev_ok devs ->
    length (s_tod s) = 256%nat ->
    0 <= s_disc_tod_count s ->
    s_disc_tod_count s + Z.of_nat (Nat.min n (length devs)) <= 256 ->
    let r := disc_attempts sim_tx sim_rx n pkt resp (s, mkSim devs wire) in
    let m := Nat.min n (length devs) in
    s_disc_tod_count (fst (fst r)) = s_disc_tod_count s + Z.of_nat m /\
    firstn (Z.to_nat (s_disc_tod_count s) + m) (s_tod (fst (fst r)))
    = firstn (Z.to_nat (s_disc_tod_count s)) (s_tod s)
      ++ map dev_uid (firstn m devs) /\
    branch_attempts (snd r) = Nat.min n (S (length devs)) /\
    sim_unmuted (snd (fst r)) = skipn m devs.
Proof.
  induction n as [|n IH]; intros devs pkt resp s wire Hpkt Hnd Hok Htod Hc0 Hc.
  - cbn [disc_attempts fst snd Nat.min]. rewrite Nat.add_0_r, Z.add_0_r.
    cbn [firstn map]. rewrite app_nil_r. repeat split; reflexivity.
  - intros r m. subst r m.
    pose proof (disc_attempts_step sim_tx sim_rx n pkt resp s
                  (mkSim devs wire) Hpkt) as E.
    cbv zeta in E. rewrite !sim_tx_branch, !sim_rx_eq in E.
    cbn [sim_wire sim_unmuted fst snd] in E.
    destruct devs as [|d ds].
    + rewrite sim_collect_nil in E by lia. cbn [length] in E.
      change (Z.min (Z.of_nat 0) RDM_MAX_PACKET_SIZE <? 7) with true in E.
      cbv iota in E. rewrite E. clear E. cbn [fst snd length Nat.min].
      rewrite after_send_shape.
      cbn [s_disc_tod_count s_tod set_bus_busy set_disc_tod sim_unmuted].
      rewrite Nat.add_0_r, Z.add_0_r. cbn [firstn map]. rewrite app_nil_r.
      rewrite branch_attempts_branch, ?Nat.min_0_r.
      repeat split; reflexivity.
    + apply Forall_cons in Hok as [Hd Hok].
      destruct (sim_collect_dev d resp Hd) as [Hlen Hdec'].
      pose proof Hd as (_ & _ & _ & Hdec).
      replace (Z.min (Z.of_nat (length (sim_collect (dev_branch_reply d) 30)))
                     RDM_MAX_PACKET_SIZE <? 7)
        with false in E
        by (symmetry; apply Z.ltb_ge;
            unfold DISC_RESP_MIN_LEN in *; lia).
      rewrite Hdec' in E.
      assert (Hu6 : length (dev_uid d) = 6%nat)
        by (rewrite <- Hdec; apply disc_decode_uid_length).
      destruct (mute_frame_dst (dev_uid d) Hu6) as (Hdst & Hmute & Hnb).
      pose proof (sim_mute_first d ds [] Hnd Hu6) as Hrest.
      rewrite Hrest in E.
      set (resp2 := memcpy _ _ _) in E.
      set (pkt2 := fst (build_disc_mute _ _)) in E.
      assert (Hpkt2 : length pkt2 = 257%nat)
        by (apply build_disc_mute_frame, repeat_length).
      cbn [length Nat.min] in Hc. cbn [length Nat.min firstn skipn map].
      assert (Hroom : s_disc_tod_count s < 256) by lia.
      set (s5 := disc_tod_add (dev_uid d) (after_send (after_send s))).
      assert (Hs5c : s_disc_tod_count s5 = s_disc_tod_count s + 1).
      { unfold s5, disc_tod_add. rewrite !after_send_shape.
        cbn [s_disc_tod_count s_tod set_bus_busy set_disc_tod set_rx].
        replace (RDM_TOD_MAX_DEVICES <=? s_disc_tod_count s) with false
          by (symmetry; apply Z.leb_gt; unfold RDM_TOD_MAX_DEVICES; lia).
        cbn [s_disc_tod_count set_disc_tod]. ring_arith. }
      assert (Hs5t : s_tod s5
                     = <[Z.to_nat (s_disc_tod_count s) := dev_uid d]> (s_tod s)).
      { unfold s5, disc_tod_add. rewrite !after_send_shape.
        cbn [s_disc_tod_count s_tod set_bus_busy set_disc_tod set_rx].
        replace (RDM_TOD_MAX_DEVICES <=? s_disc_tod_count s) with false
          by (symmetry; apply Z.leb_gt; unfold RDM_TOD_MAX_DEVICES; lia).
        cbn [s_tod set_disc_tod]. f_equal. apply take_ge. rewrite Hu6. auto. }
      fold s5 in E. rewrite E. clear E.
      apply NoDup_cons in Hnd as [_ Hnd'].
      destruct (IH ds pkt2 resp2 s5 [] Hpkt2 Hnd' Hok
                  ltac:(rewrite Hs5t, length_insert; exact Htod)
                  ltac:(lia) ltac:(lia))
        as (Hcnt & Htake & Hba & Hun).
      cbn [fst snd].
      split; [rewrite Hcnt, Hs5c; lia|].
      split.
      { replace (Z.to_nat (s_disc_tod_count s) + S (Nat.min n (length ds)))%nat
          with (Z.to_nat (s_disc_tod_count s5) + Nat.min n (length ds))%nat
          by (rewrite Hs5c; lia).
        rewrite Htake, Hs5c, Hs5t.
        replace (Z.to_nat (s_disc_tod_count s + 1))
          with (S (Z.to_nat (s_disc_tod_count s))) by lia.
        assert (Hlt : (Z.to_nat (s_disc_tod_count s) < length (s_tod s))%nat)
          by (rewrite Htod; lia).
        pose proof (list_lookup_insert_eq (s_tod s) _ (dev_uid d) Hlt) as Hlk.
        rewrite (take_S_r _ _ _ Hlk), take_insert_ge by lia.
        rewrite <- app_assoc. reflexivity. }
      split.
      { rewrite branch_attempts_branch, branch_attempts_mute by assumption.
        now rewrite Hba. }
      exact Hun.
Qed.

Lemma run_discovery_cycle_sim (devs : list device) (s : rdm_state) :
  NoDup (map dev_uid devs) ->
  Forall dev_ok devs ->
  (length devs <= 64)%nat ->
  length (s_tod s) = 256%nat ->
  let r := run_discovery_cycle sim_tx sim_rx (s, mkSim devs []) in
  let K := length devs in
  s_disc_tod_count (fst (fst r)) = Z.of_nat K /\
  firstn K (s_tod (fst (fst r))) = map dev_uid devs /\
  branch_attempts (snd r) = Nat.min 64 (K + 1) /\
  sim_unmuted (snd (fst r)) = [].
Proof.
  intros Hnd Hok HK Htod r K. subst K.
  assert (Hmin : Nat.min 64 (length devs) = length devs) by lia.
  set (s0 := set_bus_busy true (set_disc_tod (s_tod s) 0 s)).
  destruct (disc_attempts_sim 64 devs (repeat 0 257%nat) (repeat 0 257%nat)
              s0 [] (repeat_length _ _) Hnd Hok Htod ltac:(simpl; lia)
              ltac:(rewrite Hmin; simpl; lia))
    as (Hcnt & Htake & Hba & Hun).
  rewrite Hmin in *.
  change (disc_attempts sim_tx sim_rx 64 (repeat 0 257%nat) (repeat 0 257%nat)
            (s0, mkSim devs [])) with r in *.
  change (s_disc_tod_count s0) with 0 in *. change (Z.to_nat 0) with 0%nat in *.
  cbn [Nat.add firstn app] in Htake.
  split; [rewrite Hcnt; lia|].
  split; [rewrite Htake; change (take 0 (s_tod s0)) with (@nil (list Z));
          cbn [app]; apply f_equal, take_ge; lia|].
  split; [rewrite Hba; lia|].
  rewrite Hun; apply drop_all.
Qed.

(** ** Discovery converges within the cap (C4) *)

(** C4, within the cap.  On a simulated bus with K distinct devices, K at
    most 64, each answering a unique-branch request until it is muted
    with a reply of at least 17 bytes that decodes to its UID and of
    which rdm_bus_receive collects at least 17 (the reply does not start
    0xCC 0x01 L with 1 <= L <= 14, where the end-of-packet test of the
    receive loop would cut it): one discovery cycle records exactly K
    entries, the decoded UIDs in the order of discovery; it puts
    min(64, K+1) unique-branch requests on the wire, so at most K+1; it
    leaves no device unmuted; and the call of rdm_task that runs the cycle
    leaves these K UIDs as the current table.  What each receive window
    hands to the cycle is computed by the loop of rdm_bus_receive
    ([sim_collect]).  On any bus whatsoever one cycle puts at most 64
    unique-branch requests on the wire. *)
Theorem discovery_convergence (devs : list device) (s : rdm_state) :
  NoDup (map dev_uid devs) ->
  Forall dev_ok devs ->
  (length devs <= 64)%nat ->
  length (s_tod s) = 256%nat ->
  let r := run_discovery_cycle sim_tx sim_rx (s, mkSim devs []) in
  let K := length devs in
  s_disc_tod_count (fst (fst r)) = Z.of_nat K /\
  firstn K (s_tod (fst (fst r))) = map dev_uid devs /\
  branch_attempts (snd r) = Nat.min 64 (K + 1) /\
  (branch_attempts (snd r) <= K + 1)%nat /\
  sim_unmuted (snd (fst r)) = [] /\
  (forall now later,
      discovery_due now s = true ->
      tod_table (fst (fst (rdm_task sim_tx sim_rx now later
                             (s, mkSim devs []))))
      = map dev_uid devs) /\
  (forall (B : Type) (tx : B -> list Z -> B) (rx : B -> Z -> list Z * B)
          (w : @world B),
      (branch_attempts (snd (run_discovery_cycle tx rx w)) <= 64)%nat).
Proof.
  intros Hnd Hok HK Htod r K.
  destruct (run_discovery_cycle_sim devs s Hnd Hok HK Htod)
    as (Hcnt & Htake & Hba & Hun).
  fold r in Hcnt, Htake, Hba, Hun. fold K in Hcnt, Htake, Hba.
  split; [exact Hcnt|]. split; [exact Htake|]. split; [exact Hba|].
  split; [rewrite Hba; lia|]. split; [exact Hun|]. split.
  - intros now later Hd.
    destruct (discovery_due_idle now s Hd) as [Hst Hc].
    rewrite task_discovery by assumption. cbv zeta. cbn [fst].
    set (s1 := set_tod_prev _ _ _).
    destruct (run_discovery_cycle_sim devs s1 Hnd Hok HK Htod)
      as (Hcnt1 & Htake1 & _).
    set (s2 := fst (fst (run_discovery_cycle sim_tx sim_rx (s1, mkSim devs []))))
      in *.
    assert (Htab : forall b : bool,
      tod_table
        (set_bus_busy false
           (set_discovery later false
              (if b
               then set_tod_changed true
                      (set_tod (s_tod s2) (s_disc_tod_count s2) s2)
               else set_tod (s_tod s2) (s_disc_tod_count s2) s2)))
      = firstn (Z.to_nat (s_disc_tod_count s2)) (s_tod s2))
      by (intros [|]; reflexivity).
    rewrite Htab, Hcnt1, Nat2Z.id. exact Htake1.
  - intros B tx rx w. unfold run_discovery_cycle.
    destruct (disc_attempts_shape tx rx 64 (repeat 0 257%nat) (repeat 0 257%nat)
                (set_bus_busy true (set_disc_tod (s_tod (fst w)) 0 (fst w)))
                (snd w) (repeat_length _ _))
      as (_ & _ & _ & _ & _ & _ & _ & _ & _ & Hcap).
    exact Hcap.
Qed.

(** Three devices: three entries in discovery order, four unique-branch
    requests. *)
Lemma discovery_convergence_witness :
  let devs := map sim_device [7; 200; 33]%nat in
  let r := run_discovery_cycle sim_tx sim_rx (rdm_boot, mkSim devs []) in
  (NoDup (map dev_uid devs) /\ Forall dev_ok devs /\
   (length devs <= 64)%nat /\ length (s_tod rdm_boot) = 256%nat) /\
  s_disc_tod_count (fst (fst r)) = 3 /\
  firstn 3 (s_tod (fst (fst r)))
  = [[7; 0; 0; 0; 0; 0]; [200; 0; 0; 0; 0; 0]; [33; 0; 0; 0; 0; 0]] /\
  branch_attempts (snd r) = 4%nat.
Proof.
  intros devs r.
  assert (H1 : NoDup (map dev_uid devs))
    by (apply (bool_decide_unpack _); vm_compute; exact I).
  assert (H2 : Forall dev_ok devs)
    by (apply (bool_decide_unpack _); vm_compute; exact I).
  assert (H3 : (length devs <= 64)%nat) by (simpl; lia).
  assert (H4 : length (s_tod rdm_boot) = 256%nat) by reflexivity.
  split; [auto|].
  destruct (discovery_convergence devs rdm_boot H1 H2 H3 H4)
    as (Hc & Ht & Hb & _).
  split; [exact Hc|]. split; [exact Ht | exact Hb].
Defined.

(** C4 as stated, for every K, fails beyond the cap: with 65 well-behaved
    devices one cycle records 64 entries, not 65. *)
Lemma discovery_convergence_counterexample :
  let devs := map sim_device (seq 0 65) in
  let r := run_discovery_cycle sim_tx sim_rx (rdm_boot, mkSim devs []) in
  NoDup (map dev_uid devs) /\ Forall dev_ok devs /\
  length (s_tod rdm_boot) = 256%nat /\
  length devs = 65%nat /\
  s_disc_tod_count (fst (fst r)) = 64 /\
  s_disc_tod_count (fst (fst r)) <> Z.of_nat (length devs).
Proof.
  intros devs r.
  split; [apply (bool_decide_unpack _); vm_compute; exact I|].
  split; [apply (bool_decide_unpack _); vm_compute; exact I|].
  split; [reflexivity|]. split; [reflexivity|].
  assert (H : s_disc_tod_count (fst (fst r)) = 64) by (vm_compute; reflexivity).
  split; [exact H|]. rewrite H. discriminate.
Qed.

(** The condition on the start of the reply cannot be dropped.  A device
    with UID 51:00:00:00:00:00 whose 17-byte reply starts 0xCC 0x01 0x05
    meets the other conditions, but the receive loop takes the first
    7 bytes for a complete message and returns them; the cycle accepts
    them as a reply, records the all-zero UID, mutes nobody, and does so
    in each of its 64 attempts. *)
Lemma discovery_cut_reply :
  let d := mkDev [0x51; 0; 0; 0; 0; 0]
                 ([0xCC; 0x01; 0x05] ++ repeat 0 14%nat) [] in
  let r := run_discovery_cycle sim_tx sim_rx (rdm_boot, mkSim [d] []) in
  length (dev_branch_reply d) = 17%nat /\
  bytes_ok (dev_branch_reply d) = true /\
  disc_decode_uid (dev_branch_reply d) 17 = dev_uid d /\
  cut_before (dev_branch_reply d) DISC_RESP_MIN_LEN = true /\
  sim_collect (dev_branch_reply d) 30 = [0xCC; 0x01; 0x05; 0; 0; 0; 0] /\
  s_disc_tod_count (fst (fst r)) = 64 /\
  firstn 64 (s_tod (fst (fst r))) = repeat uid_zero 64 /\
  branch_attempts (snd r) = 64%nat /\
  sim_unmuted (snd (fst r)) = [d].
Proof. vm_compute. repeat split; reflexivity. Qed.

(** ** What a discovery cycle records, on any bus *)

Lemma mute_dsts_branch (evs : list event) :
  mute_dsts (EvBusSend branch_frame :: evs) = mute_dsts evs.
Proof. reflexivity. Qed.

Lemma mute_dsts_mute (uid : list Z) (evs : list event) :
  length uid = 6%nat ->
  mute_dsts (EvBusSend (mute_frame uid) :: evs) = uid :: mute_dsts evs.
Proof.
  intros H. destruct (mute_frame_dst uid H) as (Hd & Hm & _).
  unfold mute_dsts. cbn [flat_map]. now rewrite Hm, Hd.
Qed.

Lemma disc_tod_add_room (uid : list Z) (s : rdm_state) :
  length uid = 6%nat -> 0 <= s_disc_tod_count s < RDM_TOD_MAX_DEVICES ->
  disc_tod_add uid s
  = set_disc_tod (<[Z.to_nat (s_disc_tod_count s) := uid]> (s_tod s))
                 (s_disc_tod_count s + 1) s.
Proof.
  intros Hu Hc. unfold disc_tod_add.
  replace (RDM_TOD_MAX_DEVICES <=? s_disc_tod_count s) with false
    by (symmetry; apply Z.leb_gt; lia).
  rewrite take_ge by lia. f_equal.
  unfold RDM_TOD_MAX_DEVICES in *. ring_arith.
Qed.

Section DiscoveryTable.

Context {B : Type}.
Variable bus_tx : B -> list Z -> B.
Variable bus_rx : B -> Z -> list Z * B.

Lemma disc_attempts_table (n : nat) :
  forall (pkt resp : list Z) (s : rdm_state) (bus : B),
    length pkt = 257%nat ->
    0 <= s_disc_tod_count s ->
    s_disc_tod_count s + Z.of_nat n <= Z.of_nat (length (s_tod s)) ->
    (length (s_tod s) <= 256)%nat ->
    let r := disc_attempts bus_tx bus_rx n pkt resp (s, bus) in
    let s' := fst (fst r) in
    s_disc_tod_count s'
    = s_disc_tod_count s + Z.of_nat (length (mute_dsts (snd r))) /\
    firstn (Z.to_nat (s_disc_tod_count s')) (s_tod s')
    = firstn (Z.to_nat (s_disc_tod_count s)) (s_tod s) ++ mute_dsts (snd r) /\
    (length (mute_dsts (snd r)) <= n)%nat /\
    (length (mute_dsts (snd r)) <= branch_attempts (snd r)
     <= length (mute_dsts (snd r)) + 1)%nat /\
    (branch_attempts (snd r) <= n)%nat /\
    (n = O \/ 1 <= branch_attempts (snd r))%nat /\
    (length (snd r) = branch_attempts (snd r) + length (mute_dsts (snd r)))%nat.
Proof.
  induction n as [|n IH]; intros pkt resp s bus Hpkt Hc Hroom Hlen.
  - cbn [disc_attempts fst snd mute_dsts flat_map length].
    rewrite Z.add_0_r, app_nil_r.
    split; [reflexivity|]. split; [reflexivity|]. split; [lia|].
    split; [cbn; lia|]. split; [cbn; lia|]. split; [left|]; reflexivity.
  - rewrite disc_attempts_step by assumption. cbv zeta.
    destruct (_ <? 7).
    + cbn [fst snd]. rewrite mute_dsts_branch, branch_attempts_branch.
      rewrite after_send_shape. proj_simpl.
      cbn [mute_dsts flat_map length branch_attempts List.filter].
      rewrite Z.add_0_r, app_nil_r.
      split; [reflexivity|]. split; [reflexivity|]. split; [lia|].
      split; [lia|]. split; [lia|]. split; [right; lia | reflexivity].
    + set (uid := disc_decode_uid _ _).
      assert (Huid : length uid = 6%nat) by apply disc_decode_uid_length.
      set (pkt2 := fst (build_disc_mute (repeat 0 257%nat) uid)).
      assert (Hpkt2 : length pkt2 = 257%nat)
        by (apply build_disc_mute_frame, repeat_length).
      set (resp2 := memcpy _ _ _).
      set (bus4 := snd (bus_rx _ 30)).
      set (s5 := disc_tod_add uid (after_send (after_send s))).
      assert (Hs5 : s_disc_tod_count s5 = s_disc_tod_count s + 1 /\
                    s_tod s5 = <[Z.to_nat (s_disc_tod_count s) := uid]> (s_tod s)).
      { subst s5. rewrite disc_tod_add_room.
        - rewrite !after_send_shape. proj_simpl. split; reflexivity.
        - exact Huid.
        - rewrite !after_send_shape. proj_simpl.
          unfold RDM_TOD_MAX_DEVICES. lia. }
      destruct Hs5 as [Hc5 Ht5].
      specialize (IH pkt2 resp2 s5 bus4 Hpkt2).
      rewrite Hc5, Ht5, length_insert in IH.
      specialize (IH ltac:(lia) ltac:(lia) Hlen). cbv zeta in IH.
      destruct IH as (I1 & I2 & I3 & I4 & I5 & I6 & I7).
      cbn [fst snd].
      rewrite mute_dsts_branch, mute_dsts_mute by assumption.
      rewrite branch_attempts_branch, branch_attempts_mute by assumption.
      cbn [length]. split; [lia|]. split.
      * rewrite I2.
        replace (Z.to_nat (s_disc_tod_count s + 1))
          with (S (Z.to_nat (s_disc_tod_count s))) by lia.
        assert (Hk : <[Z.to_nat (s_disc_tod_count s) := uid]> (s_tod s)
                       !! Z.to_nat (s_disc_tod_count s) = Some uid)
          by (apply list_lookup_insert_eq; lia).
        rewrite (take_S_r _ _ _ Hk), take_insert_ge by lia.
        now rewrite <- app_assoc.
      * split; [lia|]. split; [lia|]. split; [lia|]. split; [right; lia|].
        cbn [length]. lia.
Qed.

(** The cycle on any bus. *)
Lemma run_discovery_cycle_table (s : rdm_state) (bus : B) :
  length (s_tod s) = 256%nat ->
  let r := run_discovery_cycle bus_tx bus_rx (s, bus) in
  let s' := fst (fst r) in
  firstn (Z.to_nat (s_disc_tod_count s')) (s_tod s') = mute_dsts (snd r) /\
  s_disc_tod_count s' = Z.of_nat (length (mute_dsts (snd r))) /\
  (length (mute_dsts (snd r)) <= branch_attempts (snd r)
   <= length (mute_dsts (snd r)) + 1)%nat /\
  (1 <= branch_attempts (snd r) <= 64)%nat /\
  (length (snd r) = branch_attempts (snd r) + length (mute_dsts (snd r)))%nat.
Proof.
  intros Hlen. unfold run_discovery_cycle.
  pose proof (disc_attempts_table 64 (repeat 0 (Z.to_nat RDM_MAX_PACKET_SIZE))
                (repeat 0 (Z.to_nat RDM_MAX_PACKET_SIZE))
                (set_bus_busy true (set_disc_tod (s_tod (fst (s, bus))) 0
                                                 (fst (s, bus))))
                (snd (s, bus)) (repeat_length _ _)) as H.
  proj_simpl. rewrite Hlen in H.
  specialize (H ltac:(lia) ltac:(lia) ltac:(lia)). cbv zeta in H.
  destruct H as (H1 & H2 & H3 & H4 & H5 & H6 & H7). cbv zeta.
  split; [exact H2|]. split; [lia|]. split; [exact H4|].
  split; [|exact H7].
  destruct H6 as [H6 | H6]; [discriminate | lia].
Qed.

(** X4.  A call of rdm_task that runs a discovery cycle, on any bus
    whatsoever: the table it leaves is exactly the list of the UIDs it
    sent mute requests to, in the order of the requests (so an entry is
    recorded for every reply of 7 bytes or more, whether or not a device
    acknowledged the mute, and duplicates are kept); the cycle sends
    nothing but unique-branch and mute requests, between 1 and 64 of the
    former and as many mutes as entries; the response callback is not
    called; and the engine is idle again, with the bus released and the
    discovery timer restarted at the clock reading taken after the cycle. *)
Theorem discovery_records_muted (now later : Z) (s : rdm_state) (bus : B) :
  length (s_tod s) = 256%nat ->
  discovery_due now s = true ->
  let r := rdm_task bus_tx bus_rx now later (s, bus) in
  let s' := fst (fst r) in
  tod_table s' = mute_dsts (snd r) /\
  s_tod_count s' = Z.of_nat (length (mute_dsts (snd r))) /\
  (length (snd r) = branch_attempts (snd r) + length (mute_dsts (snd r)))%nat /\
  (length (mute_dsts (snd r)) <= branch_attempts (snd r)
   <= length (mute_dsts (snd r)) + 1)%nat /\
  (1 <= branch_attempts (snd r) <= 64)%nat /\
  response_dsts (snd r) = [] /\
  s_state s' = SM_IDLE /\ g_rdm_bus_busy s' = false /\
  s_discovery_active s' = false /\ s_discovery_last_ms s' = later.
Proof.
  intros Hlen Hd r s'. subst s' r.
  destruct (discovery_due_idle now s Hd) as [Hst Hc].
  rewrite task_discovery by assumption. cbv zeta. cbn [fst snd].
  set (s1 := set_tod_prev _ _ _).
  assert (Hlen1 : length (s_tod s1) = 256%nat) by exact Hlen.
  destruct (run_discovery_cycle_table s1 bus Hlen1)
    as (Htab & Hcnt & Hba & Hcap & Hall).
  destruct (run_discovery_cycle_shape bus_tx bus_rx s1 bus)
    as (r & tod & cnt & busy & Heq & _ & _ & _ & Hev & _).
  set (res := run_discovery_cycle bus_tx bus_rx (s1, bus)) in *.
  set (s2 := fst (fst res)) in *.
  assert (Hst2 : s_state s2 = SM_IDLE) by (rewrite Heq; exact Hst).
  destruct (negb _ || negb _); unfold tod_table; proj_simpl;
    repeat split; assumption || lia.
Qed.

End DiscoveryTable.

(** ** A reply that never goes away *)

Lemma disc_attempts_stuck (reply : list Z) (n : nat) :
  7 <= Z.of_nat (length reply) ->
  forall (pkt resp : list Z) (s : rdm_state),
    length pkt = 257%nat ->
    let r := disc_attempts stuck_tx stuck_rx n pkt resp (s, reply) in
    mute_dsts (snd r)
    = repeat (disc_decode_uid reply (Z.of_nat (length reply))) n /\
    branch_attempts (snd r) = n.
Proof.
  intros Hlen. induction n as [|n IH]; intros pkt resp s Hpkt.
  - split; reflexivity.
  - rewrite disc_attempts_step by assumption. cbv zeta.
    assert (Htx : forall b f, stuck_tx b f = b) by reflexivity.
    assert (Hrx : forall b t, stuck_rx b t = (b, b)) by reflexivity.
    repeat (rewrite Htx || rewrite Hrx). cbn [fst snd].
    replace (Z.min (Z.of_nat (length reply)) RDM_MAX_PACKET_SIZE <? 7)
      with false
      by (symmetry; apply Z.ltb_ge; unfold RDM_MAX_PACKET_SIZE; lia).
    set (n1 := Z.min (Z.of_nat (length reply)) RDM_MAX_PACKET_SIZE).
    assert (Huid : disc_decode_uid (memcpy resp reply n1) n1
                   = disc_decode_uid reply (Z.of_nat (length reply))).
    { destruct (Z.le_gt_cases DISC_RESP_MIN_LEN (Z.of_nat (length reply)))
        as [Hl | Hs].
      - now apply disc_decode_uid_memcpy.
      - rewrite !disc_decode_uid_short; [reflexivity | lia |].
        subst n1. unfold RDM_MAX_PACKET_SIZE, DISC_RESP_MIN_LEN in *. lia. }
    rewrite Huid. set (uid := disc_decode_uid reply _).
    assert (Hu : length uid = 6%nat) by apply disc_decode_uid_length.
    match goal with |- context [disc_attempts _ _ n ?p ?r (?s5, reply)] =>
      specialize (IH p r s5
                    ltac:(apply build_disc_mute_frame, repeat_length));
      cbv zeta in IH; destruct IH as [IH1 IH2]
    end.
    cbn [fst snd].
    rewrite mute_dsts_branch, mute_dsts_mute by assumption.
    rewrite branch_attempts_branch, branch_attempts_mute by assumption.
    rewrite IH1, IH2. split; reflexivity.
Qed.

(** X5.  When every receive window of a discovery cycle collects the same
    reply of 7 bytes or more (a device that ignores the mute request, or
    replies that collide in the same way every time), the cycle runs to
    its cap: 64 unique-branch requests, and a table of 64 entries that
    all hold the UID decoded from that reply.  Nothing removes the
    duplicates. *)
Theorem discovery_stuck_reply (now later : Z) (s : rdm_state)
    (reply : list Z) :
  length (s_tod s) = 256%nat ->
  discovery_due now s = true ->
  7 <= Z.of_nat (length reply) ->
  let r := rdm_task stuck_tx stuck_rx now later (s, reply) in
  let s' := fst (fst r) in
  s_tod_count s' = 64 /\
  tod_table s' = repeat (disc_decode_uid reply (Z.of_nat (length reply))) 64 /\
  branch_attempts (snd r) = 64%nat.
Proof.
  intros Hlen Hd Hrep r s'. subst s' r.
  destruct (discovery_due_idle now s Hd) as [Hst Hc].
  rewrite task_discovery by assumption. cbv zeta. cbn [fst snd].
  set (s1 := set_tod_prev _ _ _).
  assert (Hlen1 : length (s_tod s1) = 256%nat) by exact Hlen.
  destruct (run_discovery_cycle_table stuck_tx stuck_rx s1 reply Hlen1)
    as (Htab & Hcnt & _).
  pose proof (disc_attempts_stuck reply 64 Hrep
                (repeat 0 (Z.to_nat RDM_MAX_PACKET_SIZE))
                (repeat 0 (Z.to_nat RDM_MAX_PACKET_SIZE))
                (set_bus_busy true (set_disc_tod (s_tod s1) 0 s1))
                (repeat_length _ _)) as [Hm Hb].
  change (disc_attempts stuck_tx stuck_rx 64 _ _ _)
    with (run_discovery_cycle stuck_tx stuck_rx (s1, reply)) in Hm, Hb.
  set (res := run_discovery_cycle stuck_tx stuck_rx (s1, reply)) in *.
  set (s2 := fst (fst res)) in *.
  rewrite Hm in Htab, Hcnt. rewrite repeat_length in Hcnt.
  destruct (negb _ || negb _); unfold tod_table; proj_simpl;
    repeat split; assumption || (now rewrite Hcnt in * ).
Qed.

(** ** Reachable states *)

Lemma rdm_start_wf (cb : bool) : engine_wf (rdm_start cb).
Proof.
  unfold engine_wf, queue_wf, rx_wf, resp_wf, tod_wf, txn_wf.
  destruct cb; vm_compute; repeat split; congruence.
Qed.

Lemma rdm_start_sm_inv (cb : bool) : sm_inv (rdm_start cb).
Proof. destruct cb; vm_compute; repeat split; congruence. Qed.

Section ReachableStates.

Context {B : Type}.
Variable bus_tx : B -> list Z -> B.
Variable bus_rx : B -> Z -> list Z * B.

Lemma task_sm_inv (now later : Z) (s : rdm_state) (bus : B) :
  engine_wf s -> sm_inv s ->
  sm_inv (fst (fst (rdm_task bus_tx bus_rx now later (s, bus)))).
Proof.
  intros Hwf (Hact & Hcnt & Hsm).
  destruct (state_cases (s_state s)) as [Hst | [Hst | [Hst | Hst]]].
  - destruct (Z.lt_ge_cases 0 (s_req_count s)) as [Hc | Hc].
    + rewrite task_idle_start by assumption.
      unfold sm_inv, start_wait, after_send. proj_simpl. tauto.
    + destruct (discovery_due now s) eqn:Hd.
      * destruct Hwf as (_ & _ & _ & (Hl & _) & _).
        destruct (run_discovery_cycle_table bus_tx bus_rx
                    (set_tod_prev (memcpy (s_tod_prev s) (s_tod s) (s_tod_count s))
                       (s_tod_count s)
                       (set_discovery (s_discovery_last_ms s) true s))
                    bus Hl) as (_ & Hn & Hba & Hcap & _).
        rewrite task_discovery by assumption. cbv zeta. cbn [fst snd].
        set (res := run_discovery_cycle bus_tx bus_rx _) in *.
        destruct (run_discovery_cycle_shape bus_tx bus_rx
                    (set_tod_prev (memcpy (s_tod_prev s) (s_tod s) (s_tod_count s))
                       (s_tod_count s)
                       (set_discovery (s_discovery_last_ms s) true s)) bus)
          as (r & tod & cnt & busy & Heq & _).
        fold res in Heq.
        assert (Hst2 : s_state (fst (fst res)) = SM_IDLE)
          by (rewrite Heq; exact Hst).
        destruct (negb _ || negb _); unfold sm_inv; proj_simpl;
          rewrite Hst2; repeat split; lia.
      * rewrite task_idle_quiet by assumption.
        exact (conj Hact (conj Hcnt Hsm)).
  - rewrite task_sending by assumption.
    unfold sm_inv, start_wait, after_send. proj_simpl. tauto.
  - rewrite task_waiting by assumption. cbv zeta.
    destruct (collect_response_shape s) as (r & buf & len & Heq & _).
    rewrite Heq. rewrite Hst in Hsm.
    destruct (_ || _); [destruct (negb _ && _)|];
      unfold sm_inv, finish_txn; proj_simpl; rewrite ?Hst; tauto.
  - exfalso. destruct Hst as [H | [H | H]]; rewrite H in Hsm; exact Hsm.
Qed.

Lemma apply_op_sm_inv (o : op) (w : @world B) :
  engine_wf (fst w) -> sm_inv (fst w) ->
  sm_inv (fst (fst (apply_op bus_tx bus_rx o w))).
Proof.
  intros Hwf Hsm. destruct w as [s bus]. cbn [fst] in Hwf, Hsm.
  destruct o as [bytes | data len ip port | | | | now later];
    cbn [apply_op fst snd].
  - exact Hsm.
  - unfold rdm_enqueue_request.
    destruct (_ <=? _); [exact Hsm|]. destruct (_ <? _); exact Hsm.
  - exact Hsm.
  - destruct Hsm as (H1 & H2 & H3). unfold sm_inv, rdm_flush_tod. proj_simpl.
    repeat split; try assumption; lia.
  - exact Hsm.
  - now apply task_sm_inv.
Qed.

Lemma run_reachable (ops : list op) :
  forall w : @world B,
    engine_wf (fst w) -> sm_inv (fst w) ->
    engine_wf (fst (fst (run bus_tx bus_rx ops w))) /\
    sm_inv (fst (fst (run bus_tx bus_rx ops w))).
Proof.
  induction ops as [|o ops IH]; intros w Hwf Hsm; [now split|].
  cbn [run]. pose proof (apply_op_wf bus_tx bus_rx o w Hwf) as H1.
  pose proof (apply_op_sm_inv o w Hwf Hsm) as H2.
  destruct (apply_op bus_tx bus_rx o w) as [w1 ev].
  specialize (IH w1 H1 H2). destruct (run bus_tx bus_rx ops w1) as [w2 evs].
  exact IH.
Qed.

(** X1.  After start-up, whatever the bus does and whatever the sequence of
    UART interrupts, API calls and calls of rdm_task: the request queue
    holds between 0 and 5 requests, its head and tail index one of the 5
    slots and the tail is count slots after the head; the ring indices
    stay below 512; the response length never exceeds the 257 bytes of
    the response buffer; the table never holds more than 64 of its 256
    entries; and while a transaction is in flight the active slot is the
    head of the queue and at most 2 retries have been used.  So no array
    of the module is ever indexed outside its bounds. *)
Theorem engine_bounds_reachable (cb : bool) (ops : list op) (bus : B) :
  let s := fst (fst (run bus_tx bus_rx ops (rdm_start cb, bus))) in
  (length (s_req_buf s) = 5%nat /\
   0 <= s_req_head s < 5 /\ 0 <= s_req_tail s < 5 /\
   0 <= s_req_count s <= 5 /\
   s_req_tail s = (s_req_head s + s_req_count s) mod 5) /\
  (length (s_rx_buf (s_rx s)) = 512%nat /\
   0 <= s_rx_head (s_rx s) < 512 /\ 0 <= s_rx_tail (s_rx s) < 512) /\
  (length (s_resp_buf s) = 257%nat /\ 0 <= s_resp_len s <= 257) /\
  (length (s_tod s) = 256%nat /\ length (s_tod_prev s) = 256%nat /\
   0 <= s_tod_count s <= 64) /\
  (in_flight s = true ->
   s_active_idx s = s_req_head s /\ 0 < s_req_count s /\
   0 <= s_retry s <= 2).
Proof.
  intros s.
  destruct (run_reachable ops (rdm_start cb, bus)
              (rdm_start_wf cb) (rdm_start_sm_inv cb))
    as [((Hq1 & Hq2 & Hq3 & Hq4) & (Hr1 & Hr2 & Hr3) & (Hp1 & _ & Hp3)
         & (Ht1 & Ht2 & _) & Hx) (_ & Hcnt & _)].
  fold s in Hq1, Hq2, Hq3, Hq4, Hr1, Hr2, Hr3, Hp1, Hp3, Ht1, Ht2, Hx, Hcnt.
  unfold RDM_REQUEST_BUFFER_SIZE, RDM_RX_BUF_SIZE, RDM_MAX_PACKET_SIZE,
    RDM_TOD_MAX_DEVICES, RDM_RETRY_COUNT in *.
  split; [|split; [|split; [|split]]].
  - repeat split; try assumption; try lia.
    + rewrite Hq4. apply Z.mod_pos_bound. lia.
    + rewrite Hq4. apply Z.mod_pos_bound. lia.
  - repeat split; try assumption; lia.
  - repeat split; try assumption; lia.
  - repeat split; try assumption; lia.
  - exact Hx.
Qed.

(** X2.  After start-up, between any two calls: the state machine is in
    SM_IDLE, SM_SENDING or SM_WAITING_RESPONSE (never in SM_RETRY,
    SM_DISCOVERY or SM_DONE), the bus-busy flag that the DMX driver tests
    is set exactly when a transaction is in flight, and no discovery cycle
    is left pending. *)
Theorem bus_busy_tracks_state (cb : bool) (ops : list op) (bus : B) :
  let s := fst (fst (run bus_tx bus_rx ops (rdm_start cb, bus))) in
  (s_state s = SM_IDLE \/ s_state s = SM_SENDING \/
   s_state s = SM_WAITING_RESPONSE) /\
  g_rdm_bus_busy s = in_flight s /\
  s_discovery_active s = false.
Proof.
  intros s.
  destruct (run_reachable ops (rdm_start cb, bus)
              (rdm_start_wf cb) (rdm_start_sm_inv cb))
    as [_ (Hact & _ & Hsm)].
  fold s in Hact, Hsm. unfold in_flight.
  destruct (s_state s); cbn in *; tauto.
Qed.

End ReachableStates.

(** ** The discovery requests pass the node's own validation *)

Lemma checksum_bytes (chk : Z) :
  0 <= chk < 65536 ->
  0 <= u8 (Z.shiftr chk 8) < 256 /\ 0 <= u8 (Z.land chk 0xFF) < 256 /\
  u8 (Z.shiftr chk 8) * 256 + u8 (Z.land chk 0xFF) = chk.
Proof.
  intros H. rewrite Z.shiftr_div_pow2 by lia.
  change 0xFF with (Z.ones 8). rewrite Z.land_ones by lia.
  change (2 ^ 8) with 256. unfold u8.
  Z.to_euclidean_division_equations; lia.
Qed.

Lemma is_byteb_true (x : Z) : 0 <= x < 256 -> is_byteb x = true.
Proof. intros H. unfold is_byteb. apply andb_true_intro. split; lia. Qed.

Lemma bytes_ok_6 (a b c d e f : Z) :
  bytes_ok [a; b; c; d; e; f] = true ->
  0 <= a < 256 /\ 0 <= b < 256 /\ 0 <= c < 256 /\
  0 <= d < 256 /\ 0 <= e < 256 /\ 0 <= f < 256.
Proof.
  intros H.
  pose proof (bytes_ok_rd _ 0 H). pose proof (bytes_ok_rd _ 1 H).
  pose proof (bytes_ok_rd _ 2 H). pose proof (bytes_ok_rd _ 3 H).
  pose proof (bytes_ok_rd _ 4 H). pose proof (bytes_ok_rd _ 5 H).
  cbn in *. tauto.
Qed.

Lemma build_disc_mute_validates (uid : list Z) :
  length uid = 6%nat -> bytes_ok uid = true ->
  rdm_validate_response (fst (build_disc_mute (repeat 0 257%nat) uid)) 26 = true.
Proof.
  intros Hl Hb.
  destruct uid as [|a [|b [|c [|d [|e [|f [|g uid]]]]]]]; try discriminate.
  apply bytes_ok_6 in Hb.
  set (msg := [0xCC; 1; 24; a; b; c; d; e; f; 0; 0; 0; 0; 0; 0; 0; 0; 0; 0; 0;
               0x10; 0; 2; 0]).
  set (chk := 247 + a + b + c + d + e + f).
  assert (Hbuf : fst (build_disc_mute (repeat 0 257%nat) [a; b; c; d; e; f])
                 = msg ++ [u8 (Z.shiftr chk 8); u8 (Z.land chk 0xFF)]
                       ++ repeat 0 231%nat).
  { assert (Hc : rdm_checksum (msg ++ repeat 0 233%nat) 24 = chk).
    { rewrite rdm_checksum_sum.
      change (firstn (Z.to_nat 24) (msg ++ repeat 0 233%nat)) with msg.
      subst msg chk. cbn [sum_bytes fold_right].
      rewrite Z.mod_small by lia. lia. }
    rewrite <- Hc. subst msg.
    cbv -[rdm_checksum u8 Z.shiftr Z.land]. reflexivity. }
  rewrite Hbuf.
  destruct (checksum_bytes chk ltac:(subst chk; lia)) as (Hhi & Hlo & Hsum).
  apply well_formed_validate.
  - unfold bytes_ok. rewrite !forallb_app.
    apply andb_true_intro; split; [|apply andb_true_intro; split].
    + subst msg. cbn [forallb]. rewrite !is_byteb_true by lia. reflexivity.
    + cbn [forallb].
      rewrite (is_byteb_true _ Hhi), (is_byteb_true _ Hlo). reflexivity.
    + apply forallb_forall. intros x Hx. apply repeat_spec in Hx. now subst.
  - rewrite !length_app, repeat_length. subst msg. cbn [length]. lia.
  - unfold response_well_formed. split; [reflexivity|]. split; [reflexivity|].
    exists 24, (u8 (Z.shiftr chk 8)), (u8 (Z.land chk 0xFF)).
    split; [reflexivity|].
    split; [rewrite length_take, !length_app, repeat_length; subst msg;
            cbn [length]; lia|].
    split; [reflexivity|].
    split; [reflexivity|]. rewrite Hsum.
    change (firstn (Z.to_nat 24) (firstn (Z.to_nat 26) _)) with msg.
    subst msg chk. cbn [sum_bytes fold_right]. rewrite Z.mod_small by lia. lia.
Qed.

Lemma build_disc_unique_branch_validates (lower upper : list Z) :
  length lower = 6%nat -> bytes_ok lower = true ->
  length upper = 6%nat -> bytes_ok upper = true ->
  rdm_validate_response
    (fst (build_disc_unique_branch (repeat 0 257%nat) lower upper)) 38 = true.
Proof.
  intros Hl Hb Hu Hbu.
  destruct lower as [|a [|b [|c [|d [|e [|f [|g lower]]]]]]]; try discriminate.
  destruct upper as [|a' [|b' [|c' [|d' [|e' [|f' [|g' upper]]]]]]];
    try discriminate.
  apply bytes_ok_6 in Hb, Hbu.
  set (msg := [0xCC; 1; 36; 0xFF; 0xFF; 0xFF; 0xFF; 0xFF; 0xFF;
               0; 0; 0; 0; 0; 0; 0; 0; 0; 0; 0; 0x10; 0; 1; 12;
               a; b; c; d; e; f; a'; b'; c'; d'; e'; f']).
  set (chk := 1800 + a + b + c + d + e + f + a' + b' + c' + d' + e' + f').
  assert (Hbuf : fst (build_disc_unique_branch (repeat 0 257%nat)
                        [a; b; c; d; e; f] [a'; b'; c'; d'; e'; f'])
                 = msg ++ [u8 (Z.shiftr chk 8); u8 (Z.land chk 0xFF)]
                       ++ repeat 0 219%nat).
  { assert (Hc : rdm_checksum (msg ++ repeat 0 221%nat) 36 = chk).
    { rewrite rdm_checksum_sum.
      change (firstn (Z.to_nat 36) (msg ++ repeat 0 221%nat)) with msg.
      subst msg chk. cbn [sum_bytes fold_right].
      rewrite Z.mod_small by lia. lia. }
    rewrite <- Hc. subst msg.
    cbv -[rdm_checksum u8 Z.shiftr Z.land]. reflexivity. }
  rewrite Hbuf.
  destruct (checksum_bytes chk ltac:(subst chk; lia)) as (Hhi & Hlo & Hsum).
  apply well_formed_validate.
  - unfold bytes_ok. rewrite !forallb_app.
    apply andb_true_intro; split; [|apply andb_true_intro; split].
    + subst msg. cbn [forallb]. rewrite !is_byteb_true by lia. reflexivity.
    + cbn [forallb].
      rewrite (is_byteb_true _ Hhi), (is_byteb_true _ Hlo). reflexivity.
    + apply forallb_forall. intros x Hx. apply repeat_spec in Hx. now subst.
  - rewrite !length_app, repeat_length. subst msg. cbn [length]. lia.
  - unfold response_well_formed. split; [reflexivity|]. split; [reflexivity|].
    exists 36, (u8 (Z.shiftr chk 8)), (u8 (Z.land chk 0xFF)).
    split; [reflexivity|].
    split; [rewrite length_take, !length_app, repeat_length; subst msg;
            cbn [length]; lia|].
    split; [reflexivity|].
    split; [reflexivity|]. rewrite Hsum.
    change (firstn (Z.to_nat 36) (firstn (Z.to_nat 38) _)) with msg.
    subst msg chk. cbn [sum_bytes fold_right]. rewrite Z.mod_small by lia. lia.
Qed.

(** X3.  The two discovery requests the node builds carry a checksum that
    its own validation accepts: for every UID of six bytes the 26-byte mute
    request, and for every pair of six-byte bounds the 38-byte
    unique-branch request, pass rdm_validate_response (start codes,
    declared length, and the big-endian sum of the message bytes at the
    place validation reads it), whatever the packet buffer held before. *)
Theorem disc_requests_validate (pkt uid lower upper : list Z) :
  length pkt = 257%nat ->
  length uid = 6%nat -> bytes_ok uid = true ->
  length lower = 6%nat -> bytes_ok lower = true ->
  length upper = 6%nat -> bytes_ok upper = true ->
  (let '(buf, len) := build_disc_mute pkt uid in
   len = 26 /\ rdm_validate_response buf len = true) /\
  (let '(buf, len) := build_disc_unique_branch pkt lower upper in
   len = 38 /\ rdm_validate_response buf len = true).
Proof.
  intros Hp Hu Hbu Hl Hbl Hup Hbup.
  rewrite build_disc_mute_fresh, build_disc_unique_branch_fresh by assumption.
  pose proof (build_disc_mute_validates uid Hu Hbu) as H1.
  pose proof (build_disc_unique_branch_validates lower upper Hl Hbl Hup Hbup)
    as H2.
  destruct (build_disc_mute (repeat 0 257%nat) uid) as [b1 l1] eqn:E1.
  destruct (build_disc_unique_branch (repeat 0 257%nat) lower upper)
    as [b2 l2] eqn:E2.
  assert (l1 = 26) by (unfold build_disc_mute in E1; now inversion E1).
  assert (l2 = 38) by (unfold build_disc_unique_branch in E2; now inversion E2).
  subst l1 l2. cbn [fst] in H1, H2. auto.
Qed.

(** ** From the ring to the caller: collection and the polling loop *)

Lemma collect_loop_fifo (fuel : nat) :
  forall s,
    rx_wf (s_rx s) ->
    (RDM_MAX_PACKET_SIZE <= Z.of_nat (length (s_resp_buf s))) ->
    0 <= s_resp_len s <= RDM_MAX_PACKET_SIZE ->
    bytes_ok (rx_contents (s_rx s)) = true ->
    rx_available (s_rx s) <= Z.of_nat fuel ->
    let s' := collect_loop fuel s in
    let k := Z.min (rx_available (s_rx s))
                   (RDM_MAX_PACKET_SIZE - s_resp_len s) in
    s_resp_len s' = s_resp_len s + k /\
    firstn (Z.to_nat (s_resp_len s')) (s_resp_buf s')
    = firstn (Z.to_nat (s_resp_len s)) (s_resp_buf s)
      ++ firstn (Z.to_nat k) (rx_contents (s_rx s)) /\
    rx_contents (s_rx s') = skipn (Z.to_nat k) (rx_contents (s_rx s)).
Proof.
  induction fuel as [|fuel IH]; intros s Hwf Hbuf Hlen Hb Hav;
    pose proof (rx_available_wf _ Hwf) as [_ Hr].
  - cbn [collect_loop]. cbv zeta.
    replace (Z.min _ _) with 0 by lia.
    rewrite Z.add_0_r, app_nil_r. repeat split. 
  - cbn [collect_loop]. cbv zeta.
    destruct ((0 <? rx_available (s_rx s)) &&
              (s_resp_len s <? RDM_MAX_PACKET_SIZE)) eqn:Hc.
    + apply andb_prop in Hc as [Hpos Hroom].
      apply Z.ltb_lt in Hpos, Hroom.
      assert (Hne : s_rx_head (s_rx s) <> s_rx_tail (s_rx s)).
      { intros He. apply (rx_available_0 _ Hwf) in He. lia. }
      destruct (rx_pop_some _ Hwf Hne) as (Hwf1 & Hav1 & Hcont).
      destruct (rx_pop (s_rx s)) as [b r1]. cbn [fst snd] in Hwf1, Hav1, Hcont.
      rewrite Hcont in Hb. apply bytes_ok_cons in Hb as [Hbyte Hb1].
      replace (0 <=? b) with true by (symmetry; apply Z.leb_le; lia).
      set (s2 := set_resp _ _ _).
      assert (Hu8 : u8 b = b) by (unfold u8; apply Z.mod_small; lia).
      assert (Hu16 : u16 (s_resp_len s + 1) = s_resp_len s + 1)
        by (unfold u16, RDM_MAX_PACKET_SIZE in *; apply Z.mod_small; lia).
      specialize (IH s2). subst s2. proj_simpl.
      rewrite Hu8, Hu16, length_wr in IH.
      specialize (IH Hwf1 Hbuf ltac:(lia) Hb1 ltac:(lia)). cbv zeta in IH.
      destruct IH as (I1 & I2 & I3). rewrite Hu8, Hu16.
      rewrite Hav1 in *.
      set (k := Z.min (rx_available (s_rx s))
                      (RDM_MAX_PACKET_SIZE - s_resp_len s)).
      replace (Z.min (rx_available (s_rx s) - 1)
                     (RDM_MAX_PACKET_SIZE - (s_resp_len s + 1)))
        with (k - 1) in * by (subst k; lia).
      assert (Hk : 1 <= k) by (subst k; lia).
      split; [rewrite I1; lia|]. split.
      * rewrite I2, Hcont.
        replace (Z.to_nat (s_resp_len s + 1))
          with (S (Z.to_nat (s_resp_len s))) by lia.
        assert (Hl : wr (s_resp_buf s) (s_resp_len s) b
                        !! Z.to_nat (s_resp_len s) = Some b)
          by (apply list_lookup_insert_eq; unfold RDM_MAX_PACKET_SIZE in *; lia).
        rewrite (take_S_r _ _ _ Hl). unfold wr.
        rewrite take_insert_ge by lia. rewrite <- app_assoc.
        replace (Z.to_nat k) with (S (Z.to_nat (k - 1))) by lia.
        reflexivity.
      * rewrite I3, Hcont.
        replace (Z.to_nat k) with (S (Z.to_nat (k - 1))) by lia.
        reflexivity.
    + apply andb_false_iff in Hc.
      replace (Z.min _ _) with 0
        by (destruct Hc as [Hc | Hc];
            [apply Z.ltb_ge in Hc | apply Z.ltb_ge in Hc]; lia).
      rewrite Z.add_0_r, app_nil_r. repeat split.
Qed.

(** X8.  Response collection in the waiting state moves bytes from the
    receive ring to the response buffer in arrival order and without loss:
    it appends the oldest unread bytes behind the bytes collected so far,
    as many as there are or as still fit below the 257-byte capacity of
    the buffer, and leaves the remaining bytes unread in the ring. *)
Theorem collect_response_fifo (s : rdm_state) :
  rx_wf (s_rx s) ->
  length (s_resp_buf s) = Z.to_nat RDM_MAX_PACKET_SIZE ->
  0 <= s_resp_len s <= RDM_MAX_PACKET_SIZE ->
  bytes_ok (rx_contents (s_rx s)) = true ->
  let s' := collect_response s in
  let k := Z.min (rx_available (s_rx s))
                 (RDM_MAX_PACKET_SIZE - s_resp_len s) in
  s_resp_len s' = s_resp_len s + k /\
  firstn (Z.to_nat (s_resp_len s')) (s_resp_buf s')
  = firstn (Z.to_nat (s_resp_len s)) (s_resp_buf s)
    ++ firstn (Z.to_nat k) (rx_contents (s_rx s)) /\
  rx_contents (s_rx s') = skipn (Z.to_nat k) (rx_contents (s_rx s)).
Proof.
  intros Hwf Hbuf Hlen Hb. unfold collect_response.
  pose proof (rx_available_wf _ Hwf) as [_ Hr].
  assert (Hf : rx_available (s_rx s) <= Z.of_nat (Z.to_nat RDM_RX_BUF_SIZE))
    by (unfold RDM_RX_BUF_SIZE; lia).
  revert Hf. generalize (Z.to_nat RDM_RX_BUF_SIZE). intros fuel Hf.
  apply collect_loop_fifo; try assumption.
  rewrite Hbuf. unfold RDM_MAX_PACKET_SIZE. lia.
Qed.

Lemma bytes_ok_app (a b : list Z) :
  bytes_ok (a ++ b) = bytes_ok a && bytes_ok b.
Proof. apply forallb_app. Qed.

Lemma bytes_ok_sublist (a b : list Z) :
  sublist a b -> bytes_ok b = true -> bytes_ok a = true.
Proof.
  intros Hs Hb. unfold bytes_ok in *. rewrite forallb_forall in *.
  intros x Hx. apply Hb. apply list_elem_of_In.
  eapply elem_of_sublist; [|exact Hs]. now apply list_elem_of_In.
Qed.

Lemma irq_pushes_contents (bytes : list Z) :
  forall r, rx_wf r ->
    exists accepted,
      sublist accepted bytes /\
      rx_contents (fold_left (fun r b => rx_push b r) bytes r)
      = rx_contents r ++ accepted.
Proof.
  induction bytes as [|b bytes IH]; intros r Hwf.
  - exists []. split; [constructor|]. cbn. now rewrite app_nil_r.
  - cbn [fold_left].
    pose proof (rx_available_wf r Hwf) as [_ Hr].
    destruct (IH (rx_push b r) (rx_push_wf b r Hwf)) as (acc & Hsub & Heq).
    destruct (Z.eq_dec (rx_available r) 511) as [Hfull | Hroom].
    + rewrite rx_push_full in * by assumption.
      exists acc. split; [now apply sublist_cons | exact Heq].
    + destruct (rx_push_room b r Hwf ltac:(lia)) as (_ & _ & Hc).
      rewrite Hc, <- app_assoc in Heq.
      exists (b :: acc). split; [now apply sublist_skip | exact Heq].
Qed.

Lemma rdm_bus_receive_poll_fifo_gen (start timeout_ms max_len : Z)
    (script : list (list Z * Z)) :
  forall (buf : list Z) (n : Z) (r : rx_ring),
    0 <= n <= max_len -> max_len <= Z.of_nat (length buf) ->
    max_len <= 65535 ->
    rx_wf r -> bytes_ok (rx_contents r) = true ->
    bytes_ok (concat (map fst script)) = true ->
    let res := rdm_bus_receive_poll script start timeout_ms max_len buf n r in
    let n' := snd (fst res) in
    exists accepted,
      sublist accepted (concat (map fst script)) /\
      firstn (Z.to_nat n') (fst (fst res)) ++ rx_contents (snd res)
      = firstn (Z.to_nat n) buf ++ rx_contents r ++ accepted /\
      (forall m, n < m < n' ->
         rdm_message_complete (firstn (Z.to_nat m) (fst (fst res))) = false).
Proof.
  induction script as [|[irq now] rest IH];
    intros buf n r Hn Hmax H16 Hwf Hb Hs.
  - cbn [rdm_bus_receive_poll fst snd]. exists [].
    split; [constructor|]. rewrite app_nil_r. split; [reflexivity|]. lia.
  - cbn [rdm_bus_receive_poll].
    cbn [map concat fst] in Hs. rewrite bytes_ok_app in Hs.
    apply andb_prop in Hs as [Hsi Hsr].
    destruct (negb (n <? max_len)) eqn:Hfull.
    { cbn [fst snd]. exists []. split; [apply sublist_nil_l|].
      rewrite app_nil_r. split; [reflexivity|]. lia. }
    apply negb_false_iff, Z.ltb_lt in Hfull.
    destruct (irq_pushes_contents irq r Hwf) as (acc1 & Hsub1 & Hc1).
    pose proof (irq_pushes_wf irq r Hwf) as Hwf1.
    set (r1 := fold_left _ irq r) in *.
    assert (Hb1 : bytes_ok (rx_contents r1) = true).
    { rewrite Hc1, bytes_ok_app, Hb. cbn [andb].
      eapply bytes_ok_sublist; eassumption. }
    cbn [map concat fst].
    destruct (timeout_ms <? u32 (now - start)).
    { cbn [fst snd]. exists acc1. split; [now apply sublist_inserts_r|].
      split; [now rewrite Hc1 | lia]. }
    destruct (Z.eq_dec (s_rx_head r1) (s_rx_tail r1)) as [He | Hne].
    + destruct (rx_pop_empty r1 Hwf1 He) as [Hp Hc]. rewrite Hp.
      change (-1 <? 0) with true. cbv iota.
      destruct (IH buf n r1 Hn Hmax H16 Hwf1 Hb1 Hsr)
        as (acc & Hsub & Heq & Hnc).
      exists (acc1 ++ acc). split; [now apply sublist_app|].
      split; [|exact Hnc].
      rewrite Heq, Hc1. now rewrite <- !app_assoc.
    + destruct (rx_pop_some r1 Hwf1 Hne) as (Hwf2 & _ & Hc).
      destruct (rx_pop r1) as [b r2]. cbn [fst snd] in Hwf2, Hc.
      rewrite Hc in Hb1. apply bytes_ok_cons in Hb1 as [Hbyte Hb2].
      replace (b <? 0) with false by (symmetry; apply Z.ltb_ge; lia).
      assert (Hu8 : u8 b = b) by (unfold u8; apply Z.mod_small; lia).
      assert (Hn1 : u16 (n + 1) = n + 1)
        by (unfold u16; apply Z.mod_small; lia).
      rewrite Hu8, Hn1.
      assert (Htake : firstn (Z.to_nat (n + 1)) (wr buf n b)
                      = firstn (Z.to_nat n) buf ++ [b]).
      { replace (Z.to_nat (n + 1)) with (S (Z.to_nat n)) by lia.
        assert (Hl : wr buf n b !! Z.to_nat n = Some b)
          by (apply list_lookup_insert_eq; lia).
        rewrite (take_S_r _ _ _ Hl). unfold wr.
        now rewrite take_insert_ge by lia. }
      pose proof (message_complete_take (wr buf n b) (n + 1)
                    ltac:(rewrite length_wr; lia)) as Hcomp.
      destruct ((3 <=? n + 1) && (rd (wr buf n b) 0 =? RDM_SC_RDM)
                && (rd (wr buf n b) 1 =? RDM_SC_SUB_MESSAGE)
                && (n + 1 =? u16 (rd (wr buf n b) 2 + 2))) eqn:Hdone.
      * cbn [fst snd]. exists acc1. split; [now apply sublist_inserts_r|].
        split; [|lia].
        rewrite Htake, <- Hc1, Hc, <- app_assoc. reflexivity.
      * destruct (IH (wr buf n b) (n + 1) r2 ltac:(lia)
                     ltac:(rewrite length_wr; lia) H16 Hwf2 Hb2 Hsr)
          as (acc & Hsub & Heq & Hnc).
        destruct (rdm_bus_receive_poll_bounds start timeout_ms max_len rest
                    (wr buf n b) (n + 1) r2 ltac:(lia)
                    ltac:(rewrite length_wr; lia) H16)
          as (Hge & _ & Hpre & _).
        set (res := rdm_bus_receive_poll rest start timeout_ms max_len
                      (wr buf n b) (n + 1) r2) in *.
        exists (acc1 ++ acc). split; [now apply sublist_app|]. split.
        -- rewrite Heq, Htake. rewrite (app_assoc (rx_contents r)).
           rewrite <- Hc1, Hc, <- app_assoc. reflexivity.
        -- intros m Hm.
           destruct (Z.eq_dec m (n + 1)) as [-> | Hne1]; [|apply Hnc; lia].
           rewrite <- Hcomp. f_equal. exact Hpre.
Qed.

(** X6.  The polling loop of rdm_bus_receive, started on an empty buffer,
    for every script of interrupts and clock readings: it returns at most
    [max_len] bytes; the bytes it returns, followed by the bytes it leaves
    unread in the ring, are the bytes that were unread at the start
    followed by the bytes the interrupts got into the ring, in order (so
    nothing is lost or reordered on the way from the ring to the caller's
    buffer); and no shorter prefix of the returned bytes passes the
    end-of-packet test, so the loop never reads past the end of the first
    complete message. *)
Theorem rdm_bus_receive_poll_fifo (start timeout_ms max_len : Z)
    (script : list (list Z * Z)) (buf : list Z) (r : rx_ring) :
  0 <= max_len <= Z.of_nat (length buf) -> max_len <= 65535 ->
  rx_wf r -> bytes_ok (rx_contents r) = true ->
  bytes_ok (concat (map fst script)) = true ->
  let res := rdm_bus_receive_poll script start timeout_ms max_len buf 0 r in
  let n := snd (fst res) in
  let collected := firstn (Z.to_nat n) (fst (fst res)) in
  0 <= n <= max_len /\
  (exists accepted,
      sublist accepted (concat (map fst script)) /\
      collected ++ rx_contents (snd res) = rx_contents r ++ accepted) /\
  (forall m : nat, (m < length collected)%nat ->
      rdm_message_complete (firstn m collected) = false).
Proof.
  intros Hmax H16 Hwf Hb Hs res n collected.
  destruct (rdm_bus_receive_poll_bounds start timeout_ms max_len script buf 0 r
              ltac:(lia) ltac:(lia) H16) as (Hn & Hlen & _).
  destruct (rdm_bus_receive_poll_fifo_gen start timeout_ms max_len script buf 0 r
              ltac:(lia) ltac:(lia) H16 Hwf Hb Hs) as (acc & Hsub & Heq & Hnc).
  fold res in Hn, Hlen, Heq, Hnc. fold n in Hn, Heq, Hnc.
  split; [exact Hn|]. split.
  - exists acc. split; [exact Hsub|]. exact Heq.
  - intros m Hm. subst collected. rewrite length_take in Hm.
    rewrite take_take_le by lia.
    destruct m as [|m]; [reflexivity|].
    specialize (Hnc (Z.of_nat (S m)) ltac:(lia)).
    now rewrite Nat2Z.id in Hnc.
Qed.

Lemma message_complete_inv (msg : list Z) :
  bytes_ok msg = true -> rdm_message_complete msg = true ->
  3 <= Z.of_nat (length msg) /\ rd msg 0 = RDM_SC_RDM /\
  rd msg 1 = RDM_SC_SUB_MESSAGE /\ Z.of_nat (length msg) = rd msg 2 + 2.
Proof.
  intros Hb H. unfold rdm_message_complete in H.
  apply andb_prop in H as [H H4]. apply andb_prop in H as [H H3].
  apply andb_prop in H as [H1 H2].
  apply Z.leb_le in H1. apply Z.eqb_eq in H2, H3, H4.
  pose proof (bytes_ok_rd msg 2 Hb) as B2.
  unfold u16 in H4. rewrite Z.mod_small in H4 by lia. auto.
Qed.

Lemma rdm_bus_receive_poll_message_gen (start timeout_ms max_len : Z)
    (msg rest : list Z) (clocks : list Z) :
  bytes_ok msg = true -> rdm_message_complete msg = true ->
  Z.of_nat (length msg) <= max_len -> max_len <= 65535 ->
  Forall (fun now => u32 (now - start) <= timeout_ms) clocks ->
  forall (buf : list Z) (n : nat) (r : rx_ring),
    max_len <= Z.of_nat (length buf) ->
    (n < length msg)%nat -> (length msg - n <= length clocks)%nat ->
    rx_wf r -> rx_contents r = skipn n msg ++ rest ->
    firstn n buf = firstn n msg ->
    let res := rdm_bus_receive_poll (map (fun now => ([], now)) clocks)
                 start timeout_ms max_len buf (Z.of_nat n) r in
    snd (fst res) = Z.of_nat (length msg) /\
    firstn (length msg) (fst (fst res)) = msg /\
    rx_contents (snd res) = rest /\ rx_wf (snd res).
Proof.
  intros Hb Hcomp Hfit H16 Hclk.
  destruct (message_complete_inv msg Hb Hcomp) as (H3 & H0 & H1 & H2).
  induction Hclk as [|now clocks Hnow Hclk IH];
    intros buf n r Hbuf Hn Hlen Hwf Hc Hpre.
  - cbn [length] in Hlen. lia.
  - cbn [map rdm_bus_receive_poll fold_left].
    replace (Z.of_nat n <? max_len) with true by (symmetry; apply Z.ltb_lt; lia).
    replace (timeout_ms <? u32 (now - start)) with false
      by (symmetry; apply Z.ltb_ge; lia).
    cbn [negb].
    destruct (msg !! n) as [b|] eqn:Hb_n;
      [|apply lookup_ge_None in Hb_n; lia].
    rewrite (drop_S _ _ _ Hb_n) in Hc. cbn [app] in Hc.
    assert (Hne : s_rx_head r <> s_rx_tail r).
    { intros He. destruct (rx_pop_empty r Hwf He) as [_ He2].
      rewrite He2 in Hc. discriminate. }
    destruct (rx_pop_some r Hwf Hne) as (Hwf2 & _ & Hc2).
    destruct (rx_pop r) as [b' r2]. cbn [fst snd] in Hwf2, Hc2.
    rewrite Hc in Hc2. injection Hc2 as <- Hc2.
    assert (Hbyte : 0 <= b < 256).
    { pose proof (bytes_ok_rd msg (Z.of_nat n) Hb) as Hr.
      unfold rd in Hr. rewrite Nat2Z.id in Hr.
      now rewrite (nth_lookup_Some _ _ _ _ Hb_n) in Hr. }
    replace (b <? 0) with false by (symmetry; apply Z.ltb_ge; lia).
    assert (Hu8 : u8 b = b) by (unfold u8; apply Z.mod_small; lia).
    assert (Hn1 : u16 (Z.of_nat n + 1) = Z.of_nat (S n))
      by (unfold u16; rewrite Z.mod_small by lia; lia).
    rewrite Hu8, Hn1.
    assert (Htake : firstn (S n) (wr buf (Z.of_nat n) b) = firstn (S n) msg).
    { assert (Hl : wr buf (Z.of_nat n) b !! n = Some b)
        by (unfold wr; rewrite Nat2Z.id; apply list_lookup_insert_eq; lia).
      rewrite (take_S_r _ _ _ Hl), (take_S_r _ _ _ Hb_n). unfold wr.
      rewrite Nat2Z.id, take_insert_ge by lia. now rewrite Hpre. }
    pose proof (message_complete_take (wr buf (Z.of_nat n) b) (Z.of_nat (S n))
                  ltac:(rewrite length_wr; lia)) as Hck.
    rewrite Nat2Z.id, Htake in Hck. rewrite <- Hck.
    destruct (Nat.eq_dec (S n) (length msg)) as [Hend | Hmore].
    + rewrite Hend, take_ge, Hcomp by lia. cbn [fst snd].
      split; [lia|]. split; [|split; [|exact Hwf2]].
      * rewrite <- Hend, Htake, Hend. apply take_ge. lia.
      * rewrite <- Hc2, Hend, drop_ge by lia. reflexivity.
    + replace (rdm_message_complete (firstn (S n) msg)) with false.
      * apply IH; try assumption; try (rewrite ?length_wr; cbn [length] in *; lia).
        now rewrite <- Hc2.
      * symmetry. rewrite <- (Nat2Z.id (S n)).
        rewrite message_complete_take by lia.
        unfold u16. rewrite Z.mod_small
          by (pose proof (bytes_ok_rd msg 2 Hb); lia).
        replace (Z.of_nat (S n) =? rd msg 2 + 2) with false
          by (symmetry; apply Z.eqb_neq; lia).
        apply andb_false_r.
Qed.

(** X7.  When a complete RDM message (start codes 0xCC 0x01 and as many
    bytes as its length byte declares, plus two) is waiting in the receive
    ring and the receive window stays open for as many passes of the loop
    as the message has bytes, rdm_bus_receive returns exactly that
    message, without waiting for the timeout, and leaves the bytes that
    follow it unread in the ring. *)
Theorem rdm_bus_receive_poll_message (start timeout_ms max_len : Z)
    (msg rest clocks buf : list Z) (r : rx_ring) :
  bytes_ok msg = true -> rdm_message_complete msg = true ->
  Z.of_nat (length msg) <= max_len <= Z.of_nat (length buf) ->
  max_len <= 65535 ->
  rx_wf r -> rx_contents r = msg ++ rest ->
  Forall (fun now => u32 (now - start) <= timeout_ms) clocks ->
  (length msg <= length clocks)%nat ->
  let res := rdm_bus_receive_poll (map (fun now => ([], now)) clocks)
               start timeout_ms max_len buf 0 r in
  snd (fst res) = Z.of_nat (length msg) /\
  firstn (length msg) (fst (fst res)) = msg /\
  rx_contents (snd res) = rest.
Proof.
  intros Hb Hcomp Hfit H16 Hwf Hc Hclk Hlen.
  destruct (message_complete_inv msg Hb Hcomp) as (H3 & _).
  destruct (rdm_bus_receive_poll_message_gen start timeout_ms max_len msg rest
              clocks Hb Hcomp ltac:(lia) H16 Hclk buf 0%nat r
              ltac:(lia) ltac:(lia) ltac:(lia) Hwf Hc eq_refl)
    as (R1 & R2 & R3 & _).
  auto.
Qed.

(** ** A transaction reports what it heard (C1) *)

Lemma take_app_same {A} (n : nat) (a h x : list A) :
  firstn n a = firstn n h -> firstn n (a ++ x) = firstn n (h ++ x).
Proof.
  intros H.
  destruct (Nat.lt_ge_cases (length a) n) as [Hlt | Hge].
  - assert (Hl : length (firstn n h) = length a)
      by (rewrite <- H, length_take; lia).
    rewrite length_take in Hl.
    rewrite take_ge in H by lia. rewrite take_ge in H by lia.
    now subst.
  - assert (Hl : length (firstn n h) = n)
      by (rewrite <- H, length_take; lia).
    rewrite length_take in Hl.
    rewrite !take_app_le by lia. exact H.
Qed.

Lemma take_app_full {A} (n : nat) (a h x : list A) :
  firstn n a = firstn n h -> (n <= length a)%nat ->
  firstn n a = firstn n (h ++ x).
Proof.
  intros H Hge.
  assert (Hl : length (firstn n h) = n)
    by (rewrite <- H, length_take; lia).
  rewrite length_take in Hl.
  rewrite take_app_le by lia. exact H.
Qed.

(** The interrupt handler appends to the unread bytes of the ring, and
    drops a byte only when the ring holds 511. *)
Lemma irq_pushes_heard (bytes : list Z) :
  forall (r : rx_ring) (c heard : list Z),
    rx_wf r -> bytes_ok bytes = true -> bytes_ok (rx_contents r) = true ->
    firstn 511%nat (c ++ rx_contents r) = firstn 511%nat heard ->
    let r' := fold_left (fun r b => rx_push b r) bytes r in
    bytes_ok (rx_contents r') = true /\
    firstn 511%nat (c ++ rx_contents r') = firstn 511%nat (heard ++ bytes).
Proof.
  induction bytes as [|b bytes IH]; intros r c heard Hwf Hb Hr Hh.
  - cbn [fold_left]. cbv zeta. now rewrite app_nil_r.
  - cbn [fold_left]. cbv zeta.
    apply bytes_ok_cons in Hb as [Hb0 Hb].
    pose proof (rx_available_wf r Hwf) as [_ Hav].
    replace (heard ++ b :: bytes) with ((heard ++ [b]) ++ bytes)
      by (now rewrite <- app_assoc).
    destruct (Z.eq_dec (rx_available r) 511) as [Hfull | Hroom].
    + rewrite rx_push_full by assumption.
      apply IH; try assumption.
      apply take_app_full; [exact Hh|].
      rewrite length_app, rx_contents_length. lia.
    + destruct (rx_push_room b r Hwf ltac:(lia)) as (Hwf1 & _ & Hc).
      apply IH; try assumption.
      * rewrite Hc, bytes_ok_app, Hr. cbn. rewrite andb_true_r.
        unfold is_byteb. lia.
      * rewrite Hc, app_assoc. now apply take_app_same.
Qed.

(** Collection fills the response buffer with the first 257 of the bytes
    collected so far followed by the unread bytes of the ring. *)
Lemma collect_response_take (s : rdm_state) :
  rx_wf (s_rx s) -> resp_wf s ->
  bytes_ok (rx_contents (s_rx s)) = true ->
  let s' := collect_response s in
  let all := firstn (Z.to_nat (s_resp_len s)) (s_resp_buf s)
             ++ rx_contents (s_rx s) in
  firstn (Z.to_nat (s_resp_len s')) (s_resp_buf s') = collected all /\
  s_resp_len s' = Z.of_nat (length (collected all)) /\
  firstn (Z.to_nat (s_resp_len s')) (s_resp_buf s')
  ++ rx_contents (s_rx s') = all.
Proof.
  intros Hwf (Hbl & Hbo & Hbn) Hb. unfold collect_response.
  pose proof (rx_available_wf _ Hwf) as [_ Hr].
  assert (Hf : rx_available (s_rx s) <= Z.of_nat (Z.to_nat RDM_RX_BUF_SIZE))
    by (unfold RDM_RX_BUF_SIZE; lia).
  revert Hf. generalize (Z.to_nat RDM_RX_BUF_SIZE). intros fuel Hf.
  assert (Hbuf : RDM_MAX_PACKET_SIZE <= Z.of_nat (length (s_resp_buf s)))
    by (rewrite Hbl; unfold RDM_MAX_PACKET_SIZE; lia).
  destruct (collect_loop_fifo fuel s Hwf Hbuf Hbn Hb Hf) as (H1 & H2 & H3).
  cbv zeta.
  set (k := Z.min (rx_available (s_rx s))
                  (RDM_MAX_PACKET_SIZE - s_resp_len s)) in *.
  assert (Hl : length (firstn (Z.to_nat (s_resp_len s)) (s_resp_buf s))
               = Z.to_nat (s_resp_len s))
    by (rewrite length_take; unfold RDM_MAX_PACKET_SIZE in *; lia).
  assert (Hc : collected (firstn (Z.to_nat (s_resp_len s)) (s_resp_buf s)
                          ++ rx_contents (s_rx s))
               = firstn (Z.to_nat (s_resp_len s)) (s_resp_buf s)
                 ++ firstn (Z.to_nat k) (rx_contents (s_rx s))).
  { unfold collected. rewrite take_app, Hl.
    rewrite take_ge by (rewrite Hl; lia). f_equal.
    destruct (Z.le_ge_cases (rx_available (s_rx s))
                            (RDM_MAX_PACKET_SIZE - s_resp_len s)).
    - rewrite !take_ge; [reflexivity| |]; rewrite rx_contents_length;
        subst k; lia.
    - f_equal. subst k. lia. }
  rewrite Hc. split; [exact H2|]. split.
  - rewrite H1, length_app, Hl, length_take, rx_contents_length.
    subst k. lia.
  - rewrite H2, H3, <- app_assoc, take_drop. reflexivity.
Qed.

Lemma collected_take (heard : list Z) :
  collected (firstn 511%nat heard) = collected heard.
Proof.
  unfold collected, RDM_MAX_PACKET_SIZE. apply take_take_le. lia.
Qed.

Lemma bytes_ok_drop (a : list Z) (n : nat) :
  bytes_ok a = true -> bytes_ok (skipn n a) = true.
Proof. apply bytes_ok_sublist, sublist_drop. Qed.

Lemma collect_response_ring (s : rdm_state) :
  rx_wf (s_rx s) -> resp_wf s ->
  bytes_ok (rx_contents (s_rx s)) = true ->
  bytes_ok (rx_contents (s_rx (collect_response s))) = true.
Proof.
  intros Hwf (Hbl & Hbo & Hbn) Hb. unfold collect_response.
  pose proof (rx_available_wf _ Hwf) as [_ Hr].
  assert (Hf : rx_available (s_rx s) <= Z.of_nat (Z.to_nat RDM_RX_BUF_SIZE))
    by (unfold RDM_RX_BUF_SIZE; lia).
  revert Hf. generalize (Z.to_nat RDM_RX_BUF_SIZE). intros fuel Hf.
  assert (Hbuf : RDM_MAX_PACKET_SIZE <= Z.of_nat (length (s_resp_buf s)))
    by (rewrite Hbl; unfold RDM_MAX_PACKET_SIZE; lia).
  destruct (collect_loop_fifo fuel s Hwf Hbuf Hbn Hb Hf) as (_ & _ & H3).
  rewrite H3. now apply bytes_ok_drop.
Qed.

(** What a call of rdm_task in the waiting state finds after collecting:
    the first 257 bytes heard since the transmission. *)
Lemma waiting_collects (heard : list Z) (s : rdm_state) :
  engine_wf s -> s_state s = SM_WAITING_RESPONSE -> heard_inv heard s ->
  let s' := collect_response s in
  firstn (Z.to_nat (s_resp_len s')) (s_resp_buf s') = collected heard /\
  s_resp_len s' = Z.of_nat (length (collected heard)) /\
  rdm_validate_response (s_resp_buf s') (s_resp_len s')
  = rdm_validate_response (collected heard)
                          (Z.of_nat (length (collected heard))) /\
  heard_inv heard s'.
Proof.
  intros (Hq & Hrx & Hr & Ht & Hx) Hs Hh. destruct (Hh Hs) as [Hb H511].
  destruct (collect_response_take s Hrx Hr Hb) as (C1 & C2 & C3).
  pose proof (collect_response_ring s Hrx Hr Hb) as C4.
  cbv zeta in *.
  assert (Hc : collected (firstn (Z.to_nat (s_resp_len s)) (s_resp_buf s)
                          ++ rx_contents (s_rx s)) = collected heard).
  { rewrite <- collected_take, H511. apply collected_take. }
  rewrite Hc in *.
  destruct (collect_response_shape s) as (rr & buf & len & Heq & _ & Hr').
  specialize (Hr' Hr). rewrite Heq in *. unfold resp_wf in Hr'. proj_simpl.
  destruct Hr' as (Hbl & Hbo & Hbn).
  split; [exact C1|]. split; [exact C2|]. split.
  - rewrite <- C2, <- C1. symmetry. apply validate_take; [exact Hbo|].
    rewrite Hbl. unfold RDM_MAX_PACKET_SIZE in *. lia.
  - intros _. proj_simpl. split; [exact C4|]. now rewrite C3.
Qed.

Lemma rx_contents_flush (r : rx_ring) : rx_contents (rx_flush r) = [].
Proof. reflexivity. Qed.

Lemma heard_inv_start (retry later active : Z) (s : rdm_state) :
  heard_inv [] (start_wait retry later active s).
Proof.
  intros _. unfold start_wait, after_send. proj_simpl.
  rewrite rx_contents_flush. split; reflexivity.
Qed.

Lemma offered_cons (o : op) (ops : list op) :
  offered (o :: ops) = offered [o] ++ offered ops.
Proof. unfold offered. cbn [flat_map]. now rewrite app_nil_r. Qed.

Lemma txn_report_valid (r0 : rdm_request_t) (heard : list Z) :
  rdm_validate_response (collected heard)
                        (Z.of_nat (length (collected heard))) = true ->
  txn_report r0 heard
  = EvResponse (Some (collected heard)) (Z.of_nat (length (collected heard)))
               (req_src_ip r0) (req_src_port r0).
Proof. intros H. unfold txn_report. cbv zeta. now rewrite H. Qed.

Lemma txn_report_invalid (r0 : rdm_request_t) (heard : list Z) :
  rdm_validate_response (collected heard)
                        (Z.of_nat (length (collected heard))) = false ->
  txn_report r0 heard = failure_sentinel r0.
Proof. intros H. unfold txn_report. cbv zeta. now rewrite H. Qed.

Section TransactionHeard.

Context {B : Type}.
Variable bus_tx : B -> list Z -> B.
Variable bus_rx : B -> Z -> list Z * B.
Variable r0 : rdm_request_t.
Variable h0 : Z.

(** One call, seen from the bytes heard and from the queue: while the
    transaction goes on, the queue only grows at its tail; the call that
    ends it reports on what was heard and takes the head off the queue;
    and a call of rdm_task that finds a validating response ends it. *)
Lemma txn_step_heard (o : op) (w : @world B) (k : nat) (heard : list Z) :
  txn_inv r0 h0 k (fst w) -> heard_inv heard (fst w) -> op_ok o = true ->
  let r := apply_op bus_tx bus_rx o w in
  let s := fst w in
  let s1 := fst (fst r) in
  let stop := is_task o && rdm_state_eqb (s_state s1) SM_IDLE in
  let heard1 := match o with
                | OpIrq bytes => heard ++ bytes
                | _ => if existsb is_send (snd r) then [] else heard
                end in
  (stop = false ->
   heard_inv heard1 s1 /\
   exists acc, queue_contents s1 = queue_contents s ++ acc /\
               sublist (map req_view acc) (offered [o])) /\
  (stop = true ->
   snd r = [txn_report r0 heard] /\ g_rdm_bus_busy s1 = false /\
   queue_contents s = r0 :: queue_contents s1 /\
   req_in_use (nth (Z.to_nat h0) (s_req_buf s1) req_zero) = false) /\
  (is_task o = true -> s_state s = SM_WAITING_RESPONSE ->
   rdm_validate_response (collected heard)
                         (Z.of_nat (length (collected heard))) = true ->
   stop = true).
Proof.
  destruct w as [s bus]. cbn [fst]. intros Hinv Hh Hok. cbv zeta.
  destruct Hinv as (Hwf & Hcb & Hhd & Hr0 & Hpos & Hst).
  assert (Hsame : forall s1 : rdm_state,
            s_state s1 = s_state s -> s_resp_len s1 = s_resp_len s ->
            s_resp_buf s1 = s_resp_buf s -> s_rx s1 = s_rx s ->
            heard_inv heard s1).
  { intros s1 E1 E2 E3 E4 Hs1. unfold heard_inv in Hh.
    rewrite E2, E3, E4. apply Hh. congruence. }
  assert (Hnil : forall s1 : rdm_state,
            queue_contents s1 = queue_contents s ->
            exists acc, queue_contents s1 = queue_contents s ++ acc /\
                        sublist (map req_view acc) (offered [o])).
  { intros s1 E. exists []. rewrite app_nil_r. split; [exact E|].
    apply sublist_nil_l. }
  destruct o as [bytes | data len ip port | | | | now later].
  - (* interrupt *)
    cbn [apply_op fst snd is_task andb op_ok] in *.
    split; [|split; discriminate]. intros _. split.
    + intros Hs1. unfold uart1_irq_handler in *. proj_simpl.
      destruct (Hh Hs1) as [Hb H511].
      apply irq_pushes_heard; try assumption. apply Hwf.
    + apply Hnil. apply queue_contents_ext; reflexivity.
  - (* enqueue *)
    cbn [apply_op fst snd is_task andb op_ok existsb] in *.
    apply andb_prop in Hok as [Hl0 Hl1].
    apply Z.leb_le in Hl0, Hl1.
    split; [|split; discriminate]. intros _.
    destruct (Z.lt_ge_cases (s_req_count s) RDM_REQUEST_BUFFER_SIZE) as [Hc | Hc];
      [destruct (Z.le_gt_cases len RDM_MAX_PACKET_SIZE) as [Hl | Hl]|].
    + destruct (enqueue_accepted data len ip port s (proj1 Hwf) Hc Hl)
        as (_ & _ & _ & _ & _ & Hcont).
      split.
      * apply Hsame; unfold rdm_enqueue_request;
          destruct (_ <=? _); try reflexivity; destruct (_ <? _); reflexivity.
      * eexists. split; [exact Hcont|].
        cbn [map offered flat_map app]. unfold req_view, req_frame.
        cbn [req_data req_length req_src_ip req_src_port].
        rewrite req_frame_memcpy by lia. reflexivity.
    + rewrite enqueue_rejected by lia. cbn [snd].
      split; [now apply Hsame | now apply Hnil].
    + rewrite enqueue_rejected by lia. cbn [snd].
      split; [now apply Hsame | now apply Hnil].
  - (* get_tod *)
    cbn [apply_op fst snd is_task andb existsb] in *.
    split; [|split; discriminate]. intros _.
    split; [now apply Hsame | now apply Hnil].
  - (* flush_tod *)
    cbn [apply_op fst snd is_task andb existsb] in *.
    split; [|split; discriminate]. intros _.
    split; [now apply Hsame | now apply Hnil].
  - (* tod_changed *)
    cbn [apply_op fst snd is_task andb existsb] in *.
    split; [|split; discriminate]. intros _.
    split; [now apply Hsame | now apply Hnil].
  - (* rdm_task *)
    cbn [apply_op is_task andb] in *.
    pose proof Hwf as (Hq & Hrx & Hr & Ht & Hx).
    destruct (state_cases (s_state s)) as [Hs | [Hs | [Hs | Hs]]].
    + (* idle: the transaction starts *)
      rewrite task_idle_start by assumption. cbn [fst snd existsb is_send orb].
      unfold start_wait at 1 3. proj_simpl. cbn [rdm_state_eqb].
      split; [|split; [discriminate | intros _ E; congruence]].
      intros _. split; [apply heard_inv_start|].
      apply Hnil. apply queue_contents_ext; reflexivity.
    + (* sending *)
      rewrite task_sending by assumption. cbn [fst snd existsb is_send orb].
      unfold start_wait at 1 3. proj_simpl. cbn [rdm_state_eqb].
      split; [|split; [discriminate | intros _ E; congruence]].
      intros _. split; [apply heard_inv_start|].
      apply Hnil. apply queue_contents_ext; reflexivity.
    + (* waiting *)
      assert (Hx' : s_active_idx s = s_req_head s /\ 0 < s_req_count s /\
                    0 <= s_retry s <= RDM_RETRY_COUNT)
        by (apply Hx; unfold in_flight; rewrite Hs; reflexivity).
      destruct Hx' as (Ha & _ & Hret).
      destruct (waiting_collects heard s Hwf Hs Hh) as (W1 & W2 & W3 & W4).
      cbv zeta in *.
      rewrite task_waiting by assumption. cbv zeta. rewrite W3.
      destruct (collect_response_shape s) as (rr & buf & len & Heq & _).
      rewrite Heq in *. clear Heq. proj_simpl.
      set (s' := set_resp buf len (set_rx rr s)) in *.
      assert (Hqc : queue_contents s' = queue_contents s)
        by (apply queue_contents_ext; reflexivity).
      assert (Hfin : s_state (finish_txn s') = SM_IDLE /\
                     g_rdm_bus_busy (finish_txn s') = false /\
                     queue_contents s = r0 :: queue_contents (finish_txn s') /\
                     req_in_use (nth (Z.to_nat h0) (s_req_buf (finish_txn s'))
                                     req_zero) = false).
      { split; [reflexivity|]. split; [reflexivity|]. split.
        - rewrite <- Hqc, (queue_pop s') by assumption.
          f_equal. now rewrite <- Hr0.
        - unfold finish_txn. subst s'. proj_simpl. rewrite Ha, Hhd.
          destruct Hq as (Hlen & Hrange & _). rewrite Hhd in Hrange.
          rewrite nth_lookup, list_lookup_insert_eq;
            [reflexivity | unfold RDM_REQUEST_BUFFER_SIZE in *; lia]. }
      destruct Hfin as (F1 & F2 & F3 & F4).
      assert (Hact : active_req s' = r0).
      { rewrite <- Hr0. unfold active_req, head_req. subst s'. proj_simpl.
        now rewrite Ha. }
      destruct (rdm_validate_response (collected heard) _) eqn:Hv;
        cbn [orb negb andb].
      * (* a valid response *)
        cbn [fst snd]. rewrite F1. cbn [rdm_state_eqb].
        split; [discriminate|]. split; [|reflexivity]. intros _.
        split; [|repeat split; assumption].
        rewrite txn_report_valid by exact Hv.
        unfold txn_response. rewrite Hact.
        replace (s_resp_cb s') with true by (symmetry; exact Hcb).
        subst s'. proj_simpl. now rewrite W1, W2.
      * destruct (RDM_RESPONSE_TIMEOUT_MS <=? u32 (later - s_timeout_start_ms s)).
        -- destruct (s_retry s <? RDM_RETRY_COUNT).
           ++ cbn [fst snd existsb]. proj_simpl. cbn [rdm_state_eqb].
              split; [|split; discriminate]. intros _. split.
              ** intros E. discriminate E.
              ** apply Hnil. apply queue_contents_ext; reflexivity.
           ++ cbn [fst snd]. rewrite F1. cbn [rdm_state_eqb].
              split; [discriminate|]. split; [|reflexivity]. intros _.
              split; [|repeat split; assumption].
              rewrite txn_report_invalid by exact Hv.
              unfold txn_response. rewrite Hact.
              replace (s_resp_cb s') with true by (symmetry; exact Hcb).
              reflexivity.
        -- cbn [fst snd existsb]. subst s'. proj_simpl. rewrite Hs.
           cbn [rdm_state_eqb].
           split; [|split; discriminate]. intros _.
           split; [exact W4 | now apply Hnil].
    + (* states the machine never enters *)
      exfalso. destruct Hs as [Hs | [Hs | Hs]]; rewrite Hs in Hst; exact Hst.
Qed.

End TransactionHeard.

Section TransactionHeardRuns.

Context {B : Type}.
Variable bus_tx : B -> list Z -> B.
Variable bus_rx : B -> Z -> list Z * B.
Variable r0 : rdm_request_t.
Variable h0 : Z.

Lemma run_txn_wf (ops : list op) :
  forall w : @world B,
    engine_wf (fst w) ->
    engine_wf (fst (fst (fst (run_txn bus_tx bus_rx ops w)))).
Proof.
  induction ops as [|o ops IH]; intros w Hwf; [exact Hwf|].
  cbn [run_txn].
  pose proof (apply_op_wf bus_tx bus_rx o w Hwf) as Hwf1.
  destruct (apply_op bus_tx bus_rx o w) as [w1 ev]. cbn [fst] in Hwf1.
  destruct (is_task o && rdm_state_eqb (s_state (fst w1)) SM_IDLE);
    [exact Hwf1|].
  specialize (IH w1 Hwf1).
  now destruct (run_txn bus_tx bus_rx ops w1) as [[w2 evs] fin].
Qed.

Lemma run_txn_heard (ops : list op) :
  forall (w : @world B) (k : nat) (acc : list Z),
    txn_inv r0 h0 k (fst w) -> heard_inv acc (fst w) ->
    forallb op_ok ops = true ->
    let res := run_txn bus_tx bus_rx ops w in
    let s' := fst (fst (fst res)) in
    let heard := txn_heard bus_tx bus_rx ops w acc in
    exists queued,
      sublist (map req_view queued) (offered ops) /\
      (snd res = false ->
       heard_inv heard s' /\
       queue_contents s' = queue_contents (fst w) ++ queued) /\
      (snd res = true ->
       g_rdm_bus_busy s' = false /\
       r0 :: queue_contents s' = queue_contents (fst w) ++ queued /\
       req_in_use (nth (Z.to_nat h0) (s_req_buf s') req_zero) = false /\
       exists evs0, snd (fst res) = evs0 ++ [txn_report r0 heard]).
Proof.
  induction ops as [|o ops IH]; intros w k acc Hinv Hh Hok.
  - cbn [run_txn txn_heard fst snd]. exists [].
    split; [constructor|]. rewrite app_nil_r.
    split; [tauto | discriminate].
  - cbn [forallb] in Hok. apply andb_prop in Hok as [Hok1 Hok].
    pose proof (txn_step bus_tx bus_rx r0 h0 o w k Hinv) as Hstep.
    pose proof (txn_step_heard bus_tx bus_rx r0 h0 o w k acc Hinv Hh Hok1)
      as Hheard.
    cbv zeta in Hstep, Hheard. cbn [run_txn txn_heard].
    destruct (apply_op bus_tx bus_rx o w) as [w1 ev] eqn:Hop.
    cbn [fst snd] in *.
    destruct Hheard as (Hgo & Hend & _).
    destruct (is_task o && rdm_state_eqb (s_state (fst w1)) SM_IDLE) eqn:Hstop.
    + (* the transaction ends with this call *)
      destruct (Hend eq_refl) as (Hev & Hbusy & Hq & Huse).
      cbn [fst snd]. exists []. split; [apply sublist_nil_l|].
      split; [discriminate|]. intros _. rewrite app_nil_r.
      split; [exact Hbusy|]. split; [now rewrite Hq|]. split; [exact Huse|].
      exists []. exact Hev.
    + (* the transaction goes on *)
      destruct (Hgo eq_refl) as (Hh1 & acc1 & Hq1 & Hs1).
      destruct Hstep as [(_ & Hev & _) | (Habs & _)]; [|discriminate Habs].
      assert (Hnext : exists k1, txn_inv r0 h0 k1 (fst w1))
        by (destruct Hev as [[_ Hi] | [_ Hi]]; eauto).
      destruct Hnext as (k1 & Hi).
      specialize (IH w1 k1 _ Hi Hh1 Hok). cbv zeta in IH.
      destruct IH as (queued & Hsub & IHf & IHt).
      destruct (run_txn bus_tx bus_rx ops w1) as [[w2 evs] fin].
      cbn [fst snd] in *.
      exists (acc1 ++ queued). split.
      { rewrite map_app, offered_cons. now apply sublist_app. }
      rewrite Hq1 in IHf, IHt. rewrite <- !app_assoc in IHf, IHt.
      split; [exact IHf|]. intros Hfin.
      destruct (IHt Hfin) as (Hbusy & Hq & Huse & evs0 & He).
      split; [exact Hbusy|]. split; [exact Hq|]. split; [exact Huse|].
      exists (ev ++ evs0). now rewrite He, app_assoc.
Qed.

Lemma run_txn_app (pre post : list op) :
  forall w : @world B,
    snd (run_txn bus_tx bus_rx pre w) = false ->
    run_txn bus_tx bus_rx (pre ++ post) w
    = (fst (fst (run_txn bus_tx bus_rx post
                   (fst (fst (run_txn bus_tx bus_rx pre w))))),
       snd (fst (run_txn bus_tx bus_rx pre w))
       ++ snd (fst (run_txn bus_tx bus_rx post
                      (fst (fst (run_txn bus_tx bus_rx pre w))))),
       snd (run_txn bus_tx bus_rx post
              (fst (fst (run_txn bus_tx bus_rx pre w))))).
Proof.
  induction pre as [|o pre IH]; intros w Hfin.
  - cbn [run_txn app fst snd].
    now destruct (run_txn bus_tx bus_rx post w) as [[w2 evs] fin].
  - cbn [run_txn app] in *.
    destruct (apply_op bus_tx bus_rx o w) as [w1 ev].
    destruct (is_task o && rdm_state_eqb (s_state (fst w1)) SM_IDLE);
      [discriminate Hfin|].
    specialize (IH w1).
    destruct (run_txn bus_tx bus_rx pre w1) as [[w2 evs] fin].
    cbn [fst snd] in *. rewrite (IH Hfin).
    cbn [fst snd]. now rewrite app_assoc.
Qed.

(** A call of rdm_task that finds the engine waiting, with bytes heard
    that validate, ends the transaction with these bytes. *)
Lemma run_txn_valid (pre post : list op) (now later : Z) (w : @world B)
    (k : nat) :
  txn_inv r0 h0 k (fst w) -> heard_inv [] (fst w) ->
  forallb op_ok pre = true ->
  let res0 := run_txn bus_tx bus_rx pre w in
  let resp := collected (txn_heard bus_tx bus_rx pre w []) in
  snd res0 = false ->
  s_state (fst (fst (fst res0))) = SM_WAITING_RESPONSE ->
  rdm_validate_response resp (Z.of_nat (length resp)) = true ->
  let res := run_txn bus_tx bus_rx (pre ++ OpTask now later :: post) w in
  snd res = true /\
  snd (fst res)
  = snd (fst res0)
    ++ [EvResponse (Some resp) (Z.of_nat (length resp))
                   (req_src_ip r0) (req_src_port r0)].
Proof.
  intros Hinv Hh Hok res0 resp Hfin Hwait Hv res. subst res.
  rewrite run_txn_app by exact Hfin. fold res0. cbn [fst snd].
  destruct (run_txn_spec bus_tx bus_rx r0 h0 pre w k Hinv) as [Hf _].
  destruct (Hf Hfin) as (j & _ & Hi & _).
  destruct (run_txn_heard pre w k [] Hinv Hh Hok) as (queued & _ & Hg & _).
  destruct (Hg Hfin) as [Hh1 _]. fold res0 in Hi, Hh1.
  pose proof (txn_step_heard bus_tx bus_rx r0 h0 (OpTask now later)
                (fst (fst res0)) (k + j) _ Hi Hh1 eq_refl) as Hstep.
  cbv zeta in Hstep. destruct Hstep as (_ & Hend & Hforce).
  specialize (Hforce eq_refl Hwait Hv). specialize (Hend Hforce).
  destruct Hend as (Hev & _).
  cbn [run_txn].
  destruct (apply_op bus_tx bus_rx (OpTask now later) (fst (fst res0)))
    as [w1 ev]. cbn [fst snd] in *. rewrite Hforce. cbn [fst snd].
  split; [reflexivity|]. rewrite Hev. f_equal. f_equal.
  now apply txn_report_valid.
Qed.

End TransactionHeardRuns.

Section TransactionTheorem.

Context {B : Type}.
Variable bus_tx : B -> list Z -> B.
Variable bus_rx : B -> Z -> list Z * B.

(** C1.  Take the engine idle, with a callback registered and a request
    [r0] at the head of the queue, and let any sequence of calls follow
    (rdm_task at any clock readings, UART interrupts with any bytes,
    enqueue and TOD calls); cut it after the first call of rdm_task that
    returns the engine to SM_IDLE.  With S the transmission of the bytes
    of [r0], F the callback invocation (NULL, 0, src_ip, src_port) and
    [max_attempts] = 1 + RDM_RETRY_COUNT = 3:
    - until the cut, the engine has put S on the wire at most three times
      and nothing else, and has not called the callback;
    - at the cut, the trace is one to three S followed by exactly one
      callback invocation, the state is SM_IDLE and the head index has
      advanced by one slot; the invocation is either F, after exactly
      three S, or the collected bytes of a response that validates, with
      their length and the requester's address and port;
    - if no call finds a response that validates, the trace at the cut is
      exactly S, S, S, F;
    - the cut is reached as soon as the response timeout has elapsed at
      three calls made in the waiting state.
    When the interrupts deliver bytes and the enqueue calls pass lengths
    that their buffers cover, with [heard] the bytes that the interrupts
    have delivered between the last S and the call at the cut:
    - the invocation at the cut is determined by [heard]: when the first
      257 bytes of [heard] validate, it carries exactly these bytes and
      their number; when they do not, it is F, and three S went before;
    - at the cut the bus is marked free, the slot of [r0] is marked unused
      and [r0] has left the queue: the count is one less, the requests
      behind [r0] are still there, unchanged and in order, followed by
      requests that the enqueue calls of the run offered, in call order;
    - a response that validates is reported at once: a call of rdm_task
      that finds the engine waiting, the bytes delivered since the last S
      validating, is the call at the cut, and the callback gets these
      bytes. *)
Theorem txn_retries_then_reports (ops : list op) (w : @world B) :
  engine_wf (fst w) ->
  s_state (fst w) = SM_IDLE ->
  0 < s_req_count (fst w) ->
  s_resp_cb (fst w) = true ->
  let r0 := head_req (fst w) in
  let S := EvBusSend (req_frame r0) in
  let F := failure_sentinel r0 in
  let res := run_txn bus_tx bus_rx ops w in
  let evs := snd (fst res) in
  let s' := fst (fst (fst res)) in
  let heard := txn_heard bus_tx bus_rx ops w [] in
  (snd res = false -> exists j, (j <= max_attempts)%nat /\ evs = repeat S j) /\
  (snd res = true ->
   exists j R,
     evs = repeat S j ++ [R] /\ (1 <= j <= max_attempts)%nat /\
     s_state s' = SM_IDLE /\
     s_req_head s' = (s_req_head (fst w) + 1) mod RDM_REQUEST_BUFFER_SIZE /\
     ((R = F /\ j = max_attempts) \/ is_valid_report r0 R)) /\
  (txn_all bus_tx bus_rx wait_invalid ops w = true -> snd res = true ->
   evs = repeat S max_attempts ++ [F]) /\
  ((max_attempts <= txn_count bus_tx bus_rx wait_expired ops w)%nat ->
   snd res = true) /\
  (forallb op_ok ops = true ->
   (snd res = true ->
    exists j queued,
      evs = repeat S j ++ [txn_report r0 heard] /\
      (1 <= j <= max_attempts)%nat /\
      (rdm_validate_response (collected heard)
                             (Z.of_nat (length (collected heard))) = false ->
       j = max_attempts) /\
      g_rdm_bus_busy s' = false /\
      req_in_use (nth (Z.to_nat (s_req_head (fst w))) (s_req_buf s') req_zero)
      = false /\
      r0 :: queue_contents s' = queue_contents (fst w) ++ queued /\
      s_req_count s' = s_req_count (fst w) - 1 + Z.of_nat (length queued) /\
      sublist (map req_view queued) (offered ops)) /\
   (forall (pre post : list op) (now later : Z),
      ops = pre ++ OpTask now later :: post ->
      let res0 := run_txn bus_tx bus_rx pre w in
      let resp := collected (txn_heard bus_tx bus_rx pre w []) in
      snd res0 = false ->
      s_state (fst (fst (fst res0))) = SM_WAITING_RESPONSE ->
      rdm_validate_response resp (Z.of_nat (length resp)) = true ->
      snd res = true /\
      evs = snd (fst res0)
            ++ [EvResponse (Some resp) (Z.of_nat (length resp))
                           (req_src_ip r0) (req_src_port r0)])).
Proof.
  intros Hwf Hidle Hpos Hcb r0 S F res evs s' heard.
  change max_attempts with 3%nat.
  assert (Hinv : txn_inv r0 (s_req_head (fst w)) 0 (fst w)).
  { unfold txn_inv. rewrite Hidle. split; [exact Hwf|].
    split; [exact Hcb|]. split; [reflexivity|]. split; [reflexivity|].
    split; [exact Hpos | reflexivity]. }
  assert (Hh0 : heard_inv [] (fst w)).
  { intros E. rewrite Hidle in E. discriminate E. }
  pose proof (run_txn_spec bus_tx bus_rx r0 (s_req_head (fst w)) ops w 0 Hinv)
    as Hspec.
  cbv zeta in Hspec. fold res in Hspec. fold evs in Hspec. fold s' in Hspec.
  fold S in Hspec. fold F in Hspec. cbn [Nat.add] in Hspec.
  destruct Hspec as [Hf Ht].
  split; [|split; [|split; [|split]]].
  - intros Hfin. destruct (Hf Hfin) as (j & Hev & Hi & _).
    exists j. split; [|exact Hev]. apply (txn_inv_budget _ _ _ _ Hi).
  - intros Hfin. destruct (Ht Hfin) as (j & R & Hev & Hj & Hst & Hhd & HR & _).
    exists j, R. repeat split; try assumption; lia.
  - intros Hall Hfin.
    destruct (Ht Hfin) as (j & R & Hev & Hj & _ & _ & HR & HF).
    specialize (HF Hall). subst R.
    destruct HR as [[_ Hj3] | (bytes & Hb & _)]; [|discriminate Hb].
    rewrite Hev, Hj3. reflexivity.
  - intros Hcnt. destruct (snd res) eqn:Hfin; [reflexivity|].
    destruct (Hf eq_refl) as (_ & _ & _ & Hbud).
    unfold txn_budget, RDM_RETRY_COUNT in Hbud. rewrite Hidle in Hbud. lia.
  - intros Hok. split.
    + intros Hfin.
      destruct (Ht Hfin) as (j & R & Hev & Hj & _ & _ & HR & _).
      destruct (run_txn_heard bus_tx bus_rx r0 (s_req_head (fst w)) ops w 0 []
                  Hinv Hh0 Hok) as (queued & Hsub & _ & Hg).
      cbv zeta in Hg. fold res in Hg. fold s' in Hg. fold heard in Hg.
      destruct (Hg Hfin) as (Hbusy & Hq & Huse & evs0 & He).
      fold evs in He. rewrite Hev in He.
      apply app_inj_tail in He as [_ HRe]. subst R.
      exists j, queued. split; [exact Hev|]. split; [lia|]. split.
      { intros Hv. rewrite (txn_report_invalid r0 heard Hv) in HR.
        destruct HR as [[_ Hj3] | (bytes & Hb & _)];
          [exact Hj3 | discriminate Hb]. }
      split; [exact Hbusy|]. split; [exact Huse|].
      split; [exact Hq|]. split; [|exact Hsub].
      apply (f_equal (@length _)) in Hq.
      rewrite length_app in Hq. cbn [length] in Hq.
      rewrite !queue_contents_length in Hq.
      assert (Hc' : 0 <= s_req_count s').
      { pose proof (run_txn_wf bus_tx bus_rx ops w Hwf) as Hwf'.
        apply Hwf'. }
      lia.
    + intros pre post now later Hops res0 resp Hfin0 Hwait Hv.
      subst res evs. rewrite Hops.
      apply (run_txn_valid bus_tx bus_rx r0 (s_req_head (fst w)) pre post
               now later w 0 Hinv Hh0); try assumption.
      rewrite Hops, forallb_app in Hok. now apply andb_prop in Hok as [Hok _].
Qed.

End TransactionTheorem.

(** Two scenes on a bus that transmits nothing back by itself.
    Scenario B: the bus never answers with anything that validates (three
    stray bytes arrive once).  Three transmissions, each given up 100 ms
    after it was sent, then the failure sentinel.
    Scenario A: the 26 bytes of a response that validates arrive 10 ms
    after the first transmission, and a second request is enqueued in
    between.  The next call of rdm_task hands these 26 bytes to the
    callback; the second request is then the only one in the queue. *)
Lemma txn_retries_then_reports_witness :
  let ops := [OpTask 1000 1000; OpTask 1050 1050; OpIrq [1; 2; 3];
              OpTask 1100 1100; OpTask 1101 1101; OpTask 1201 1201;
              OpTask 1202 1202; OpTask 1302 1302; OpTask 1303 1303] in
  let pre := [OpTask 1000 1000; OpEnqueue branch_frame 38 0x0200000A 7000;
              OpIrq demo_request] in
  let ops_a := pre ++ [OpTask 1010 1010] in
  let res_a := run_txn null_tx null_rx ops_a demo_world in
  (engine_wf (fst demo_world) /\ s_state (fst demo_world) = SM_IDLE /\
   0 < s_req_count (fst demo_world) /\ s_resp_cb (fst demo_world) = true) /\
  txn_all null_tx null_rx wait_invalid ops demo_world = true /\
  (3 <= txn_count null_tx null_rx wait_expired ops demo_world)%nat /\
  snd (run_txn null_tx null_rx ops demo_world) = true /\
  snd (fst (run_txn null_tx null_rx ops demo_world))
  = [EvBusSend demo_request; EvBusSend demo_request; EvBusSend demo_request;
     EvResponse None 0 0x0200000A 6454] /\
  forallb op_ok ops_a = true /\
  txn_heard null_tx null_rx pre demo_world [] = demo_request /\
  snd res_a = true /\
  snd (fst res_a)
  = [EvBusSend demo_request; EvResponse (Some demo_request) 26 0x0200000A 6454] /\
  g_rdm_bus_busy (fst (fst (fst res_a))) = false /\
  map req_view (queue_contents (fst (fst (fst res_a))))
  = [(branch_frame, 0x0200000A, 7000)].
Proof.
  intros ops pre ops_a res_a.
  assert (H1 : engine_wf (fst demo_world)).
  { unfold engine_wf, queue_wf, rx_wf, resp_wf, tod_wf, txn_wf.
    vm_compute. repeat split; congruence. }
  assert (H2 : s_state (fst demo_world) = SM_IDLE) by reflexivity.
  assert (H3 : 0 < s_req_count (fst demo_world)) by (vm_compute; reflexivity).
  assert (H4 : s_resp_cb (fst demo_world) = true) by reflexivity.
  assert (H5 : txn_all null_tx null_rx wait_invalid ops demo_world = true)
    by (vm_compute; reflexivity).
  assert (H6 : (3 <= txn_count null_tx null_rx wait_expired ops demo_world)%nat)
    by (vm_compute; lia).
  assert (H7 : forallb op_ok ops_a = true) by (vm_compute; reflexivity).
  assert (H8 : txn_heard null_tx null_rx pre demo_world [] = demo_request)
    by (vm_compute; reflexivity).
  destruct (txn_retries_then_reports null_tx null_rx ops demo_world H1 H2 H3 H4)
    as (_ & _ & Hnever & Hlive & _).
  destruct (txn_retries_then_reports null_tx null_rx ops_a demo_world
              H1 H2 H3 H4) as (_ & _ & _ & _ & Hheard).
  destruct (Hheard H7) as [Hcut Hforce].
  destruct (Hforce pre [] 1010 1010 eq_refl) as [Hfin Hev];
    [vm_compute; reflexivity | vm_compute; reflexivity
     | vm_compute; reflexivity |].
  destruct (Hcut Hfin) as (j & queued & _ & _ & _ & Hbusy & _).
  split; [auto|]. split; [exact H5|]. split; [exact H6|].
  split; [exact (Hlive H6)|].
  split; [rewrite (Hnever H5 (Hlive H6)); vm_compute; reflexivity|].
  split; [exact H7|]. split; [exact H8|]. split; [exact Hfin|].
  split; [fold res_a in Hev; rewrite Hev; vm_compute; reflexivity|].
  split; [exact Hbusy|]. vm_compute. reflexivity.
Defined.

(** ** Scheduling: requests, discovery, and the callback *)

Section Scheduling.

Context {B : Type}.
Variable bus_tx : B -> list Z -> B.
Variable bus_rx : B -> Z -> list Z * B.

(** X9.  The discovery timer.  With the engine idle and no request queued,
    a call of rdm_task whose clock reading is [d] milliseconds after the
    end of the previous discovery cycle (on the 32-bit millisecond clock,
    which may have wrapped in between) does nothing at all when [d] is
    below 10000, and starts a discovery cycle, which opens with a
    unique-branch request, when [d] is 10000 or more. *)
Theorem discovery_interval (d later : Z) (s : rdm_state) (bus : B) :
  s_state s = SM_IDLE -> s_req_count s = 0 -> s_discovery_active s = false ->
  0 <= s_discovery_last_ms s < 4294967296 -> 0 <= d < 4294967296 ->
  let now := u32 (s_discovery_last_ms s + d) in
  let r := rdm_task bus_tx bus_rx now later (s, bus) in
  (d < RDM_DISCOVERY_INTERVAL_MS -> r = ((s, bus), [])) /\
  (RDM_DISCOVERY_INTERVAL_MS <= d ->
   exists evs, snd r = EvBusSend branch_frame :: evs).
Proof.
  intros Hst Hc Hact Hlast Hd now r.
  assert (Hel : u32 (now - s_discovery_last_ms s) = d).
  { subst now. unfold u32. Z.to_euclidean_division_equations; lia. }
  assert (Hdue : discovery_due now s
                 = (RDM_DISCOVERY_INTERVAL_MS <=? d)).
  { unfold discovery_due. rewrite Hst, Hc, Hact, Hel. reflexivity. }
  split; intros H; subst r.
  - apply task_idle_quiet; [assumption | lia |].
    rewrite Hdue. apply Z.leb_gt. exact H.
  - rewrite task_discovery; [|assumption | lia |].
    + cbv zeta. cbn [snd]. apply run_discovery_cycle_starts.
    + rewrite Hdue. apply Z.leb_le. exact H.
Qed.

Lemma task_no_callback (now later : Z) (s : rdm_state) (bus : B) :
  s_resp_cb s = false ->
  let r := rdm_task bus_tx bus_rx now later (s, bus) in
  response_dsts (snd r) = [] /\ s_resp_cb (fst (fst r)) = false.
Proof.
  intros Hcb r. subst r.
  destruct (state_cases (s_state s)) as [Hst | [Hst | [Hst | Hst]]].
  - destruct (Z.lt_ge_cases 0 (s_req_count s)) as [Hc | Hc].
    + rewrite task_idle_start by assumption. split; [reflexivity|exact Hcb].
    + destruct (discovery_due now s) eqn:Hd.
      * rewrite task_discovery by assumption. cbv zeta. cbn [fst snd].
        set (s1 := set_tod_prev _ _ _).
        destruct (run_discovery_cycle_shape bus_tx bus_rx s1 bus)
          as (r & tod & cnt & busy & Heq & _ & _ & _ & Hev & _).
        split; [exact Hev|]. rewrite Heq.
        destruct (negb _ || negb _); exact Hcb.
      * rewrite task_idle_quiet by assumption. split; [reflexivity|exact Hcb].
  - rewrite task_sending by assumption. split; [reflexivity|exact Hcb].
  - rewrite task_waiting by assumption. cbv zeta.
    destruct (collect_response_shape s) as (r & buf & len & Heq & _).
    rewrite Heq.
    destruct (_ || _); [destruct (negb _ && _)|]; cbn [fst snd];
      try (split; [reflexivity | exact Hcb]).
    unfold txn_response. proj_simpl. rewrite Hcb.
    split; [reflexivity | exact Hcb].
  - rewrite task_other by assumption. split; [reflexivity|exact Hcb].
Qed.

Lemma apply_op_no_callback (o : op) (w : @world B) :
  s_resp_cb (fst w) = false ->
  response_dsts (snd (apply_op bus_tx bus_rx o w)) = [] /\
  s_resp_cb (fst (fst (apply_op bus_tx bus_rx o w))) = false.
Proof.
  intros Hcb. destruct w as [s bus]. cbn [fst] in Hcb.
  destruct o as [bytes | data len ip port | | | | now later];
    cbn [apply_op fst snd]; try (split; [reflexivity | exact Hcb]).
  - split; [reflexivity|]. unfold rdm_enqueue_request.
    destruct (_ <=? _); [exact Hcb|]. destruct (_ <? _); exact Hcb.
  - now apply task_no_callback.
Qed.

(** X10.  When no response callback is registered (artnet_init gave up
    before registering one), no sequence of interrupts, API calls and
    calls of rdm_task ever invokes a callback: the outcome of every
    transaction, valid response or failure, is dropped. *)
Theorem no_callback_no_report (ops : list op) (w : @world B) :
  s_resp_cb (fst w) = false ->
  response_dsts (snd (run bus_tx bus_rx ops w)) = [] /\
  s_resp_cb (fst (fst (run bus_tx bus_rx ops w))) = false.
Proof.
  revert w. induction ops as [|o ops IH]; intros w Hcb.
  - split; [reflexivity | exact Hcb].
  - cbn [run]. destruct (apply_op_no_callback o w Hcb) as [H1 H2].
    destruct (apply_op bus_tx bus_rx o w) as [w1 ev]. cbn [fst snd] in H1, H2.
    destruct (IH w1 H2) as [H3 H4].
    destruct (run bus_tx bus_rx ops w1) as [w2 evs]. cbn [fst snd] in *.
    split; [|exact H4]. rewrite response_dsts_app, H1, H3. reflexivity.
Qed.

(** X11.  Host requests go before background discovery.  A call of
    rdm_task made while a request is queued serves the request at the head
    of the queue and nothing else: whatever the clock says, it leaves the
    Table of Devices, its changed flag and the discovery timer as they
    are, and every frame it puts on the bus is the stored frame of the
    head request. *)
Theorem requests_before_discovery (now later : Z) (s : rdm_state) (bus : B) :
  engine_wf s -> 0 < s_req_count s ->
  let r := rdm_task bus_tx bus_rx now later (s, bus) in
  let s' := fst (fst r) in
  s_tod s' = s_tod s /\ s_tod_count s' = s_tod_count s /\
  s_tod_changed s' = s_tod_changed s /\
  s_discovery_last_ms s' = s_discovery_last_ms s /\
  (forall f, In (EvBusSend f) (snd r) -> f = req_frame (head_req s)).
Proof.
  intros Hwf Hc r s'. subst s' r.
  destruct Hwf as (_ & _ & _ & _ & Hx).
  destruct (state_cases (s_state s)) as [Hst | [Hst | [Hst | Hst]]].
  - rewrite task_idle_start by assumption.
    unfold start_wait, after_send. proj_simpl.
    repeat split. intros f [Hf | []]. congruence.
  - rewrite task_sending by assumption.
    unfold start_wait, after_send. proj_simpl.
    repeat split. intros f [Hf | []].
    destruct Hx as (Ha & _); [unfold in_flight; now rewrite Hst|].
    unfold active_req, head_req in *. rewrite Ha in Hf. congruence.
  - rewrite task_waiting by assumption. cbv zeta.
    destruct (collect_response_shape s) as (r & buf & len & Heq & _).
    rewrite Heq.
    destruct (_ || _); [destruct (negb _ && _)|];
      unfold finish_txn, txn_response, failure_sentinel; proj_simpl;
      repeat split; try (intros f []).
    intros f Hf. exfalso.
    destruct (s_resp_cb s); [destruct (rdm_validate_response buf len)|];
      cbn in Hf; intuition discriminate.
  - rewrite task_other by assumption. cbn [fst snd]. repeat split.
    intros f [].
Qed.

End Scheduling.

(** ** Examples for the properties above *)

(** Two devices on the simulated bus, discovery due at 10000 ms: the table
    holds the two UIDs that were muted, after three unique-branch
    requests. *)
Lemma discovery_records_muted_witness :
  let bus := mkSim (map sim_device [5; 9]%nat) [] in
  let r := rdm_task sim_tx sim_rx 10000 10050 (rdm_boot, bus) in
  (length (s_tod rdm_boot) = 256%nat /\ discovery_due 10000 rdm_boot = true) /\
  tod_table (fst (fst r)) = [[5; 0; 0; 0; 0; 0]; [9; 0; 0; 0; 0; 0]] /\
  mute_dsts (snd r) = [[5; 0; 0; 0; 0; 0]; [9; 0; 0; 0; 0; 0]] /\
  branch_attempts (snd r) = 3%nat /\
  s_discovery_last_ms (fst (fst r)) = 10050.
Proof.
  intros bus r.
  assert (H1 : length (s_tod rdm_boot) = 256%nat) by reflexivity.
  assert (H2 : discovery_due 10000 rdm_boot = true) by reflexivity.
  destruct (discovery_records_muted sim_tx sim_rx 10000 10050 rdm_boot bus H1 H2)
    as (Ht & _ & _ & _ & _ & _ & _ & _ & _ & Hl).
  split; [auto|]. subst r.
  split; [rewrite Ht; vm_compute; reflexivity|].
  split; [vm_compute; reflexivity|]. split; [vm_compute; reflexivity|].
  exact Hl.
Defined.

(** A device with UID 01:02:03:04:05:06 that never falls silent fills 64
    entries. *)
Lemma discovery_stuck_reply_witness :
  let reply := sim_reply [1; 2; 3; 4; 5; 6] in
  let r := rdm_task stuck_tx stuck_rx 10000 10050 (rdm_boot, reply) in
  (length (s_tod rdm_boot) = 256%nat /\ discovery_due 10000 rdm_boot = true /\
   7 <= Z.of_nat (length reply)) /\
  s_tod_count (fst (fst r)) = 64 /\
  tod_table (fst (fst r)) = repeat [1; 2; 3; 4; 5; 6] 64.
Proof.
  intros reply r.
  assert (H1 : length (s_tod rdm_boot) = 256%nat) by reflexivity.
  assert (H2 : discovery_due 10000 rdm_boot = true) by reflexivity.
  assert (H3 : 7 <= Z.of_nat (length reply)) by (vm_compute; congruence).
  destruct (discovery_stuck_reply 10000 10050 rdm_boot reply H1 H2 H3)
    as (Hc & Ht & _).
  split; [auto|]. subst r. split; [exact Hc|]. rewrite Ht. reflexivity.
Defined.

(** The mute request for 01:02:03:04:05:06 and the unique-branch request
    over the full UID range. *)
Lemma disc_requests_validate_witness :
  let pkt := repeat 0 257%nat in
  let uid := [1; 2; 3; 4; 5; 6] in
  (length pkt = 257%nat /\ length uid = 6%nat /\ bytes_ok uid = true /\
   length s_disc_lower = 6%nat /\ bytes_ok s_disc_lower = true /\
   length s_disc_upper = 6%nat /\ bytes_ok s_disc_upper = true) /\
  rdm_validate_response (fst (build_disc_mute pkt uid)) 26 = true /\
  rdm_validate_response
    (fst (build_disc_unique_branch pkt s_disc_lower s_disc_upper)) 38 = true.
Proof.
  intros pkt uid.
  assert (H1 : length pkt = 257%nat) by reflexivity.
  assert (H2 : length uid = 6%nat) by reflexivity.
  assert (H3 : bytes_ok uid = true) by reflexivity.
  assert (H4 : length s_disc_lower = 6%nat) by reflexivity.
  assert (H5 : bytes_ok s_disc_lower = true) by reflexivity.
  assert (H6 : length s_disc_upper = 6%nat) by reflexivity.
  assert (H7 : bytes_ok s_disc_upper = true) by reflexivity.
  pose proof (disc_requests_validate pkt uid s_disc_lower s_disc_upper
                H1 H2 H3 H4 H5 H6 H7) as [Hm Hb].
  split; [tauto|].
  destruct (build_disc_mute pkt uid) as [b1 l1].
  destruct (build_disc_unique_branch pkt s_disc_lower s_disc_upper) as [b2 l2].
  destruct Hm as [-> Hm]. destruct Hb as [-> Hb]. auto.
Defined.

(** Five bytes in the ring and an empty response buffer: all five are
    collected, in arrival order, and the ring is left empty. *)
Lemma collect_response_fifo_witness :
  let s := uart1_irq_handler [0xCC; 0x01; 7; 8; 9] rdm_boot in
  (rx_wf (s_rx s) /\
   length (s_resp_buf s) = Z.to_nat RDM_MAX_PACKET_SIZE /\
   0 <= s_resp_len s <= RDM_MAX_PACKET_SIZE /\
   bytes_ok (rx_contents (s_rx s)) = true) /\
  s_resp_len (collect_response s) = 5 /\
  firstn 5 (s_resp_buf (collect_response s)) = [0xCC; 0x01; 7; 8; 9] /\
  rx_contents (s_rx (collect_response s)) = [].
Proof.
  intros s.
  assert (H1 : rx_wf (s_rx s)) by (vm_compute; repeat split; congruence).
  assert (H2 : length (s_resp_buf s) = Z.to_nat RDM_MAX_PACKET_SIZE)
    by reflexivity.
  assert (H3 : 0 <= s_resp_len s <= RDM_MAX_PACKET_SIZE)
    by (vm_compute; split; congruence).
  assert (H4 : bytes_ok (rx_contents (s_rx s)) = true)
    by (vm_compute; reflexivity).
  destruct (collect_response_fifo s H1 H2 H3 H4) as (Hl & Hb & Hr).
  split; [auto|]. split; [rewrite Hl; vm_compute; reflexivity|].
  split; [|rewrite Hr; vm_compute; reflexivity].
  replace 5%nat with (Z.to_nat (s_resp_len (collect_response s)))
    by (rewrite Hl; vm_compute; reflexivity).
  rewrite Hb. vm_compute. reflexivity.
Defined.

(** A four-byte message arrives in two interrupts, followed by a stray
    byte; the loop returns the message and leaves the stray byte. *)
Lemma rdm_bus_receive_poll_fifo_witness :
  let script := [([0xCC; 0x01], 1); ([2; 0xFE; 0x55], 2); ([], 3); ([], 4);
                 ([], 5); ([], 6)] in
  let buf := repeat 0 257%nat in
  let r := s_rx rdm_boot in
  let res := rdm_bus_receive_poll script 0 30 257 buf 0 r in
  (0 <= 257 <= Z.of_nat (length buf) /\ 257 <= 65535 /\ rx_wf r /\
   bytes_ok (rx_contents r) = true /\
   bytes_ok (concat (map fst script)) = true) /\
  0 <= snd (fst res) <= 257 /\
  snd (fst res) = 4 /\
  firstn 4 (fst (fst res)) = [0xCC; 0x01; 2; 0xFE] /\
  rx_contents (snd res) = [0x55].
Proof.
  intros script buf r res.
  assert (H1 : 0 <= 257 <= Z.of_nat (length buf)) by (vm_compute; split; congruence).
  assert (H2 : 257 <= 65535) by lia.
  assert (H3 : rx_wf r) by (vm_compute; repeat split; congruence).
  assert (H4 : bytes_ok (rx_contents r) = true) by reflexivity.
  assert (H5 : bytes_ok (concat (map fst script)) = true) by reflexivity.
  destruct (rdm_bus_receive_poll_fifo 0 30 257 script buf r H1 H2 H3 H4 H5)
    as (Hn & _).
  split; [auto|]. split; [exact Hn|].
  split; [vm_compute; reflexivity|]. split; vm_compute; reflexivity.
Defined.

(** The same message already in the ring. *)
Lemma rdm_bus_receive_poll_message_witness :
  let msg := [0xCC; 0x01; 2; 0xFE] in
  let r := s_rx (uart1_irq_handler (msg ++ [0x55]) rdm_boot) in
  let buf := repeat 0 257%nat in
  let clocks := [1; 1; 2; 2] in
  let res := rdm_bus_receive_poll (map (fun now => ([], now)) clocks)
               0 30 257 buf 0 r in
  (bytes_ok msg = true /\ rdm_message_complete msg = true /\
   Z.of_nat (length msg) <= 257 <= Z.of_nat (length buf) /\ 257 <= 65535 /\
   rx_wf r /\ rx_contents r = msg ++ [0x55] /\
   Forall (fun now => u32 (now - 0) <= 30) clocks /\
   (length msg <= length clocks)%nat) /\
  snd (fst res) = 4 /\ firstn 4 (fst (fst res)) = msg /\
  rx_contents (snd res) = [0x55].
Proof.
  intros msg r buf clocks res.
  assert (H1 : bytes_ok msg = true) by reflexivity.
  assert (H2 : rdm_message_complete msg = true) by reflexivity.
  assert (H3 : Z.of_nat (length msg) <= 257 <= Z.of_nat (length buf))
    by (vm_compute; split; congruence).
  assert (H4 : 257 <= 65535) by lia.
  assert (H5 : rx_wf r) by (vm_compute; repeat split; congruence).
  assert (H6 : rx_contents r = msg ++ [0x55]) by (vm_compute; reflexivity).
  assert (H7 : Forall (fun now => u32 (now - 0) <= 30) clocks)
    by (repeat constructor; vm_compute; congruence).
  assert (H8 : (length msg <= length clocks)%nat) by (simpl; lia).
  destruct (rdm_bus_receive_poll_message 0 30 257 msg [0x55] clocks buf r
              H1 H2 H3 H4 H5 H6 H7 H8) as (Hn & Hm & Hr).
  split; [tauto|].
  split; [exact Hn|]. split; [exact Hm | exact Hr].
Defined.

(** After boot the timer starts at 0: nothing happens at 9999 ms, a cycle
    starts at 10000 ms. *)
Lemma discovery_interval_witness :
  (s_state rdm_boot = SM_IDLE /\ s_req_count rdm_boot = 0 /\
   s_discovery_active rdm_boot = false /\
   0 <= s_discovery_last_ms rdm_boot < 4294967296 /\
   0 <= 9999 < 4294967296 /\ 0 <= 10000 < 4294967296) /\
  rdm_task null_tx null_rx 9999 9999 (rdm_boot, tt) = ((rdm_boot, tt), []) /\
  exists evs, snd (rdm_task null_tx null_rx 10000 10000 (rdm_boot, tt))
              = EvBusSend branch_frame :: evs.
Proof.
  assert (H1 : s_state rdm_boot = SM_IDLE) by reflexivity.
  assert (H2 : s_req_count rdm_boot = 0) by reflexivity.
  assert (H3 : s_discovery_active rdm_boot = false) by reflexivity.
  assert (H4 : 0 <= s_discovery_last_ms rdm_boot < 4294967296)
    by (vm_compute; split; congruence).
  assert (H5 : 0 <= 9999 < 4294967296) by lia.
  assert (H6 : 0 <= 10000 < 4294967296) by lia.
  destruct (discovery_interval null_tx null_rx 9999 9999 rdm_boot tt
              H1 H2 H3 H4 H5) as [Hq _].
  destruct (discovery_interval null_tx null_rx 10000 10000 rdm_boot tt
              H1 H2 H3 H4 H6) as [_ Hd].
  split; [tauto|].
  split; [apply Hq; unfold RDM_DISCOVERY_INTERVAL_MS; lia|].
  apply Hd. unfold RDM_DISCOVERY_INTERVAL_MS. lia.
Defined.

(** A request served with no callback registered: three transmissions and
    no report. *)
Lemma no_callback_no_report_witness :
  let w := (snd (rdm_enqueue_request demo_request 26 0x0200000A 6454 rdm_boot),
            tt) in
  let ops := [OpTask 1000 1000; OpTask 1101 1101; OpTask 1102 1102;
              OpTask 1203 1203; OpTask 1204 1204; OpTask 1305 1305] in
  s_resp_cb (fst w) = false /\
  response_dsts (snd (run null_tx null_rx ops w)) = [] /\
  length (snd (run null_tx null_rx ops w)) = 3%nat /\
  s_req_count (fst (fst (run null_tx null_rx ops w))) = 0.
Proof.
  intros w ops.
  assert (H1 : s_resp_cb (fst w) = false) by reflexivity.
  destruct (no_callback_no_report null_tx null_rx ops w H1) as [Hr _].
  split; [exact H1|]. split; [exact Hr|].
  split; vm_compute; reflexivity.
Defined.

(** With a request queued, a call at a time when discovery is long overdue
    sends the request and leaves the discovery timer alone. *)
Lemma requests_before_discovery_witness :
  let r := rdm_task null_tx null_rx 50000 50000 demo_world in
  (engine_wf (fst demo_world) /\ 0 < s_req_count (fst demo_world)) /\
  s_discovery_last_ms (fst (fst r)) = 0 /\
  s_tod_count (fst (fst r)) = 0 /\
  snd r = [EvBusSend demo_request].
Proof.
  intros r.
  assert (H1 : engine_wf (fst demo_world)).
  { unfold engine_wf, queue_wf, rx_wf, resp_wf, tod_wf, txn_wf.
    vm_compute. repeat split; congruence. }
  assert (H2 : 0 < s_req_count (fst demo_world)) by (vm_compute; reflexivity).
  destruct (requests_before_discovery null_tx null_rx 50000 50000
              (fst demo_world) tt H1 H2) as (_ & Hc & _ & Hl & _).
  split; [auto|]. split; [exact Hl|]. split; [exact Hc|].
  vm_compute. reflexivity.
Defined.

(** * Art-Net: properties *)

(** ** Writes into the front of a buffer *)

Lemma length_memcpy_at (n : nat) :
  forall (dst : list Z) (off : Z) (src : list Z),
    length (memcpy_at dst off src n) = length dst.
Proof.
  induction n as [|n IH]; intros dst off [|x src]; simpl; try reflexivity.
  now rewrite IH, length_wr.
Qed.

Lemma wr_app_l (l1 l2 : list Z) (i v : Z) :
  0 <= i < Z.of_nat (length l1) -> wr (l1 ++ l2) i v = wr l1 i v ++ l2.
Proof. intros H. unfold wr. apply insert_app_l. lia. Qed.

Lemma memcpy_at_app_l (n : nat) :
  forall (l1 l2 : list Z) (off : Z) (src : list Z),
    0 <= off -> off + Z.of_nat n <= Z.of_nat (length l1) ->
    memcpy_at (l1 ++ l2) off src n = memcpy_at l1 off src n ++ l2.
Proof.
  induction n as [|n IH]; intros l1 l2 off src H0 H; [reflexivity|].
  destruct src as [|x src]; [reflexivity|]. cbn [memcpy_at].
  rewrite wr_app_l by lia. apply IH; rewrite ?length_wr; lia.
Qed.

Lemma store16_app_l (l1 l2 : list Z) (off v : Z) :
  0 <= off -> off + 2 <= Z.of_nat (length l1) ->
  store16 (l1 ++ l2) off v = store16 l1 off v ++ l2.
Proof.
  intros H0 H. unfold store16.
  rewrite !wr_app_l by (rewrite ?length_wr; lia). reflexivity.
Qed.

Lemma repeat_add (x : Z) (a b : nat) :
  repeat x (a + b) = repeat x a ++ repeat x b.
Proof. apply repeat_app. Qed.

Lemma memcpy_at_tail (l1 pad src : list Z) (n : nat) :
  (n <= length src)%nat -> length pad = n ->
  memcpy_at (l1 ++ pad) (Z.of_nat (length l1)) src n = l1 ++ firstn n src.
Proof.
  intros Hs Hp.
  rewrite memcpy_at_spec by (rewrite ?length_app; lia).
  rewrite take_app_length, drop_ge by (rewrite length_app; lia).
  now rewrite app_nil_r.
Qed.

Lemma htons_bytes (v : Z) :
  0 <= v < 65536 ->
  Z.land (lwip_htons v) 0xFF = v / 256 /\
  Z.land (Z.shiftr (lwip_htons v) 8) 0xFF = v mod 256.
Proof.
  intros H. unfold lwip_htons.
  assert (Hlo : Z.land v 0xFF = v mod 256)
    by (change 0xFF with (Z.ones 8); now rewrite Z.land_ones by lia).
  assert (Hhi : Z.land (Z.shiftr v 8) 0xFF = v / 256).
  { change 0xFF with (Z.ones 8). rewrite Z.land_ones, Z.shiftr_div_pow2 by lia.
    change (2 ^ 8) with 256. apply Z.mod_small.
    Z.to_euclidean_division_equations; lia. }
  rewrite Hlo, Hhi.
  rewrite lor_shiftl_bytes
    by (Z.to_euclidean_division_equations; lia).
  change 0xFF with (Z.ones 8).
  rewrite !Z.land_ones, Z.shiftr_div_pow2 by lia. change (2 ^ 8) with 256.
  Z.to_euclidean_division_equations; lia.
Qed.

Lemma lor_shiftl_raw (hi lo : Z) :
  0 <= hi < 256 -> 0 <= lo < 256 ->
  Z.lor (Z.shiftl hi 8) lo = hi * 256 + lo.
Proof.
  intros Hhi Hlo. pose proof (lor_shiftl_bytes hi lo Hhi Hlo) as H.
  unfold u16 in H. rewrite <- H. symmetry. apply Z.mod_small.
  split; [apply Z.lor_nonneg; split; [apply Z.shiftl_nonneg|]; lia|].
  destruct (Z.eq_dec (Z.lor (Z.shiftl hi 8) lo) 0) as [-> | Hnz]; [lia|].
  apply Z.log2_lt_cancel. rewrite Z.log2_lor
    by (try apply Z.shiftl_nonneg; lia).
  change (Z.log2 65536) with 16.
  apply Z.max_lub_lt.
  - destruct (Z.eq_dec hi 0) as [-> | Hh]; [rewrite Z.shiftl_0_l; simpl; lia|].
    rewrite Z.log2_shiftl by lia.
    assert (Z.log2 hi < 8) by (apply Z.log2_lt_pow2; simpl; lia). lia.
  - destruct (Z.eq_dec lo 0) as [-> | Hl]; [simpl; lia|].
    assert (Z.log2 lo < 8) by (apply Z.log2_lt_pow2; simpl; lia). lia.
Qed.

Lemma load16_bytes (buf : list Z) (off : Z) :
  0 <= rd buf off < 256 -> 0 <= rd buf (off + 1) < 256 ->
  load16 buf off = rd buf (off + 1) * 256 + rd buf off.
Proof.
  intros H0 H1. unfold load16. rewrite Z.lor_comm.
  now apply lor_shiftl_raw.
Qed.

Section ArtNetFacts.

Variable pbuf_alloc : Z -> option (list Z).
Hypothesis Halloc : alloc_sized pbuf_alloc.

(** ** The ArtRdm packet that carries a response *)

(** X12.  artnet_send_rdm_response sends nothing when there is no UDP
    control block or no buffer can be allocated; otherwise it sends, to the
    address and port it is given, one datagram of 12 + length bytes: the
    Art-Net ID, the opcode 0x8300 low byte first, protocol version 0, 14,
    and then the first [length] bytes of the data.  With a NULL data
    pointer the bytes after the header are zeros; for the failure
    indication of the RDM engine (NULL, 0) the datagram is the 12-byte
    header alone.  No byte of the uninitialised buffer is sent. *)
Theorem rdm_response_packet (data : option (list Z)) (len ip port : Z)
    (a : artnet_state) :
  0 <= len <= 65523 ->
  match data with
  | Some d => len <= Z.of_nat (length d)
  | None => True
  end ->
  artnet_send_rdm_response pbuf_alloc data len ip port a
  = if s_pcb a then
      match pbuf_alloc (12 + len) with
      | Some _ =>
          [EvUdpSendTo true
             (artrdm_header
              ++ match data with
                 | Some d => firstn (Z.to_nat len) d
                 | None => repeat 0 (Z.to_nat len)
                 end) ip port]
      | None => []
      end
    else [].
Proof.
  intros Hlen Hdata. unfold artnet_send_rdm_response.
  destruct (s_pcb a) eqn:Hpcb; [|reflexivity]. cbn [negb].
  assert (Hsz : u16 (12 + len) = 12 + len)
    by (unfold u16; apply Z.mod_small; lia).
  rewrite Hsz.
  destruct (pbuf_alloc (12 + len)) as [mem|] eqn:Hm; [|reflexivity].
  pose proof (Halloc _ _ Hm) as Hl.
  rewrite memset_at_all by exact Hl.
  replace (Z.to_nat (12 + len)) with (12 + Z.to_nat len)%nat by lia.
  rewrite repeat_add.
  rewrite memcpy_at_app_l
    by (rewrite ?repeat_length; unfold ARTNET_ID_LEN; lia).
  rewrite !wr_app_l
    by (rewrite ?length_wr, ?length_memcpy_at, ?repeat_length; lia).
  set (hdr := wr _ 11 14).
  assert (Hhdr : hdr = artrdm_header) by reflexivity.
  rewrite Hhdr. clear hdr Hhdr. do 3 f_equal.
  destruct data as [d|]; [|reflexivity].
  destruct (0 <? len) eqn:Hpos.
  - change 12 with (Z.of_nat (length artrdm_header)).
    apply memcpy_at_tail; rewrite ?repeat_length; lia.
  - apply Z.ltb_ge in Hpos. replace (Z.to_nat len) with 0%nat by lia.
    reflexivity.
Qed.

(** ** The receive callback *)

Lemma artnet_hdr_facts (b : list Z) :
  12 <= Z.of_nat (length b) ->
  artnet_id_ok (pbuf_copy_partial b 12 0)
  = bool_decide (firstn 8 b = ARTNET_ID) /\
  load16 (pbuf_copy_partial b 12 0) 8 = load16 b 8.
Proof.
  intros H. unfold artnet_id_ok, pbuf_copy_partial, load16.
  change (Z.to_nat 0) with 0%nat. change (Z.to_nat 12) with 12%nat.
  change (Z.to_nat ARTNET_ID_LEN) with 8%nat. cbn [skipn].
  rewrite take_take_le by lia. split; [reflexivity|].
  unfold rd. rewrite !nth_lookup.
  now rewrite !lookup_take_lt by (cbn; lia).
Qed.

Ltac artnet_header H12 Hid :=
  unfold artnet_recv;
  replace (Z.of_nat (length _) <? 12) with false
    by (symmetry; apply Z.ltb_ge; lia);
  destruct (artnet_hdr_facts _ H12) as [-> ->];
  rewrite (bool_decide_eq_true_2 _ Hid); cbn [negb].

(** X13.  artnet_recv discards, without touching the state of the node
    and without sending or forwarding anything: a NULL pbuf, a datagram
    shorter than the 12-byte header, a datagram that does not begin with
    the eight bytes of the Art-Net ID, and a datagram whose opcode (bytes 8
    and 9, low byte first) is none of ArtPoll, ArtDmx, ArtCommand, ArtRdm,
    ArtTodRequest and ArtTodControl.  The protocol version is not
    looked at. *)
Theorem artnet_recv_discards (cmd0 : list Z) (p : option (list Z))
    (src src_port : Z) (n : node) :
  match p with
  | None => True
  | Some b =>
      Z.of_nat (length b) < 12 \/ firstn 8 b <> ARTNET_ID \/
      ~ In (load16 b 8) artnet_handled
  end ->
  artnet_recv pbuf_alloc cmd0 p src src_port n = (n, []).
Proof.
  destruct p as [b|]; [|reflexivity]. intros H.
  destruct (Z.lt_ge_cases (Z.of_nat (length b)) 12) as [Hs | H12].
  { unfold artnet_recv.
    now replace (Z.of_nat (length b) <? 12) with true
      by (symmetry; apply Z.ltb_lt; lia). }
  destruct (decide (firstn 8 b = ARTNET_ID)) as [Hid | Hid].
  - destruct H as [H | [H | H]]; [lia | contradiction |].
    artnet_header H12 Hid.
    repeat match goal with
    | |- context [load16 b 8 =? ?op] =>
        destruct (Z.eqb_spec (load16 b 8) op) as [E | _];
        [exfalso; apply H; rewrite E; unfold artnet_handled;
         cbn [In]; tauto|]
    end.
    reflexivity.
  - unfold artnet_recv.
    replace (Z.of_nat (length b) <? 12) with false
      by (symmetry; apply Z.ltb_ge; lia).
    destruct (artnet_hdr_facts _ H12) as [-> _].
    now rewrite (bool_decide_eq_false_2 _ Hid).
Qed.

(** X14.  An ArtRdm datagram (opcode 0x8300).  In DMX mode it is ignored.
    In RDM mode everything after the 12-byte header is queued as one RDM
    request for the sender's address and port, cut to its first 257 bytes
    when it is longer; a datagram with nothing after the header is
    ignored.  The length handed to rdm_enqueue_request is therefore always
    between 1 and 257, so the request is refused only when the queue
    already holds 5 requests, and then silently. *)
Theorem artnet_recv_rdm (cmd0 b : list Z) (src src_port : Z)
    (a : artnet_state) (r : rdm_state) :
  12 <= Z.of_nat (length b) < 65536 ->
  firstn 8 b = ARTNET_ID -> load16 b 8 = OP_RDM ->
  let len := Z.min (Z.of_nat (length b) - 12) 257 in
  let q := rdm_enqueue_request (firstn (Z.to_nat len) (skipn 12 b)) len
             src src_port r in
  artnet_recv pbuf_alloc cmd0 (Some b) src src_port (a, r)
  = (match s_mode a with
     | MODE_DMX => (a, r)
     | MODE_RDM => if Z.of_nat (length b) =? 12 then (a, r) else (a, snd q)
     end, []) /\
  (12 < Z.of_nat (length b) ->
   1 <= len <= 257 /\ fst q = (s_req_count r <? RDM_REQUEST_BUFFER_SIZE)).
Proof.
  intros Hlen Hid Hop len q. split.
  - assert (H12 : 12 <= Z.of_nat (length b)) by lia.
    artnet_header H12 Hid. rewrite Hop.
    change (OP_RDM =? OP_POLL) with false.
    change (OP_RDM =? OP_DMX) with false.
    change (OP_RDM =? OP_COMMAND) with false.
    change (OP_RDM =? OP_RDM) with true. cbv iota. cbn [fst snd].
    destruct (s_mode a); [reflexivity|].
    replace (Z.of_nat (length b) <? 12) with false
      by (symmetry; apply Z.ltb_ge; lia).
    destruct (Z.eqb_spec (Z.of_nat (length b)) 12) as [E | NE].
    + rewrite E. reflexivity.
    + replace (12 <? Z.of_nat (length b)) with true
        by (symmetry; apply Z.ltb_lt; lia).
      assert (Hu : u16 (Z.of_nat (length b) - 12) = Z.of_nat (length b) - 12)
        by (unfold u16; apply Z.mod_small; lia).
      rewrite Hu.
      replace (Z.of_nat (length b) - 12 =? 0) with false
        by (symmetry; apply Z.eqb_neq; lia).
      assert (Hmin : (if 257 <? Z.of_nat (length b) - 12 then 257
                      else Z.of_nat (length b) - 12) = len).
      { subst len. destruct (257 <? _) eqn:Hc;
          [apply Z.ltb_lt in Hc | apply Z.ltb_ge in Hc]; lia. }
      rewrite Hmin. unfold pbuf_copy_partial.
      change (Z.to_nat 12) with 12%nat. fold q.
      destruct q as [ok r']. reflexivity.
  - intros Hpay. split; [subst len; lia|].
    subst q. unfold rdm_enqueue_request.
    destruct (RDM_REQUEST_BUFFER_SIZE <=? s_req_count r) eqn:Hfull.
    + cbn [fst]. symmetry. apply Z.ltb_ge. now apply Z.leb_le.
    + replace (RDM_MAX_PACKET_SIZE <? len) with false
        by (symmetry; apply Z.ltb_ge; subst len;
            unfold RDM_MAX_PACKET_SIZE; lia).
      cbn [fst]. symmetry. apply Z.ltb_lt. now apply Z.leb_gt.
Qed.

Lemma c_string_app_nul (l rest : list Z) :
  c_string (l ++ 0 :: rest) = c_string l.
Proof.
  induction l as [|c l IH]; [reflexivity|]. cbn [app c_string].
  destruct (c =? 0); [reflexivity | now rewrite IH].
Qed.

(** X15.  An ArtDmx datagram (opcode 0x5000) of at least 18 bytes.  Bytes
    14 and 15 must both be zero (universe 0); the channel count declared
    big-endian in bytes 16 and 17 is cut to 512; and the datagram must
    hold that many bytes after its 18-byte header.  Then exactly those
    bytes are handed to dmx_update with that count; otherwise nothing
    happens.  A declared count of 0 calls dmx_update with no data.  The
    state of the node is not changed in either case. *)
Theorem artnet_recv_dmx (cmd0 b : list Z) (src src_port : Z) (n : node) :
  18 <= Z.of_nat (length b) < 65536 -> bytes_ok b = true ->
  firstn 8 b = ARTNET_ID -> load16 b 8 = OP_DMX ->
  let count := Z.min (rd b 16 * 256 + rd b 17) DMX_CHANNELS in
  artnet_recv pbuf_alloc cmd0 (Some b) src src_port n
  = (n, if (rd b 14 =? 0) && (rd b 15 =? 0)
           && (18 + count <=? Z.of_nat (length b))
        then [EvDmxUpdate (firstn (Z.to_nat count) (skipn 18 b)) count]
        else []).
Proof.
  intros Hlen Hb Hid Hop count.
  assert (H12 : 12 <= Z.of_nat (length b)) by lia.
  artnet_header H12 Hid. rewrite Hop.
  change (OP_DMX =? OP_POLL) with false.
  change (OP_DMX =? OP_DMX) with true. cbv iota.
  replace (Z.of_nat (length b) <? 18) with false
    by (symmetry; apply Z.ltb_ge; lia).
  pose proof (bytes_ok_rd b 14 Hb) as B14.
  pose proof (bytes_ok_rd b 15 Hb) as B15.
  pose proof (bytes_ok_rd b 16 Hb) as B16.
  pose proof (bytes_ok_rd b 17 Hb) as B17.
  rewrite !lor_shiftl_bytes by assumption.
  unfold ARTNET_UNIVERSE.
  destruct (Z.eqb_spec (rd b 14) 0) as [E14 | N14];
    [destruct (Z.eqb_spec (rd b 15) 0) as [E15 | N15]|].
  - rewrite E14, E15. cbn [Z.mul Z.add Z.eqb negb andb].
    assert (Hc : (if DMX_CHANNELS <? rd b 16 * 256 + rd b 17
                  then DMX_CHANNELS else rd b 16 * 256 + rd b 17) = count).
    { subst count. destruct (DMX_CHANNELS <? _) eqn:Hc;
        [apply Z.ltb_lt in Hc | apply Z.ltb_ge in Hc]; lia. }
    rewrite Hc.
    assert (Hu : u16 (18 + count) = 18 + count)
      by (unfold u16; apply Z.mod_small; subst count;
          unfold DMX_CHANNELS; lia).
    rewrite Hu.
    destruct (Z.leb_spec (18 + count) (Z.of_nat (length b))) as [Hfit | Hshort].
    + replace (Z.of_nat (length b) <? 18 + count) with false
        by (symmetry; apply Z.ltb_ge; lia).
      reflexivity.
    + replace (Z.of_nat (length b) <? 18 + count) with true
        by (symmetry; apply Z.ltb_lt; lia).
      reflexivity.
  - rewrite E14.
    replace (0 * 256 + rd b 15 =? 0) with false
      by (symmetry; apply Z.eqb_neq; lia).
    reflexivity.
  - replace (rd b 14 * 256 + rd b 15 =? 0) with false
      by (symmetry; apply Z.eqb_neq; lia).
    reflexivity.
Qed.

(** X16.  An ArtCommand datagram (opcode 0x2400) of at least 14 bytes
    whose text, of the length declared big-endian in bytes 12 and 13 and
    cut to 512, is all there.  The text is read as a C string (up to its
    first NUL, or to its end).  If it is MODE=DMX the node switches
    to DMX mode and sets the DMX rate to 40 Hz; if it is MODE=RDM it
    switches to RDM mode and sets the rate to 1 Hz; if it is
    FirmwareUpdate the device reboots into the boot ROM; any other text,
    also one that differs only in case, does nothing; bytes after a NUL are
    not looked at.  The RDM engine is not touched, and the
    outcome does not depend on what the stack held. *)
Theorem artnet_recv_command (cmd0 b : list Z) (src src_port : Z)
    (a : artnet_state) (r : rdm_state) :
  14 <= Z.of_nat (length b) < 65536 -> bytes_ok b = true ->
  firstn 8 b = ARTNET_ID -> load16 b 8 = OP_COMMAND ->
  let count := Z.min (rd b 12 * 256 + rd b 13) 512 in
  14 + count <= Z.of_nat (length b) ->
  count < Z.of_nat (length cmd0) ->
  let text := c_string (firstn (Z.to_nat count) (skipn 14 b)) in
  artnet_recv pbuf_alloc cmd0 (Some b) src src_port (a, r)
  = if bool_decide (text = bytes_of_string "MODE=DMX")
    then ((mkArtnet (s_pcb a) MODE_DMX, r), [EvDmxSetRate 40])
    else if bool_decide (text = bytes_of_string "MODE=RDM")
    then ((mkArtnet (s_pcb a) MODE_RDM, r), [EvDmxSetRate 1])
    else if bool_decide (text = bytes_of_string "FirmwareUpdate")
    then ((a, r), [EvResetUsbBoot])
    else ((a, r), []).
Proof.
  intros Hlen Hb Hid Hop count Hfit Hcmd text.
  assert (H12 : 12 <= Z.of_nat (length b)) by lia.
  artnet_header H12 Hid. rewrite Hop.
  change (OP_COMMAND =? OP_POLL) with false.
  change (OP_COMMAND =? OP_DMX) with false.
  change (OP_COMMAND =? OP_COMMAND) with true. cbv iota.
  replace (Z.of_nat (length b) <? 14) with false
    by (symmetry; apply Z.ltb_ge; lia).
  pose proof (bytes_ok_rd b 12 Hb) as B12.
  pose proof (bytes_ok_rd b 13 Hb) as B13.
  assert (Hdl : lwip_htons (load16 b 12) = rd b 12 * 256 + rd b 13).
  { rewrite load16_bytes by assumption. unfold lwip_htons.
    change (12 + 1) with 13.
    replace (Z.land (rd b 13 * 256 + rd b 12) 255) with (rd b 12).
    2:{ change 255 with (Z.ones 8). rewrite Z.land_ones by lia.
        change (2 ^ 8) with 256. Z.to_euclidean_division_equations; lia. }
    replace (Z.land (Z.shiftr (rd b 13 * 256 + rd b 12) 8) 255) with (rd b 13).
    2:{ change 255 with (Z.ones 8).
        rewrite Z.land_ones, Z.shiftr_div_pow2 by lia.
        change (2 ^ 8) with 256. Z.to_euclidean_division_equations; lia. }
    now apply lor_shiftl_bytes. }
  rewrite Hdl.
  assert (Hc : (if 512 <? rd b 12 * 256 + rd b 13 then 512
                else rd b 12 * 256 + rd b 13) = count).
  { subst count. destruct (512 <? _) eqn:Hc;
      [apply Z.ltb_lt in Hc | apply Z.ltb_ge in Hc]; lia. }
  rewrite Hc.
  set (copied := pbuf_copy_partial b count 14).
  assert (Hcl : length copied = Z.to_nat count).
  { subst copied. unfold pbuf_copy_partial.
    rewrite length_take, length_drop. subst count. lia. }
  assert (Hcmd' : exists rest,
            wr (memcpy cmd0 copied (Z.of_nat (length copied))) count 0
            = copied ++ 0 :: rest).
  { unfold memcpy. rewrite Nat2Z.id, take_ge by lia.
    unfold wr. rewrite insert_app_r_alt by lia.
    rewrite Hcl, Nat.sub_diag.
    destruct (skipn (Z.to_nat count) cmd0) as [|x rest] eqn:Hd.
    - apply (f_equal length) in Hd. rewrite length_drop in Hd.
      cbn [length] in Hd. subst count. lia.
    - exists rest. reflexivity. }
  destruct Hcmd' as (rest & ->).
  unfold strcmp_eq. rewrite c_string_app_nul.
  fold text. unfold copied, pbuf_copy_partial.
  change (Z.to_nat 14) with 14%nat. fold text.
  unfold artnet_set_mode. cbn [fst snd].
  repeat destruct (bool_decide _); reflexivity.
Qed.

(** ** ArtPollReply and ArtTodData *)

Lemma send_poll_reply_to_bytes (dest : Z) (a : artnet_state) :
  send_poll_reply_to pbuf_alloc dest a
  = match pbuf_alloc POLL_REPLY_SIZE with
    | None => []
    | Some _ => [EvUdpSendTo (s_pcb a) (poll_reply_bytes (s_mode a)) dest
                             ARTNET_PORT]
    end.
Proof.
  unfold send_poll_reply_to.
  destruct (pbuf_alloc POLL_REPLY_SIZE) as [mem|] eqn:Hm; [|reflexivity].
  pose proof (Halloc _ _ Hm) as Hl.
  rewrite memset_at_all by exact Hl.
  destruct a as [pcb mode]. cbn [s_pcb s_mode].
  do 2 f_equal. destruct mode; vm_compute; reflexivity.
Qed.

Lemma tod_copy_uids_spec (n : nat) :
  forall (buf : list Z) (entries : list (list Z)) (i : nat),
    (i + n <= length entries)%nat ->
    Forall (fun uid => length uid = 6%nat) (firstn n (skipn i entries)) ->
    (27 + 6 * (i + n) <= length buf)%nat ->
    tod_copy_uids buf entries (Z.of_nat i) n
    = firstn (27 + 6 * i) buf ++ concat (firstn n (skipn i entries))
      ++ skipn (27 + 6 * (i + n)) buf.
Proof.
  induction n as [|n IH]; intros buf entries i Hi Hsix Hbuf.
  - cbn [tod_copy_uids firstn concat app]. rewrite Nat.add_0_r.
    symmetry. apply take_drop.
  - cbn [tod_copy_uids].
    destruct (entries !! i) as [e|] eqn:He;
      [|apply lookup_ge_None in He; lia].
    rewrite (drop_S _ _ _ He) in *. cbn [firstn concat] in *.
    apply Forall_cons in Hsix as [He6 Hsix].
    rewrite Nat2Z.id, (nth_lookup_Some _ _ _ _ He).
    replace (TOD_DATA_SIZE + Z.of_nat i * 6) with (Z.of_nat (27 + 6 * i))
      by (unfold TOD_DATA_SIZE; lia).
    rewrite memcpy_at_spec by lia.
    rewrite (take_ge e) by lia.
    replace (Z.of_nat i + 1) with (Z.of_nat (S i)) by lia.
    set (buf1 := firstn (27 + 6 * i) buf ++ e ++ skipn (27 + 6 * i + 6) buf).
    assert (Hl1 : length buf1 = length buf).
    { subst buf1. rewrite !length_app, length_take, length_drop. lia. }
    rewrite IH by (rewrite ?Hl1; assumption || lia).
    assert (Ht : firstn (27 + 6 * S i) buf1 = firstn (27 + 6 * i) buf ++ e).
    { subst buf1. rewrite app_assoc.
      rewrite take_app_length' by (rewrite length_app, length_take; lia).
      reflexivity. }
    assert (Hd : skipn (27 + 6 * (S i + n)) buf1
                 = skipn (27 + 6 * (i + S n)) buf).
    { subst buf1. rewrite app_assoc.
      replace (27 + 6 * (S i + n))%nat
        with (length (firstn (27 + 6 * i) buf ++ e) + 6 * n)%nat
        by (rewrite length_app, length_take; lia).
      rewrite drop_app_add, drop_drop. f_equal. lia. }
    rewrite Ht, Hd, <- !app_assoc. reflexivity.
Qed.

Lemma send_tod_data_bytes (dest : Z) (a : artnet_state) (r : rdm_state) :
  0 <= s_tod_count r <= 255 ->
  s_tod_count r <= Z.of_nat (length (s_tod r)) ->
  Forall (fun uid => length uid = 6%nat) (tod_table r) ->
  send_tod_data pbuf_alloc dest a r
  = (set_tod_changed false r,
     match pbuf_alloc (TOD_DATA_SIZE + 6 * s_tod_count r) with
     | None => []
     | Some _ =>
         [EvUdpSendTo (s_pcb a)
            (tod_data_header (s_tod_count r) ++ concat (tod_table r))
            dest ARTNET_PORT]
     end).
Proof.
  intros Hc Hlen Hsix. unfold send_tod_data, rdm_get_tod.
  set (c := s_tod_count r) in *.
  assert (Hsz : u16 (TOD_DATA_SIZE + u16 (c * 6)) = TOD_DATA_SIZE + 6 * c).
  { assert (H6 : u16 (c * 6) = 6 * c)
      by (unfold u16; rewrite Z.mod_small; lia).
    rewrite H6. unfold u16, TOD_DATA_SIZE. apply Z.mod_small. lia. }
  rewrite Hsz.
  destruct (pbuf_alloc (TOD_DATA_SIZE + 6 * c)) as [mem|] eqn:Hm;
    [|reflexivity].
  pose proof (Halloc _ _ Hm) as Hl. unfold TOD_DATA_SIZE in Hl.
  do 3 f_equal.
  assert (Hmem : mem = firstn 27 mem ++ skipn 27 mem)
    by (symmetry; apply take_drop).
  assert (Hzero : memset_at mem 0 0 (Z.to_nat TOD_DATA_SIZE)
                  = repeat 0 27 ++ skipn 27 mem).
  { unfold memset_at. change 0 with (Z.of_nat 0) at 1.
    change (Z.to_nat TOD_DATA_SIZE) with 27%nat.
    rewrite memcpy_at_spec by (rewrite ?repeat_length; lia).
    rewrite take_0, (take_ge (repeat 0 27%nat))
      by (rewrite repeat_length; lia).
    reflexivity. }
  rewrite Hzero.
  destruct (htons_bytes c ltac:(lia)) as [Hhi Hlo].
  unfold store16 at 1. rewrite Hhi, Hlo.
  assert (Hu8 : u8 (if 255 <? c then 255 else c) = c).
  { replace (255 <? c) with false by (symmetry; apply Z.ltb_ge; lia).
    unfold u8. apply Z.mod_small. lia. }
  rewrite Hu8.
  replace (c / 256) with 0 by (Z.to_euclidean_division_equations; lia).
  replace (c mod 256) with c by (Z.to_euclidean_division_equations; lia).
  rewrite memcpy_at_app_l
    by (rewrite ?repeat_length; unfold ARTNET_ID_LEN; lia).
  rewrite store16_app_l
    by (rewrite ?length_memcpy_at, ?repeat_length; lia).
  rewrite !wr_app_l
    by (unfold store16;
        rewrite ?length_wr, ?length_memcpy_at, ?repeat_length; lia).
  set (hdr := wr _ 26 c).
  assert (Hhdr : hdr = tod_data_header c) by reflexivity.
  rewrite Hhdr. clear hdr Hhdr.
  change 0 with (Z.of_nat 0) at 1.
  rewrite tod_copy_uids_spec.
  - rewrite take_app_length' by reflexivity.
    rewrite (drop_ge (tod_data_header c ++ _))
      by (rewrite length_app, length_drop;
          change (length (tod_data_header c)) with 27%nat; lia).
    rewrite drop_0, app_nil_r. reflexivity.
  - lia.
  - exact Hsix.
  - rewrite length_app, length_drop. cbn. lia.
Qed.

(** X17.  An ArtTodRequest datagram (opcode 0x8000) is answered with one
    ArtTodData datagram sent to the sender's address at port 6454
    (whatever port the request came from): the 27-byte header, which
    carries the number of devices both as the big-endian total and as the
    count of UIDs that follow, and then the six bytes of every UID of the
    current table, in table order.  Reading the table clears the changed
    flag of the RDM engine; this happens before the buffer is allocated,
    so the flag is cleared even when no reply can be sent. *)
Theorem artnet_recv_tod_request (cmd0 b : list Z) (src src_port : Z)
    (a : artnet_state) (r : rdm_state) :
  12 <= Z.of_nat (length b) ->
  firstn 8 b = ARTNET_ID -> load16 b 8 = OP_TOD_REQUEST ->
  0 <= s_tod_count r <= 255 ->
  s_tod_count r <= Z.of_nat (length (s_tod r)) ->
  Forall (fun uid => length uid = 6%nat) (tod_table r) ->
  artnet_recv pbuf_alloc cmd0 (Some b) src src_port (a, r)
  = ((a, set_tod_changed false r),
     match pbuf_alloc (27 + 6 * s_tod_count r) with
     | None => []
     | Some _ =>
         [EvUdpSendTo (s_pcb a)
            (tod_data_header (s_tod_count r) ++ concat (tod_table r))
            src ARTNET_PORT]
     end).
Proof.
  intros H12 Hid Hop Hc Hlen Hsix.
  artnet_header H12 Hid. rewrite Hop.
  change (OP_TOD_REQUEST =? OP_POLL) with false.
  change (OP_TOD_REQUEST =? OP_DMX) with false.
  change (OP_TOD_REQUEST =? OP_COMMAND) with false.
  change (OP_TOD_REQUEST =? OP_RDM) with false.
  change (OP_TOD_REQUEST =? OP_TOD_REQUEST) with true. cbv iota.
  cbn [fst snd]. rewrite send_tod_data_bytes by assumption.
  reflexivity.
Qed.

(** X18.  An ArtTodControl datagram (opcode 0x8200) is ignored when it is
    shorter than 14 bytes.  Otherwise, when its command byte (byte 13) is
    1, the table is flushed first, and in every case an ArtTodData
    datagram for the table as it then is goes back to the sender.  After
    a flush that reply announces no device and is the bare 27-byte header;
    and since sending the reply reads the table, the changed flag that
    the flush has just raised is false again when artnet_recv returns,
    while the table stays empty and the discovery timer stays at 0. *)
Theorem artnet_recv_tod_control (cmd0 b : list Z) (src src_port : Z)
    (a : artnet_state) (r : rdm_state) :
  12 <= Z.of_nat (length b) ->
  firstn 8 b = ARTNET_ID -> load16 b 8 = OP_TOD_CONTROL ->
  0 <= s_tod_count r <= 255 ->
  s_tod_count r <= Z.of_nat (length (s_tod r)) ->
  Forall (fun uid => length uid = 6%nat) (tod_table r) ->
  let r1 := if rd b 13 =? 1 then rdm_flush_tod r else r in
  let res := artnet_recv pbuf_alloc cmd0 (Some b) src src_port (a, r) in
  (Z.of_nat (length b) < 14 -> res = ((a, r), [])) /\
  (14 <= Z.of_nat (length b) ->
   res = ((a, set_tod_changed false r1),
          match pbuf_alloc (27 + 6 * s_tod_count r1) with
          | None => []
          | Some _ =>
              [EvUdpSendTo (s_pcb a)
                 (tod_data_header (s_tod_count r1) ++ concat (tod_table r1))
                 src ARTNET_PORT]
          end)) /\
  (14 <= Z.of_nat (length b) -> rd b 13 = 1 ->
   tod_data_header (s_tod_count r1) ++ concat (tod_table r1)
   = tod_data_header 0 /\
   rdm_tod_changed (snd (fst res)) = false /\
   s_tod_count (snd (fst res)) = 0 /\
   s_discovery_last_ms (snd (fst res)) = 0).
Proof.
  intros H12 Hid Hop Hc Hlen Hsix r1 res.
  assert (Hres : res = if Z.of_nat (length b) <? 14 then ((a, r), [])
                       else let '(r2, ev) := send_tod_data pbuf_alloc src a r1
                            in ((a, r2), ev)).
  { subst res. artnet_header H12 Hid. rewrite Hop.
    change (OP_TOD_CONTROL =? OP_POLL) with false.
    change (OP_TOD_CONTROL =? OP_DMX) with false.
    change (OP_TOD_CONTROL =? OP_COMMAND) with false.
    change (OP_TOD_CONTROL =? OP_RDM) with false.
    change (OP_TOD_CONTROL =? OP_TOD_REQUEST) with false.
    change (OP_TOD_CONTROL =? OP_TOD_CONTROL) with true. cbv iota.
    reflexivity. }
  assert (Hr1 : 0 <= s_tod_count r1 <= 255 /\
                s_tod_count r1 <= Z.of_nat (length (s_tod r1)) /\
                Forall (fun uid => length uid = 6%nat) (tod_table r1)).
  { subst r1. destruct (rd b 13 =? 1); [|auto].
    unfold rdm_flush_tod, tod_table. proj_simpl.
    split; [lia|]. split; [lia|]. constructor. }
  destruct Hr1 as (Hc1 & Hlen1 & Hsix1).
  rewrite Hres. clear Hres. split; [|split].
  - intros Hs.
    now replace (Z.of_nat (length b) <? 14) with true
      by (symmetry; apply Z.ltb_lt; lia).
  - intros Hl.
    replace (Z.of_nat (length b) <? 14) with false
      by (symmetry; apply Z.ltb_ge; lia).
    now rewrite send_tod_data_bytes by assumption.
  - intros Hl Hcmd.
    replace (Z.of_nat (length b) <? 14) with false
      by (symmetry; apply Z.ltb_ge; lia).
    rewrite send_tod_data_bytes by assumption.
    subst r1. rewrite Hcmd. cbn [Z.eqb Pos.eqb].
    unfold rdm_flush_tod, rdm_tod_changed, tod_table. proj_simpl.
    repeat split; reflexivity.
Qed.

(** X19.  On an ArtPoll datagram (opcode 0x2000) artnet_recv makes one
    call of udp_sendto, on the node's control block s_pcb, with an
    ArtPollReply of 239 bytes for the sender's address at port 6454, and
    none when pbuf_alloc fails.  Every byte of the reply is determined:
    the ID, opcode 0x2100, the node's address 10.0.0.1, port 6454, the
    short and long names, a node report that names the current mode, one
    DMX output port, the MAC address 02:00:00:00:00:01 and zeros
    elsewhere; nothing of what the freshly allocated buffer held is
    passed on.  At start-up main() sets the DMX rate to 40 Hz and, in DMX
    mode, makes the same call with the reply for the broadcast address.
    send_poll_reply_to does not test s_pcb: when artnet_init got no
    control block, the call is made with a NULL control block (the first
    field of the event is false).  Whether lwIP then puts anything on the
    network is decided outside this code and is not stated here. *)
Theorem artnet_recv_poll (cmd0 b : list Z) (src src_port : Z) (n : node)
    (udp_new_ok : bool) :
  12 <= Z.of_nat (length b) ->
  firstn 8 b = ARTNET_ID -> load16 b 8 = OP_POLL ->
  artnet_recv pbuf_alloc cmd0 (Some b) src src_port n
  = (n, match pbuf_alloc 239 with
        | None => []
        | Some _ => [EvUdpSendTo (s_pcb (fst n))
                       (poll_reply_bytes (s_mode (fst n))) src ARTNET_PORT]
        end) /\
  length (poll_reply_bytes (s_mode (fst n))) = 239%nat /\
  main_init pbuf_alloc udp_new_ok
  = ((mkArtnet udp_new_ok MODE_DMX, rdm_start udp_new_ok),
     EvDmxSetRate 40
     :: match pbuf_alloc 239 with
        | None => []
        | Some _ => [EvUdpSendTo udp_new_ok (poll_reply_bytes MODE_DMX)
                       0xFFFFFFFF ARTNET_PORT]
        end).
Proof.
  intros H12 Hid Hop. split; [|split].
  - artnet_header H12 Hid. rewrite Hop.
    change (OP_POLL =? OP_POLL) with true. cbv iota.
    now rewrite send_poll_reply_to_bytes.
  - destruct (s_mode (fst n)); reflexivity.
  - unfold main_init, artnet_send_poll_reply, artnet_init, artnet_set_mode.
    destruct udp_new_ok; cbn [negb fst snd s_pcb s_mode artnet_boot];
      rewrite send_poll_reply_to_bytes; reflexivity.
Qed.

End ArtNetFacts.

(** ** Examples for the Art-Net properties *)

Lemma demo_alloc_sized : alloc_sized demo_alloc.
Proof.
  intros size mem H. unfold demo_alloc in H. injection H as <-.
  apply repeat_length.
Qed.

(** The response to the demo request goes out as 38 bytes; a failure as
    the 12-byte header. *)
Lemma rdm_response_packet_witness :
  let a := mkArtnet true MODE_RDM in
  (0 <= 26 <= 65523 /\ 26 <= Z.of_nat (length demo_request) /\
   0 <= 0 <= 65523) /\
  artnet_send_rdm_response demo_alloc (Some demo_request) 26 0x0200000A 6454 a
  = [EvUdpSendTo true (artrdm_header ++ demo_request) 0x0200000A 6454] /\
  artnet_send_rdm_response demo_alloc None 0 0x0200000A 6454 a
  = [EvUdpSendTo true artrdm_header 0x0200000A 6454].
Proof.
  intros a.
  assert (H1 : 0 <= 26 <= 65523) by lia.
  assert (H2 : 26 <= Z.of_nat (length demo_request))
    by (vm_compute; congruence).
  assert (H3 : 0 <= 0 <= 65523) by lia.
  pose proof (rdm_response_packet demo_alloc demo_alloc_sized
                (Some demo_request) 26 0x0200000A 6454 a H1 H2) as E1.
  pose proof (rdm_response_packet demo_alloc demo_alloc_sized
                None 0 0x0200000A 6454 a H3 I) as E2.
  split; [auto|]. split.
  - rewrite E1. reflexivity.
  - rewrite E2. reflexivity.
Defined.

(** An ArtPollReply (opcode 0x2100) sent to the node is not answered. *)
Lemma artnet_recv_discards_witness :
  let b := artnet_packet OP_POLL_REPLY [1; 2; 3] in
  ~ In (load16 b 8) artnet_handled /\
  artnet_recv demo_alloc [] (Some b) 0x0200000A 6454 demo_node
  = (demo_node, []).
Proof.
  intros b.
  assert (H : ~ In (load16 b 8) artnet_handled).
  { vm_compute. intuition discriminate. }
  split; [exact H|].
  apply (artnet_recv_discards demo_alloc [] (Some b) 0x0200000A 6454 demo_node).
  right. right. exact H.
Defined.

(** The demo request arrives as ArtRdm and is queued for its sender. *)
Lemma artnet_recv_rdm_witness :
  let b := artnet_packet OP_RDM demo_request in
  let res := artnet_recv demo_alloc [] (Some b) 0x0200000A 6454 demo_node in
  (12 <= Z.of_nat (length b) < 65536 /\ firstn 8 b = ARTNET_ID /\
   load16 b 8 = OP_RDM) /\
  snd res = [] /\
  map req_view (queue_contents (snd (fst res)))
  = [(demo_request, 0x0200000A, 6454)].
Proof.
  intros b res.
  assert (H1 : 12 <= Z.of_nat (length b) < 65536)
    by (vm_compute; split; congruence).
  assert (H2 : firstn 8 b = ARTNET_ID) by reflexivity.
  assert (H3 : load16 b 8 = OP_RDM) by reflexivity.
  destruct (artnet_recv_rdm demo_alloc [] b 0x0200000A 6454
              (fst demo_node) (snd demo_node) H1 H2 H3) as [E _].
  split; [auto|]. subst res.
  change demo_node with (fst demo_node, snd demo_node).
  rewrite E. split; vm_compute; reflexivity.
Defined.

(** Three channels for universe 0. *)
Lemma artnet_recv_dmx_witness :
  let b := artnet_packet OP_DMX [0; 0; 0; 0; 0; 3; 10; 20; 30] in
  (18 <= Z.of_nat (length b) < 65536 /\ bytes_ok b = true /\
   firstn 8 b = ARTNET_ID /\ load16 b 8 = OP_DMX) /\
  artnet_recv demo_alloc [] (Some b) 0x0200000A 6454 demo_node
  = (demo_node, [EvDmxUpdate [10; 20; 30] 3]).
Proof.
  intros b.
  assert (H1 : 18 <= Z.of_nat (length b) < 65536)
    by (vm_compute; split; congruence).
  assert (H2 : bytes_ok b = true) by reflexivity.
  assert (H3 : firstn 8 b = ARTNET_ID) by reflexivity.
  assert (H4 : load16 b 8 = OP_DMX) by reflexivity.
  split; [auto|].
  rewrite (artnet_recv_dmx demo_alloc [] b 0x0200000A 6454 demo_node
             H1 H2 H3 H4).
  reflexivity.
Defined.

(** MODE=DMX, sent with its terminating NUL, switches the demo node back
    to DMX mode. *)
Lemma artnet_recv_command_witness :
  let b := artnet_packet OP_COMMAND
             ([0; 9] ++ bytes_of_string "MODE=DMX" ++ [0]) in
  let cmd0 := repeat 0x55 513%nat in
  (14 <= Z.of_nat (length b) < 65536 /\ bytes_ok b = true /\
   firstn 8 b = ARTNET_ID /\ load16 b 8 = OP_COMMAND /\
   14 + Z.min (rd b 12 * 256 + rd b 13) 512 <= Z.of_nat (length b) /\
   Z.min (rd b 12 * 256 + rd b 13) 512 < Z.of_nat (length cmd0)) /\
  artnet_recv demo_alloc cmd0 (Some b) 0x0200000A 6454 demo_node
  = ((mkArtnet true MODE_DMX, snd demo_node), [EvDmxSetRate 40]).
Proof.
  intros b cmd0.
  assert (H1 : 14 <= Z.of_nat (length b) < 65536)
    by (vm_compute; split; congruence).
  assert (H2 : bytes_ok b = true) by reflexivity.
  assert (H3 : firstn 8 b = ARTNET_ID) by reflexivity.
  assert (H4 : load16 b 8 = OP_COMMAND) by reflexivity.
  assert (H5 : 14 + Z.min (rd b 12 * 256 + rd b 13) 512 <= Z.of_nat (length b))
    by (vm_compute; congruence).
  assert (H6 : Z.min (rd b 12 * 256 + rd b 13) 512 < Z.of_nat (length cmd0))
    by (vm_compute; reflexivity).
  split; [tauto|].
  change demo_node with (fst demo_node, snd demo_node) at 1.
  rewrite (artnet_recv_command demo_alloc cmd0 b 0x0200000A 6454
             (fst demo_node) (snd demo_node) H1 H2 H3 H4 H5 H6).
  reflexivity.
Defined.

(** A table of two devices, read over Art-Net. *)
Lemma artnet_recv_tod_request_witness :
  let bus := mkSim (map sim_device [5; 9]%nat) [] in
  let r := fst (fst (rdm_task sim_tx sim_rx 10000 10050 (rdm_start true, bus))) in
  let b := artnet_packet OP_TOD_REQUEST [0; 0] in
  let res := artnet_recv demo_alloc [] (Some b) 0x0200000A 6454
               (mkArtnet true MODE_RDM, r) in
  (12 <= Z.of_nat (length b) /\ firstn 8 b = ARTNET_ID /\
   load16 b 8 = OP_TOD_REQUEST /\ 0 <= s_tod_count r <= 255 /\
   s_tod_count r <= Z.of_nat (length (s_tod r)) /\
   Forall (fun uid => length uid = 6%nat) (tod_table r)) /\
  rdm_tod_changed r = true /\
  rdm_tod_changed (snd (fst res)) = false /\
  snd res = [EvUdpSendTo true
               (tod_data_header 2 ++ [5; 0; 0; 0; 0; 0] ++ [9; 0; 0; 0; 0; 0])
               0x0200000A 6454].
Proof.
  intros bus r b res.
  assert (H1 : 12 <= Z.of_nat (length b)) by (vm_compute; congruence).
  assert (H2 : firstn 8 b = ARTNET_ID) by reflexivity.
  assert (H3 : load16 b 8 = OP_TOD_REQUEST) by reflexivity.
  assert (H4 : 0 <= s_tod_count r <= 255) by (vm_compute; split; congruence).
  assert (H5 : s_tod_count r <= Z.of_nat (length (s_tod r)))
    by (vm_compute; congruence).
  assert (H6 : Forall (fun uid => length uid = 6%nat) (tod_table r))
    by (apply (bool_decide_unpack _); vm_compute; exact I).
  split; [tauto|]. split; [vm_compute; reflexivity|]. subst res.
  rewrite (artnet_recv_tod_request demo_alloc demo_alloc_sized [] b
             0x0200000A 6454 (mkArtnet true MODE_RDM) r H1 H2 H3 H4 H5 H6).
  split; [reflexivity|]. vm_compute. reflexivity.
Defined.

(** The same table flushed over Art-Net: the reply is the bare header and
    the changed flag reads false afterwards. *)
Lemma artnet_recv_tod_control_witness :
  let bus := mkSim (map sim_device [5; 9]%nat) [] in
  let r := fst (fst (rdm_task sim_tx sim_rx 10000 10050 (rdm_start true, bus))) in
  let b := artnet_packet OP_TOD_CONTROL [0; 1] in
  let res := artnet_recv demo_alloc [] (Some b) 0x0200000A 6454
               (mkArtnet true MODE_RDM, r) in
  (12 <= Z.of_nat (length b) /\ firstn 8 b = ARTNET_ID /\
   load16 b 8 = OP_TOD_CONTROL /\ 0 <= s_tod_count r <= 255 /\
   s_tod_count r <= Z.of_nat (length (s_tod r)) /\
   Forall (fun uid => length uid = 6%nat) (tod_table r) /\
   14 <= Z.of_nat (length b) /\ rd b 13 = 1) /\
  s_tod_count r = 2 /\
  rdm_tod_changed (snd (fst res)) = false /\
  s_tod_count (snd (fst res)) = 0 /\
  snd res = [EvUdpSendTo true (tod_data_header 0) 0x0200000A 6454].
Proof.
  intros bus r b res.
  assert (H1 : 12 <= Z.of_nat (length b)) by (vm_compute; congruence).
  assert (H2 : firstn 8 b = ARTNET_ID) by reflexivity.
  assert (H3 : load16 b 8 = OP_TOD_CONTROL) by reflexivity.
  assert (H4 : 0 <= s_tod_count r <= 255) by (vm_compute; split; congruence).
  assert (H5 : s_tod_count r <= Z.of_nat (length (s_tod r)))
    by (vm_compute; congruence).
  assert (H6 : Forall (fun uid => length uid = 6%nat) (tod_table r))
    by (apply (bool_decide_unpack _); vm_compute; exact I).
  assert (H7 : 14 <= Z.of_nat (length b)) by (vm_compute; congruence).
  assert (H8 : rd b 13 = 1) by reflexivity.
  destruct (artnet_recv_tod_control demo_alloc demo_alloc_sized [] b
              0x0200000A 6454 (mkArtnet true MODE_RDM) r H1 H2 H3 H4 H5 H6)
    as (_ & Hres & Hflush).
  destruct (Hflush H7 H8) as (_ & Hf & Hc & _).
  split; [tauto|]. split; [vm_compute; reflexivity|].
  split; [exact Hf|]. split; [exact Hc|].
  subst res. rewrite (Hres H7). vm_compute. reflexivity.
Defined.

(** An ArtPoll to the demo node. *)
Lemma artnet_recv_poll_witness :
  let b := artnet_packet OP_POLL [0; 0] in
  (12 <= Z.of_nat (length b) /\ firstn 8 b = ARTNET_ID /\
   load16 b 8 = OP_POLL) /\
  artnet_recv demo_alloc [] (Some b) 0x0200000A 1234 demo_node
  = (demo_node,
     [EvUdpSendTo true (poll_reply_bytes MODE_RDM) 0x0200000A 6454]).
Proof.
  intros b.
  assert (H1 : 12 <= Z.of_nat (length b)) by (vm_compute; congruence).
  assert (H2 : firstn 8 b = ARTNET_ID) by reflexivity.
  assert (H3 : load16 b 8 = OP_POLL) by reflexivity.
  destruct (artnet_recv_poll demo_alloc demo_alloc_sized [] b 0x0200000A 1234
              demo_node true H1 H2 H3) as (E & _).
  split; [tauto|]. rewrite E. reflexivity.
Defined.

(** * DHCP server: properties *)

(** ** Option parsing *)

Lemma find_opt_loop_fuel (fuel : nat) :
  forall (opts : list Z) (len code i : Z) (fuel' : nat),
    bytes_ok opts = true -> len - i <= Z.of_nat fuel -> (fuel <= fuel')%nat ->
    find_opt_loop fuel' opts len code i = find_opt_loop fuel opts len code i.
Proof.
  induction fuel as [|fuel IH]; intros opts len code i fuel' Hb Hf Hle.
  - destruct fuel' as [|fuel']; [reflexivity|]. cbn [find_opt_loop].
    now replace (i <? len) with false by (symmetry; apply Z.ltb_ge; lia).
  - destruct fuel' as [|fuel']; [lia|]. cbn [find_opt_loop].
    destruct (negb (i <? len)); [reflexivity|].
    destruct (rd opts i =? DHCP_OPT_END); [reflexivity|].
    pose proof (bytes_ok_rd opts (i + 1) Hb).
    destruct (rd opts i =? 0); [apply IH; assumption || lia|].
    destruct (rd opts i =? code); [reflexivity|].
    apply IH; assumption || lia.
Qed.

Lemma rd_app_r (l1 l2 : list Z) (i : Z) :
  Z.of_nat (length l1) <= i ->
  rd (l1 ++ l2) i = rd l2 (i - Z.of_nat (length l1)).
Proof.
  intros H. unfold rd. rewrite !nth_lookup.
  rewrite lookup_app_r by lia. do 2 f_equal. lia.
Qed.

Lemma rd_app_l (l1 l2 : list Z) (i : Z) :
  0 <= i < Z.of_nat (length l1) -> rd (l1 ++ l2) i = rd l1 i.
Proof.
  intros H. unfold rd. rewrite !nth_lookup.
  now rewrite lookup_app_l by lia.
Qed.

Lemma encode_opts_bytes (items : list dhcp_item) :
  Forall item_ok items -> bytes_ok (encode_opts items) = true.
Proof.
  induction 1 as [|it items Hit _ IH]; [reflexivity|].
  unfold encode_opts in *. cbn [flat_map]. unfold bytes_ok in *.
  rewrite forallb_app, IH, andb_true_r.
  destruct it as [|code data]; [reflexivity|].
  destruct Hit as (Hc & Hl & Hd). cbn [encode_item forallb].
  change (forallb is_byteb data) with (bytes_ok data). rewrite Hd.
  rewrite !is_byteb_true by lia. reflexivity.
Qed.

(** The scan over a prefix of items that holds no option with the code
    sought continues behind the prefix. *)
Lemma find_opt_loop_items (items : list dhcp_item) :
  forall (pre tail : list Z) (len code : Z) (fuel : nat),
    Forall item_ok items -> 0 < code < 255 ->
    Z.of_nat (length pre) + Z.of_nat (length (encode_opts items)) <= len ->
    len - Z.of_nat (length pre) <= Z.of_nat fuel ->
    bytes_ok (pre ++ encode_opts items ++ tail) = true ->
    find_opt_loop fuel (pre ++ encode_opts items ++ tail) len code
                  (Z.of_nat (length pre))
    = match lookup_opt items code (Z.of_nat (length pre)) with
      | Some j => Some j
      | None =>
          find_opt_loop fuel (pre ++ encode_opts items ++ tail) len code
            (Z.of_nat (length pre) + Z.of_nat (length (encode_opts items)))
      end.
Proof.
  induction items as [|it items IH];
    intros pre tail len code fuel Hok Hcode Hlen Hfuel Hb.
  - cbn [encode_opts flat_map lookup_opt length]. now rewrite Z.add_0_r.
  - apply Forall_cons in Hok as [Hit Hok].
    unfold encode_opts in *. cbn [flat_map] in *.
    rewrite length_app in Hlen.
    set (opts := pre ++ (encode_item it ++ flat_map encode_item items) ++ tail)
      in *.
    destruct fuel as [|fuel];
      [destruct it; cbn [encode_item length] in Hlen; lia|].
    assert (Hi : forall k, 0 <= k < Z.of_nat (length (encode_item it)) ->
                   rd opts (Z.of_nat (length pre) + k)
                   = rd (encode_item it) k).
    { intros k Hk. subst opts. rewrite rd_app_r by lia.
      replace (Z.of_nat (length pre) + k - Z.of_nat (length pre)) with k by lia.
      rewrite <- app_assoc. now rewrite rd_app_l by lia. }
    assert (Hshift : opts = (pre ++ encode_item it)
                            ++ flat_map encode_item items ++ tail)
      by (subst opts; now rewrite <- !app_assoc).
    rewrite (find_opt_loop_fuel fuel opts len code
               (Z.of_nat (length pre)
                + Z.of_nat (length (encode_item it
                                    ++ flat_map encode_item items)))
               (S fuel))
      by (rewrite ?length_app; assumption || (destruct it;
          cbn [encode_item length] in *; lia)).
    cbn [find_opt_loop].
    replace (Z.of_nat (length pre) <? len) with true
      by (symmetry; apply Z.ltb_lt; destruct it;
          cbn [encode_item length] in Hlen; lia).
    cbn [negb].
    destruct it as [|c data].
    + (* pad *)
      cbn [encode_item length lookup_opt] in *.
      pose proof (Hi 0 ltac:(lia)) as H0. rewrite Z.add_0_r in H0.
      rewrite H0. change (rd [0] 0) with 0.
      change (0 =? DHCP_OPT_END) with false. change (0 =? 0) with true.
      cbv iota.
      specialize (IH (pre ++ [0]) tail len code fuel Hok Hcode).
      rewrite length_app in IH. cbn [length] in IH.
      replace (Z.of_nat (length pre + 1)) with (Z.of_nat (length pre) + 1)
        in IH by lia.
      rewrite <- Hshift in IH.
      rewrite IH by (assumption || lia).
      destruct (lookup_opt items code (Z.of_nat (length pre) + 1));
        [reflexivity|].
      f_equal. rewrite length_app. cbn [length]. lia.
    + (* option *)
      destruct Hit as (Hc & Hl & Hd).
      cbn [encode_item length lookup_opt] in *.
      pose proof (Hi 0 ltac:(lia)) as H0. rewrite Z.add_0_r in H0.
      pose proof (Hi 1 ltac:(lia)) as H1.
      rewrite H0, H1. change (rd (c :: _) 0) with c.
      change (rd (c :: Z.of_nat (length data) :: data) 1)
        with (Z.of_nat (length data)).
      replace (c =? DHCP_OPT_END) with false
        by (symmetry; apply Z.eqb_neq; unfold DHCP_OPT_END; lia).
      replace (c =? 0) with false by (symmetry; apply Z.eqb_neq; lia).
      destruct (c =? code); [reflexivity|].
      specialize (IH (pre ++ c :: Z.of_nat (length data) :: data) tail len code
                     fuel Hok Hcode).
      rewrite length_app in IH. cbn [length] in IH.
      replace (Z.of_nat (length pre + S (S (length data))))
        with (Z.of_nat (length pre) + 2 + Z.of_nat (length data)) in IH by lia.
      rewrite <- Hshift in IH.
      rewrite IH by (assumption || lia).
      destruct (lookup_opt items code
                  (Z.of_nat (length pre) + 2 + Z.of_nat (length data)));
        [reflexivity|].
      f_equal. rewrite length_app. cbn [length]. lia.
Qed.

Lemma find_opt_loop_past (fuel : nat) (opts : list Z) (len code i : Z) :
  len <= i -> find_opt_loop fuel opts len code i = None.
Proof.
  intros H. destruct fuel as [|fuel]; [reflexivity|]. cbn [find_opt_loop].
  now replace (i <? len) with false by (symmetry; apply Z.ltb_ge; lia).
Qed.

Lemma lookup_opt_none (items : list dhcp_item) (code : Z) :
  forall off, Forall (fun it => has_code code it = false) items ->
              lookup_opt items code off = None.
Proof.
  induction items as [|[|c data] items IH]; intros off H; [reflexivity| |];
    apply Forall_cons in H as [Hh H]; cbn [lookup_opt].
  - now apply IH.
  - cbn [has_code] in Hh. rewrite Hh. now apply IH.
Qed.

(** The scan from the start of the buffer over items without the code. *)
Lemma find_opt_skips (items : list dhcp_item) (tail : list Z) (len code : Z) :
  Forall item_ok items ->
  Forall (fun it => has_code code it = false) items ->
  0 < code < 255 -> bytes_ok tail = true ->
  Z.of_nat (length (encode_opts items)) <= len ->
  find_opt (encode_opts items ++ tail) len code
  = find_opt_loop (Z.to_nat len) (encode_opts items ++ tail) len code
                  (Z.of_nat (length (encode_opts items))).
Proof.
  intros Hok Hno Hcode Htail Hlen. unfold find_opt.
  pose proof (find_opt_loop_items items [] tail len code (Z.to_nat len)
                Hok Hcode) as H.
  cbn [length app] in H. change (Z.of_nat 0) with 0 in H.
  rewrite Z.add_0_l in H. rewrite H.
  - now rewrite lookup_opt_none.
  - lia.
  - lia.
  - now rewrite bytes_ok_app, encode_opts_bytes, Htail.
Qed.

Lemma find_opt_loop_end (fuel : nat) (opts : list Z) (len code i : Z) :
  rd opts i = DHCP_OPT_END -> find_opt_loop fuel opts len code i = None.
Proof.
  intros H. destruct fuel as [|fuel]; [reflexivity|]. cbn [find_opt_loop].
  destruct (negb _); [reflexivity|]. now rewrite H, Z.eqb_refl.
Qed.

(** The scan reaches the first option with the code sought. *)
Lemma find_opt_hit (before : list dhcp_item) (tail : list Z) (len code : Z) :
  Forall item_ok before ->
  Forall (fun it => has_code code it = false) before ->
  0 < code < 255 -> bytes_ok tail = true ->
  Z.of_nat (length (encode_opts before)) < len ->
  find_opt (encode_opts before ++ code :: tail) len code
  = Some (Z.of_nat (length (encode_opts before)) + 2).
Proof.
  intros Hok Hno Hcode Htail Hlen.
  rewrite find_opt_skips; try assumption; try lia.
  - destruct (Z.to_nat len) as [|fuel] eqn:Hf; [lia|]. cbn [find_opt_loop].
    replace (_ <? len) with true by (symmetry; apply Z.ltb_lt; lia).
    cbn [negb]. rewrite rd_app_r by lia. rewrite Z.sub_diag.
    change (rd (code :: tail) 0) with code.
    replace (code =? DHCP_OPT_END) with false
      by (symmetry; apply Z.eqb_neq; unfold DHCP_OPT_END; lia).
    replace (code =? 0) with false by (symmetry; apply Z.eqb_neq; lia).
    now rewrite Z.eqb_refl.
  - unfold bytes_ok in *. cbn [forallb]. rewrite Htail.
    now rewrite is_byteb_true by lia.
Qed.

(** X20.  find_opt walks the options as code, length, data: pads (0) are
    one byte, every other option is skipped by its length byte.  When
    the code sought stands at an option boundary inside the first
    opts_len bytes and no earlier option has it, the result points two
    bytes behind that code byte, at what follows the length byte,
    whatever the length byte and the bytes after it are. *)
Theorem find_opt_found (before : list dhcp_item) (l : Z) (value : list Z)
    (len code : Z) :
  Forall item_ok before ->
  Forall (fun it => has_code code it = false) before ->
  0 < code < 255 -> bytes_ok (l :: value) = true ->
  Z.of_nat (length (encode_opts before)) < len ->
  let opts := encode_opts before ++ code :: l :: value in
  exists j, find_opt opts len code = Some j /\
            j = Z.of_nat (length (encode_opts before)) + 2 /\
            skipn (Z.to_nat j) opts = value.
Proof.
  intros Hok Hno Hcode Htail Hlen opts.
  exists (Z.of_nat (length (encode_opts before)) + 2).
  split; [now apply find_opt_hit|]. split; [reflexivity|].
  subst opts.
  replace (Z.to_nat (Z.of_nat (length (encode_opts before)) + 2))
    with (length (encode_opts before) + 2)%nat by lia.
  rewrite drop_app_add'; reflexivity.
Qed.

Lemma find_opt_found_witness :
  let opts := encode_opts [Pad; Opt 12 [0x70; 0x63]; Pad] ++ 53 :: 1 :: [3; 255]
  in
  exists j, find_opt opts 8 53 = Some j /\
            j = Z.of_nat (length (encode_opts [Pad; Opt 12 [0x70; 0x63]; Pad]))
                + 2 /\
            skipn (Z.to_nat j) opts = [3; 255].
Proof.
  apply (find_opt_found [Pad; Opt 12 [0x70; 0x63]; Pad] 1 [3; 255] 8 53).
  - repeat constructor; cbn; lia.
  - repeat constructor.
  - lia.
  - reflexivity.
  - cbn. lia.
Defined.

(** X21.  find_opt returns NULL when no option before the end mark (255)
    has the code sought, and also when the options without the code fill
    the opts_len bytes to the last one and there is no end mark at all;
    in particular for an opts_len of 0. *)
Theorem find_opt_missing (items : list dhcp_item) (tail : list Z)
    (len code : Z) :
  Forall item_ok items ->
  Forall (fun it => has_code code it = false) items ->
  0 < code < 255 -> bytes_ok tail = true ->
  Z.of_nat (length (encode_opts items)) <= len ->
  Z.of_nat (length (encode_opts items)) = len \/
  (exists t, tail = DHCP_OPT_END :: t) ->
  find_opt (encode_opts items ++ tail) len code = None.
Proof.
  intros Hok Hno Hcode Htail Hlen Hend.
  rewrite find_opt_skips; try assumption.
  destruct Hend as [He | [t ->]].
  - apply find_opt_loop_past. lia.
  - apply find_opt_loop_end. rewrite rd_app_r by lia.
    now rewrite Z.sub_diag.
Qed.

Lemma find_opt_missing_witness :
  find_opt (encode_opts [Opt 12 [0x70; 0x63]; Pad] ++ [255; 53; 1; 1]) 9 53
  = None /\
  find_opt (encode_opts [Opt 12 [0x70; 0x63]] ++ [53; 1; 1]) 4 53 = None.
Proof.
  split.
  - apply (find_opt_missing [Opt 12 [0x70; 0x63]; Pad] [255; 53; 1; 1] 9 53).
    + repeat constructor; cbn; lia.
    + repeat constructor.
    + lia.
    + reflexivity.
    + cbn. lia.
    + right. now exists [53; 1; 1].
  - apply (find_opt_missing [Opt 12 [0x70; 0x63]] [53; 1; 1] 4 53).
    + repeat constructor; cbn; lia.
    + repeat constructor.
    + lia.
    + reflexivity.
    + cbn. lia.
    + left. reflexivity.
Defined.

Lemma find_opt_loop_bounds (fuel : nat) :
  forall (opts : list Z) (len code i j : Z),
    bytes_ok opts = true -> 0 <= i ->
    find_opt_loop fuel opts len code i = Some j ->
    i + 2 <= j <= len + 1 /\ rd opts (j - 2) = code.
Proof.
  induction fuel as [|fuel IH]; intros opts len code i j Hb Hi H;
    [discriminate|].
  cbn [find_opt_loop] in H.
  destruct (i <? len) eqn:Hlt; [|discriminate]. cbn [negb] in H.
  apply Z.ltb_lt in Hlt.
  destruct (rd opts i =? DHCP_OPT_END); [discriminate|].
  pose proof (bytes_ok_rd opts (i + 1) Hb).
  destruct (rd opts i =? 0).
  - apply IH in H; [|assumption|lia]. split; [lia|tauto].
  - destruct (rd opts i =? code) eqn:Hc.
    + injection H as <-. apply Z.eqb_eq in Hc.
      replace (i + 2 - 2) with i by lia. split; [lia|assumption].
    + apply IH in H; [|assumption|lia]. split; [lia|tauto].
Qed.

(** X22.  The value pointer that find_opt returns is not checked against
    opts_len: it lies between opts + 2 and opts + opts_len + 1, two bytes
    behind a byte of the scanned range that holds the code.  For a code
    in one of the last two scanned bytes the value is outside the
    range. *)
Theorem find_opt_bounds (opts : list Z) (len code j : Z) :
  bytes_ok opts = true ->
  find_opt opts len code = Some j ->
  2 <= j <= len + 1 /\ 0 <= j - 2 < len /\ rd opts (j - 2) = code.
Proof.
  intros Hb H. unfold find_opt in H.
  apply find_opt_loop_bounds in H; [|assumption|lia].
  destruct H as [H1 H2]. repeat split; try lia; assumption.
Qed.

Lemma find_opt_bounds_witness :
  find_opt [0; 0; 53] 3 53 = Some 4 /\
  2 <= 4 <= 3 + 1 /\ 0 <= 4 - 2 < 3 /\ rd [0; 0; 53] (4 - 2) = 53.
Proof.
  split; [reflexivity|].
  apply (find_opt_bounds [0; 0; 53] 3 53 4); reflexivity.
Defined.

(** ** The reply *)

Lemma memcpy_at_firstn (n : nat) :
  forall (dst : list Z) (off : Z) (src : list Z),
    memcpy_at dst off (firstn n src) n = memcpy_at dst off src n.
Proof.
  induction n as [|n IH]; intros dst off [|x src]; cbn [memcpy_at firstn];
    try reflexivity.
  apply IH.
Qed.

Lemma length_4 (l : list Z) :
  length l = 4%nat -> exists a b c d, l = [a; b; c; d].
Proof.
  destruct l as [|a [|b [|c [|d [|]]]]]; try discriminate. now eauto.
Qed.

Lemma length_firstn_skipn (l : list Z) (a n : nat) :
  (a + n <= length l)%nat -> length (firstn n (skipn a l)) = n.
Proof. intros H. rewrite length_take, length_drop. lia. Qed.

Lemma length_reply_bytes (req : list Z) (msg_type : Z) (yiaddr : list Z)
    (s : dhcp_server_t) :
  (34 <= length req)%nat -> length yiaddr = 4%nat ->
  length (gw s) = 4%nat -> length (mask s) = 4%nat ->
  length (reply_bytes req msg_type yiaddr s) = 280%nat.
Proof.
  intros Hreq Hy Hg Hm. unfold reply_bytes, reply_options, encode_opts.
  cbn [flat_map encode_item].
  repeat first [ rewrite length_app
               | rewrite length_firstn_skipn by lia
               | rewrite repeat_length
               | progress cbn [length] ].
  rewrite Hy, Hg, Hm. reflexivity.
Qed.

Section DhcpFacts.

Variable pbuf_alloc : Z -> option (list Z).
Hypothesis Halloc : alloc_sized pbuf_alloc.

Lemma send_reply_bytes (req : list Z) (msg_type : Z) (yiaddr : list Z)
    (s : dhcp_server_t) :
  (34 <= length req)%nat -> length yiaddr = 4%nat ->
  length (gw s) = 4%nat -> length (mask s) = 4%nat ->
  send_reply pbuf_alloc req msg_type yiaddr s
  = match pbuf_alloc DHCP_MSG_SIZE with
    | None => []
    | Some _ =>
        [EvUdpSendTo (pcb s) (reply_bytes req msg_type yiaddr s)
                     0xFFFFFFFF DHCP_CLIENT_PORT]
    end.
Proof.
  intros Hreq Hy Hg Hm. unfold send_reply.
  destruct (pbuf_alloc DHCP_MSG_SIZE) as [mem|] eqn:Ha; [|reflexivity].
  apply Halloc in Ha.
  rewrite memset_at_all by exact Ha.
  rewrite <- (memcpy_at_firstn 4 _ OFF_XID (skipn (Z.to_nat OFF_XID) req)).
  rewrite <- (memcpy_at_firstn 2 _ OFF_FLAGS
                (skipn (Z.to_nat OFF_FLAGS) req)).
  rewrite <- (memcpy_at_firstn 6 _ OFF_CHADDR
                (skipn (Z.to_nat OFF_CHADDR) req)).
  unfold reply_bytes, reply_options.
  change (Z.to_nat OFF_XID) with 4%nat.
  change (Z.to_nat OFF_FLAGS) with 10%nat.
  change (Z.to_nat OFF_CHADDR) with 28%nat.
  assert (Hx : length (firstn 4 (skipn 4 req)) = 4%nat)
    by (apply length_firstn_skipn; lia).
  assert (Hf : length (firstn 2 (skipn 10 req)) = 2%nat)
    by (apply length_firstn_skipn; lia).
  assert (Hc : length (firstn 6 (skipn 28 req)) = 6%nat)
    by (apply length_firstn_skipn; lia).
  destruct (firstn 4 (skipn 4 req)) as [|x0 [|x1 [|x2 [|x3 [|]]]]];
    try discriminate.
  destruct (firstn 2 (skipn 10 req)) as [|f0 [|f1 [|]]]; try discriminate.
  destruct (firstn 6 (skipn 28 req)) as [|c0 [|c1 [|c2 [|c3 [|c4 [|c5 [|]]]]]]];
    try discriminate.
  destruct (length_4 _ Hy) as (y0 & y1 & y2 & y3 & ->).
  destruct s as [spcb sgw smask sip smac slease]. cbn [gw mask pcb] in *.
  destruct (length_4 _ Hg) as (g0 & g1 & g2 & g3 & ->).
  destruct (length_4 _ Hm) as (m0 & m1 & m2 & m3 & ->).
  clear. vm_compute. reflexivity.
Qed.

End DhcpFacts.

(** ** Byte order *)

Lemma lor_shiftl_add (a b k : Z) :
  0 <= k -> 0 <= a < 2 ^ k -> 0 <= b ->
  Z.lor a (Z.shiftl b k) = a + b * 2 ^ k.
Proof.
  intros Hk Ha Hb. rewrite <- Z.add_nocarry_lor.
  - now rewrite Z.shiftl_mul_pow2.
  - apply Z.bits_inj'. intros n Hn. rewrite Z.land_spec, Z.bits_0.
    destruct (Z.lt_ge_cases n k) as [Hlt | Hge].
    + rewrite Z.shiftl_spec_low by assumption. apply andb_false_r.
    + destruct (Z.eq_dec a 0) as [-> | Hnz];
        [now rewrite Z.bits_0|].
      rewrite Z.bits_above_log2; [reflexivity|lia|].
      assert (Z.log2 a < k) by (apply Z.log2_lt_pow2; lia). lia.
Qed.

Lemma word_of_bytes (b0 b1 b2 b3 : Z) :
  0 <= b0 < 256 -> 0 <= b1 < 256 -> 0 <= b2 < 256 -> 0 <= b3 < 256 ->
  Z.lor (Z.lor b0 (Z.shiftl b1 8)) (Z.lor (Z.shiftl b2 16) (Z.shiftl b3 24))
  = b0 + b1 * 256 + b2 * 65536 + b3 * 16777216.
Proof.
  intros H0 H1 H2 H3.
  rewrite (lor_shiftl_add b0 b1 8) by lia.
  rewrite (Z.shiftl_mul_pow2 b2 16) by lia.
  rewrite (lor_shiftl_add (b2 * 2 ^ 16) b3 24) by lia.
  replace (b2 * 2 ^ 16 + b3 * 2 ^ 24) with ((b2 + b3 * 256) * 2 ^ 16) by lia.
  rewrite <- (Z.shiftl_mul_pow2 (b2 + b3 * 256) 16) by lia.
  rewrite (lor_shiftl_add (b0 + b1 * 2 ^ 8) (b2 + b3 * 256) 16) by lia.
  lia.
Qed.

Lemma word_bytes (v b0 b1 b2 b3 : Z) :
  0 <= b0 < 256 -> 0 <= b1 < 256 -> 0 <= b2 < 256 -> 0 <= b3 < 256 ->
  v = b0 + b1 * 256 + b2 * 65536 + b3 * 16777216 ->
  Z.land v 0xFF = b0 /\ Z.land (Z.shiftr v 8) 0xFF = b1 /\
  Z.land (Z.shiftr v 16) 0xFF = b2 /\ Z.land (Z.shiftr v 24) 0xFF = b3.
Proof.
  intros H0 H1 H2 H3 ->. change 0xFF with (Z.ones 8).
  rewrite !Z.land_ones, !Z.shiftr_div_pow2 by lia.
  change (2 ^ 8) with 256. change (2 ^ 16) with 65536.
  change (2 ^ 24) with 16777216.
  repeat split; Z.to_euclidean_division_equations; lia.
Qed.

(** On the little-endian machine, lwip_ntohl of a word loaded from memory
    is the big-endian number of the four bytes. *)
Lemma ntohl_load32 (b0 b1 b2 b3 : Z) :
  0 <= b0 < 256 -> 0 <= b1 < 256 -> 0 <= b2 < 256 -> 0 <= b3 < 256 ->
  lwip_ntohl (load32 [b0; b1; b2; b3] 0)
  = b0 * 16777216 + b1 * 65536 + b2 * 256 + b3.
Proof.
  intros H0 H1 H2 H3. unfold lwip_ntohl, lwip_htonl, load32.
  change (rd [b0; b1; b2; b3] 0) with b0.
  change (rd [b0; b1; b2; b3] (0 + 1)) with b1.
  change (rd [b0; b1; b2; b3] (0 + 2)) with b2.
  change (rd [b0; b1; b2; b3] (0 + 3)) with b3.
  rewrite word_of_bytes by assumption.
  destruct (word_bytes _ b0 b1 b2 b3 H0 H1 H2 H3 eq_refl)
    as (-> & -> & -> & ->).
  rewrite (Z.lor_comm (Z.shiftl b0 24)), (Z.lor_comm (Z.shiftl b2 8)).
  rewrite (Z.lor_comm (Z.lor _ _)).
  rewrite word_of_bytes by assumption. lia.
Qed.

(** ** The fields of a received message *)

Lemma rd_firstn_skipn (l : list Z) (a n : nat) (k : Z) :
  0 <= k < Z.of_nat n ->
  rd (firstn n (skipn a l)) k = rd l (Z.of_nat a + k).
Proof.
  intros H. unfold rd. rewrite !nth_lookup.
  rewrite lookup_take_lt by lia. rewrite lookup_drop.
  do 2 f_equal. lia.
Qed.

Lemma load32_field (l : list Z) (a : nat) :
  load32 l (Z.of_nat a) = load32 (firstn 4 (skipn a l)) 0.
Proof.
  unfold load32. rewrite !rd_firstn_skipn by lia.
  now rewrite Z.add_0_r.
Qed.

Lemma firstn_skipn_firstn (l : list Z) (a n m : nat) :
  (a + n <= m)%nat ->
  firstn n (skipn a (firstn m l)) = firstn n (skipn a l).
Proof.
  intros H. rewrite skipn_firstn_comm, firstn_firstn. f_equal. lia.
Qed.

Lemma reply_bytes_req (p : list Z) (msg_type : Z) (yiaddr : list Z)
    (s : dhcp_server_t) :
  reply_bytes (firstn 552 p) msg_type yiaddr s
  = reply_bytes p msg_type yiaddr s.
Proof.
  unfold reply_bytes. now rewrite !firstn_skipn_firstn by lia.
Qed.

Lemma bytes_ok_firstn_skipn (l : list Z) (a n : nat) :
  bytes_ok l = true -> bytes_ok (firstn n (skipn a l)) = true.
Proof.
  intros H. apply (bytes_ok_sublist _ l); [|exact H].
  etransitivity; [apply sublist_take | apply sublist_drop].
Qed.

(** The magic cookie check, on the bytes of the message. *)
Lemma magic_check (p : list Z) :
  bytes_ok p = true -> (240 <= length p)%nat ->
  (lwip_ntohl (load32 (firstn 552 p) OFF_MAGIC) =? DHCP_MAGIC_COOKIE)
  = bool_decide (firstn 4 (skipn 236 p) = [0x63; 0x82; 0x53; 0x63]).
Proof.
  intros Hb Hl. change OFF_MAGIC with (Z.of_nat 236).
  rewrite load32_field, firstn_skipn_firstn by lia.
  pose proof (bytes_ok_firstn_skipn p 236 4 Hb) as Hb4.
  assert (H4 : length (firstn 4 (skipn 236 p)) = 4%nat)
    by (apply length_firstn_skipn; lia).
  destruct (length_4 _ H4) as (b0 & b1 & b2 & b3 & He4).
  rewrite He4 in *. clear He4 H4.
  apply bytes_ok_cons in Hb4 as [H0 Hb4]. apply bytes_ok_cons in Hb4 as [H1 Hb4].
  apply bytes_ok_cons in Hb4 as [H2 Hb4]. apply bytes_ok_cons in Hb4 as [H3 _].
  rewrite ntohl_load32 by assumption. unfold DHCP_MAGIC_COOKIE.
  destruct (bool_decide_reflect ([b0; b1; b2; b3] = [0x63; 0x82; 0x53; 0x63]))
    as [He | Hne].
  - injection He as -> -> -> ->. reflexivity.
  - apply Z.eqb_neq. intros He. apply Hne.
    assert (b0 = 0x63 /\ b1 = 0x82 /\ b2 = 0x53 /\ b3 = 0x63) as (-> & -> & -> & ->)
      by lia.
    reflexivity.
Qed.

(** ** The receive callback *)

Section DhcpRecvFacts.

Variable pbuf_alloc : Z -> option (list Z).
Hypothesis Halloc : alloc_sized pbuf_alloc.

Lemma send_reply_req (p : list Z) (msg_type : Z) (s : dhcp_server_t) :
  (552 <= length p)%nat -> dhcp_wf s ->
  send_reply pbuf_alloc (firstn 552 p) msg_type (client_ip s) s
  = dhcp_reply pbuf_alloc p msg_type s.
Proof.
  intros Hp (Hg & Hm & Hi & _).
  rewrite (send_reply_bytes pbuf_alloc Halloc)
    by (rewrite ?length_take; lia || assumption).
  unfold dhcp_reply. now rewrite reply_bytes_req.
Qed.

(** What dhcp_recv does with a message that passes its checks. *)
Lemma dhcp_recv_dispatch (after p : list Z) (t : Z) (mac : list Z)
    (s : dhcp_server_t) :
  bytes_ok after = true -> dhcp_message p t mac ->
  dhcp_recv pbuf_alloc after p s
  = if t =? DHCP_DISCOVER then
      let s' := mkDhcp (pcb s) (gw s) (mask s) (client_ip s) mac
                       (lease_active s) in
      (s', send_reply pbuf_alloc (firstn 552 p) DHCP_OFFER (client_ip s') s')
    else if t =? DHCP_REQUEST then
      if negb (lease_active s) || bool_decide (firstn 6 (client_mac s) = mac)
      then
        let s' := mkDhcp (pcb s) (gw s) (mask s) (client_ip s) mac true in
        (s', send_reply pbuf_alloc (firstn 552 p) DHCP_ACK (client_ip s') s')
      else
        (s, send_reply pbuf_alloc (firstn 552 p) DHCP_NAK (client_ip s) s)
    else if t =? DHCP_RELEASE then
      if bool_decide (firstn 6 (client_mac s) = mac) then
        (mkDhcp (pcb s) (gw s) (mask s) (client_ip s) (repeat 0 6%nat) false,
         [])
      else (s, [])
    else (s, []).
Proof.
  intros Hafter (Hlen & Hb & Hop & Hmagic & Hmac & before & l & rest
                 & Hok & Hno & Hopts).
  unfold DHCP_MSG_SIZE in Hlen.
  unfold dhcp_recv.
  replace (Z.of_nat (length p) <? DHCP_MSG_SIZE) with false
    by (symmetry; apply Z.ltb_ge; unfold DHCP_MSG_SIZE; lia).
  unfold pbuf_copy_partial.
  change (Z.to_nat DHCP_MSG_SIZE) with 552%nat.
  change (Z.to_nat 0) with 0%nat. change (skipn 0 p) with p.
  change (Z.to_nat OFF_CHADDR) with 28%nat.
  change (Z.to_nat OFF_OPTIONS) with 240%nat.
  assert (Hop' : rd (firstn 552 p) OFF_OP = 1).
  { change (firstn 552 p) with (firstn 552 (skipn 0 p)).
    rewrite rd_firstn_skipn by (unfold OFF_OP; lia). exact Hop. }
  rewrite Hop'. change (negb (1 =? 1)) with false. cbv iota.
  rewrite magic_check by (assumption || lia).
  rewrite Hmagic. rewrite bool_decide_eq_true_2 by reflexivity.
  change (negb true) with false. cbv iota.
  rewrite (firstn_skipn_firstn p 28 6 552) by lia. rewrite Hmac.
  rewrite skipn_firstn_comm. change (552 - 240)%nat with 312%nat.
  rewrite Hopts.
  assert (Hl312 : length (firstn 312 (skipn 240 p)) = 312%nat)
    by (apply length_firstn_skipn; lia).
  pose proof (bytes_ok_firstn_skipn p 240 312 Hb) as Hbo.
  rewrite Hopts in Hl312, Hbo.
  rewrite length_app in Hl312. cbn [length app] in Hl312.
  rewrite bytes_ok_app in Hbo. apply andb_prop in Hbo as [_ Hbt].
  replace ((encode_opts before ++ [DHCP_OPT_MSG_TYPE; l; t] ++ rest) ++ after)
    with (encode_opts before ++ DHCP_OPT_MSG_TYPE :: (l :: t :: rest ++ after))
    by (now rewrite <- app_assoc).
  rewrite find_opt_hit; try assumption.
  - rewrite rd_app_r by lia.
    replace (Z.of_nat (length (encode_opts before)) + 2
             - Z.of_nat (length (encode_opts before))) with 2 by lia.
    change (rd (DHCP_OPT_MSG_TYPE :: l :: t :: rest ++ after) 2) with t.
    reflexivity.
  - unfold DHCP_OPT_MSG_TYPE. lia.
  - cbn [app] in Hbt. apply bytes_ok_cons in Hbt as [_ Hbt].
    apply bytes_ok_cons in Hbt as [Hl Hbt].
    apply bytes_ok_cons in Hbt as [Ht Hbt].
    unfold bytes_ok in *. cbn [forallb]. rewrite forallb_app, Hbt, Hafter.
    now rewrite !is_byteb_true by lia.
  - unfold DHCP_OPTIONS_LEN. lia.
Qed.

Lemma dhcp_message_length (p : list Z) (t : Z) (mac : list Z) :
  dhcp_message p t mac -> (552 <= length p)%nat /\ length mac = 6%nat.
Proof.
  intros (Hlen & _ & _ & _ & Hmac & _). unfold DHCP_MSG_SIZE in Hlen.
  split; [lia|]. rewrite <- Hmac. apply length_firstn_skipn. lia.
Qed.

Lemma mac_cmp (s : dhcp_server_t) :
  dhcp_wf s -> firstn 6 (client_mac s) = client_mac s.
Proof. intros (_ & _ & _ & H). apply take_ge. lia. Qed.

(** X23.  send_reply sends nothing when no buffer can be allocated.
    Otherwise it broadcasts (255.255.255.255, port 68) one datagram of
    280 bytes: BOOTREPLY, Ethernet, address length 6; transaction id,
    flags and the six bytes of the hardware address from the request;
    yiaddr as given and siaddr the gateway; the magic cookie; the options
    53 (message type), 54 (server: gateway), 51 (86400 s), 58 (43200 s),
    59 (75600 s), 1 (mask), 3 (router: gateway) and the end mark.
    Everything else is zero, whatever the allocated buffer held. *)
Theorem send_reply_packet (req : list Z) (msg_type : Z) (yiaddr : list Z)
    (s : dhcp_server_t) :
  (34 <= length req)%nat -> length yiaddr = 4%nat ->
  length (gw s) = 4%nat -> length (mask s) = 4%nat ->
  send_reply pbuf_alloc req msg_type yiaddr s
  = match pbuf_alloc DHCP_MSG_SIZE with
    | None => []
    | Some _ =>
        [EvUdpSendTo (pcb s) (reply_bytes req msg_type yiaddr s)
                     0xFFFFFFFF DHCP_CLIENT_PORT]
    end /\
  length (reply_bytes req msg_type yiaddr s) = 280%nat.
Proof.
  intros Hreq Hy Hg Hm. split.
  - now apply send_reply_bytes.
  - now apply length_reply_bytes.
Qed.

(** X24.  dhcp_recv leaves the server state as it is and sends nothing
    for a datagram shorter than the 552 bytes of dhcp_msg_t, for one
    whose op is not BOOTREQUEST (1), for one without the magic cookie
    63 82 53 63, for one whose options hold no message type (53) before
    the end mark, and for a message of a type other than DISCOVER,
    REQUEST and RELEASE. *)
Theorem dhcp_recv_ignores (after p : list Z) (s : dhcp_server_t) :
  bytes_ok after = true ->
  Z.of_nat (length p) < DHCP_MSG_SIZE \/
  (DHCP_MSG_SIZE <= Z.of_nat (length p) /\ bytes_ok p = true /\
   (rd p OFF_OP <> 1 \/
    firstn 4 (skipn 236 p) <> [0x63; 0x82; 0x53; 0x63] \/
    (exists items rest,
        Forall item_ok items /\
        Forall (fun it => has_code DHCP_OPT_MSG_TYPE it = false) items /\
        firstn 312 (skipn 240 p) = encode_opts items ++ DHCP_OPT_END :: rest) \/
    (exists t mac,
        dhcp_message p t mac /\
        t <> DHCP_DISCOVER /\ t <> DHCP_REQUEST /\ t <> DHCP_RELEASE))) ->
  dhcp_recv pbuf_alloc after p s = (s, []).
Proof.
  intros Hafter [Hshort | (Hlen & Hb & H)].
  - unfold dhcp_recv.
    now replace (Z.of_nat (length p) <? DHCP_MSG_SIZE) with true
      by (symmetry; apply Z.ltb_lt; lia).
  - destruct H as [Hop | [Hmagic | [(items & rest & Hok & Hno & Hopts)
                                   | (t & mac & Hmsg & H1 & H3 & H7)]]].
    + unfold dhcp_recv.
      replace (Z.of_nat (length p) <? DHCP_MSG_SIZE) with false
        by (symmetry; apply Z.ltb_ge; lia).
      unfold pbuf_copy_partial.
      change (Z.to_nat DHCP_MSG_SIZE) with 552%nat.
      change (Z.to_nat 0) with 0%nat.
      rewrite rd_firstn_skipn by (unfold OFF_OP; lia).
      change (Z.of_nat 0 + OFF_OP) with OFF_OP.
      now replace (rd p OFF_OP =? 1) with false
        by (symmetry; apply Z.eqb_neq; assumption).
    + unfold dhcp_recv. unfold DHCP_MSG_SIZE in Hlen.
      replace (Z.of_nat (length p) <? DHCP_MSG_SIZE) with false
        by (symmetry; apply Z.ltb_ge; unfold DHCP_MSG_SIZE; lia).
      unfold pbuf_copy_partial.
      change (Z.to_nat DHCP_MSG_SIZE) with 552%nat.
      change (Z.to_nat 0) with 0%nat. change (skipn 0 p) with p.
      destruct (negb _); [reflexivity|].
      rewrite magic_check by (assumption || lia).
      now rewrite bool_decide_eq_false_2 by assumption.
    + unfold dhcp_recv. unfold DHCP_MSG_SIZE in Hlen.
      replace (Z.of_nat (length p) <? DHCP_MSG_SIZE) with false
        by (symmetry; apply Z.ltb_ge; unfold DHCP_MSG_SIZE; lia).
      unfold pbuf_copy_partial.
      change (Z.to_nat DHCP_MSG_SIZE) with 552%nat.
      change (Z.to_nat 0) with 0%nat. change (skipn 0 p) with p.
      change (Z.to_nat OFF_OPTIONS) with 240%nat.
      destruct (negb _); [reflexivity|].
      destruct (negb _); [reflexivity|].
      rewrite skipn_firstn_comm. change (552 - 240)%nat with 312%nat.
      rewrite Hopts.
      assert (Hl312 : length (firstn 312 (skipn 240 p)) = 312%nat)
        by (apply length_firstn_skipn; lia).
      pose proof (bytes_ok_firstn_skipn p 240 312 Hb) as Hbo.
      rewrite Hopts in Hl312, Hbo.
      rewrite length_app in Hl312. cbn [length] in Hl312.
      rewrite bytes_ok_app in Hbo. apply andb_prop in Hbo as [_ Hbt].
      rewrite <- app_assoc.
      assert (Hnone : find_opt (encode_opts items
                                ++ (DHCP_OPT_END :: rest) ++ after)
                               DHCP_OPTIONS_LEN DHCP_OPT_MSG_TYPE = None).
      { rewrite find_opt_skips; try assumption.
        - apply find_opt_loop_end. rewrite rd_app_r by lia.
          now rewrite Z.sub_diag.
        - unfold DHCP_OPT_MSG_TYPE. lia.
        - now rewrite bytes_ok_app, Hbt, Hafter.
        - unfold DHCP_OPTIONS_LEN. lia. }
      now rewrite Hnone.
    + rewrite (dhcp_recv_dispatch after p t mac s Hafter Hmsg).
      replace (t =? DHCP_DISCOVER) with false
        by (symmetry; now apply Z.eqb_neq).
      replace (t =? DHCP_REQUEST) with false
        by (symmetry; now apply Z.eqb_neq).
      now replace (t =? DHCP_RELEASE) with false
        by (symmetry; now apply Z.eqb_neq).
Qed.

(** X25.  A DHCPDISCOVER is answered with a DHCPOFFER of the client
    address, and the hardware address of the sender is stored as the
    client's: always, also while another client holds the lease, and also
    when no buffer for the offer can be had.  The lease flag is left as it
    is. *)
Theorem dhcp_recv_discover (after p mac : list Z) (s : dhcp_server_t) :
  bytes_ok after = true -> dhcp_wf s ->
  dhcp_message p DHCP_DISCOVER mac ->
  dhcp_recv pbuf_alloc after p s
  = (mkDhcp (pcb s) (gw s) (mask s) (client_ip s) mac (lease_active s),
     dhcp_reply pbuf_alloc p DHCP_OFFER s).
Proof.
  intros Hafter Hwf Hmsg.
  rewrite (dhcp_recv_dispatch after p _ mac s Hafter Hmsg).
  change (DHCP_DISCOVER =? DHCP_DISCOVER) with true. cbv iota zeta.
  destruct (dhcp_message_length _ _ _ Hmsg) as [Hlen Hmac].
  destruct Hwf as (Hg & Hm & Hi & Hc).
  rewrite send_reply_req by (assumption || now repeat split).
  reflexivity.
Qed.

(** X26.  A DHCPREQUEST is acknowledged when no lease is active or when
    it comes from the stored hardware address: the address is stored (it
    may replace another one while no lease is active), the lease becomes
    active and a DHCPACK of the client address is sent.  Otherwise the
    state stays and a DHCPNAK is sent, which carries the client address
    in yiaddr as the other replies do.  The address that the client asks
    for is not looked at. *)
Theorem dhcp_recv_request (after p mac : list Z) (s : dhcp_server_t) :
  bytes_ok after = true -> dhcp_wf s ->
  dhcp_message p DHCP_REQUEST mac ->
  dhcp_recv pbuf_alloc after p s
  = if negb (lease_active s) || bool_decide (client_mac s = mac) then
      (mkDhcp (pcb s) (gw s) (mask s) (client_ip s) mac true,
       dhcp_reply pbuf_alloc p DHCP_ACK s)
    else (s, dhcp_reply pbuf_alloc p DHCP_NAK s).
Proof.
  intros Hafter Hwf Hmsg.
  rewrite (dhcp_recv_dispatch after p _ mac s Hafter Hmsg).
  change (DHCP_REQUEST =? DHCP_DISCOVER) with false.
  change (DHCP_REQUEST =? DHCP_REQUEST) with true. cbv iota zeta.
  destruct (dhcp_message_length _ _ _ Hmsg) as [Hlen Hmac].
  rewrite (mac_cmp s Hwf).
  pose proof Hwf as (Hg & Hm & Hi & Hc).
  destruct (negb (lease_active s) || bool_decide (client_mac s = mac)).
  - rewrite send_reply_req by (assumption || now repeat split).
    reflexivity.
  - now rewrite send_reply_req by assumption.
Qed.

(** X27.  A DHCPRELEASE from the stored hardware address clears the
    lease and the stored address; from any other address it changes
    nothing.  Nothing is sent in either case. *)
Theorem dhcp_recv_release (after p mac : list Z) (s : dhcp_server_t) :
  bytes_ok after = true -> dhcp_wf s ->
  dhcp_message p DHCP_RELEASE mac ->
  dhcp_recv pbuf_alloc after p s
  = (if bool_decide (client_mac s = mac) then
       mkDhcp (pcb s) (gw s) (mask s) (client_ip s) (repeat 0 6%nat) false
     else s, []).
Proof.
  intros Hafter Hwf Hmsg.
  rewrite (dhcp_recv_dispatch after p _ mac s Hafter Hmsg).
  change (DHCP_RELEASE =? DHCP_DISCOVER) with false.
  change (DHCP_RELEASE =? DHCP_REQUEST) with false.
  change (DHCP_RELEASE =? DHCP_RELEASE) with true. cbv iota.
  rewrite (mac_cmp s Hwf).
  now destruct (bool_decide (client_mac s = mac)).
Qed.

(** X28.  The lease is not bound to its holder.  While client A holds
    the lease, a DHCPREQUEST from another client B is refused with a
    DHCPNAK; but a DHCPDISCOVER from B followed by its DHCPREQUEST is
    answered with OFFER and ACK of the same address, B becomes the
    holder, and a DHCPRELEASE that A sends afterwards is ignored. *)
Theorem dhcp_lease_takeover (a1 a2 a3 pd pr prel macA macB : list Z)
    (s : dhcp_server_t) :
  bytes_ok a1 = true -> bytes_ok a2 = true -> bytes_ok a3 = true ->
  dhcp_wf s -> lease_active s = true -> client_mac s = macA ->
  macB <> macA ->
  dhcp_message pd DHCP_DISCOVER macB ->
  dhcp_message pr DHCP_REQUEST macB ->
  dhcp_message prel DHCP_RELEASE macA ->
  dhcp_recv pbuf_alloc a2 pr s = (s, dhcp_reply pbuf_alloc pr DHCP_NAK s) /\
  dhcp_run pbuf_alloc [(a1, pd); (a2, pr); (a3, prel)] s
  = (mkDhcp (pcb s) (gw s) (mask s) (client_ip s) macB true,
     dhcp_reply pbuf_alloc pd DHCP_OFFER s
     ++ dhcp_reply pbuf_alloc pr DHCP_ACK s).
Proof.
  intros H1 H2 H3 Hwf Hlease HmacA Hne Hd Hr Hrel.
  destruct (dhcp_message_length _ _ _ Hd) as [Hld HlB].
  destruct (dhcp_message_length _ _ _ Hr) as [Hlr _].
  pose proof Hwf as (Hg & Hm & Hi & Hc).
  assert (Hnak : dhcp_recv pbuf_alloc a2 pr s
                 = (s, dhcp_reply pbuf_alloc pr DHCP_NAK s)).
  { rewrite (dhcp_recv_dispatch a2 pr _ macB s H2 Hr).
    change (DHCP_REQUEST =? DHCP_DISCOVER) with false.
    change (DHCP_REQUEST =? DHCP_REQUEST) with true. cbv iota.
    rewrite (mac_cmp s Hwf), Hlease, HmacA.
    rewrite bool_decide_eq_false_2 by (intros E; now apply Hne).
    cbn [negb orb]. now rewrite send_reply_req by assumption. }
  split; [exact Hnak|].
  cbn [dhcp_run].
  rewrite (dhcp_recv_dispatch a1 pd _ macB s H1 Hd).
  change (DHCP_DISCOVER =? DHCP_DISCOVER) with true. cbv iota zeta.
  set (s1 := mkDhcp (pcb s) (gw s) (mask s) (client_ip s) macB
                    (lease_active s)).
  assert (Hwf1 : dhcp_wf s1) by (now repeat split).
  rewrite (send_reply_req pd DHCP_OFFER s1 Hld Hwf1).
  rewrite (dhcp_recv_dispatch a2 pr _ macB s1 H2 Hr).
  change (DHCP_REQUEST =? DHCP_DISCOVER) with false.
  change (DHCP_REQUEST =? DHCP_REQUEST) with true. cbv iota zeta.
  rewrite (mac_cmp s1 Hwf1).
  replace (client_mac s1) with macB by reflexivity.
  rewrite bool_decide_eq_true_2 by reflexivity. rewrite orb_true_r.
  set (s2 := mkDhcp (pcb s1) (gw s1) (mask s1) (client_ip s1) macB true).
  assert (Hwf2 : dhcp_wf s2) by (now repeat split).
  rewrite (send_reply_req pr DHCP_ACK s2 Hlr Hwf2).
  rewrite (dhcp_recv_dispatch a3 prel _ macA s2 H3 Hrel).
  change (DHCP_RELEASE =? DHCP_DISCOVER) with false.
  change (DHCP_RELEASE =? DHCP_REQUEST) with false.
  change (DHCP_RELEASE =? DHCP_RELEASE) with true. cbv iota.
  rewrite (mac_cmp s2 Hwf2).
  replace (client_mac s2) with macB by reflexivity.
  rewrite bool_decide_eq_false_2 by assumption.
  now rewrite app_nil_r.
Qed.

(** One call of dhcp_recv keeps the addresses and the control block, and
    whatever it sends is a reply that offers the client address. *)
Lemma dhcp_recv_inv (after p : list Z) (s : dhcp_server_t) :
  dhcp_wf s ->
  let r := dhcp_recv pbuf_alloc after p s in
  dhcp_wf (fst r) /\
  pcb (fst r) = pcb s /\ gw (fst r) = gw s /\ mask (fst r) = mask s /\
  client_ip (fst r) = client_ip s /\
  Forall (fun e => exists req t,
            (t = DHCP_OFFER \/ t = DHCP_ACK \/ t = DHCP_NAK) /\
            length req = 552%nat /\
            e = EvUdpSendTo (pcb s) (reply_bytes req t (client_ip s) s)
                            0xFFFFFFFF DHCP_CLIENT_PORT)
         (snd r).
Proof.
  intros Hwf. pose proof Hwf as (Hg & Hm & Hi & Hc).
  assert (Hnone : dhcp_wf (fst (s, @nil net_event)) /\
                  pcb (fst (s, @nil net_event)) = pcb s /\
                  gw (fst (s, @nil net_event)) = gw s /\
                  mask (fst (s, @nil net_event)) = mask s /\
                  client_ip (fst (s, @nil net_event)) = client_ip s /\
                  Forall (fun e => exists req t,
                     (t = DHCP_OFFER \/ t = DHCP_ACK \/ t = DHCP_NAK) /\
                     length req = 552%nat /\
                     e = EvUdpSendTo (pcb s)
                           (reply_bytes req t (client_ip s) s)
                           0xFFFFFFFF DHCP_CLIENT_PORT)
                         (snd (s, @nil net_event)))
    by (cbn [fst snd]; repeat split; try assumption; constructor).
  cbv zeta. unfold dhcp_recv.
  destruct (Z.of_nat (length p) <? DHCP_MSG_SIZE) eqn:Hlen; [exact Hnone|].
  apply Z.ltb_ge in Hlen. unfold DHCP_MSG_SIZE in Hlen.
  unfold pbuf_copy_partial.
  change (Z.to_nat DHCP_MSG_SIZE) with 552%nat.
  change (Z.to_nat 0) with 0%nat. change (skipn 0 p) with p.
  change (Z.to_nat OFF_CHADDR) with 28%nat.
  destruct (negb _); [exact Hnone|].
  destruct (negb _); [exact Hnone|].
  destruct (find_opt _ _ _) as [mt|]; [|exact Hnone].
  assert (Hlm : length (firstn 6 (skipn 28 (firstn 552 p))) = 6%nat)
    by (apply length_firstn_skipn; rewrite length_take; lia).
  assert (Hsend : forall t s',
             (t = DHCP_OFFER \/ t = DHCP_ACK \/ t = DHCP_NAK) ->
             pcb s' = pcb s -> gw s' = gw s -> mask s' = mask s ->
             client_ip s' = client_ip s ->
             Forall (fun e => exists req t,
                       (t = DHCP_OFFER \/ t = DHCP_ACK \/ t = DHCP_NAK) /\
                       length req = 552%nat /\
                       e = EvUdpSendTo (pcb s)
                             (reply_bytes req t (client_ip s) s)
                             0xFFFFFFFF DHCP_CLIENT_PORT)
                    (send_reply pbuf_alloc (firstn 552 p) t (client_ip s') s')).
  { intros t s' Ht Hp' Hg' Hm' Hi'.
    rewrite (send_reply_bytes pbuf_alloc Halloc)
      by (rewrite ?length_take; lia || congruence).
    destruct (pbuf_alloc DHCP_MSG_SIZE); constructor; [|constructor].
    exists (firstn 552 p), t. split; [exact Ht|].
    split; [rewrite length_take; lia|].
    unfold reply_bytes, reply_options. now rewrite Hp', Hg', Hm', Hi'. }
  destruct (_ =? DHCP_DISCOVER).
  { cbn [fst snd].
    repeat split; try assumption; try reflexivity.
    apply Hsend; auto. }
  destruct (_ =? DHCP_REQUEST).
  { destruct (_ || _).
    - cbn [fst snd].
      repeat split; try assumption; try reflexivity.
      apply Hsend; auto.
    - cbn [fst snd]. repeat split; try assumption; try reflexivity.
      apply Hsend; auto. }
  destruct (_ =? DHCP_RELEASE); [|exact Hnone].
  destruct (bool_decide _); [|exact Hnone].
  cbn [fst snd].
  repeat split; try assumption; try reflexivity. constructor.
Qed.

(** X29.  Whatever datagrams arrive after dhcp_server_init, the server
    keeps its gateway, mask and client address 10.0.0.2, and it sends
    nothing but broadcasts to port 68 that are a DHCPOFFER, DHCPACK or
    DHCPNAK as send_reply lays it out, each offering 10.0.0.2 with the
    gateway as the server. *)
Theorem dhcp_only_offers_client_ip (gw0 mask0 : list Z) (ok : bool)
    (ps : list (list Z * list Z)) :
  length gw0 = 4%nat -> length mask0 = 4%nat ->
  let s0 := dhcp_server_init gw0 mask0 ok in
  let r := dhcp_run pbuf_alloc ps s0 in
  gw (fst r) = gw0 /\ mask (fst r) = mask0 /\
  client_ip (fst r) = [10; 0; 0; 2] /\ pcb (fst r) = ok /\
  length (client_mac (fst r)) = 6%nat /\
  Forall (fun e => exists req t,
            (t = DHCP_OFFER \/ t = DHCP_ACK \/ t = DHCP_NAK) /\
            length (reply_bytes req t [10; 0; 0; 2] s0) = 280%nat /\
            e = EvUdpSendTo ok (reply_bytes req t [10; 0; 0; 2] s0)
                            0xFFFFFFFF DHCP_CLIENT_PORT)
         (snd r).
Proof.
  intros Hg Hm s0 r.
  assert (Hgen : forall s,
             dhcp_wf s -> pcb s = ok -> gw s = gw0 -> mask s = mask0 ->
             client_ip s = [10; 0; 0; 2] ->
             let r := dhcp_run pbuf_alloc ps s in
             gw (fst r) = gw0 /\ mask (fst r) = mask0 /\
             client_ip (fst r) = [10; 0; 0; 2] /\ pcb (fst r) = ok /\
             length (client_mac (fst r)) = 6%nat /\
             Forall (fun e => exists req t,
                       (t = DHCP_OFFER \/ t = DHCP_ACK \/ t = DHCP_NAK) /\
                       length (reply_bytes req t [10; 0; 0; 2] s0) = 280%nat /\
                       e = EvUdpSendTo ok (reply_bytes req t [10; 0; 0; 2] s0)
                                       0xFFFFFFFF DHCP_CLIENT_PORT)
                    (snd r)).
  { clear r. induction ps as [|[after p] ps IH]; intros s Hwf Hp Hgw Hmk Hip.
    - cbn [dhcp_run fst snd]. destruct Hwf as (_ & _ & _ & Hc).
      repeat split; try assumption. constructor.
    - cbn [dhcp_run].
      pose proof (dhcp_recv_inv after p s Hwf) as Hinv. cbv zeta in Hinv.
      destruct (dhcp_recv pbuf_alloc after p s) as [s1 e1].
      cbn [fst snd] in Hinv.
      destruct Hinv as (Hwf1 & Hp1 & Hg1 & Hm1 & Hi1 & He1).
      specialize (IH s1 Hwf1 ltac:(congruence) ltac:(congruence)
                     ltac:(congruence) ltac:(congruence)).
      cbv zeta in IH.
      destruct (dhcp_run pbuf_alloc ps s1) as [s2 e2]. cbn [fst snd] in *.
      destruct IH as (? & ? & ? & ? & ? & He2).
      repeat split; try assumption.
      apply Forall_app. split; [|exact He2].
      eapply Forall_impl; [exact He1|].
      intros e (req & t & Ht & Hreq & ->). exists req, t.
      split; [exact Ht|].
      split; [apply length_reply_bytes; assumption || reflexivity || lia|].
      rewrite Hp, Hip. f_equal.
      unfold reply_bytes, reply_options. rewrite Hgw, Hmk. reflexivity. }
  apply Hgen; try reflexivity.
  repeat split; assumption || reflexivity.
Qed.

End DhcpRecvFacts.

(** ** The options of a reply, read back *)

Lemma reply_bytes_options (req : list Z) (msg_type : Z) (yiaddr : list Z)
    (s : dhcp_server_t) :
  (34 <= length req)%nat -> length yiaddr = 4%nat ->
  length (gw s) = 4%nat -> length (mask s) = 4%nat ->
  skipn 240 (reply_bytes req msg_type yiaddr s)
  = encode_opts (reply_options msg_type s) ++ [DHCP_OPT_END].
Proof.
  intros Hreq Hy Hg Hm. unfold reply_bytes.
  assert (Hx : length (firstn 4 (skipn 4 req)) = 4%nat)
    by (apply length_firstn_skipn; lia).
  assert (Hf : length (firstn 2 (skipn 10 req)) = 2%nat)
    by (apply length_firstn_skipn; lia).
  assert (Hc : length (firstn 6 (skipn 28 req)) = 6%nat)
    by (apply length_firstn_skipn; lia).
  destruct (firstn 4 (skipn 4 req)) as [|x0 [|x1 [|x2 [|x3 [|]]]]];
    try discriminate.
  destruct (firstn 2 (skipn 10 req)) as [|f0 [|f1 [|]]]; try discriminate.
  destruct (firstn 6 (skipn 28 req)) as [|c0 [|c1 [|c2 [|c3 [|c4 [|c5 [|]]]]]]];
    try discriminate.
  destruct (length_4 _ Hy) as (y0 & y1 & y2 & y3 & ->).
  destruct s as [spcb sgw smask sip smac slease]. cbn [gw mask] in *.
  destruct (length_4 _ Hg) as (g0 & g1 & g2 & g3 & ->).
  reflexivity.
Qed.

(** X30.  The options of a reply can be read back with find_opt: for
    each of the seven options that send_reply writes with write_opt,
    find_opt over the 40 bytes behind the magic cookie returns a pointer
    to the value that was written; the message type is the byte at
    offset 242 of the datagram. *)
Theorem reply_options_read_back (req : list Z) (msg_type : Z)
    (yiaddr : list Z) (s : dhcp_server_t) (code : Z) (data : list Z) :
  (34 <= length req)%nat -> length yiaddr = 4%nat ->
  length (gw s) = 4%nat -> length (mask s) = 4%nat ->
  In (Opt code data) (reply_options msg_type s) ->
  let opts := skipn 240 (reply_bytes req msg_type yiaddr s) in
  length opts = 40%nat /\
  find_opt opts 40 DHCP_OPT_MSG_TYPE = Some 2 /\
  rd (reply_bytes req msg_type yiaddr s) 242 = msg_type /\
  exists j, find_opt opts 40 code = Some j /\
            firstn (length data) (skipn (Z.to_nat j) opts) = data.
Proof.
  intros Hreq Hy Hg Hm Hin opts.
  assert (Hr : rd (reply_bytes req msg_type yiaddr s) 242 = rd opts 2).
  { subst opts. unfold rd. rewrite !nth_lookup, lookup_drop. reflexivity. }
  rewrite Hr. subst opts. rewrite reply_bytes_options by assumption.
  destruct s as [spcb sgw smask sip smac slease]. cbn [gw mask] in *.
  destruct (length_4 _ Hg) as (g0 & g1 & g2 & g3 & ->).
  destruct (length_4 _ Hm) as (m0 & m1 & m2 & m3 & ->).
  split; [reflexivity|]. split; [reflexivity|]. split; [reflexivity|].
  unfold reply_options in Hin. cbn [gw mask In] in Hin.
  destruct Hin as [H | [H | [H | [H | [H | [H | [H | []]]]]]]];
    injection H as <- <-.
  - exists 2. split; reflexivity.
  - exists 5. split; reflexivity.
  - exists 11. split; reflexivity.
  - exists 17. split; reflexivity.
  - exists 23. split; reflexivity.
  - exists 29. split; reflexivity.
  - exists 35. split; reflexivity.
Qed.

(** ** Examples *)

Ltac demo_message :=
  split; [apply Z.leb_le; reflexivity|];
  split; [reflexivity|]; split; [reflexivity|];
  split; [reflexivity|]; split; [reflexivity|];
  exists [], 1, (DHCP_OPT_END :: repeat 0 308%nat);
  split; [constructor|]; split; [constructor|reflexivity].

Ltac demo_wf := repeat split.

(** A reply to the demo client: 280 bytes to the broadcast address. *)
Lemma send_reply_packet_witness :
  send_reply demo_alloc (demo_dhcp_message DHCP_DISCOVER demo_mac_a)
             DHCP_OFFER [10; 0; 0; 2] demo_dhcp
  = match demo_alloc DHCP_MSG_SIZE with
    | None => []
    | Some _ =>
        [EvUdpSendTo (pcb demo_dhcp)
           (reply_bytes (demo_dhcp_message DHCP_DISCOVER demo_mac_a)
                        DHCP_OFFER [10; 0; 0; 2] demo_dhcp)
           0xFFFFFFFF DHCP_CLIENT_PORT]
    end /\
  length (reply_bytes (demo_dhcp_message DHCP_DISCOVER demo_mac_a)
                      DHCP_OFFER [10; 0; 0; 2] demo_dhcp) = 280%nat.
Proof.
  apply (send_reply_packet demo_alloc demo_alloc_sized
           (demo_dhcp_message DHCP_DISCOVER demo_mac_a) DHCP_OFFER
           [10; 0; 0; 2] demo_dhcp).
  - vm_compute. lia.
  - reflexivity.
  - reflexivity.
  - reflexivity.
Defined.

(** A DHCPINFORM (8) and a datagram of 551 bytes are ignored. *)
Lemma dhcp_recv_ignores_witness :
  dhcp_recv demo_alloc [] (demo_dhcp_message 8 demo_mac_a) demo_dhcp
  = (demo_dhcp, []) /\
  dhcp_recv demo_alloc [] (repeat 1 551%nat) demo_dhcp = (demo_dhcp, []).
Proof.
  split.
  - apply (dhcp_recv_ignores demo_alloc []
             (demo_dhcp_message 8 demo_mac_a) demo_dhcp).
    + reflexivity.
    + right. split; [apply Z.leb_le; reflexivity|].
      split; [reflexivity|]. right. right. right.
      exists 8, demo_mac_a. split; [demo_message|].
      repeat split; discriminate.
  - apply (dhcp_recv_ignores demo_alloc []
             (repeat 1 551%nat) demo_dhcp).
    + reflexivity.
    + left. apply Z.ltb_lt. reflexivity.
Defined.

Lemma dhcp_recv_discover_witness :
  dhcp_recv demo_alloc [] (demo_dhcp_message DHCP_DISCOVER demo_mac_a)
            demo_dhcp
  = (mkDhcp true [10; 0; 0; 1] [255; 255; 255; 0] [10; 0; 0; 2] demo_mac_a
            false,
     dhcp_reply demo_alloc (demo_dhcp_message DHCP_DISCOVER demo_mac_a)
                DHCP_OFFER demo_dhcp).
Proof.
  apply (dhcp_recv_discover demo_alloc demo_alloc_sized []
           (demo_dhcp_message DHCP_DISCOVER demo_mac_a) demo_mac_a demo_dhcp).
  - reflexivity.
  - demo_wf.
  - demo_message.
Defined.

(** The first DHCPREQUEST after start-up is acknowledged. *)
Lemma dhcp_recv_request_witness :
  dhcp_recv demo_alloc [] (demo_dhcp_message DHCP_REQUEST demo_mac_a)
            demo_dhcp
  = (mkDhcp true [10; 0; 0; 1] [255; 255; 255; 0] [10; 0; 0; 2] demo_mac_a
            true,
     dhcp_reply demo_alloc (demo_dhcp_message DHCP_REQUEST demo_mac_a)
                DHCP_ACK demo_dhcp).
Proof.
  apply (dhcp_recv_request demo_alloc demo_alloc_sized []
           (demo_dhcp_message DHCP_REQUEST demo_mac_a) demo_mac_a demo_dhcp).
  - reflexivity.
  - demo_wf.
  - demo_message.
Defined.

(** The holder of the lease releases it. *)
Lemma dhcp_recv_release_witness :
  dhcp_recv demo_alloc [] (demo_dhcp_message DHCP_RELEASE demo_mac_a)
            (mkDhcp true [10; 0; 0; 1] [255; 255; 255; 0] [10; 0; 0; 2]
                    demo_mac_a true)
  = (mkDhcp true [10; 0; 0; 1] [255; 255; 255; 0] [10; 0; 0; 2]
            (repeat 0 6%nat) false, []).
Proof.
  apply (dhcp_recv_release demo_alloc []
           (demo_dhcp_message DHCP_RELEASE demo_mac_a) demo_mac_a
           (mkDhcp true [10; 0; 0; 1] [255; 255; 255; 0] [10; 0; 0; 2]
                   demo_mac_a true)).
  - reflexivity.
  - demo_wf.
  - demo_message.
Defined.

(** Client B takes the lease that client A holds. *)
Lemma dhcp_lease_takeover_witness :
  let s := mkDhcp true [10; 0; 0; 1] [255; 255; 255; 0] [10; 0; 0; 2]
                  demo_mac_a true in
  let pd := demo_dhcp_message DHCP_DISCOVER demo_mac_b in
  let pr := demo_dhcp_message DHCP_REQUEST demo_mac_b in
  let prel := demo_dhcp_message DHCP_RELEASE demo_mac_a in
  dhcp_recv demo_alloc [] pr s = (s, dhcp_reply demo_alloc pr DHCP_NAK s) /\
  dhcp_run demo_alloc [([], pd); ([], pr); ([], prel)] s
  = (mkDhcp true [10; 0; 0; 1] [255; 255; 255; 0] [10; 0; 0; 2]
            demo_mac_b true,
     dhcp_reply demo_alloc pd DHCP_OFFER s
     ++ dhcp_reply demo_alloc pr DHCP_ACK s).
Proof.
  apply (dhcp_lease_takeover demo_alloc demo_alloc_sized [] [] []
           (demo_dhcp_message DHCP_DISCOVER demo_mac_b)
           (demo_dhcp_message DHCP_REQUEST demo_mac_b)
           (demo_dhcp_message DHCP_RELEASE demo_mac_a)
           demo_mac_a demo_mac_b
           (mkDhcp true [10; 0; 0; 1] [255; 255; 255; 0] [10; 0; 0; 2]
                   demo_mac_a true)).
  - reflexivity.
  - reflexivity.
  - reflexivity.
  - demo_wf.
  - reflexivity.
  - reflexivity.
  - discriminate.
  - demo_message.
  - demo_message.
  - demo_message.
Defined.

Lemma dhcp_only_offers_client_ip_witness :
  let s0 := dhcp_server_init [10; 0; 0; 1] [255; 255; 255; 0] true in
  let r := dhcp_run demo_alloc
             [([], demo_dhcp_message DHCP_DISCOVER demo_mac_a);
              ([], demo_dhcp_message DHCP_REQUEST demo_mac_a)] s0 in
  gw (fst r) = [10; 0; 0; 1] /\ mask (fst r) = [255; 255; 255; 0] /\
  client_ip (fst r) = [10; 0; 0; 2] /\ pcb (fst r) = true /\
  length (client_mac (fst r)) = 6%nat /\
  Forall (fun e => exists req t,
            (t = DHCP_OFFER \/ t = DHCP_ACK \/ t = DHCP_NAK) /\
            length (reply_bytes req t [10; 0; 0; 2] s0) = 280%nat /\
            e = EvUdpSendTo true (reply_bytes req t [10; 0; 0; 2] s0)
                            0xFFFFFFFF DHCP_CLIENT_PORT)
         (snd r).
Proof.
  apply (dhcp_only_offers_client_ip demo_alloc demo_alloc_sized
           [10; 0; 0; 1] [255; 255; 255; 0] true
           [([], demo_dhcp_message DHCP_DISCOVER demo_mac_a);
            ([], demo_dhcp_message DHCP_REQUEST demo_mac_a)]).
  - reflexivity.
  - reflexivity.
Defined.

(** The router option of an ACK, read back. *)
Lemma reply_options_read_back_witness :
  let opts := skipn 240 (reply_bytes
                           (demo_dhcp_message DHCP_REQUEST demo_mac_a)
                           DHCP_ACK [10; 0; 0; 2] demo_dhcp) in
  length opts = 40%nat /\
  find_opt opts 40 DHCP_OPT_MSG_TYPE = Some 2 /\
  rd (reply_bytes (demo_dhcp_message DHCP_REQUEST demo_mac_a)
                  DHCP_ACK [10; 0; 0; 2] demo_dhcp) 242 = DHCP_ACK /\
  exists j, find_opt opts 40 DHCP_OPT_ROUTER = Some j /\
            firstn (length [10; 0; 0; 1]) (skipn (Z.to_nat j) opts)
            = [10; 0; 0; 1].
Proof.
  apply (reply_options_read_back
           (demo_dhcp_message DHCP_REQUEST demo_mac_a) DHCP_ACK
           [10; 0; 0; 2] demo_dhcp DHCP_OPT_ROUTER [10; 0; 0; 1]).
  - vm_compute. lia.
  - reflexivity.
  - reflexivity.
  - reflexivity.
  - vm_compute. tauto.
Defined.
